(** * Ready4Uni: the deterministic core, embedded and verified

    A shallow embedding of the parts of Ready4Uni that decide its
    behaviour independently of the language model:

    - [utils/subject_mapper.py]        (module [SubjectMapper])
    - [config/settings.py]             (module [Settings])
    - [config/prompts.py]              (module [Prompts])
    - [services/transcript_service.py] (module [TranscriptService])
    - [services/major_service.py]      (module [MajorService])
    - [core/router.py]                 (module [Router])
    - [core/orchestrator.py]           (module [Orchestrator])
    - [services/chat_service.py]       (module [ChatService])
    - [ai/llm_service.py], [tools/*.py], [services/resource_service.py]
      (modules [LlmService], [TranscriptTools], [MajorTools],
      [TranscriptToolFunctions], [ResourceService], [ResourceTools])

    The vocabulary of the specification is in [Spec] and [Spec64],
    sample data in [Samples] and [Samples64]; the properties follow,
    one proof module for each part.

    Conventions of the embedding.

    - A Python [str] is the list of its Unicode code points ([pystr]).
      Literals are written as Rocq strings and decoded from UTF-8 by [u].
    - Python numbers are read in two ways.  On the exact reading a
      number (grade, score, confidence, clock reading) is a rational
      ([Q]); this reading carries the properties that relate the
      fields of a result to one another or bound them.  On the
      binary64 reading a [float] is the IEEE 754 double it is
      ([Binary64], over [SpecFloat] of the Standard Library): every
      operation is rounded to nearest, ties to even, [sum] adds from
      left to right, an [int] is the double it equals and a decimal
      literal the double nearest to it.  [TranscriptService64] and
      [MajorService64] are the grade engine and the matcher on this
      reading and [ResourceService] is on it throughout; the
      properties of the gap records, of the mean and its quality
      label, of the scores and their ranking and of the bands of a
      study plan are stated on it.
    - A Python [dict] is an association list in insertion order; the
      majors dataset ([data/majors.json], what [load_majors()] returns)
      is an argument of the functions that read it.
    - A function that can raise returns an [Outcome]; a function that
      talks to the language model, the clock or a tool threads a world
      and logs what it asks. *)

From Stdlib Require Import List Bool Arith NArith ZArith QArith Qminmax Qround Lia Lqa.
From Stdlib Require DecimalString.
From Stdlib Require Strings.String Strings.Ascii.
From Stdlib Require Floats.SpecFloat.
From Stdlib Require Import Sorting.Permutation Sorting.Sorted.
Import ListNotations.
Import String.StringSyntax.
Delimit Scope string_scope with string.

Set Implicit Arguments.

(* ================================================================== *)
(** * Python strings *)
(* ================================================================== *)

Module PyStr.

Definition pystr : Type := list N.

(** UTF-8 decoding of a literal (1 to 4 byte sequences). *)
Fixpoint utf8_decode (bs : list N) : pystr :=
  match bs with
  | [] => []
  | b0 :: r0 =>
    if (b0 <? 128)%N then b0 :: utf8_decode r0
    else if (b0 <? 224)%N then
      match r0 with
      | b1 :: r1 => ((b0 - 192) * 64 + (b1 - 128))%N :: utf8_decode r1
      | _ => []
      end
    else if (b0 <? 240)%N then
      match r0 with
      | b1 :: b2 :: r2 =>
        ((b0 - 224) * 4096 + (b1 - 128) * 64 + (b2 - 128))%N :: utf8_decode r2
      | _ => []
      end
    else
      match r0 with
      | b1 :: b2 :: b3 :: r3 =>
        ((b0 - 240) * 262144 + (b1 - 128) * 4096 + (b2 - 128) * 64 + (b3 - 128))%N
          :: utf8_decode r3
      | _ => []
      end
  end.

Definition u (s : String.string) : pystr :=
  utf8_decode (map Ascii.N_of_ascii (String.list_ascii_of_string s)).

Arguments u s%_string.

(** [==] on [str]. *)
Fixpoint str_eqb (a b : pystr) : bool :=
  match a, b with
  | [], [] => true
  | x :: a', y :: b' => (x =? y)%N && str_eqb a' b'
  | _, _ => false
  end.

(** [str.lower()], one code point at a time.  The model covers Basic
    Latin and the Latin-1 Supplement, which is where the subject table
    and the crisis keywords live; code points above U+00FF are left as
    they are. *)
Definition lower_char (c : N) : N :=
  if ((65 <=? c) && (c <=? 90))%N then (c + 32)%N
  else if ((192 <=? c) && (c <=? 222) && negb (c =? 215))%N then (c + 32)%N
  else c.

Definition lower (s : pystr) : pystr := map lower_char s.

(** [str.isspace()] for one code point. *)
Definition is_space (c : N) : bool :=
  (((9 <=? c) && (c <=? 13)) || ((28 <=? c) && (c <=? 32))
   || (c =? 133) || (c =? 160) || (c =? 5760)
   || ((8192 <=? c) && (c <=? 8202))
   || (c =? 8232) || (c =? 8233) || (c =? 8239) || (c =? 8287)
   || (c =? 12288))%N.

Fixpoint lstrip (s : pystr) : pystr :=
  match s with
  | [] => []
  | c :: t => if is_space c then lstrip t else s
  end.

Definition rstrip (s : pystr) : pystr := rev (lstrip (rev s)).

(** [str.strip()]. *)
Definition strip (s : pystr) : pystr := rstrip (lstrip s).

(** [s.startswith(p)]. *)
Fixpoint startswith (s p : pystr) : bool :=
  match p, s with
  | [], _ => true
  | x :: p', y :: s' => (x =? y)%N && startswith s' p'
  | _ :: _, [] => false
  end.

(** [p in s] for two strings. *)
Fixpoint str_in (p s : pystr) : bool :=
  startswith s p ||
  match s with
  | [] => false
  | _ :: t => str_in p t
  end.

(** [sep.join(parts)]. *)
Fixpoint join (sep : pystr) (parts : list pystr) : pystr :=
  match parts with
  | [] => []
  | [p] => p
  | p :: rest => p ++ sep ++ join sep rest
  end.

(** Truthiness of a string. *)
Definition truthy (s : pystr) : bool :=
  match s with [] => false | _ => true end.

End PyStr.
Import PyStr.

(* ================================================================== *)
(** * Python dictionaries, sets, slices and exceptions *)
(* ================================================================== *)

Module Py.

(** A [dict] with string keys, in insertion order. *)
Definition dict (V : Type) : Type := list (pystr * V).

Section Dict.
Variable V : Type.

(** [d.get(k)]. *)
Fixpoint get (d : dict V) (k : pystr) : option V :=
  match d with
  | [] => None
  | (k', v) :: rest => if str_eqb k' k then Some v else get rest k
  end.

(** [k in d]. *)
Definition contains (d : dict V) (k : pystr) : bool :=
  match get d k with Some _ => true | None => false end.

Definition keys (d : dict V) : list pystr := map fst d.
Definition values (d : dict V) : list V := map snd d.
End Dict.

(** [x in l] for a list of strings. *)
Definition mem (x : pystr) (l : list pystr) : bool :=
  existsb (str_eqb x) l.

(** [set(l)]: the distinct elements of [l].  The order in which a
    Python set is iterated is not specified; no property below depends
    on the order chosen here. *)
Fixpoint set_of (l : list pystr) : list pystr :=
  match l with
  | [] => []
  | x :: t => let s := set_of t in if mem x t then s else x :: s
  end.

(** [a & b] on sets. *)
Definition set_inter (a b : list pystr) : list pystr :=
  filter (fun x => mem x b) a.

(** [a | b] on sets. *)
Definition set_union (a b : list pystr) : list pystr :=
  a ++ filter (fun x => negb (mem x a)) b.

(** [l[:n]] with Python's treatment of a negative bound. *)
Definition slice_to (A : Type) (l : list A) (n : Z) : list A :=
  if (n <? 0)%Z
  then firstn (List.length l - Z.to_nat (- n)) l
  else firstn (Z.to_nat n) l.

(** [l[-n:]] for a positive literal [n]. *)
Definition slice_last (A : Type) (n : nat) (l : list A) : list A :=
  skipn (List.length l - n) l.

(** Comparisons of numbers, as booleans. *)
Definition leb (x y : Q) : bool := Qle_bool x y.
Definition ltb (x y : Q) : bool := negb (Qle_bool y x).
Definition geb (x y : Q) : bool := Qle_bool y x.
Definition gtb (x y : Q) : bool := negb (Qle_bool x y).
Definition eqb (x y : Q) : bool := Qeq_bool x y.

(** [sum(l)]. *)
Definition sum (l : list Q) : Q := fold_left Qplus l 0.

(** [sorted(l, key=key, reverse=True)]: descending and stable, that is,
    elements with equal keys keep the order they had in [l]. *)
Section SortedReverse.
Variable A : Type.
Variable key : A -> Q.

Fixpoint insert_desc (x : A) (l : list A) : list A :=
  match l with
  | [] => [x]
  | y :: l' => if ltb (key x) (key y) then y :: insert_desc x l' else x :: l
  end.

Definition sorted_reverse (l : list A) : list A :=
  fold_right insert_desc [] l.
End SortedReverse.

(** [d[k] = v]: the value of a key the dictionary has is replaced where
    it stands; a new key goes to the end. *)
Fixpoint setitem (V : Type) (d : dict V) (k : pystr) (v : V) : dict V :=
  match d with
  | [] => [(k, v)]
  | (k', v') :: rest =>
    if str_eqb k' k then (k', v) :: rest else (k', v') :: setitem rest k v
  end.

(** [l.sort(key=key)] and [sorted(l, key=key)] for an integer key:
    ascending and stable. *)
Section SortedBy.
Variable A : Type.
Variable key : A -> Z.

Fixpoint insert_asc (x : A) (l : list A) : list A :=
  match l with
  | [] => [x]
  | y :: l' => if (key y <? key x)%Z then y :: insert_asc x l' else x :: l
  end.

Definition sorted_by (l : list A) : list A :=
  fold_right insert_asc [] l.
End SortedBy.

(** [round(x, 2)] on the exact value: to the nearest hundredth, a tie to
    the even one. *)
Definition round2 (x : Q) : Q :=
  let scaled := x * 100 in
  let n := Qfloor scaled in
  let m :=
    match Qcompare (scaled - inject_Z n) (1 # 2) with
    | Lt => n
    | Gt => (n + 1)%Z
    | Eq => if Z.even n then n else (n + 1)%Z
    end in
  inject_Z m / 100.

(** [str(n)] for a natural number. *)
Definition str_of_nat (n : nat) : pystr :=
  map Ascii.N_of_ascii
      (String.list_ascii_of_string
         (DecimalString.NilZero.string_of_uint (Nat.to_uint n))).

(** The result of a call that can raise. *)
Inductive Outcome (E A : Type) : Type :=
| Returned (a : A)
| Raised (e : E).

Arguments Returned {E A} a.
Arguments Raised {E A} e.

End Py.

(* ================================================================== *)
(** * Python floats *)
(* ================================================================== *)

Module Binary64.

(** A Python [float] is an IEEE 754 binary64 value: a signed zero, a
    signed infinity, NaN, or [(-1)^s * m * 2^e].  The operations are
    those of the standard, each result rounded to nearest, ties to
    even.  The floats of a run are those the operations below produce
    (from integers, decimal literals and one another), which have the
    mantissa the format prescribes; the statements hold of every value
    of the type. *)
Definition float : Type := SpecFloat.spec_float.

Definition prec : Z := 53.
Definition emax : Z := 1024.

Definition zero : float := SpecFloat.S754_zero false.

Definition add : float -> float -> float := SpecFloat.SFadd prec emax.
Definition sub : float -> float -> float := SpecFloat.SFsub prec emax.
Definition mul : float -> float -> float := SpecFloat.SFmul prec emax.
Definition div : float -> float -> float := SpecFloat.SFdiv prec emax.
Definition neg : float -> float := SpecFloat.SFopp.

(** [<], [<=], [==], [>] and [>=]: false as soon as an operand is NaN. *)
Definition ltb : float -> float -> bool := SpecFloat.SFltb.
Definition leb : float -> float -> bool := SpecFloat.SFleb.
Definition eqb : float -> float -> bool := SpecFloat.SFeqb.
Definition gtb (x y : float) : bool := ltb y x.
Definition geb (x y : float) : bool := leb y x.

Definition is_nan (x : float) : bool :=
  match x with SpecFloat.S754_nan => true | _ => false end.

Definition is_finite (x : float) : bool :=
  match x with
  | SpecFloat.S754_zero _ | SpecFloat.S754_finite _ _ _ => true
  | _ => false
  end.

(** The float an integer converts to. *)
Definition of_Z (z : Z) : float := SpecFloat.binary_normalize prec emax z 0 false.
Definition of_nat (n : nat) : float := of_Z (Z.of_nat n).

(** The float a decimal literal denotes (in the source, or in a JSON
    document): the literal, written as a fraction, rounded once. *)
Definition of_Q (q : Q) : float := div (of_Z (Qnum q)) (of_Z (Zpos (Qden q))).


(** Truthiness: every float but 0.0 and -0.0. *)
Definition truthy (x : float) : bool := negb (eqb x zero).

(** [min(a, b)]: the second argument only if it is smaller. *)
Definition min (a b : float) : float := if ltb b a then b else a.

(** [sum(l)]: from the integer 0, the items are added from left to
    right, each sum rounded (CPython up to 3.11; later versions carry
    a correction term along). *)
Definition sum (l : list float) : float := fold_left add l zero.

(** [sorted(l, key=key, reverse=True)] for keys that compare (no NaN
    among them): descending and stable. *)
Section SortedReverse.
Variable A : Type.
Variable key : A -> float.

Fixpoint insert_desc (x : A) (l : list A) : list A :=
  match l with
  | [] => [x]
  | y :: l' => if ltb (key x) (key y) then y :: insert_desc x l' else x :: l
  end.

Definition sorted_reverse (l : list A) : list A :=
  fold_right insert_desc [] l.
End SortedReverse.

End Binary64.

(* ================================================================== *)
(** * utils/subject_mapper.py *)
(* ================================================================== *)

Module SubjectMapper.

Definition SUBJECT_NAME_MAP : Py.dict pystr :=
  [ (u "matematica", u "math");
    (u "matemática", u "math");
    (u "matemática a", u "math");
    (u "matematica a", u "math");
    (u "mat a", u "math");
    (u "fisica", u "physics");
    (u "física", u "physics");
    (u "fisica e quimica", u "physics");
    (u "física e química", u "physics");
    (u "física e química a", u "physics");
    (u "fisica e quimica a", u "physics");
    (u "fis quim a", u "physics");
    (u "portugues", u "portuguese");
    (u "português", u "portuguese");
    (u "port", u "portuguese");
    (u "ingles", u "english");
    (u "inglês", u "english");
    (u "ing", u "english");
    (u "biologia", u "biology");
    (u "geologia", u "geology");
    (u "biologia e geologia", u "biology");
    (u "bio geo", u "biology");
    (u "historia", u "history");
    (u "história", u "history");
    (u "história a", u "history");
    (u "historia a", u "history");
    (u "geografia", u "geography");
    (u "geografia a", u "geography");
    (u "filosofia", u "philosophy");
    (u "filos", u "philosophy");
    (u "economia", u "economics");
    (u "economia a", u "economics");
    (u "quimica", u "chemistry");
    (u "química", u "chemistry") ].

Definition normalize_subject_name (subject : pystr) : pystr :=
  let subject_lower := strip (lower subject) in
  match Py.get SUBJECT_NAME_MAP subject_lower with
  | Some canonical => canonical
  | None => subject
  end.

(** The [for subject, grade in grades.items()] loop of
    [find_matching_grade]. *)
Fixpoint find_normalized (target_norm : pystr) (items : Py.dict Q) : option Q :=
  match items with
  | [] => None
  | (subject, grade) :: rest =>
    let subject_norm := normalize_subject_name (lower subject) in
    if str_eqb subject_norm target_norm then Some grade
    else find_normalized target_norm rest
  end.

Definition find_matching_grade (grades : Py.dict Q) (target_subject : pystr)
  : option Q :=
  let target_norm := normalize_subject_name (lower target_subject) in
  match find_normalized target_norm grades with
  | Some grade => Some grade
  | None =>
    if Py.contains grades target_subject
    then Py.get grades target_subject
    else None
  end.

(** The [for subject, grade in grades.items()] loop of
    [normalize_grade_dict], with the dictionary built so far. *)
Fixpoint normalize_grade_loop (items normalized : Py.dict Q) : Py.dict Q :=
  match items with
  | [] => normalized
  | (subject, grade) :: rest =>
    let normalized_name := normalize_subject_name subject in
    (* Keep both original and normalized *)
    let normalized := Py.setitem normalized subject grade in
    let normalized :=
      if negb (str_eqb normalized_name subject)
      then Py.setitem normalized normalized_name grade
      else normalized in
    normalize_grade_loop rest normalized
  end.

Definition normalize_grade_dict (grades : Py.dict Q) : Py.dict Q :=
  normalize_grade_loop grades [].

End SubjectMapper.

(* ================================================================== *)
(** * config/settings.py *)
(* ================================================================== *)

Module Settings.

Definition DEFAULT_MIN_GRADE : Q := 12.
Definition PASSING_GRADE : Q := 10.
Definition MAX_GRADE : Q := 20.

Definition CRISIS_KEYWORDS : list pystr :=
  [ u "hurt myself"; u "kill myself"; u "suicide"; u "end my life";
    u "want to die"; u "self harm"; u "self-harm"; u "cutting myself";
    u "don't want to live"; u "no reason to live"; u "better off dead";
    u "end it all"; u "not worth living"; u "take my own life" ].

Definition CRISIS_RESPONSE : pystr :=
  [10%N] ++
  u "I'm really concerned about what you've shared. Your wellbeing matters more than any academic decision." ++ [10%N; 10%N] ++
  u "**Please reach out to someone who can help:**" ++ [10%N; 10%N] ++
  u "🇵🇹 **Portugal:**" ++ [10%N] ++
  u "- SOS Voz Amiga: 213 544 545 (daily 15h-22h)" ++ [10%N] ++
  u "- Telefone da Amizade: 222 080 707" ++ [10%N; 10%N] ++
  u "🌍 **International:**" ++ [10%N] ++
  u "- International Association for Suicide Prevention: https://www.iasp.info/resources/Crisis_Centres/" ++ [10%N; 10%N] ++
  u "You're not alone. Please talk to a trusted adult, counselor, or call one of these helplines. They're there for you. 💙" ++ [10%N].

(** One record of [data/majors.json].  [load_majors] checks that [id],
    [name], [description] and [requirements] are present; the other
    fields are read with [.get] and a default, so an absent [keywords]
    or [career_paths] is the empty list and an absent [name_pt] is
    [None]. *)
Record Major : Type := {
  id : pystr;
  name : pystr;
  name_pt : option pystr;
  description : pystr;
  requirements : Py.dict Q;
  keywords : list pystr;
  career_paths : list pystr
}.

(** The [for major in majors] loop of the fuzzy branch of
    [get_major_by_name]. *)
Fixpoint get_major_fuzzy (name_lower : pystr) (majors : list Major)
  : option Major :=
  match majors with
  | [] => None
  | major :: rest =>
    if str_in name_lower (lower (name major)) then Some major
    else match name_pt major with
         | Some pt =>
           if str_in name_lower (lower pt) then Some major
           else get_major_fuzzy name_lower rest
         | None => get_major_fuzzy name_lower rest
         end
  end.

(** [majors] is what [load_majors()] returns. *)
Definition get_major_by_name (majors : list Major) (name_ : pystr) (fuzzy : bool)
  : option Major :=
  let name_lower := lower name_ in
  if fuzzy then get_major_fuzzy name_lower majors
  else find (fun m => str_eqb (lower (name m)) name_lower) majors.

Definition get_major_by_id (majors : list Major) (major_id : pystr)
  : option Major :=
  find (fun m => str_eqb (id m) major_id) majors.

Definition get_all_major_names (majors : list Major) : list pystr :=
  map name majors.

(** [requirements] is a field every loaded record has, so the test
    ["requirements" in major] holds for every major that is found. *)
Definition get_subjects_for_major (majors : list Major) (major_id : pystr)
  : list pystr :=
  match get_major_by_id majors major_id with
  | Some major => Py.keys (requirements major)
  | None => []
  end.

Definition validate_grade (grade : Q) : bool :=
  Py.leb 0 grade && Py.leb grade MAX_GRADE.

End Settings.

(* ================================================================== *)
(** * services/transcript_service.py *)
(* ================================================================== *)

(** Numbers on the exact reading; [TranscriptService64] is the same
    code on binary64 floats. *)
Module TranscriptService.
Import Settings SubjectMapper.

(** The [ValueError]s the service raises, one constructor per [raise]. *)
Inductive ValueError : Type :=
| NoGradesProvided                              (* "No grades provided for analysis" *)
| AllGradesNone                                 (* "All grades are None - no valid data" *)
| InvalidGrade (subject : pystr) (grade : Q)    (* "Invalid grade for {subject}: {grade} (must be 0-20)" *)
| MajorNotFound (major_name : pystr)            (* "Major '{major_name}' not found in database" *)
| NoRequirements (major_name : pystr).          (* "No requirements data for major '{major_name}'" *)

(** The error taxonomy of the design: bad or empty grades are invalid
    input, an unknown major or one without requirements is not found. *)
Definition is_InvalidInput (e : ValueError) : bool :=
  match e with
  | NoGradesProvided | AllGradesNone | InvalidGrade _ _ => true
  | _ => false
  end.

Definition is_NotFound (e : ValueError) : bool :=
  match e with
  | MajorNotFound _ | NoRequirements _ => true
  | _ => false
  end.

Record GradeGap : Type := {
  subject : pystr;
  student_grade : Q;
  required_grade : Q;
  gap : Q;
  severity : pystr;
  priority : Z
}.

Definition is_gap (g : GradeGap) : bool := Py.gtb (gap g) 0.

Record TranscriptAnalysis : Type := {
  grades : Py.dict Q;
  gpa : Q;
  strengths : list pystr;
  weaknesses : list pystr;
  passing_all : bool;
  overall_quality : pystr
}.

(** [{k: v for k, v in grades.items() if v is not None}]. *)
Fixpoint drop_none (grades_ : Py.dict (option Q)) : Py.dict Q :=
  match grades_ with
  | [] => []
  | (k, Some v) :: rest => (k, v) :: drop_none rest
  | (_, None) :: rest => drop_none rest
  end.

Definition is_empty (A : Type) (l : list A) : bool :=
  match l with [] => true | _ => false end.

Definition analyze_transcript (grades_in : Py.dict (option Q))
  : Py.Outcome ValueError TranscriptAnalysis :=
  if is_empty grades_in then Py.Raised NoGradesProvided
  else
    let grades_ := drop_none grades_in in
    if is_empty grades_ then Py.Raised AllGradesNone
    else
      match find (fun sg => negb (validate_grade (snd sg))) grades_ with
      | Some (subject_, grade) => Py.Raised (InvalidGrade subject_ grade)
      | None =>
        let gpa_ := Py.sum (Py.values grades_) / inject_Z (Z.of_nat (length grades_)) in
        let sorted_subjects := Py.sorted_reverse (@snd pystr Q) grades_ in
        let strengths_ :=
          map fst (filter (fun sg => Py.geb (snd sg) 14) (firstn 3 sorted_subjects)) in
        let weaknesses_ :=
          map fst (filter (fun sg => Py.ltb (snd sg) 14) (Py.slice_last 3 sorted_subjects)) in
        let passing_all_ :=
          forallb (fun grade => Py.geb grade PASSING_GRADE) (Py.values grades_) in
        let overall_quality_ :=
          if Py.geb gpa_ 17 then u "excellent"
          else if Py.geb gpa_ 15 then u "good"
          else if Py.geb gpa_ 12 then u "adequate"
          else u "needs_improvement" in
        Py.Returned {| grades := grades_;
                       gpa := gpa_;
                       strengths := strengths_;
                       weaknesses := weaknesses_;
                       passing_all := passing_all_;
                       overall_quality := overall_quality_ |}
      end.

(** The body of the [for subject, required_grade in requirements.items()]
    loop of [compare_grades_to_requirements]. *)
Definition grade_gap (student_grades : Py.dict Q) (req : pystr * Q) : GradeGap :=
  let (subject_, required_grade_) := req in
  let student_grade_ :=
    match find_matching_grade student_grades subject_ with
    | Some grade => grade
    | None => PASSING_GRADE
    end in
  let gap_value := required_grade_ - student_grade_ in
  let severity_ :=
    if Py.leb gap_value 0 then u "meets"
    else if Py.leb gap_value 2 then u "close"
    else u "significant" in
  let priority_ :=
    if Py.gtb gap_value 4 then 1%Z
    else if Py.gtb gap_value 2 then 2%Z
    else if Py.gtb gap_value 0 then 3%Z
    else 4%Z in
  {| subject := subject_;
     student_grade := student_grade_;
     required_grade := required_grade_;
     gap := gap_value;
     severity := severity_;
     priority := priority_ |}.

(** The readiness label computed from the list of gaps. *)
Definition overall_readiness (gaps : list GradeGap) : pystr :=
  let actual_gaps := filter is_gap gaps in
  if is_empty actual_gaps then u "ready"
  else if forallb (fun g => str_eqb (severity g) (u "close")) actual_gaps
  then u "mostly_ready"
  else if existsb (fun g => str_eqb (severity g) (u "significant")) actual_gaps
  then
    if (2 <=? length (filter (fun g => str_eqb (severity g) (u "significant")) actual_gaps))%nat
    then u "significant_gaps"
    else u "needs_improvement"
  else u "needs_improvement".

Definition compare_grades_to_requirements
  (majors : list Major) (student_grades : Py.dict Q) (major_name : pystr)
  : Py.Outcome ValueError (list GradeGap * pystr) :=
  match get_major_by_name majors major_name true with
  | None => Py.Raised (MajorNotFound major_name)
  | Some major =>
    let requirements_ := requirements major in
    if is_empty requirements_ then Py.Raised (NoRequirements major_name)
    else
      let gaps := map (grade_gap student_grades) requirements_ in
      Py.Returned (gaps, overall_readiness gaps)
  end.

(** The dictionaries [identify_grade_gaps] returns. *)
Record GapEntry : Type := {
  ge_subject : pystr;
  ge_current : Q;
  ge_required : Q;
  ge_gap : Q;
  ge_severity : pystr
}.

Record StrengthEntry : Type := {
  se_subject : pystr;
  se_grade : Q;
  se_required : Q;
  se_excess : Q
}.

Record GapSummary : Type := {
  gs_readiness : pystr;
  gs_total_gaps : nat;
  gs_gaps : list GapEntry;
  gs_strengths : list StrengthEntry;
  gs_priority_subjects : list pystr
}.

Definition identify_grade_gaps
  (majors : list Major) (student_grades : Py.dict Q) (major_name : pystr)
  : Py.Outcome ValueError GapSummary :=
  match compare_grades_to_requirements majors student_grades major_name with
  | Py.Raised e => Py.Raised e
  | Py.Returned (gaps, readiness) =>
    (* Filter only actual gaps *)
    let actual_gaps := filter is_gap gaps in
    (* Sort by priority *)
    let actual_gaps := Py.sorted_by priority actual_gaps in
    (* Get subjects meeting requirements *)
    let meeting := filter (fun g => negb (is_gap g)) gaps in
    Py.Returned
      {| gs_readiness := readiness;
         gs_total_gaps := length actual_gaps;
         gs_gaps :=
           map (fun g => {| ge_subject := subject g;
                            ge_current := student_grade g;
                            ge_required := required_grade g;
                            ge_gap := gap g;
                            ge_severity := severity g |})
               actual_gaps;
         gs_strengths :=
           map (fun g => {| se_subject := subject g;
                            se_grade := student_grade g;
                            se_required := required_grade g;
                            se_excess := - gap g |})
               meeting;
         gs_priority_subjects := map subject (firstn 3 actual_gaps) |}
  end.

End TranscriptService.

(* ================================================================== *)
(** * services/major_service.py *)
(* ================================================================== *)

(** Numbers on the exact reading; [MajorService64] is the scoring
    loop on binary64 floats. *)
Module MajorService.
Import Settings SubjectMapper.

Record MajorMatch : Type := {
  major : Major;
  score : Q;
  reasons : list pystr;
  matching_keywords : list pystr
}.

(** What a caller can pass as [top_n]: nothing, an integer, or (from the
    language model) a string. *)
Inductive TopN : Type :=
| TopNone
| TopInt (n : Z)
| TopStr (s : pystr).

(** Truthiness of a [top_n] value. *)
Definition top_n_truthy (t : TopN) : bool :=
  match t with
  | TopNone => false
  | TopInt n => negb (n =? 0)%Z
  | TopStr s => truthy s
  end.

(** The code points that stand for the digit 0 (Unicode category Nd);
    the nine code points after each stand for 1 to 9. *)
Definition DECIMAL_ZEROS : list N :=
  [ 48; 1632; 1776; 1984; 2406; 2534; 2662; 2790; 2918; 3046; 3174; 3302;
    3430; 3558; 3664; 3792; 3872; 4160; 4240; 6112; 6160; 6470; 6608; 6784;
    6800; 6992; 7088; 7232; 7248; 42528; 43216; 43264; 43472; 43504; 43600;
    44016; 65296; 66720; 68912; 69734; 69872; 69942; 70096; 70384; 70736;
    70864; 71248; 71360; 71472; 71904; 72016; 72784; 73040; 73120; 92768;
    92864; 93008; 120782; 120792; 120802; 120812; 120822; 123200; 123632;
    125264; 130032 ]%N.

(** The value of a decimal digit, ASCII or not. *)
Definition decimal_value (c : N) : option N :=
  match find (fun z => (z <=? c) && (c <=? z + 9))%N DECIMAL_ZEROS with
  | Some z => Some (c - z)%N
  | None => None
  end.

(** The digits of an [int()] literal: decimal digits, single
    underscores allowed between two digits. *)
Fixpoint parse_digits (acc : Z) (after_digit : bool) (s : pystr) : option Z :=
  match s with
  | [] => if after_digit then Some acc else None
  | c :: t =>
    match decimal_value c with
    | Some d => parse_digits (acc * 10 + Z.of_N d)%Z true t
    | None =>
      if (c =? 95)%N && after_digit
      then parse_digits acc false t
      else None
    end
  end.

(** The white space [int()] skips around a literal: that of
    [str.isspace] without the separators U+001C to U+001F. *)
Definition int_space (c : N) : bool :=
  is_space c && negb ((28 <=? c) && (c <=? 31))%N.

Fixpoint int_lstrip (s : pystr) : pystr :=
  match s with
  | [] => []
  | c :: t => if int_space c then int_lstrip t else s
  end.

Definition int_strip (s : pystr) : pystr :=
  rev (int_lstrip (rev (int_lstrip s))).

(** [int(s)] for a string: surrounding white space, an optional sign,
    then the digits. *)
Definition int_of_str (s : pystr) : option Z :=
  match int_strip s with
  | 43%N :: digits => parse_digits 0 false digits
  | 45%N :: digits => option_map Z.opp (parse_digits 0 false digits)
  | digits => parse_digits 0 false digits
  end.

(** The [ValueError] of [int()] on a string that is not a number. *)
Inductive ValueError : Type :=
| InvalidLiteral (s : pystr).     (* "invalid literal for int() with base 10: ..." *)

(** [int(top_n) if top_n else 5]. *)
Definition coerce_top_n (t : TopN) : Py.Outcome ValueError Z :=
  if top_n_truthy t then
    match t with
    | TopInt n => Py.Returned n
    | TopStr s =>
      match int_of_str s with
      | Some n => Py.Returned n
      | None => Py.Raised (InvalidLiteral s)
      end
    | TopNone => Py.Returned 5%Z
    end
  else Py.Returned 5%Z.

Definition or_empty (A : Type) (l : option (list A)) : list A :=
  match l with Some l' => l' | None => [] end.

Definition nonempty (A : Type) (l : list A) : bool :=
  match l with [] => false | _ => true end.

Definition len (A : Type) (l : list A) : Q := inject_Z (Z.of_nat (length l)).

(** The favourite subjects as given and as normalized. *)
Definition mapped_subjects (subjects_lower : list pystr) : list pystr :=
  flat_map (fun s =>
              let normalized := normalize_subject_name s in
              if negb (str_eqb normalized s) then [s; normalized] else [s])
           subjects_lower.

(** The state of one round of the [for major in majors] loop. *)
Record Acc : Type := {
  acc_score : Q;
  acc_reasons : list pystr;
  acc_matching_kw : list pystr
}.

Section Scoring.
Variable interests : option (list pystr).
Variable favorite_subjects : option (list pystr).
Variable career_goals : option pystr.

Definition interests_lower : list pystr := map lower (or_empty interests).
Definition subjects_lower : list pystr := map lower (or_empty favorite_subjects).
Definition career_lower : pystr :=
  match career_goals with
  | Some g => if truthy g then lower g else []
  | None => []
  end.

Definition interest_matches (m : Major) : list pystr :=
  Py.set_inter (Py.set_of interests_lower) (Py.set_of (map lower (keywords m))).

Definition subject_matches (m : Major) : list pystr :=
  Py.set_inter (Py.set_of (mapped_subjects subjects_lower))
               (Py.set_of (map lower (Py.keys (requirements m)))).

Definition career_hit (m : Major) : bool :=
  existsb (fun cp => str_in career_lower cp || str_in cp career_lower)
          (map lower (career_paths m)).

Definition desc_matches (m : Major) : nat :=
  length (filter (fun interest => str_in interest (lower (description m)))
                 interests_lower).

(** Interest matching (40% weight). *)
Definition step_interests (m : Major) (a : Acc) : Acc :=
  let im := interest_matches m in
  if nonempty im then
    {| acc_score := acc_score a
                    + (4 # 10) * (len im / Qmax (len interests_lower) 1);
       acc_reasons := acc_reasons a
                      ++ [u "Matches your interests: " ++ join (u ", ") im];
       acc_matching_kw := Py.set_union (acc_matching_kw a) im |}
  else a.

(** Subject matching (30% weight). *)
Definition step_subjects (m : Major) (a : Acc) : Acc :=
  if nonempty (or_empty favorite_subjects) then
    let sm := subject_matches m in
    if nonempty sm then
      {| acc_score := acc_score a
                      + (3 # 10) * (len sm / len (requirements m));
         acc_reasons := acc_reasons a
                        ++ [u "Aligns with your strong subjects: " ++ join (u ", ") sm];
         acc_matching_kw := Py.set_union (acc_matching_kw a) sm |}
    else a
  else a.

(** Career goal matching (30% weight). *)
Definition step_career (m : Major) (a : Acc) : Acc :=
  match career_goals with
  | Some g =>
    if truthy g && career_hit m then
      {| acc_score := acc_score a + (3 # 10);
         acc_reasons := acc_reasons a ++ [u "Matches your career goals"];
         acc_matching_kw := acc_matching_kw a |}
    else a
  | None => a
  end.

(** Bonus: description matching. *)
Definition step_description (m : Major) (a : Acc) : Acc :=
  let dm := inject_Z (Z.of_nat (desc_matches m)) in
  if Py.gtb dm 0 && Py.gtb (len interests_lower) 0 then
    {| acc_score := acc_score a
                    + (1 # 10) * Qmin (dm / len interests_lower) 1;
       acc_reasons := acc_reasons a;
       acc_matching_kw := acc_matching_kw a |}
  else a.

(** The body of the loop up to the test [score > 0]. *)
Definition score_major (m : Major) : Acc :=
  step_description m
    (step_career m
       (step_subjects m
          (step_interests m
             {| acc_score := 0; acc_reasons := []; acc_matching_kw := [] |}))).

(** The list [matches] when the loop ends. *)
Fixpoint collect_matches (majors : list Major) : list MajorMatch :=
  match majors with
  | [] => []
  | m :: rest =>
    let a := score_major m in
    if Py.gtb (acc_score a) 0 then
      {| major := m;
         score := acc_score a;
         reasons := if nonempty (acc_reasons a) then acc_reasons a
                    else [u "General interest alignment"];
         matching_keywords := acc_matching_kw a |}
        :: collect_matches rest
    else collect_matches rest
  end.

Definition match_interests_to_majors (majors : list Major) (top_n : TopN)
  : Py.Outcome ValueError (list MajorMatch) :=
  match coerce_top_n top_n with
  | Py.Raised e => Py.Raised e
  | Py.Returned top_n_ =>
    let matches := collect_matches majors in
    let matches := Py.sorted_reverse score matches in
    Py.Returned (Py.slice_to matches top_n_)
  end.
End Scoring.

(** The loop of [get_similar_majors]. *)
Fixpoint collect_similar (reference : Major) (ref_keywords : list pystr)
         (majors : list Major) : list (Major * Q) :=
  match majors with
  | [] => []
  | m :: rest =>
    if str_eqb (id m) (id reference) then collect_similar reference ref_keywords rest
    else
      let major_keywords := Py.set_of (map lower (keywords m)) in
      let overlap := length (Py.set_inter ref_keywords major_keywords) in
      if (0 <? overlap)%nat then
        let similarity :=
          inject_Z (Z.of_nat overlap) / len (Py.set_union ref_keywords major_keywords) in
        (m, similarity) :: collect_similar reference ref_keywords rest
      else collect_similar reference ref_keywords rest
  end.

Definition get_similar_majors (majors : list Major) (major_name : pystr) (top_n : Z)
  : list Major :=
  match get_major_by_name majors major_name true with
  | None => []
  | Some reference =>
    let ref_keywords := Py.set_of (map lower (keywords reference)) in
    let similarities := collect_similar reference ref_keywords majors in
    let similarities := Py.sorted_reverse (@snd Major Q) similarities in
    map fst (Py.slice_to similarities top_n)
  end.

(** The module-level [match_interests_to_majors]: it converts [top_n]
    and hands the integer to the method, which converts it again. *)
Definition match_interests_to_majors_fn
  (interests favorite_subjects : option (list pystr))
  (career_goals : option pystr) (majors : list Major) (top_n : TopN)
  : Py.Outcome ValueError (list MajorMatch) :=
  match coerce_top_n top_n with
  | Py.Raised e => Py.Raised e
  | Py.Returned top_n_ =>
    match_interests_to_majors interests favorite_subjects career_goals
                              majors (TopInt top_n_)
  end.

Definition get_major_details (majors : list Major) (major_name : pystr)
  : option Major :=
  get_major_by_name majors major_name true.

(** The [for major in majors] loop of [search_majors]. *)
Fixpoint search_loop (query_lower : pystr) (majors : list Major) : list Major :=
  match majors with
  | [] => []
  | major_ :: rest =>
    (* Check name match *)
    if str_in query_lower (lower (name major_))
    then major_ :: search_loop query_lower rest
    else
      (* Check keywords *)
      let keywords_ := map lower (keywords major_) in
      if existsb (fun kw => str_in query_lower kw || str_in kw query_lower) keywords_
      then major_ :: search_loop query_lower rest
      else
        (* Check description *)
        if str_in query_lower (lower (description major_))
        then major_ :: search_loop query_lower rest
        else search_loop query_lower rest
  end.

(** [filters] is accepted and not used. *)
Definition search_majors (majors : list Major) (query : pystr)
           (filters : option (Py.dict pystr)) : list Major :=
  let query_lower := lower query in
  search_loop query_lower majors.

End MajorService.

(* ================================================================== *)
(** * config/prompts.py *)
(* ================================================================== *)

Module Prompts.

Definition dq : pystr := [34%N].
Definition nl : pystr := [10%N].

(** The instructions of the classification request.  [SYSTEM_PROMPT]
    and [TOOL_DEFINITIONS] are handed to the model unchanged at every
    call and are part of what the collaborators stand for. *)
Definition ROUTER_PROMPT : pystr :=
  join nl
    [ u "Analyze the user's message and classify their intent into ONE of these categories:";
      [];
      u "**Intent Categories:**";
      [];
      u "1. **major_discovery** - User wants to explore which majors fit their interests";
      u "   Examples: ";
      u "   - " ++ dq ++ u "I love math and physics, what should I study?" ++ dq;
      u "   - " ++ dq ++ u "I want to work with computers, what majors are good?" ++ dq;
      u "   - " ++ dq ++ u "Help me find a major that matches my interests" ++ dq;
      [];
      u "2. **transcript_analysis** - User wants to upload/analyze their academic transcript";
      u "   Examples:";
      u "   - " ++ dq ++ u "Can you look at my grades?" ++ dq;
      u "   - " ++ dq ++ u "I uploaded my transcript, am I ready for engineering?" ++ dq;
      u "   - " ++ dq ++ u "Here's my report card" ++ dq;
      [];
      u "3. **gap_analysis** - User wants to know if their grades meet requirements for a specific major";
      u "   Examples:";
      u "   - " ++ dq ++ u "Do I have good enough grades for Computer Science?" ++ dq;
      u "   - " ++ dq ++ u "What subjects do I need to improve to study Medicine?" ++ dq;
      u "   - " ++ dq ++ u "Am I ready for this major?" ++ dq;
      [];
      u "4. **resource_request** - User needs study materials or course recommendations";
      u "   Examples:";
      u "   - " ++ dq ++ u "How can I improve my math?" ++ dq;
      u "   - " ++ dq ++ u "What courses should I take to prepare?" ++ dq;
      u "   - " ++ dq ++ u "Recommend resources for calculus" ++ dq;
      [];
      u "5. **general_question** - General questions about universities, majors, careers, or the system";
      u "   Examples:";
      u "   - " ++ dq ++ u "What's the difference between CS and Software Engineering?" ++ dq;
      u "   - " ++ dq ++ u "How does university admission work in Portugal?" ++ dq;
      u "   - " ++ dq ++ u "What careers can I pursue with a business degree?" ++ dq;
      [];
      u "6. **greeting_or_chitchat** - Greetings, thank yous, or off-topic conversation";
      u "   Examples:";
      u "   - " ++ dq ++ u "Hello!" ++ dq;
      u "   - " ++ dq ++ u "Thanks for your help" ++ dq;
      u "   - " ++ dq ++ u "What's the weather like?" ++ dq;
      [];
      u "**Context awareness:**";
      u "- Consider conversation history - if they just uploaded a transcript, " ++ dq ++ u "analyze this" ++ dq ++ u " means transcript_analysis";
      u "- If multiple intents are present, prioritize the primary/explicit one";
      u "- Default to general_question if truly ambiguous";
      [];
      u "Respond with ONLY the intent category name (e.g., " ++ dq ++ u "major_discovery" ++ dq ++ u "). No explanation needed." ].

End Prompts.
Import Prompts.

(* ================================================================== *)
(** * Effects: the world outside the core *)
(* ================================================================== *)

Module Eff.
Import Py.

(** An exception that [except Exception] catches, with its [str()]. *)
Record PyException : Type := { exc_type : pystr; exc_str : pystr }.

(** A computation over a state [S] that returns or raises; the state
    reached is kept in both cases, as mutation in Python is. *)
Definition M (S A : Type) : Type := S -> Outcome PyException A * S.

Section Monad.
Variable S : Type.

Definition ret (A : Type) (a : A) : M S A := fun s => (Returned a, s).

Definition bind (A B : Type) (m : M S A) (k : A -> M S B) : M S B :=
  fun s =>
    match m s with
    | (Returned a, s') => k a s'
    | (Raised e, s') => (Raised e, s')
    end.

Definition raise (A : Type) (e : PyException) : M S A :=
  fun s => (Raised e, s).

(** [try: m  except Exception as e: h e]. *)
Definition try_except (A : Type) (m : M S A) (h : PyException -> M S A)
  : M S A :=
  fun s =>
    match m s with
    | (Returned a, s') => (Returned a, s')
    | (Raised e, s') => h e s'
    end.

Definition read : M S S := fun s => (Returned s, s).
Definition modify (f : S -> S) : M S unit := fun s => (Returned tt, f s).
End Monad.

Arguments ret {S A} a.
Arguments raise {S A} e.
Arguments read {S}.

(** What the core asks of the outside, in the order it asks. *)
Inductive Event : Type :=
| StructuredCall (prompt : pystr)               (* generate_structured_output *)
| TextCall (prompt : pystr) (temperature : Q)   (* call_llm *)
| ToolsCall (prompt : pystr)                    (* call_llm_with_tools *)
| ToolInvoked (tool_name : pystr).              (* a registered callable *)

Definition is_llm_call (e : Event) : bool :=
  match e with
  | StructuredCall _ | TextCall _ _ | ToolsCall _ => true
  | ToolInvoked _ => false
  end.

(** The [extracted_entities] object of a classification reply; [None]
    is a key that is absent. *)
Record Entities : Type := {
  major_mentioned : option pystr;
  subjects_mentioned : option (list pystr);
  interests_mentioned : option (list pystr);
  has_transcript_reference : option bool
}.

(** The object [generate_structured_output] returns for [INTENT_SCHEMA]. *)
Record StructuredOutput : Type := {
  so_intent : option pystr;
  so_confidence : option Q;
  so_reasoning : option pystr;
  so_entities : option Entities
}.

Section World.
(** [Env] is the state of the collaborators (model, clock, files),
    [Args] a tool's argument mapping, [Payload] what a tool returns. *)
Variables Env Args Payload : Type.

Record ToolCall : Type := { tc_name : pystr; tc_args : Args }.

(** The dictionary [call_llm_with_tools] returns. *)
Record ToolDecision : Type := {
  td_text : option pystr;
  td_tool_calls : list ToolCall
}.

(** A registered tool: a callable that returns or raises. *)
Definition Tool : Type := Args -> Env -> Outcome PyException Payload * Env.

(** The collaborators of the core: the three entry points of
    [ai/llm_service.py], [time.time], [uuid.uuid4] and [str()] of a
    tool payload. *)
Record Collaborators : Type := {
  generate_structured_output :
    pystr -> Env -> Outcome PyException StructuredOutput * Env;
  call_llm : pystr -> Q -> Env -> Outcome PyException pystr * Env;
  call_llm_with_tools :
    pystr -> Env -> Outcome PyException (option ToolDecision) * Env;
  time_time : Env -> Q * Env;
  uuid4 : Env -> pystr * Env;
  str_payload : Payload -> pystr
}.

(** The collaborators' state and the log of what was asked of them. *)
Record World : Type := { env : Env; trace : list Event }.

Variable C : Collaborators.

Definition ask (A : Type) (ev : Event)
           (f : Env -> Outcome PyException A * Env) : M World A :=
  fun w =>
    let (r, e') := f (env w) in
    (r, {| env := e'; trace := trace w ++ [ev] |}).

Definition ask_structured (prompt : pystr) : M World StructuredOutput :=
  ask (StructuredCall prompt) (generate_structured_output C prompt).

Definition ask_text (prompt : pystr) (temperature : Q) : M World pystr :=
  ask (TextCall prompt temperature) (call_llm C prompt temperature).

Definition ask_tools (prompt : pystr) : M World (option ToolDecision) :=
  ask (ToolsCall prompt) (call_llm_with_tools C prompt).

Definition invoke (tool_name : pystr) (f : Tool) (args : Args)
  : M World Payload :=
  ask (ToolInvoked tool_name) (f args).

Definition now : M World Q :=
  fun w =>
    let (t, e') := time_time C (env w) in
    (Returned t, {| env := e'; trace := trace w |}).

Definition fresh_uuid : M World pystr :=
  fun w =>
    let (i, e') := uuid4 C (env w) in
    (Returned i, {| env := e'; trace := trace w |}).
End World.

End Eff.

Notation "x <- m ;; k" := (Eff.bind m (fun x => k))
  (at level 61, m at next level, right associativity).
Notation "m ;;; k" := (Eff.bind m (fun _ => k))
  (at level 61, right associativity).


(* ================================================================== *)
(** * core/router.py *)
(* ================================================================== *)

Module Router.
Import Py Eff Settings.

Inductive IntentType : Type :=
| CRISIS_SAFETY
| MAJOR_DISCOVERY
| TRANSCRIPT_ANALYSIS
| GAP_ANALYSIS
| RESOURCE_REQUEST
| GENERAL_QUESTION
| GREETING_OR_CHITCHAT
| UNKNOWN.

(** [intent.value]. *)
Definition value (i : IntentType) : pystr :=
  match i with
  | CRISIS_SAFETY => u "crisis_safety"
  | MAJOR_DISCOVERY => u "major_discovery"
  | TRANSCRIPT_ANALYSIS => u "transcript_analysis"
  | GAP_ANALYSIS => u "gap_analysis"
  | RESOURCE_REQUEST => u "resource_request"
  | GENERAL_QUESTION => u "general_question"
  | GREETING_OR_CHITCHAT => u "greeting_or_chitchat"
  | UNKNOWN => u "unknown"
  end.

Definition all_intents : list IntentType :=
  [ CRISIS_SAFETY; MAJOR_DISCOVERY; TRANSCRIPT_ANALYSIS; GAP_ANALYSIS;
    RESOURCE_REQUEST; GENERAL_QUESTION; GREETING_OR_CHITCHAT; UNKNOWN ].

(** [IntentType(s)]; [None] stands for the [ValueError] of the enum. *)
Definition IntentType_of_value (s : pystr) : option IntentType :=
  find (fun i => str_eqb (value i) s) all_intents.

Definition intent_eqb (a b : IntentType) : bool :=
  str_eqb (value a) (value b).

(** The [context] dictionary of an [IntentResult]; [None] is a key that
    is absent or holds [None]. *)
Record Context : Type := {
  ctx_major : option pystr;
  ctx_subjects : option (list pystr);
  ctx_interests : option (list pystr);
  ctx_has_transcript : option bool
}.

Definition empty_context : Context :=
  {| ctx_major := None; ctx_subjects := None; ctx_interests := None;
     ctx_has_transcript := None |}.

Record IntentResult : Type := {
  intent : IntentType;
  confidence : Q;
  reasoning : option pystr;
  context : Context;
  requires_transcript : bool;
  requires_major : bool
}.

(** One turn of the conversation history. *)
Record Message : Type := { role : pystr; content : pystr }.

(** One uploaded file; a key may be missing. *)
Record UploadedFile : Type := {
  file_name : option pystr;
  file_path : option pystr
}.

Definition any_in (kws : list pystr) (message_lower : pystr) : bool :=
  existsb (fun kw => str_in kw message_lower) kws.

Definition _detect_crisis_keywords (message : pystr) : bool :=
  let message_lower := lower message in
  any_in CRISIS_KEYWORDS message_lower.

Definition has_files (uploaded_files : option (list UploadedFile)) : bool :=
  match uploaded_files with
  | Some (_ :: _) => true
  | _ => false
  end.

Definition _fallback_classification
  (user_message : pystr) (uploaded_files : option (list UploadedFile))
  : IntentResult :=
  let message_lower := lower user_message in
  let has_transcript :=
    has_files uploaded_files
    || any_in [u "transcript"; u "grades"; u "report card"; u "my scores"]
              message_lower in
  let intent_ :=
    if any_in [u "hello"; u "hi"; u "hey"; u "thanks"; u "thank you"] message_lower
    then GREETING_OR_CHITCHAT
    else if any_in [u "what major"; u "which major"; u "suggest major";
                    u "recommend major"; u "i like"; u "i love";
                    u "interested in"] message_lower
    then MAJOR_DISCOVERY
    else if any_in [u "am i ready"; u "do i qualify"; u "meet requirements";
                    u "good enough"] message_lower && has_transcript
    then GAP_ANALYSIS
    else if has_transcript then TRANSCRIPT_ANALYSIS
    else if any_in [u "study"; u "learn"; u "improve"; u "course"; u "resource";
                    u "how can i"] message_lower
    then RESOURCE_REQUEST
    else GENERAL_QUESTION in
  let actual_has_transcript := has_files uploaded_files in
  {| intent := intent_;
     confidence := 6 # 10;
     reasoning := Some (u "Classified using keyword fallback due to LLM error");
     context := {| ctx_major := None; ctx_subjects := None; ctx_interests := None;
                   ctx_has_transcript := Some actual_has_transcript |};
     requires_transcript := has_transcript;
     requires_major := false |}.

Definition or_default (A : Type) (o : option A) (d : A) : A :=
  match o with Some a => a | None => d end.

(** The text of one history turn in the classification prompt. *)
Definition history_line (msg : Message) : pystr :=
  (if str_eqb (role msg) (u "user") then u "User" else u "Assistant")
    ++ u ": " ++ content msg.

Definition file_line (f : UploadedFile) : pystr :=
  or_default (file_name f) (u "unnamed") ++ u " (at "
    ++ or_default (file_path f) (u "unknown") ++ u ")".

Section Classify.
Variables Env Args Payload : Type.
Variable C : Collaborators Env Args Payload.

Definition classification_prompt
  (user_message : pystr)
  (conversation_history : option (list Message))
  (uploaded_files : option (list UploadedFile)) : pystr :=
  let context_parts :=
    (match conversation_history with
     | Some ((_ :: _) as h) =>
       let recent_history := slice_last 3 h in
       let history_text := join nl (map history_line recent_history) in
       [u "**Recent conversation:**" ++ nl ++ history_text]
     | _ => []
     end)
    ++
    (match uploaded_files with
     | Some ((_ :: _) as fs) =>
       let file_list := join (u ", ") (map file_line fs) in
       [u "**Uploaded files:** " ++ file_list]
     | _ => []
     end) in
  let context_str :=
    match context_parts with
    | [] => u "No previous context."
    | _ => join (nl ++ nl) context_parts
    end in
  ROUTER_PROMPT ++ nl ++ nl ++ context_str ++ nl ++ nl
    ++ u "**Current user message:**" ++ nl
    ++ dq ++ user_message ++ dq ++ nl ++ nl
    ++ u "Classify the intent and extract any relevant entities.".

(** The body of the [try] of [classify_intent], after the reply. *)
Definition intent_of_reply
  (result : StructuredOutput) (uploaded_files : option (list UploadedFile))
  : IntentResult :=
  let intent_str := or_default (so_intent result) (u "unknown") in
  let intent_ := or_default (IntentType_of_value intent_str) UNKNOWN in
  let entities :=
    or_default (so_entities result)
               {| major_mentioned := None; subjects_mentioned := None;
                  interests_mentioned := None;
                  has_transcript_reference := None |} in
  let has_actual_transcript := has_files uploaded_files in
  let requires_transcript_ :=
    (intent_eqb intent_ TRANSCRIPT_ANALYSIS || intent_eqb intent_ GAP_ANALYSIS)
    || or_default (has_transcript_reference entities) false in
  let requires_major_ :=
    intent_eqb intent_ GAP_ANALYSIS
    && match major_mentioned entities with Some _ => true | None => false end in
  {| intent := intent_;
     confidence := or_default (so_confidence result) (9 # 10);
     reasoning := Some (or_default (so_reasoning result) []);
     context := {| ctx_major := major_mentioned entities;
                   ctx_subjects := Some (or_default (subjects_mentioned entities) []);
                   ctx_interests := Some (or_default (interests_mentioned entities) []);
                   ctx_has_transcript := Some has_actual_transcript |};
     requires_transcript := requires_transcript_;
     requires_major := requires_major_ |}.

Definition classify_intent
  (user_message : pystr)
  (conversation_history : option (list Message))
  (uploaded_files : option (list UploadedFile))
  : M (World Env) IntentResult :=
  (* SAFETY CHECK FIRST - before any LLM call *)
  if _detect_crisis_keywords user_message then
    ret {| intent := CRISIS_SAFETY;
           confidence := 1;
           reasoning := Some (u "Crisis/safety keywords detected in user message");
           context := empty_context;
           requires_transcript := false;
           requires_major := false |}
  else
    let full_prompt :=
      classification_prompt user_message conversation_history uploaded_files in
    try_except
      (result <- ask_structured C full_prompt ;;
       ret (intent_of_reply result uploaded_files))
      (fun _ => ret (_fallback_classification user_message uploaded_files)).
End Classify.

Definition requires_clarification (intent_result : IntentResult) : option pystr :=
  if ltb (confidence intent_result) (1 # 2) then
    Some (u "I'm not quite sure what you're looking for. Could you rephrase that?")
  else if intent_eqb (intent intent_result) GAP_ANALYSIS
          && negb (match ctx_major (context intent_result) with
                   | Some m => truthy m
                   | None => false
                   end) then
    Some (u "Which major would you like me to check your readiness for?")
  else if requires_transcript intent_result
          && negb (or_default (ctx_has_transcript (context intent_result)) false) then
    Some (u "I'll need to see your transcript to help with that. Could you upload your grades PDF?")
  else None.

End Router.

(* ================================================================== *)
(** * core/orchestrator.py *)
(* ================================================================== *)

Module Orchestrator.
Import Py Eff Router.

Inductive AgentStatus : Type :=
| IDLE
| THINKING
| CALLING_TOOL
| SYNTHESIZING
| COMPLETED
| ERROR.

(** [status.value]. *)
Definition status_value (s : AgentStatus) : pystr :=
  match s with
  | IDLE => u "idle"
  | THINKING => u "thinking"
  | CALLING_TOOL => u "calling_tool"
  | SYNTHESIZING => u "synthesizing"
  | COMPLETED => u "completed"
  | ERROR => u "error"
  end.

Section Agent.
Variables Env Args Payload : Type.
Variable C : Collaborators Env Args Payload.

(** [result] is [None] and [metadata] is [None] (the empty dictionary)
    where the constructor call leaves them out. *)
Record ToolResult : Type := {
  tool_name : pystr;
  success : bool;
  result : option Payload;
  error : option pystr;
  execution_time : Q;
  metadata : option Args
}.

(** One entry of [AgentState.tool_calls]. *)
Record ToolCallLog : Type := {
  log_tool : pystr;
  log_success : bool;
  log_timestamp : Q
}.

Record AgentState : Type := {
  user_message : pystr;
  conversation_history : list Message;
  uploaded_files : list UploadedFile;
  intent : option IntentResult;
  status : AgentStatus;
  tool_calls : list ToolCallLog;
  tool_results : list ToolResult;
  plan : option pystr;
  final_response : option pystr;
  error_message : option pystr;
  session_id : option pystr;
  user_id : option pystr;
  start_time : Q;
  total_execution_time : Q
}.

Definition set_intent (i : IntentResult) (s : AgentState) : AgentState :=
  {| user_message := user_message s;
     conversation_history := conversation_history s;
     uploaded_files := uploaded_files s;
     intent := Some i; status := status s;
     tool_calls := tool_calls s; tool_results := tool_results s;
     plan := plan s; final_response := final_response s;
     error_message := error_message s;
     session_id := session_id s; user_id := user_id s;
     start_time := start_time s;
     total_execution_time := total_execution_time s |}.

Definition set_status (a : AgentStatus) (s : AgentState) : AgentState :=
  {| user_message := user_message s;
     conversation_history := conversation_history s;
     uploaded_files := uploaded_files s;
     intent := intent s; status := a;
     tool_calls := tool_calls s; tool_results := tool_results s;
     plan := plan s; final_response := final_response s;
     error_message := error_message s;
     session_id := session_id s; user_id := user_id s;
     start_time := start_time s;
     total_execution_time := total_execution_time s |}.

Definition set_plan (p : pystr) (s : AgentState) : AgentState :=
  {| user_message := user_message s;
     conversation_history := conversation_history s;
     uploaded_files := uploaded_files s;
     intent := intent s; status := status s;
     tool_calls := tool_calls s; tool_results := tool_results s;
     plan := Some p; final_response := final_response s;
     error_message := error_message s;
     session_id := session_id s; user_id := user_id s;
     start_time := start_time s;
     total_execution_time := total_execution_time s |}.

Definition set_final_response (r : pystr) (s : AgentState) : AgentState :=
  {| user_message := user_message s;
     conversation_history := conversation_history s;
     uploaded_files := uploaded_files s;
     intent := intent s; status := status s;
     tool_calls := tool_calls s; tool_results := tool_results s;
     plan := plan s; final_response := Some r;
     error_message := error_message s;
     session_id := session_id s; user_id := user_id s;
     start_time := start_time s;
     total_execution_time := total_execution_time s |}.

Definition set_error_message (m : pystr) (s : AgentState) : AgentState :=
  {| user_message := user_message s;
     conversation_history := conversation_history s;
     uploaded_files := uploaded_files s;
     intent := intent s; status := status s;
     tool_calls := tool_calls s; tool_results := tool_results s;
     plan := plan s; final_response := final_response s;
     error_message := Some m;
     session_id := session_id s; user_id := user_id s;
     start_time := start_time s;
     total_execution_time := total_execution_time s |}.

Definition set_total_execution_time (t : Q) (s : AgentState) : AgentState :=
  {| user_message := user_message s;
     conversation_history := conversation_history s;
     uploaded_files := uploaded_files s;
     intent := intent s; status := status s;
     tool_calls := tool_calls s; tool_results := tool_results s;
     plan := plan s; final_response := final_response s;
     error_message := error_message s;
     session_id := session_id s; user_id := user_id s;
     start_time := start_time s;
     total_execution_time := t |}.

(** [AgentState.add_tool_result], given the reading of [time.time()]. *)
Definition add_tool_result (r : ToolResult) (timestamp : Q) (s : AgentState)
  : AgentState :=
  {| user_message := user_message s;
     conversation_history := conversation_history s;
     uploaded_files := uploaded_files s;
     intent := intent s; status := status s;
     tool_calls := tool_calls s
                   ++ [{| log_tool := tool_name r;
                          log_success := success r;
                          log_timestamp := timestamp |}];
     tool_results := tool_results s ++ [r];
     plan := plan s; final_response := final_response s;
     error_message := error_message s;
     session_id := session_id s; user_id := user_id s;
     start_time := start_time s;
     total_execution_time := total_execution_time s |}.

(** The dictionary [AgentState.get_execution_summary] returns. *)
Record ExecutionSummary : Type := {
  es_intent : pystr;
  es_status : pystr;
  es_num_tool_calls : nat;
  es_tools_used : list pystr;
  es_success : bool;
  es_execution_time : Q;
  es_had_errors : bool
}.

Definition get_execution_summary (s : AgentState) : ExecutionSummary :=
  {| es_intent := match intent s with
                  | Some ir => value (Router.intent ir)
                  | None => u "unknown"
                  end;
     es_status := status_value (status s);
     es_num_tool_calls := length (tool_calls s);
     es_tools_used := set_of (map log_tool (tool_calls s));
     es_success := str_eqb (status_value (status s)) (status_value COMPLETED)
                   && match final_response s with Some _ => true | None => false end;
     es_execution_time := total_execution_time s;
     es_had_errors := existsb (fun tr => negb (success tr)) (tool_results s) |}.

(** The orchestrator object: [self.tool_registry], [self.max_iterations],
    [self.max_tool_calls]. *)
Record AgentOrchestrator : Type := {
  tool_registry : dict (Tool Env Args Payload);
  max_iterations : nat;
  max_tool_calls : nat
}.

Variable self : AgentOrchestrator.

(** Computations of a run: the agent state and the world. *)
Definition Run (A : Type) : Type := M (AgentState * World Env) A.

Definition lift (A : Type) (m : M (World Env) A) : Run A :=
  fun sw =>
    let (r, w') := m (snd sw) in (r, (fst sw, w')).

Definition update (f : AgentState -> AgentState) : Run unit :=
  modify (fun sw : AgentState * World Env => (f (fst sw), snd sw)).

Definition state : Run AgentState :=
  fun sw => (Returned (fst sw), sw).

Definition _execute_tool (tool_name_ : pystr) (tool_args : Args)
  : M (World Env) ToolResult :=
  start_time_ <- now C ;;
  if negb (contains (tool_registry self) tool_name_) then
    t <- now C ;;
    ret {| tool_name := tool_name_;
           success := false;
           result := None;
           error := Some (u "Tool '" ++ tool_name_ ++ u "' not found in registry");
           execution_time := t - start_time_;
           metadata := None |}
  else
    match get (tool_registry self) tool_name_ with
    | None =>
      raise {| exc_type := u "KeyError";
               exc_str := u "'" ++ tool_name_ ++ u "'" |}
    | Some tool_func =>
      try_except
        (result_ <- invoke tool_name_ tool_func tool_args ;;
         t <- now C ;;
         let execution_time_ := t - start_time_ in
         ret {| tool_name := tool_name_;
                success := true;
                result := Some result_;
                error := None;
                execution_time := execution_time_;
                metadata := Some tool_args |})
        (fun e =>
           t <- now C ;;
           ret {| tool_name := tool_name_;
                  success := false;
                  result := None;
                  error := Some (exc_str e);
                  execution_time := t - start_time_;
                  metadata := Some tool_args |})
    end.

Definition _handle_greeting (message : pystr) : M (World Env) pystr :=
  let prompt :=
    u "The user said: " ++ dq ++ message ++ dq ++ nl ++ nl
    ++ u "Respond warmly and professionally. If it's a greeting, introduce yourself as Ready4Uni " ++ nl
    ++ u "and briefly mention you can help with:" ++ nl
    ++ u "- Finding university majors that match their interests" ++ nl
    ++ u "- Analyzing transcripts and checking readiness" ++ nl
    ++ u "- Recommending study resources" ++ nl ++ nl
    ++ u "Keep it brief and friendly." in
  ask_text C prompt (8 # 10).

Definition _create_plan (s : AgentState) : Run pystr :=
  match intent s with
  | None =>
    raise {| exc_type := u "AttributeError";
             exc_str := u "'NoneType' object has no attribute 'intent'" |}
  | Some ir =>
    ret
      match Router.intent ir with
      | MAJOR_DISCOVERY =>
        u "1. Extract user's interests and favorite subjects" ++ nl
        ++ u "2. Call get_major_suggestions tool" ++ nl
        ++ u "3. Present top 3-5 matching majors with explanations"
      | TRANSCRIPT_ANALYSIS =>
        u "1. Call parse_transcript tool to extract grades" ++ nl
        ++ u "2. Identify strongest and weakest subjects" ++ nl
        ++ u "3. Provide overview of academic profile"
      | GAP_ANALYSIS =>
        u "1. Parse transcript if not already done" ++ nl
        ++ u "2. Get major requirements using get_major_info" ++ nl
        ++ u "3. Call analyze_grade_gaps to compare" ++ nl
        ++ u "4. If gaps exist, call find_study_resources for weak subjects"
      | RESOURCE_REQUEST =>
        u "1. Identify subject and specific topic from user message" ++ nl
        ++ u "2. Call find_study_resources tool" ++ nl
        ++ u "3. Present curated list with study plan"
      | GENERAL_QUESTION =>
        u "1. Use general knowledge to answer" ++ nl
        ++ u "2. Call get_major_info if specific major mentioned" ++ nl
        ++ u "3. Provide comprehensive, cited answer"
      | _ => u "Analyze message and respond appropriately"
      end
  end.

Definition intent_value (s : AgentState) : Run pystr :=
  match intent s with
  | None =>
    raise {| exc_type := u "AttributeError";
             exc_str := u "'NoneType' object has no attribute 'intent'" |}
  | Some ir => ret (value (Router.intent ir))
  end.

Definition str_option (o : option pystr) : pystr :=
  match o with Some s => s | None => u "None" end.

Definition str_result (r : option Payload) : pystr :=
  match r with Some p => str_payload C p | None => u "None" end.

(** [f"{f['name']} (at {f['path']})"]: a missing key raises. *)
Fixpoint file_info (fs : list UploadedFile) : Run (list pystr) :=
  match fs with
  | [] => ret []
  | f :: rest =>
    match file_name f, file_path f with
    | Some n, Some p =>
      tl <- file_info rest ;;
      ret ((n ++ u " (at " ++ p ++ u ")") :: tl)
    | None, _ => raise {| exc_type := u "KeyError"; exc_str := u "'name'" |}
    | _, None => raise {| exc_type := u "KeyError"; exc_str := u "'path'" |}
    end
  end.

Definition _decide_next_tool : Run (option (ToolDecision Args)) :=
  s <- state ;;
  iv <- intent_value s ;;
  let context_parts :=
    [ u "User intent: " ++ iv;
      u "User message: " ++ dq ++ user_message s ++ dq;
      u "Plan: " ++ str_option (plan s) ] in
  let context_parts :=
    match tool_results s with
    | [] => context_parts
    | trs =>
      context_parts ++ [nl ++ u "**Tools already called:**"]
      ++ map (fun tr =>
                u "- " ++ (if success tr then u "✅" else u "❌") ++ u " "
                ++ tool_name tr ++ u ": "
                ++ (if success tr then firstn 100 (str_result (result tr))
                    else str_option (error tr)))
             trs
    end in
  context_parts <-
    match uploaded_files s with
    | [] => ret context_parts
    | fs =>
      info <- file_info fs ;;
      ret (context_parts ++ [nl ++ u "**Uploaded files:** " ++ join (u ", ") info])
    end ;;
  let context_ := join nl context_parts in
  let prompt :=
    context_ ++ nl ++ nl
    ++ u "Based on the above context, decide what tool (if any) to call next to accomplish the goal." ++ nl ++ nl
    ++ u "**Guidelines:**" ++ nl
    ++ u "- If you have enough information to answer, return NO tool calls" ++ nl
    ++ u "- If you need to parse a transcript, call parse_transcript ONLY if a transcript was actually uploaded. Use the full path provided in the context (e.g., 'temp_uploads/filename.pdf')." ++ nl
    ++ u "- If you need major info, call get_major_info" ++ nl
    ++ u "- If comparing grades to requirements, call analyze_grades" ++ nl
    ++ u "- If finding study resources, call find_study_resources" ++ nl
    ++ u "- If suggesting majors, call get_major_suggestions" ++ nl ++ nl
    ++ u "**IMPORTANT:** Never invent, hallucinate, or guess filenames like "
    ++ dq ++ u "sample_transcript.pdf" ++ dq
    ++ u ". Only use files listed in the **Uploaded files** section above. If no files are listed, do NOT call parse_transcript."
    ++ nl ++ nl ++ u "What should we do next?" in
  lift (ask_tools C prompt).

Definition _synthesize_response : Run pystr :=
  s <- state ;;
  iv <- intent_value s ;;
  let context_parts :=
    [ u "**User's original question:** " ++ dq ++ user_message s ++ dq;
      u "**Intent:** " ++ iv ] in
  let context_parts :=
    match tool_results s with
    | [] => context_parts
    | trs =>
      context_parts ++ [nl ++ u "**Information gathered from tools:**"]
      ++ flat_map
           (fun tr =>
              if success tr then
                [ nl ++ u "*" ++ tool_name tr ++ u ":*";
                  u "```" ++ nl ++ firstn 500 (str_result (result tr)) ++ nl ++ u "```" ]
              else
                [ nl ++ u "*" ++ tool_name tr ++ u " failed:* " ++ str_option (error tr) ])
           trs
    end in
  let context_ := join nl context_parts in
  let synthesis_prompt :=
    context_ ++ nl ++ nl
    ++ u "Based on all the information gathered above, provide a comprehensive, helpful response to the user." ++ nl ++ nl
    ++ u "**Response guidelines:**" ++ nl
    ++ u "- Be encouraging and supportive" ++ nl
    ++ u "- Use specific data from tool results (mention actual grades, majors, requirements)" ++ nl
    ++ u "- If gaps were found, frame them as opportunities for improvement" ++ nl
    ++ u "- Provide actionable next steps" ++ nl
    ++ u "- Use bullet points for clarity when listing multiple items" ++ nl
    ++ u "- Keep tone conversational but professional" ++ nl
    ++ u "- If any tools failed, gracefully work around it without mentioning technical errors" ++ nl ++ nl
    ++ u "Generate your final response:" in
  lift (ask_text C synthesis_prompt (7 # 10)).

(** [for tool_call in tool_decision["tool_calls"]]. *)
Fixpoint execute_tool_calls (calls : list (ToolCall Args)) : Run unit :=
  match calls with
  | [] => ret tt
  | tool_call :: rest =>
    tool_result <- lift (_execute_tool (tc_name tool_call) (tc_args tool_call)) ;;
    timestamp <- lift (now C) ;;
    update (add_tool_result tool_result timestamp) ;;;
    execute_tool_calls rest
  end.

(** [while iteration < self.max_iterations], by the rounds left. *)
Fixpoint act_loop (rounds_left : nat) : Run unit :=
  match rounds_left with
  | O => ret tt
  | S rounds_left' =>
    s <- state ;;
    if (max_tool_calls self <=? length (tool_calls s))%nat then ret tt
    else
      update (set_status CALLING_TOOL) ;;;
      tool_decision <- _decide_next_tool ;;
      match tool_decision with
      | None => ret tt
      | Some d =>
        match td_tool_calls d with
        | [] => ret tt
        | calls => execute_tool_calls calls ;;; act_loop rounds_left'
        end
      end
  end.

(** [if question:] for an optional string: [None] and the empty
    string both take the other branch. *)
Definition if_truthy (question : option pystr) : option pystr :=
  match question with
  | Some q => if truthy q then Some q else None
  | None => None
  end.

(** [state.total_execution_time = time.time() - state.start_time]. *)
Definition stamp_total : Run unit :=
  t <- lift (now C) ;;
  s <- state ;;
  update (set_total_execution_time (t - start_time s)).

(** The [try] block of [run]; the result tells whether the block
    returned the state itself ([true]) or ran to its end ([false]). *)
Definition run_try
  (user_message_ : pystr)
  (conversation_history_ : option (list Message))
  (uploaded_files_ : option (list UploadedFile)) : Run bool :=
  (* Step 1: Observe *)
  update (set_status THINKING) ;;;
  intent_ <- lift (classify_intent C user_message_ conversation_history_ uploaded_files_) ;;
  update (set_intent intent_) ;;;
  match if_truthy (requires_clarification intent_) with
  | Some clarification_question =>
    update (set_final_response clarification_question) ;;;
    update (set_status COMPLETED) ;;;
    stamp_total ;;;
    ret true
  | None =>
    if intent_eqb (Router.intent intent_) GREETING_OR_CHITCHAT then
      r <- lift (_handle_greeting user_message_) ;;
      update (set_final_response r) ;;;
      update (set_status COMPLETED) ;;;
      stamp_total ;;;
      ret true
    else
      (* Step 2: Plan *)
      update (set_status THINKING) ;;;
      s <- state ;;
      plan_ <- _create_plan s ;;
      update (set_plan plan_) ;;;
      (* Step 3: Act *)
      act_loop (max_iterations self) ;;;
      (* Step 4: Respond *)
      update (set_status SYNTHESIZING) ;;;
      final_response_ <- _synthesize_response ;;
      update (set_final_response final_response_) ;;;
      update (set_status COMPLETED) ;;;
      ret false
  end.

Definition run
  (user_message_ : pystr)
  (conversation_history_ : option (list Message))
  (uploaded_files_ : option (list UploadedFile))
  (session_id_ user_id_ : option pystr)
  : M (World Env) AgentState :=
  fun w =>
    let (r0, w0) := now C w in
    match r0 with
    | Raised e => (Raised e, w0)
    | Returned start =>
      let state0 :=
        {| user_message := user_message_;
           conversation_history := Router.or_default conversation_history_ [];
           uploaded_files := Router.or_default uploaded_files_ [];
           intent := None; status := IDLE;
           tool_calls := []; tool_results := [];
           plan := None; final_response := None; error_message := None;
           session_id := session_id_; user_id := user_id_;
           start_time := start; total_execution_time := 0 |} in
      let body : Run unit :=
        returned <-
          try_except
            (run_try user_message_ conversation_history_ uploaded_files_)
            (fun e =>
               update (set_status ERROR) ;;;
               update (set_error_message (exc_str e)) ;;;
               update (set_final_response
                         (u "I encountered an error while processing your request. "
                            ++ u "Could you try rephrasing or let me know if you need help?")) ;;;
               ret false) ;;
        if returned then ret tt else stamp_total in
      match body (state0, w0) with
      | (Returned _, (s, w')) => (Returned s, w')
      | (Raised e, (_, w')) => (Raised e, w')
      end
    end.
End Agent.

(** [run_agent_loop]: the orchestrator with its default limits. *)
Definition run_agent_loop
  (Env Args Payload : Type) (C : Collaborators Env Args Payload)
  (user_message_ : pystr) (registry : dict (Tool Env Args Payload))
  (conversation_history_ : option (list Message))
  (uploaded_files_ : option (list UploadedFile))
  (session_id_ user_id_ : option pystr) (max_iterations_ : nat)
  : M (World Env) (AgentState Args Payload) :=
  run C {| tool_registry := registry;
           max_iterations := max_iterations_;
           max_tool_calls := 10 |}
      user_message_ conversation_history_ uploaded_files_ session_id_ user_id_.

End Orchestrator.

(* ================================================================== *)
(** * services/chat_service.py *)
(* ================================================================== *)

Module ChatService.
Import Py Eff Settings Router Orchestrator.

(** The [metadata] dictionary of a response; [None] is a key that the
    branch does not set. *)
Record Metadata : Type := {
  meta_intent : option pystr;
  meta_tools_used : option (list pystr);
  meta_execution_time : option Q;
  meta_error : option pystr;
  meta_status : option pystr;
  meta_session_id : pystr
}.

Section Chat.
Variables Env Args Payload : Type.
Variable C : Collaborators Env Args Payload.

Record ChatResponse : Type := {
  message : pystr;
  success : bool;
  metadata : Metadata;
  suggestions : option (list pystr);
  agent_state : option (AgentState Args Payload)
}.

(** The service object: [self.tool_registry]. *)
Variable tool_registry : dict (Tool Env Args Payload).

Definition _get_error_message : pystr :=
  u "I'm having trouble processing your request right now. "
  ++ u "This could be a temporary issue. Please try:" ++ nl
  ++ u "- Rephrasing your question" ++ nl
  ++ u "- Being more specific about what you need" ++ nl
  ++ u "- Checking if any files uploaded correctly" ++ nl ++ nl
  ++ u "If the problem persists, feel free to start a new conversation.".

Definition mentions (word : pystr) (tr : ToolResult Args Payload) : bool :=
  str_in word
         (lower (match Orchestrator.result tr with
                 | Some p => str_payload C p
                 | None => u "None"
                 end)).

Definition _generate_suggestions (s : AgentState Args Payload) : list pystr :=
  match Orchestrator.intent s with
  | None => []
  | Some ir =>
    let intent_ := value (Router.intent ir) in
    let suggestions_ :=
      if str_eqb intent_ (u "major_discovery") then
        [ u "Tell me more about one of these majors";
          u "Check if my grades meet the requirements";
          u "What careers can I pursue with this major?" ]
      else if str_eqb intent_ (u "transcript_analysis") then
        [ u "Which major should I consider based on my grades?";
          u "How can I improve my weakest subject?";
          u "Am I ready for Computer Science?" ]
      else if str_eqb intent_ (u "gap_analysis") then
        let has_gaps :=
          existsb (fun tr => mentions (u "gap") tr || mentions (u "improve") tr)
                  (filter (@Orchestrator.success Args Payload) (tool_results s)) in
        if has_gaps then
          [ u "Show me resources to improve my weak subjects";
            u "What's a realistic timeline to close these gaps?";
            u "Are there alternative majors that fit my current grades?" ]
        else
          [ u "What universities offer this major?";
            u "What should I focus on to maintain my readiness?";
            u "Tell me about career prospects in this field" ]
      else if str_eqb intent_ (u "resource_request") then
        [ u "Create a study schedule for me";
          u "Are there any free courses available?";
          u "What's the most important topic to focus on first?" ]
      else if str_eqb intent_ (u "general_question") then
        [ u "Help me find majors that match my interests";
          u "Analyze my transcript";
          u "What are the most popular majors?" ]
      else [] in
    firstn 3 suggestions_
  end.

(** The [try] block of [process_message]. *)
Definition process_try
  (user_message_ : pystr)
  (conversation_history_ : option (list Message))
  (uploaded_files_ : option (list UploadedFile))
  (session_id_ : pystr) (user_id_ : option pystr)
  : M (World Env) ChatResponse :=
  (* SAFETY CHECK FIRST - before any agent processing *)
  quick_intent <- classify_intent C user_message_ None None ;;
  if intent_eqb (Router.intent quick_intent) CRISIS_SAFETY then
    ret {| message := CRISIS_RESPONSE;
           success := true;
           metadata := {| meta_intent := Some (u "crisis_safety");
                          meta_tools_used := None;
                          meta_execution_time := None;
                          meta_error := None;
                          meta_status := None;
                          meta_session_id := session_id_ |};
           suggestions := None;
           agent_state := None |}
  else
    agent_state_ <-
      run_agent_loop C user_message_ tool_registry
                     (Some (or_default conversation_history_ []))
                     (Some (or_default uploaded_files_ []))
                     (Some session_id_) user_id_ 5 ;;
    if str_eqb (status_value (status agent_state_)) (u "completed")
       && match final_response agent_state_ with
          | Some r => truthy r
          | None => false
          end then
      let suggestions_ := _generate_suggestions agent_state_ in
      ret {| message := or_default (final_response agent_state_) [];
             success := true;
             metadata :=
               {| meta_intent :=
                    Some (match Orchestrator.intent agent_state_ with
                          | Some ir => value (Router.intent ir)
                          | None => u "unknown"
                          end);
                  meta_tools_used :=
                    Some (map (@tool_name Args Payload) (tool_results agent_state_));
                  meta_execution_time := Some (total_execution_time agent_state_);
                  meta_error := None;
                  meta_status := None;
                  meta_session_id := session_id_ |};
             suggestions := Some suggestions_;
             agent_state := Some agent_state_ |}
    else if str_eqb (status_value (status agent_state_)) (u "error") then
      ret {| message :=
               match final_response agent_state_ with
               | Some r => if truthy r then r else _get_error_message
               | None => _get_error_message
               end;
             success := false;
             metadata := {| meta_intent := None;
                            meta_tools_used := None;
                            meta_execution_time := None;
                            meta_error := error_message agent_state_;
                            meta_status := None;
                            meta_session_id := session_id_ |};
             suggestions := None;
             agent_state := Some agent_state_ |}
    else
      ret {| message := u "I had trouble processing that. Could you try rephrasing?";
             success := false;
             metadata := {| meta_intent := None;
                            meta_tools_used := None;
                            meta_execution_time := None;
                            meta_error := None;
                            meta_status := Some (status_value (status agent_state_));
                            meta_session_id := session_id_ |};
             suggestions := None;
             agent_state := Some agent_state_ |}.

Definition process_message
  (user_message_ : pystr)
  (conversation_history_ : option (list Message))
  (uploaded_files_ : option (list UploadedFile))
  (session_id_ user_id_ : option pystr)
  : M (World Env) ChatResponse :=
  session_id' <-
    match session_id_ with
    | Some s => if truthy s then ret s else fresh_uuid C
    | None => fresh_uuid C
    end ;;
  try_except
    (process_try user_message_ conversation_history_ uploaded_files_
                 session_id' user_id_)
    (fun e =>
       ret {| message := _get_error_message;
              success := false;
              metadata := {| meta_intent := None;
                             meta_tools_used := None;
                             meta_execution_time := None;
                             meta_error := Some (exc_str e);
                             meta_status := None;
                             meta_session_id := session_id' |};
              suggestions := None;
              agent_state := None |}).
End Chat.

End ChatService.

(* ================================================================== *)
(** * ai/llm_service.py: the retry decorator *)
(* ================================================================== *)

Module LlmService.
Import Py Eff.

(** The test of [retry_on_error] on the text of an exception. *)
Definition retryable (error_msg : pystr) : bool :=
  str_in (u "rate limit") (lower error_msg)
  || str_in (u "quota") (lower error_msg)
  || str_in (u "timeout") (lower error_msg)
  || str_in (u "503") error_msg
  || str_in (u "429") error_msg
  || str_in (u "500") error_msg.

Section RetryOnError.
(** [S] is the state [func] works on; the decorated function runs on
    [S] with the number of calls made to [func] beside it. *)
Variables S A : Type.
Variable time_sleep : Q -> S -> S.
Variable func : M S A.
Variable max_retries : nat.

(** One call of [func], counted. *)
Definition call : M (S * nat) A :=
  fun sn =>
    let (r, s') := func (fst sn) in (r, (s', Datatypes.S (snd sn))).

Definition sleep (seconds : Q) : M (S * nat) unit :=
  fun sn => (Returned tt, (time_sleep seconds (fst sn), snd sn)).

(** [while retries < max_retries], by the rounds the test still allows. *)
Fixpoint retry_loop (rounds_left retries : nat) (current_delay : Q)
  : M (S * nat) A :=
  match rounds_left with
  | O =>
    raise {| exc_type := u "Exception";
             exc_str := u "Max retries (" ++ str_of_nat max_retries
                          ++ u ") exceeded" |}
  | Datatypes.S rounds_left' =>
    try_except call
      (fun e =>
         let error_msg := exc_str e in
         if negb (retryable error_msg) || (max_retries - 1 <=? retries)%nat
         then raise e
         else
           sleep current_delay ;;;
           retry_loop rounds_left' (retries + 1) (current_delay * 2))
  end.

(** The wrapper [retry_on_error(max_retries, delay)] puts around [func]. *)
Definition retry_on_error (delay : Q) : M (S * nat) A :=
  retry_loop max_retries 0 delay.
End RetryOnError.

End LlmService.

(* ================================================================== *)
(** * tools/transcript_tools.py: the retry decorator of the tools *)
(* ================================================================== *)

Module TranscriptTools.
Import Py Eff.

Section RetryOnFailure.
Variables S A : Type.
Variable time_sleep : Q -> S -> S.
Variable func_name : pystr.
Variable func : M S A.
Variable max_retries : nat.

(** What a decorated tool returns: what the tool returned, or the
    error structure [{"success": False, "error": ..., "tool": ...}]. *)
Inductive Wrapped : Type :=
| ToolReturned (a : A)
| ErrorStructure (error tool : pystr).

(** [str(last_error)]. *)
Definition str_last_error (last_error : option PyException) : pystr :=
  match last_error with
  | Some e => exc_str e
  | None => u "None"
  end.

(** [for attempt in range(max_retries + 1)], by the attempts left. *)
Fixpoint attempts (attempts_left attempt : nat) (last_error : option PyException)
  : M (S * nat) Wrapped :=
  match attempts_left with
  | O => ret (ErrorStructure (str_last_error last_error) func_name)
  | Datatypes.S attempts_left' =>
    fun sn =>
      match LlmService.call func sn with
      | (Returned a, sn') => (Returned (ToolReturned a), sn')
      | (Raised e, sn') =>
        let sn'' :=
          if (attempt <? max_retries)%nat
          then (time_sleep (1 * inject_Z (Z.of_nat (attempt + 1))) (fst sn'), snd sn')
          else sn' in
        attempts attempts_left' (attempt + 1) (Some e) sn''
      end
  end.

(** The wrapper [retry_on_failure(max_retries)] puts around [func]. *)
Definition retry_on_failure : M (S * nat) Wrapped :=
  attempts (max_retries + 1) 0 None.
End RetryOnFailure.

Arguments ErrorStructure {A} error tool.

End TranscriptTools.

(* ================================================================== *)
(** * tools/major_tools.py *)
(* ================================================================== *)

Module MajorTools.
Import Py Eff Settings MajorService.

(** The text of an error: a literal, or [str(e)] of the [ValueError]
    that was caught. *)
Inductive ErrorText : Type :=
| Text (s : pystr)
| StrOf (e : MajorService.ValueError).

(** The dictionary [get_major_info] returns; [None] is a key that the
    branch does not set. *)
Record MajorInfo : Type := {
  mi_success : bool;
  mi_major : option Major;
  mi_source : option pystr;
  mi_similar_majors : option (list (pystr * pystr));
  mi_error : option pystr;
  mi_suggestion : option pystr
}.

(** The body of [get_major_info]; nothing in its [try] can raise. *)
Definition get_major_info (majors : list Major) (major_name : pystr)
           (include_similar : bool) : MajorInfo :=
  (* Step 1: Check curated database *)
  match get_major_details majors major_name with
  | Some major_ =>
    {| mi_success := true;
       mi_major := Some major_;
       mi_source := Some (u "curated_data");
       mi_similar_majors :=
         if include_similar
         then Some (map (fun m => (name m, id m))
                        (get_similar_majors majors major_name 3))
         else None;
       mi_error := None;
       mi_suggestion := None |}
  | None =>
    {| mi_success := false;
       mi_major := None;
       mi_source := None;
       mi_similar_majors := None;
       mi_error :=
         Some (u "Major '" ++ major_name
                 ++ u "' not found. Try: Computer Science, Engineering, Medicine, Business, or similar common majors.");
       mi_suggestion :=
         Some (u "Use get_major_suggestions to find majors based on your interests") |}
  end.

Record Suggestion : Type := {
  sg_name : pystr;
  sg_id : pystr;
  sg_score : Q;
  sg_description : pystr;
  sg_reasons : list pystr;
  sg_career_paths : list pystr;
  sg_requirements : dict Q;
  sg_keywords : list pystr
}.

(** The dictionary [get_major_suggestions] returns. *)
Record Suggestions : Type := {
  ss_success : bool;
  ss_error : option ErrorText;
  ss_suggestions : list Suggestion;
  ss_total_matches : option nat
}.

Definition format_suggestion (m : MajorMatch) : Suggestion :=
  {| sg_name := name (major m);
     sg_id := id (major m);
     sg_score := round2 (score m);
     sg_description := description (major m);
     sg_reasons := reasons m;
     sg_career_paths := career_paths (major m);
     sg_requirements := requirements (major m);
     sg_keywords := matching_keywords m |}.

(** The body of [get_major_suggestions]: the [ValueError] of an
    unreadable [top_n] is caught here. *)
Definition get_major_suggestions
  (majors : list Major)
  (interests favorite_subjects : option (list pystr))
  (career_goals : option pystr) (top_n : TopN) : Suggestions :=
  match match_interests_to_majors_fn interests favorite_subjects career_goals
                                     majors top_n with
  | Raised e =>
    {| ss_success := false;
       ss_error := Some (StrOf e);
       ss_suggestions := [];
       ss_total_matches := None |}
  | Returned [] =>
    {| ss_success := false;
       ss_error :=
         Some (Text (u "No matching majors found. Try broader or different interests."));
       ss_suggestions := [];
       ss_total_matches := None |}
  | Returned matches =>
    {| ss_success := true;
       ss_error := None;
       ss_suggestions := map format_suggestion matches;
       ss_total_matches := Some (length matches) |}
  end.

Record SearchHit : Type := {
  sh_name : pystr;
  sh_id : pystr;
  sh_description : pystr;
  sh_keywords : list pystr
}.

(** The dictionary [search_major_database] returns. *)
Record SearchResults : Type := {
  sd_success : bool;
  sd_results : list SearchHit;
  sd_count : nat;
  sd_query : pystr
}.

(** The body of [search_major_database]; nothing in its [try] can raise. *)
Definition search_major_database (majors : list Major) (query : pystr)
           (max_results : Z) : SearchResults :=
  let results := search_majors majors query None in
  (* Limit results *)
  let results := slice_to results max_results in
  let formatted_results :=
    map (fun major_ =>
           {| sh_name := name major_;
              sh_id := id major_;
              sh_description := firstn 150 (description major_) ++ u "...";
              sh_keywords := firstn 5 (keywords major_) |})
        results in
  {| sd_success := true;
     sd_results := formatted_results;
     sd_count := length formatted_results;
     sd_query := query |}.

Section Decorated.
Variable S : Type.
Variable time_sleep : Q -> S -> S.

(** A tool body that touches nothing outside. *)
Definition body (A : Type) (a : A) : M S A := fun s => (Returned a, s).

(** The tools as registered: each body under [retry_on_failure]. *)
Definition get_major_info_tool (majors : list Major) (major_name : pystr)
           (include_similar : bool) :=
  TranscriptTools.retry_on_failure
    time_sleep (u "get_major_info")
    (body (get_major_info majors major_name include_similar)) 2.

Definition get_major_suggestions_tool
  (majors : list Major) (interests favorite_subjects : option (list pystr))
  (career_goals : option pystr) (top_n : TopN) :=
  TranscriptTools.retry_on_failure
    time_sleep (u "get_major_suggestions")
    (body (get_major_suggestions majors interests favorite_subjects
                                 career_goals top_n)) 2.

Definition search_major_database_tool (majors : list Major) (query : pystr)
           (max_results : Z) :=
  TranscriptTools.retry_on_failure
    time_sleep (u "search_major_database")
    (body (search_major_database majors query max_results)) 1.
End Decorated.

End MajorTools.

(* ================================================================== *)
(** * config/prompts.py: the templates of the tools *)
(* ================================================================== *)

Module ToolPrompts.
Import Prompts.

(** [format_prompt(GAP_ANALYSIS_PROMPT, major_name=..., student_grades=...,
    major_requirements=...)]: the template has no other placeholder, so
    the formatting cannot fail. *)
Definition gap_analysis_prompt (major_name : pystr) (student_grades : pystr) (major_requirements : pystr) : pystr :=
  join nl
    [ u "You are analyzing a student's readiness for a specific university major based on their transcript grades.";
      [];
      u "**Task:** Compare the student's grades against the typical entry requirements for " ++ major_name ++ u " and identify gaps.";
      [];
      u "**Student's Grades:**";
      student_grades;
      [];
      u "**Requirements for " ++ major_name ++ u ":**";
      major_requirements;
      [];
      u "**Analysis Framework:**";
      u "1. For each required subject, calculate the gap (requirement - student_grade)";
      u "2. Categorize gaps:";
      u "   - ✅ **Meets requirement**: Student grade >= requirement";
      u "   - ⚠️ **Close** (1-2 points below): Achievable with focused effort";
      u "   - 🔴 **Significant gap** (3+ points below): Requires substantial improvement";
      u "3. Identify the student's strengths (subjects where they exceed requirements)";
      [];
      u "**Output Requirements:**";
      u "Provide a JSON object with this structure:";
      u "{";
      u "  " ++ dq ++ u "overall_readiness" ++ dq ++ u ": " ++ dq ++ u "ready" ++ dq ++ u " | " ++ dq ++ u "mostly_ready" ++ dq ++ u " | " ++ dq ++ u "needs_improvement" ++ dq ++ u " | " ++ dq ++ u "significant_gaps" ++ dq ++ u ",";
      u "  " ++ dq ++ u "analysis" ++ dq ++ u ": [";
      u "    {";
      u "      " ++ dq ++ u "subject" ++ dq ++ u ": " ++ dq ++ u "Math" ++ dq ++ u ",";
      u "      " ++ dq ++ u "student_grade" ++ dq ++ u ": 13,";
      u "      " ++ dq ++ u "required_grade" ++ dq ++ u ": 16,";
      u "      " ++ dq ++ u "gap" ++ dq ++ u ": 3,";
      u "      " ++ dq ++ u "status" ++ dq ++ u ": " ++ dq ++ u "significant_gap" ++ dq ++ u ",";
      u "      " ++ dq ++ u "recommendation" ++ dq ++ u ": " ++ dq ++ u "Focus on calculus and algebra fundamentals" ++ dq;
      u "    }";
      u "  ],";
      u "  " ++ dq ++ u "strengths" ++ dq ++ u ": [" ++ dq ++ u "Physics" ++ dq ++ u ", " ++ dq ++ u "Portuguese" ++ dq ++ u "],";
      u "  " ++ dq ++ u "priority_subjects" ++ dq ++ u ": [" ++ dq ++ u "Math" ++ dq ++ u "],";
      u "  " ++ dq ++ u "summary" ++ dq ++ u ": " ++ dq ++ u "You're close to ready for Computer Science, but need to strengthen your Math foundation..." ++ dq;
      u "}";
      [];
      u "Be encouraging but honest. Highlight both strengths and areas for improvement." ].

(** [format_prompt(RESOURCE_GENERATION_PROMPT, subject=..., topic=...,
    level=..., goal=...)], in the same way. *)
Definition resource_generation_prompt (subject : pystr) (topic : pystr) (level : pystr) (goal : pystr) : pystr :=
  join nl
    [ u "Generate personalized study resource recommendations for a high school student in Portugal.";
      [];
      u "**Context:**";
      u "- Subject: " ++ subject;
      u "- Specific Topic: " ++ topic;
      u "- Student Level: " ++ level;
      u "- Goal: " ++ goal;
      [];
      u "**Requirements:**";
      u "1. Recommend 3-5 high-quality, accessible resources";
      u "2. Prioritize FREE or low-cost options";
      u "3. Include Portuguese language resources when available (note if English-only)";
      u "4. Focus on platforms like:";
      u "   - Khan Academy (has Portuguese version for many topics)";
      u "   - YouTube (educational channels)";
      u "   - Coursera, edX, Udemy (many free courses)";
      u "   - Interactive practice sites";
      [];
      u "**Output Format (JSON):**";
      u "{";
      u "  " ++ dq ++ u "subject" ++ dq ++ u ": " ++ dq ++ subject ++ dq ++ u ",";
      u "  " ++ dq ++ u "resources" ++ dq ++ u ": [";
      u "    {";
      u "      " ++ dq ++ u "type" ++ dq ++ u ": " ++ dq ++ u "video_course" ++ dq ++ u ",";
      u "      " ++ dq ++ u "name" ++ dq ++ u ": " ++ dq ++ u "Khan Academy: Cálculo Diferencial" ++ dq ++ u ",";
      u "      " ++ dq ++ u "provider" ++ dq ++ u ": " ++ dq ++ u "Khan Academy" ++ dq ++ u ",";
      u "      " ++ dq ++ u "language" ++ dq ++ u ": " ++ dq ++ u "PT" ++ dq ++ u ",";
      u "      " ++ dq ++ u "free" ++ dq ++ u ": true,";
      u "      " ++ dq ++ u "description" ++ dq ++ u ": " ++ dq ++ u "Interactive lessons with practice problems, perfect for building calculus foundations" ++ dq ++ u ",";
      u "      " ++ dq ++ u "search_hint" ++ dq ++ u ": " ++ dq ++ u "Search 'Khan Academy cálculo' or visit pt.khanacademy.org" ++ dq;
      u "    }" ++ u ",";
      u "    {";
      u "      " ++ dq ++ u "type" ++ dq ++ u ": " ++ dq ++ u "online_course" ++ dq ++ u ",";
      u "      " ++ dq ++ u "name" ++ dq ++ u ": " ++ dq ++ u "Introduction to Calculus" ++ dq ++ u ",";
      u "      " ++ dq ++ u "provider" ++ dq ++ u ": " ++ dq ++ u "Coursera" ++ dq ++ u ",";
      u "      " ++ dq ++ u "language" ++ dq ++ u ": " ++ dq ++ u "EN (PT subtitles available)" ++ dq ++ u ",";
      u "      " ++ dq ++ u "free" ++ dq ++ u ": true,";
      u "      " ++ dq ++ u "description" ++ dq ++ u ": " ++ dq ++ u "University-level course with video lectures and assignments" ++ dq ++ u ",";
      u "      " ++ dq ++ u "search_hint" ++ dq ++ u ": " ++ dq ++ u "Search 'Coursera calculus free' and filter for Portuguese subtitles" ++ dq;
      u "    }" ++ u ",";
      u "    {";
      u "      " ++ dq ++ u "type" ++ dq ++ u ": " ++ dq ++ u "practice_platform" ++ dq ++ u ",";
      u "      " ++ dq ++ u "name" ++ dq ++ u ": " ++ dq ++ u "Brilliant.org Math Fundamentals" ++ dq ++ u ",";
      u "      " ++ dq ++ u "provider" ++ dq ++ u ": " ++ dq ++ u "Brilliant" ++ dq ++ u ",";
      u "      " ++ dq ++ u "language" ++ dq ++ u ": " ++ dq ++ u "EN" ++ dq ++ u ",";
      u "      " ++ dq ++ u "free" ++ dq ++ u ": false,";
      u "      " ++ dq ++ u "description" ++ dq ++ u ": " ++ dq ++ u "Interactive problem-solving approach (free trial available)" ++ dq ++ u ",";
      u "      " ++ dq ++ u "search_hint" ++ dq ++ u ": " ++ dq ++ u "Visit brilliant.org/courses/math-fundamentals" ++ dq;
      u "    }";
      u "  ],";
      u "  " ++ dq ++ u "study_plan" ++ dq ++ u ": " ++ dq ++ u "Start with Khan Academy for foundational concepts, then move to Coursera for deeper understanding. Practice daily with exercises." ++ dq ++ u ",";
      u "  " ++ dq ++ u "estimated_time" ++ dq ++ u ": " ++ dq ++ u "2-3 months with 1 hour/day" ++ dq;
      u "}";
      [];
      u "**Important:** ";
      u "- Do NOT invent URLs. Provide search hints instead.";
      u "- Be realistic about time commitment";
      u "- Explain WHY each resource is recommended" ].

End ToolPrompts.

(* ================================================================== *)
(** * tools/transcript_tools.py: the tools *)
(* ================================================================== *)

Module TranscriptToolFunctions.
Import Py Eff Prompts ToolPrompts Router Settings SubjectMapper TranscriptService.

(** A JSON value where a grade is expected.  A boolean passes
    [isinstance(grade, (int, float))] and counts as 0 or 1. *)
Inductive GradeValue : Type :=
| GNone
| GNum (q : Q)
| GBool (b : bool)
| GStr (s : pystr)
| GOther.

(** One entry of the [grades] array of a reply: something that is not
    an object, or an object with its [subject] and [grade] keys
    ([None] is a key that is absent; a [subject] that is present is a
    string, as [TRANSCRIPT_SCHEMA] asks). *)
Inductive GradeItem : Type :=
| NotAnObject
| GradeObject (subject_ : option pystr) (grade_ : option GradeValue).

(** The object [generate_structured_output] returns for
    [TRANSCRIPT_SCHEMA].  A reply of another shape raises inside the
    [try] of [parse_transcript], which is what a call that raises
    does. *)
Record TranscriptReply : Type := {
  tr_grades : option (list GradeItem);
  tr_student_name : option pystr;
  tr_school : option pystr;
  tr_academic_year : option pystr;
  tr_gpa : option Q;
  tr_parsing_confidence : option pystr
}.

Record StudentInfo : Type := {
  si_name : option pystr;
  si_school : option pystr;
  si_year : option pystr
}.

(** The dictionary [parse_transcript] returns; [None] is a key that
    the branch does not set. *)
Record ParsedTranscript : Type := {
  pt_success : bool;
  pt_error : option pystr;
  pt_grades : option (dict GradeValue);
  pt_student_info : option StudentInfo;
  pt_gpa : option (option Q);
  pt_confidence : option pystr;
  pt_raw_text : option pystr
}.

Definition parse_prompt (raw_text : pystr) : pystr :=
  join nl
    [ u "You are analyzing a Portuguese high school transcript. Extract the grades from this text.";
      [];
      u "**Transcript text:**";
      raw_text;
      [];
      u "**Instructions:**";
      u "- Extract all subject grades (0-20 scale)";
      u "- Identify student name, school, and academic year if present";
      u "- Common Portuguese subject names: Matemática (Math), Física (Physics), Português (Portuguese), ";
      u "  Química (Chemistry), Biologia (Biology), História (History), Geografia (Geography), ";
      u "  Inglês (English), Filosofia (Philosophy), Educação Física (PE)";
      u "- If you see grades like " ++ dq ++ u "13/20" ++ dq ++ u " or " ++ dq ++ u "15 valores" ++ dq ++ u ", extract the number";
      u "- Set parsing_confidence based on clarity: " ++ dq ++ u "high" ++ dq ++ u " if clear, " ++ dq ++ u "medium" ++ dq ++ u " if some ambiguity, " ++ dq ++ u "low" ++ dq ++ u " if very unclear";
      [];
      u "Return a JSON object matching the schema." ].

(** The [for item in raw_grades] loop, with the dictionary built so far. *)
Fixpoint collect_grades (raw_grades : list GradeItem) (grades_ : dict GradeValue)
  : dict GradeValue :=
  match raw_grades with
  | [] => grades_
  | GradeObject (Some subject_) (Some grade_) :: rest =>
    collect_grades rest (setitem grades_ subject_ grade_)
  | _ :: rest => collect_grades rest grades_
  end.

(** [isinstance(grade, (int, float)) and 0 <= grade <= 20]. *)
Definition grade_in_range (grade_ : GradeValue) : bool :=
  match grade_ with
  | GNum q => leb 0 q && leb q 20
  | GBool _ => true
  | _ => false
  end.

(** [del d[k]]; [None] is the [KeyError] of a key that is not there. *)
Fixpoint delitem (V : Type) (d : dict V) (k : pystr) : option (dict V) :=
  match d with
  | [] => None
  | (k', v) :: rest =>
    if str_eqb k' k then Some rest
    else match delitem rest k with
         | Some rest' => Some ((k', v) :: rest')
         | None => None
         end
  end.

(** The [for subj in invalid_grades: del grades[subj]] loop; it stops
    at the first subject that raises. *)
Fixpoint delete_all (V : Type) (subjects : list pystr) (grades_ : dict V)
  : Outcome pystr (dict V) :=
  match subjects with
  | [] => Returned grades_
  | subj :: rest =>
    match delitem grades_ subj with
    | Some grades' => delete_all rest grades'
    | None => Raised subj
    end
  end.

(** [float(grade)] in the cleaning loop of [analyze_grades]: nothing
    where the grade is [None], or [float] raises [ValueError] or
    [TypeError]. *)
Definition float_of_grade (float_of_str : pystr -> option Q) (grade_ : GradeValue)
  : option Q :=
  match grade_ with
  | GNone => None
  | GNum q => Some q
  | GBool b => Some (if b then 1 else 0)
  | GStr s => float_of_str s
  | GOther => None
  end.

(** The [for subject, grade in student_grades.items()] loop, with the
    dictionary built so far. *)
Fixpoint clean_loop (float_of_str : pystr -> option Q)
         (items : dict GradeValue) (clean_grades : dict Q) : dict Q :=
  match items with
  | [] => clean_grades
  | (subject_, grade_) :: rest =>
    match float_of_grade float_of_str grade_ with
    | Some x => clean_loop float_of_str rest (setitem clean_grades subject_ x)
    | None => clean_loop float_of_str rest clean_grades
    end
  end.

(** [str(e)] for the errors of [services/transcript_service.py]. *)
Definition str_of_value_error (str_of_float : Q -> pystr) (e : ValueError) : pystr :=
  match e with
  | NoGradesProvided => u "No grades provided for analysis"
  | AllGradesNone => u "All grades are None - no valid data"
  | InvalidGrade subject_ grade_ =>
    u "Invalid grade for " ++ subject_ ++ u ": " ++ str_of_float grade_
      ++ u " (must be 0-20)"
  | MajorNotFound major_name =>
    u "Major '" ++ major_name ++ u "' not found in database"
  | NoRequirements major_name =>
    u "No requirements data for major '" ++ major_name ++ u "'"
  end.

(** One entry of the [analysis] array of a reply; [None] is a key that
    is absent, and the keys that are present hold strings, as
    [GAP_ANALYSIS_SCHEMA] asks.  The keys the tool does not read are
    left out. *)
Record AnalysisItem : Type := {
  ai_subject : option pystr;
  ai_recommendation : option pystr
}.

(** The object [generate_structured_output] returns for
    [GAP_ANALYSIS_SCHEMA]. *)
Record GapReply : Type := {
  gr_analysis : option (list AnalysisItem);
  gr_summary : option pystr
}.

(** [s.split()]: the words between runs of whitespace. *)
Fixpoint split_loop (s word : pystr) : list pystr :=
  match s with
  | [] => if truthy word then [word] else []
  | c :: t =>
    if is_space c
    then (if truthy word then word :: split_loop t [] else split_loop t [])
    else split_loop t (word ++ [c])
  end.

Definition split (s : pystr) : list pystr := split_loop s [].

(** The body of the post-processing loop over the reply's entries. *)
Definition sanitize_item (item : AnalysisItem) : AnalysisItem :=
  let subject_ := or_default (ai_subject item) [] in
  let item :=
    if (30 <? length subject_)%nat
    then
      (* Take only first word or truncate *)
      {| ai_subject :=
           Some (match split subject_ with
                 | first_word :: _ => firstn 30 first_word
                 | [] => firstn 30 subject_
                 end);
         ai_recommendation := ai_recommendation item |}
    else item in
  let recommendation := or_default (ai_recommendation item) [] in
  if (150 <? length recommendation)%nat
  then {| ai_subject := ai_subject item;
          ai_recommendation := Some (firstn 150 recommendation ++ u "...") |}
  else item.

Definition sanitize (llm_analysis : GapReply) : GapReply :=
  {| gr_analysis := option_map (map sanitize_item) (gr_analysis llm_analysis);
     gr_summary := gr_summary llm_analysis |}.

(** [item.get("recommendation", f"Improve {item.get('subject', 'this subject')}")]. *)
Definition recommendation_of (item : AnalysisItem) : pystr :=
  match ai_recommendation item with
  | Some recommendation => recommendation
  | None => u "Improve " ++ or_default (ai_subject item) (u "this subject")
  end.

(** What the tool recommends from a (sanitized) reply. *)
Definition llm_recommendations (llm_analysis : GapReply) : list pystr :=
  let recommendations :=
    map recommendation_of (firstn 3 (or_default (gr_analysis llm_analysis) [])) in
  (* If no specific recommendations but summary exists, use summary *)
  let recommendations :=
    match recommendations, gr_summary llm_analysis with
    | [], Some summary => if truthy summary then [summary] else recommendations
    | _, _ => recommendations
    end in
  match recommendations with
  | [] => [u "Focus on your weakest subjects"]
  | _ => recommendations
  end.

(** The [analysis] entry of the result. *)
Record Analysis : Type := {
  an_gpa : Q;
  an_overall_quality : pystr;
  an_strengths : list pystr;
  an_weaknesses : list pystr;
  an_passing_all : bool
}.

(** The dictionary [analyze_grades] returns; [None] is a key that the
    branch does not set.  A row of [gaps] holds the six fields of a
    [GradeGap] (under the keys [subject], [current_grade],
    [required_grade], [gap], [severity] and [priority]). *)
Record GradeAnalysis : Type := {
  ga_success : bool;
  ga_error : option pystr;
  ga_analysis : option Analysis;
  ga_gaps : option (list GradeGap);
  ga_readiness : option pystr;
  ga_major : option pystr;
  ga_llm_analysis : option GapReply;
  ga_recommendations : option (list pystr);
  ga_summary : option pystr
}.

Definition failed_analysis (error : pystr) : GradeAnalysis :=
  {| ga_success := false;
     ga_error := Some error;
     ga_analysis := None;
     ga_gaps := None;
     ga_readiness := None;
     ga_major := None;
     ga_llm_analysis := None;
     ga_recommendations := None;
     ga_summary := None |}.

Section Tools.
(** [Env] is the state of the collaborators.  [extract_text_from_pdf]
    is the PDF client, [generate_transcript] and [generate_gap_analysis]
    are [generate_structured_output] with [TRANSCRIPT_SCHEMA] and with
    [GAP_ANALYSIS_SCHEMA], [majors] is what [load_majors()] returns,
    [float_of_str] is [float] on a string ([None] where it raises
    [ValueError]), [str_of_float] and [format_1f] are the texts
    [f"{x}"] and [f"{x:.1f}"] give for a number, [json_dumps] is
    [json.dumps(d, ensure_ascii=False)] on a dictionary of numbers. *)
Variable Env : Type.
Variable extract_text_from_pdf : pystr -> Env -> Outcome PyException pystr * Env.
Variable generate_transcript : pystr -> Env -> Outcome PyException TranscriptReply * Env.
Variable generate_gap_analysis : pystr -> Env -> Outcome PyException GapReply * Env.
Variable majors : list Major.
Variable float_of_str : pystr -> option Q.
Variable str_of_float : Q -> pystr.
Variable format_1f : Q -> pystr.
Variable json_dumps : dict Q -> pystr.

(** A call of a collaborator that is not a model call. *)
Definition outside (A : Type) (f : Env -> Outcome PyException A * Env)
  : M (World Env) A :=
  fun w =>
    let (r, e') := f (env w) in
    (r, {| env := e'; trace := trace w |}).

(** The body of [parse_transcript]. *)
Definition parse_transcript (file_path : pystr) : M (World Env) ParsedTranscript :=
  try_except
    ((* Step 1: Extract text from PDF *)
     raw_text <- outside (extract_text_from_pdf file_path) ;;
     if negb (truthy raw_text) || (length (strip raw_text) <? 50)%nat then
       ret {| pt_success := false;
              pt_error := Some (u "PDF appears to be empty or unreadable");
              pt_grades := Some [];
              pt_student_info := None;
              pt_gpa := None;
              pt_confidence := None;
              pt_raw_text := None |}
     else
       (* Step 2: Use LLM to parse grades from text *)
       let prompt := parse_prompt raw_text in
       parsed_data <- ask (StructuredCall prompt) (generate_transcript prompt) ;;
       (* Step 3: Validate extracted grades *)
       let raw_grades := or_default (tr_grades parsed_data) [] in
       (* Convert list of objects to dictionary *)
       let grades_ := collect_grades raw_grades [] in
       if is_empty grades_ then
         ret {| pt_success := false;
                pt_error := Some (u "No grades found in the transcript");
                pt_grades := None;
                pt_student_info := None;
                pt_gpa := None;
                pt_confidence := None;
                pt_raw_text := Some (firstn 500 raw_text) |}
       else
         (* Validate grade values (must be 0-20) *)
         let invalid_grades :=
           filter (fun sg => negb (grade_in_range (snd sg))) grades_ in
         grades_ <-
           (if is_empty invalid_grades then ret grades_
            else
              (* Remove invalid grades *)
              match delete_all (keys invalid_grades) grades_ with
              | Returned grades' => ret grades'
              | Raised subj =>
                raise {| exc_type := u "KeyError";
                         exc_str := u "'" ++ subj ++ u "'" |}
              end) ;;
         ret {| pt_success := true;
                pt_error := None;
                pt_grades := Some grades_;
                pt_student_info :=
                  Some {| si_name := tr_student_name parsed_data;
                          si_school := tr_school parsed_data;
                          si_year := tr_academic_year parsed_data |};
                pt_gpa := Some (tr_gpa parsed_data);
                pt_confidence :=
                  Some (or_default (tr_parsing_confidence parsed_data) (u "medium"));
                pt_raw_text := Some (firstn 500 raw_text) |})
    (fun e =>
       ret {| pt_success := false;
              pt_error := Some (u "Failed to parse transcript: " ++ exc_str e);
              pt_grades := Some [];
              pt_student_info := None;
              pt_gpa := None;
              pt_confidence := None;
              pt_raw_text := None |}).

(** A [ValueError] of the transcript service, as [except Exception]
    sees it. *)
Definition value_or_raise (A : Type) (r : Outcome ValueError A) : M (World Env) A :=
  match r with
  | Returned a => ret a
  | Raised e =>
    raise {| exc_type := u "ValueError";
             exc_str := str_of_value_error str_of_float e |}
  end.

(** The body of [analyze_grades].  Step 0 turns a mapping that is not
    a [dict] into one; [student_grades] is that dictionary. *)
Definition analyze_grades (student_grades : dict GradeValue)
           (major_name : option pystr) : M (World Env) GradeAnalysis :=
  try_except
    ((* Step 0.5: Filter out None values and ensure numeric types *)
     let clean_grades := clean_loop float_of_str student_grades [] in
     let student_grades := clean_grades in
     if is_empty student_grades then
       ret (failed_analysis (u "No valid grades found in transcript"))
     else
       (* Step 0.75: Normalize subject names (Portuguese -> English) *)
       let student_grades := normalize_grade_dict student_grades in
       (* Step 1: Basic transcript analysis *)
       transcript_analysis <-
         value_or_raise
           (analyze_transcript (map (fun sg => (fst sg, Some (snd sg))) student_grades)) ;;
       let analysis_ :=
         {| an_gpa := gpa transcript_analysis;
            an_overall_quality := overall_quality transcript_analysis;
            an_strengths := strengths transcript_analysis;
            an_weaknesses := weaknesses transcript_analysis;
            an_passing_all := passing_all transcript_analysis |} in
       (* Step 2: Gap analysis if major specified *)
       match major_name with
       | Some ((_ :: _) as major_name) =>
         match compare_grades_to_requirements majors student_grades major_name with
         | Returned (gaps, readiness) =>
           (* Format gaps for output: only include actual gaps *)
           let gap_list := filter is_gap gaps in
           (* Sort by priority *)
           let gap_list := sorted_by priority gap_list in
           (* Generate LLM-enhanced recommendations using GAP_ANALYSIS_PROMPT *)
           try_except
             (let major_data := get_major_by_name majors major_name true in
              let major_requirements :=
                match major_data with
                | Some major_ => requirements major_
                | None => []
                end in
              let grades_json := json_dumps student_grades in
              let requirements_json := json_dumps major_requirements in
              let gap_prompt :=
                gap_analysis_prompt major_name grades_json requirements_json in
              llm_analysis <-
                ask (StructuredCall gap_prompt) (generate_gap_analysis gap_prompt) ;;
              (* Post-process: Sanitize LLM output *)
              let llm_analysis := sanitize llm_analysis in
              (* Use LLM-generated recommendations *)
              ret {| ga_success := true;
                     ga_error := None;
                     ga_analysis := Some analysis_;
                     ga_gaps := Some gap_list;
                     ga_readiness := Some readiness;
                     ga_major := Some major_name;
                     ga_llm_analysis := Some llm_analysis;
                     ga_recommendations := Some (llm_recommendations llm_analysis);
                     ga_summary := Some (or_default (gr_summary llm_analysis) []) |})
             (fun llm_error =>
                (* Fallback to simple recommendations if LLM fails *)
                ret {| ga_success := true;
                       ga_error := None;
                       ga_analysis := Some analysis_;
                       ga_gaps := Some gap_list;
                       ga_readiness := Some readiness;
                       ga_major := Some major_name;
                       ga_llm_analysis := None;
                       ga_recommendations :=
                         Some (if is_empty gap_list
                               then [ u "Your grades meet all requirements for "
                                        ++ major_name ++ u "!";
                                      u "Continue maintaining your strong performance" ]
                               else map (fun g =>
                                           u "Focus on " ++ subject g
                                             ++ u " (need to improve by "
                                             ++ format_1f (gap g) ++ u " points)")
                                        (firstn 3 gap_list));
                       ga_summary := None |})
         | Raised e =>
           (* Major not found or no requirements *)
           ret {| ga_success := true;
                  ga_error := None;
                  ga_analysis := Some analysis_;
                  ga_gaps := Some [];
                  ga_readiness := Some (u "unknown");
                  ga_major := None;
                  ga_llm_analysis := None;
                  ga_recommendations :=
                    Some [ u "Could not find requirement data for " ++ major_name;
                           u "Please verify the major name or try a different major" ];
                  ga_summary := None |}
         end
       | _ =>
         (* No major specified - general recommendations *)
         ret {| ga_success := true;
                ga_error := None;
                ga_analysis := Some analysis_;
                ga_gaps := None;
                ga_readiness := None;
                ga_major := None;
                ga_llm_analysis := None;
                ga_recommendations :=
                  Some (map (fun subj => u "Consider strengthening " ++ subj)
                            (firstn 2 (weaknesses transcript_analysis)));
                ga_summary := None |}
       end)
    (fun e => ret (failed_analysis (u "Failed to analyze grades: " ++ exc_str e))).

(** The tools as registered: each body under [retry_on_failure]. *)
Variable time_sleep : Q -> World Env -> World Env.

Definition parse_transcript_tool (file_path : pystr) :=
  TranscriptTools.retry_on_failure
    time_sleep (u "parse_transcript") (parse_transcript file_path) 2.

Definition analyze_grades_tool (student_grades : dict GradeValue)
           (major_name : option pystr) :=
  TranscriptTools.retry_on_failure
    time_sleep (u "analyze_grades") (analyze_grades student_grades major_name) 2.
End Tools.

End TranscriptToolFunctions.

(* ================================================================== *)
(** * services/resource_service.py *)
(* ================================================================== *)

Module ResourceService.
Import Py Eff Prompts ToolPrompts Router.

Record StudyResource : Type := {
  res_name : pystr;
  res_provider : pystr;
  res_type : pystr;
  res_language : pystr;
  res_free : bool;
  res_description : pystr;
  res_search_hint : pystr
}.

Record StudyPlan : Type := {
  sp_subject : pystr;
  sp_topic : option pystr;
  sp_resources : list StudyResource;
  sp_plan : pystr;
  sp_estimated_time : pystr;
  sp_priority_order : list pystr
}.

(** One entry of the [resources] array of a reply; [None] is a key
    that is absent.  The values that are present are strings (a
    boolean for [free]), as [RESOURCE_SCHEMA] asks. *)
Record ResourceData : Type := {
  rd_name : option pystr;
  rd_provider : option pystr;
  rd_type : option pystr;
  rd_language : option pystr;
  rd_free : option bool;
  rd_description : option pystr;
  rd_search_hint : option pystr
}.

(** The object [generate_structured_output] returns for
    [RESOURCE_SCHEMA]. *)
Record ResourceReply : Type := { rr_resources : option (list ResourceData) }.

(** [x or default] for an optional string. *)
Definition or_text (x : option pystr) (default : pystr) : pystr :=
  match x with
  | Some s => if truthy s then s else default
  | None => default
  end.

Definition _get_fallback_resources (subject : pystr) : list StudyResource :=
  [ {| res_name := u "Khan Academy: " ++ subject;
       res_provider := u "Khan Academy";
       res_type := u "video_course";
       res_language := u "PT/EN";
       res_free := true;
       res_description := u "Comprehensive video lessons with practice exercises";
       res_search_hint := u "Visit pt.khanacademy.org and search for " ++ subject |};
    {| res_name := subject ++ u " - YouTube Educational Channels";
       res_provider := u "YouTube";
       res_type := u "video_course";
       res_language := u "PT";
       res_free := true;
       res_description := u "Various educational channels covering the topic";
       res_search_hint := u "Search YouTube for '" ++ subject ++ u " aulas' or '"
                            ++ subject ++ u " explicação'" |} ].

(** The [for res_data in result.get("resources", [])] loop. *)
Fixpoint parse_resources (resources : list ResourceData) : list StudyResource :=
  match resources with
  | [] => []
  | res_data :: rest =>
    match rd_name res_data, rd_provider res_data, rd_type res_data,
          rd_language res_data, rd_description res_data, rd_search_hint res_data with
    | Some name_, Some provider_, Some type_, Some language_,
      Some description_, Some search_hint_ =>
      {| res_name := name_;
         res_provider := provider_;
         res_type := type_;
         res_language := language_;
         res_free := or_default (rd_free res_data) true;
         res_description := description_;
         res_search_hint := search_hint_ |} :: parse_resources rest
    | _, _, _, _, _, _ =>
      (* Skipping incomplete resource *)
      parse_resources rest
    end
  end.

(** Comparison of strings and of the sort key [(not r.free, r.type)]. *)
Fixpoint str_ltb (a b : pystr) : bool :=
  match a, b with
  | [], [] => false
  | [], _ :: _ => true
  | _ :: _, [] => false
  | x :: a', y :: b' =>
    if (x <? y)%N then true else if (y <? x)%N then false else str_ltb a' b'
  end.

Definition key_ltb (a b : bool * pystr) : bool :=
  match fst a, fst b with
  | false, true => true
  | true, false => false
  | _, _ => str_ltb (snd a) (snd b)
  end.

(** [sorted(l, key=key)] for such a key: ascending and stable. *)
Section SortedKey.
Variable A : Type.
Variable key : A -> bool * pystr.

Fixpoint insert_key (x : A) (l : list A) : list A :=
  match l with
  | [] => [x]
  | y :: l' => if key_ltb (key y) (key x) then y :: insert_key x l' else x :: l
  end.

Definition sorted_key (l : list A) : list A := fold_right insert_key [] l.
End SortedKey.

(** [str(n)] for an integer. *)
Definition str_of_int (n : Z) : pystr :=
  if (n <? 0)%Z then u "-" ++ str_of_nat (Z.to_nat (- n)) else str_of_nat (Z.to_nat n).

Definition plan_prompt (goal : pystr) (subject : pystr) (specifically : pystr) (time_str : pystr) (n_resources : pystr) : pystr :=
  join nl
    [ u "Create a brief study plan for a student who wants to " ++ goal ++ u " in " ++ subject ++ specifically ++ u ".";
      [];
      u "Available time: " ++ time_str;
      u "Resources available: " ++ n_resources ++ u " curated resources";
      [];
      u "Provide a 3-4 sentence study plan covering:";
      u "1. Where to start (foundational concepts)";
      u "2. How to progress (sequence of topics)";
      u "3. How to practice (exercises, problems)";
      u "4. Realistic timeline";
      [];
      u "Keep it encouraging and actionable." ].

(** A grade that [if current_grade and target_grade] takes as given:
    not [None] and not 0. *)
Definition given_grade (g : option Binary64.float) : option Binary64.float :=
  match g with
  | Some q => if Binary64.truthy q then Some q else None
  | None => None
  end.

Section Service.
(** [Env] is the state of the collaborators; [generate_resources] is
    [generate_structured_output] with [RESOURCE_SCHEMA], [call_llm] the
    text entry point, [str_of_float] the text [f"{grade}"] gives for a
    number. *)
Variable Env : Type.
Variable generate_resources : pystr -> Env -> Outcome PyException ResourceReply * Env.
Variable call_llm : pystr -> Q -> Env -> Outcome PyException pystr * Env.
Variable str_of_float : Binary64.float -> pystr.

Definition recommend_study_resources
  (subject : pystr) (topic : option pystr) (level : pystr) (goal : option pystr)
  : M (World Env) (list StudyResource) :=
  try_except
    ((* Format the prompt *)
     let prompt :=
       resource_generation_prompt
         subject (or_text topic (u "general")) level
         (or_text goal (u "improve understanding and grades")) in
     (* Generate structured output *)
     result <- ask (StructuredCall prompt) (generate_resources prompt) ;;
     (* Parse resources *)
     ret (parse_resources (or_default (rr_resources result) [])))
    (fun _ => ret (_get_fallback_resources subject)).

Definition create_study_plan
  (subject : pystr) (topic : option pystr)
  (current_grade target_grade : option Binary64.float)
  (available_time_per_week : option Z) : M (World Env) StudyPlan :=
  (* Determine level and goal *)
  let level_goal :=
    match given_grade current_grade, given_grade target_grade with
    | Some current, Some target =>
      let gap := Binary64.sub target current in
      if Binary64.leb gap (Binary64.of_Z 1) then
        (u "university_prep",
         u "maintain and refine knowledge (currently " ++ str_of_float current ++ u "/20)")
      else if Binary64.leb gap (Binary64.of_Z 3) then
        (u "high_school",
         u "improve from " ++ str_of_float current ++ u "/20 to "
           ++ str_of_float target ++ u "/20")
      else
        (u "beginner",
         u "build foundations to improve from " ++ str_of_float current
           ++ u "/20 to " ++ str_of_float target ++ u "/20")
    | _, _ => (u "high_school", u "improve understanding and grades")
    end in
  let level := fst level_goal in
  let goal := snd level_goal in
  (* Get resources *)
  resources <- recommend_study_resources subject topic level (Some goal) ;;
  (* Generate study plan narrative *)
  let time_str :=
    match available_time_per_week with
    | Some hours =>
      if (hours =? 0)%Z then u "flexible schedule"
      else str_of_int hours ++ u " hours/week"
    | None => u "flexible schedule"
    end in
  let specifically :=
    match topic with
    | Some t => if truthy t then u " (specifically " ++ t ++ u ")" else []
    | None => []
    end in
  let prompt :=
    plan_prompt goal subject specifically time_str (str_of_nat (length resources)) in
  plan_text <-
    try_except
      (ask (TextCall prompt (7 # 10)) (call_llm prompt (7 # 10)))
      (fun _ =>
         ret (u "Start with foundational " ++ or_text topic subject
                ++ u " concepts, practice regularly with exercises, and gradually work through more advanced material. Consistency is key!")) ;;
  (* Estimate time *)
  let estimated_time :=
    match given_grade current_grade, given_grade target_grade with
    | Some current, Some target =>
      let gap := Binary64.sub target current in
      if Binary64.leb gap (Binary64.of_Z 1) then u "2-4 weeks with regular practice"
      else if Binary64.leb gap (Binary64.of_Z 3) then u "2-3 months with 1 hour/day"
      else u "4-6 months with consistent effort"
    | _, _ => u "2-3 months with regular practice"
    end in
  (* Priority order: free first, then by type *)
  let priority :=
    map res_name
        (sorted_key (fun r => (negb (res_free r), res_type r)) resources) in
  ret {| sp_subject := subject;
         sp_topic := topic;
         sp_resources := resources;
         sp_plan := plan_text;
         sp_estimated_time := estimated_time;
         sp_priority_order := priority |}.
End Service.

End ResourceService.

(* ================================================================== *)
(** * tools/resource_tools.py *)
(* ================================================================== *)

Module ResourceTools.
Import Py Eff ResourceService.

(** The dictionary [find_study_resources] returns; [None] is a key
    that the branch does not set. *)
Record FoundResources : Type := {
  fr_success : bool;
  fr_error : option pystr;
  fr_resources : list StudyResource;
  fr_count : option nat;
  fr_subject : option pystr;
  fr_topic : option (option pystr)
}.

(** The dictionary [create_personalized_study_plan] returns. *)
Record PlanResult : Type := {
  pl_success : bool;
  pl_error : option pystr;
  pl_plan : option pystr;
  pl_resources : option (list StudyResource);
  pl_estimated_time : option pystr;
  pl_priority_order : option (list pystr);
  pl_subject : option pystr;
  pl_topic : option (option pystr)
}.

Section Tools.
Variable Env : Type.
Variable generate_resources : pystr -> Env -> Outcome PyException ResourceReply * Env.
Variable call_llm : pystr -> Q -> Env -> Outcome PyException pystr * Env.
Variable str_of_float : Binary64.float -> pystr.

(** The body of [find_study_resources]. *)
Definition find_study_resources
  (subject : pystr) (topic : option pystr) (level : pystr) (goal : option pystr)
  : M (World Env) FoundResources :=
  try_except
    ((* Use resource service to generate recommendations *)
     resources <- recommend_study_resources generate_resources
                                            subject topic level goal ;;
     match resources with
     | [] =>
       ret {| fr_success := false;
              fr_error := Some (u "Could not generate resource recommendations");
              fr_resources := [];
              fr_count := None;
              fr_subject := None;
              fr_topic := None |}
     | _ =>
       (* Format resources for output *)
       let formatted_resources := resources in
       ret {| fr_success := true;
              fr_error := None;
              fr_resources := formatted_resources;
              fr_count := Some (length formatted_resources);
              fr_subject := Some subject;
              fr_topic := Some topic |}
     end)
    (fun e =>
       ret {| fr_success := false;
              fr_error := Some (exc_str e);
              fr_resources := [];
              fr_count := None;
              fr_subject := None;
              fr_topic := None |}).

(** The body of [create_personalized_study_plan]. *)
Definition create_personalized_study_plan
  (subject : pystr) (topic : option pystr)
  (current_grade target_grade : option Binary64.float)
  (available_time_per_week : option Z) : M (World Env) PlanResult :=
  try_except
    ((* Use resource service to create plan *)
     study_plan <- create_study_plan generate_resources call_llm str_of_float
                                     subject topic current_grade target_grade
                                     available_time_per_week ;;
     ret {| pl_success := true;
            pl_error := None;
            pl_plan := Some (sp_plan study_plan);
            pl_resources := Some (sp_resources study_plan);
            pl_estimated_time := Some (sp_estimated_time study_plan);
            pl_priority_order := Some (sp_priority_order study_plan);
            pl_subject := Some subject;
            pl_topic := Some topic |})
    (fun e =>
       ret {| pl_success := false;
              pl_error := Some (exc_str e);
              pl_plan := None;
              pl_resources := None;
              pl_estimated_time := None;
              pl_priority_order := None;
              pl_subject := None;
              pl_topic := None |}).

(** The tools as registered: each body under [retry_on_failure]. *)
Variable time_sleep : Q -> World Env -> World Env.

Definition find_study_resources_tool
  (subject : pystr) (topic : option pystr) (level : pystr) (goal : option pystr) :=
  TranscriptTools.retry_on_failure
    time_sleep (u "find_study_resources")
    (find_study_resources subject topic level goal) 2.

Definition create_personalized_study_plan_tool
  (subject : pystr) (topic : option pystr)
  (current_grade target_grade : option Binary64.float)
  (available_time_per_week : option Z) :=
  TranscriptTools.retry_on_failure
    time_sleep (u "create_personalized_study_plan")
    (create_personalized_study_plan subject topic current_grade target_grade
                                    available_time_per_week) 2.
End Tools.

End ResourceTools.

(* ================================================================== *)
(** * The specification's vocabulary *)
(* ================================================================== *)

Module Spec.
Import Py Settings SubjectMapper.

(** The canonical form [find_matching_grade] compares: the name is
    lower-cased, then normalized. *)
Definition canonical (name_ : pystr) : pystr :=
  normalize_subject_name (lower name_).

(** [find_matching_grade] read with [normalize_subject_name] alone on
    both sides, the names taken as they are given. *)
Fixpoint first_normalized (target : pystr) (grades : dict Q) : option Q :=
  match grades with
  | [] => None
  | (k, v) :: rest =>
    if str_eqb (normalize_subject_name k) (normalize_subject_name target)
    then Some v
    else first_normalized target rest
  end.

Definition find_matching_grade_as_given (grades : dict Q) (target : pystr)
  : option Q :=
  match first_normalized target grades with
  | Some v => Some v
  | None => get grades target
  end.

(** ** Grades and gaps *)

Import TranscriptService.


Section Ranking.
Variable A : Type.
Variable key : A -> Q.

(** [l] is in descending order of [key]. *)
Definition Descending (l : list A) : Prop :=
  StronglySorted (fun a b => key b <= key a) l.

(** Elements with equal keys stand in [l'] in the order they have in [l]. *)
Definition Stable (l l' : list A) : Prop :=
  forall q, filter (fun a => Qeq_bool (key a) q) l'
            = filter (fun a => Qeq_bool (key a) q) l.

(** [ranked] is [l] sorted by [key], highest first, ties in the order
    of [l]. *)
Definition Ranked (l ranked : list A) : Prop :=
  Permutation ranked l /\ Descending ranked /\ Stable l ranked.


End Ranking.

(** What makes [analyze_transcript] refuse its input. *)
Definition invalid_grades (retained : dict Q) : Prop :=
  retained = [] \/ exists k v, In (k, v) retained /\ ~ (0 <= v /\ v <= 20).

(** The formulas of a [GradeGap] record. *)
Definition gap_record_ok (g : GradeGap) : Prop :=
  gap g == required_grade g - student_grade g /\
  (severity g = u "meets" <-> gap g <= 0) /\
  (severity g = u "close" <-> 0 < gap g /\ gap g <= 2) /\
  (severity g = u "significant" <-> 2 < gap g) /\
  (priority g = 1%Z <-> 4 < gap g) /\
  (priority g = 2%Z <-> 2 < gap g /\ gap g <= 4) /\
  (priority g = 3%Z <-> 0 < gap g /\ gap g <= 2) /\
  (priority g = 4%Z <-> gap g <= 0).

(** The student is below the requirement. *)
Definition gapped (g : GradeGap) : Prop := 0 < gap g.

Definition significant_gap (g : GradeGap) : Prop :=
  gapped g /\ severity g = u "significant".

(** [significant_gap], as the test the code performs. *)
Definition is_significant_gap (g : GradeGap) : bool :=
  is_gap g && str_eqb (severity g) (u "significant").

(** At least two elements of [l], at different positions, satisfy [P]. *)
Definition at_least_two (A : Type) (P : A -> Prop) (l : list A) : Prop :=
  exists l1 a1 l2 a2 l3, l = l1 ++ a1 :: l2 ++ a2 :: l3 /\ P a1 /\ P a2.

Definition some_gapped (gaps : list GradeGap) : Prop :=
  exists g, In g gaps /\ gapped g.

Definition all_gapped_close (gaps : list GradeGap) : Prop :=
  forall g, In g gaps -> gapped g -> severity g = u "close".

(** A name that no major of the dataset answers to, in the fuzzy sense
    of [get_major_by_name]. *)
Definition unresolvable (majors : list Major) (name_ : pystr) : Prop :=
  forall m, In m majors ->
    str_in (lower name_) (lower (name m)) = false /\
    forall pt, name_pt m = Some pt -> str_in (lower name_) (lower pt) = false.

(** ** Major matching *)

Import MajorService.

(** The number of distinct strings of [a] that also occur in [b]. *)
Definition common (a b : list pystr) : nat :=
  length (set_of (filter (fun x => mem x b) a)).

Definition count (n : nat) : Q := inject_Z (Z.of_nat n).

Section ScoreTerms.
Variable interests : option (list pystr).
Variable favorite_subjects : option (list pystr).
Variable career_goals : option pystr.

(** The interests, lower-cased. *)
Definition given_interests : list pystr := map lower (or_empty interests).

(** The favourite subjects, lower-cased, as given and as normalized. *)
Definition given_subjects : list pystr :=
  mapped_subjects (map lower (or_empty favorite_subjects)).

(** 0.4 x |interests n keywords| / max(|interests|, 1), when the
    intersection is not empty. *)
Definition interest_term (m : Major) : Q :=
  let n := common given_interests (map lower (keywords m)) in
  if (0 <? n)%nat
  then (4 # 10) * (count n / Qmax (count (length given_interests)) 1)
  else 0.

(** 0.3 x |subjects n requirement keys| / |requirements|, when
    favourite subjects are supplied and the intersection is not empty. *)
Definition subject_term (m : Major) : Q :=
  match or_empty favorite_subjects with
  | [] => 0
  | _ :: _ =>
    let n := common given_subjects (map lower (keys (requirements m))) in
    if (0 <? n)%nat
    then (3 # 10) * (count n / count (length (requirements m)))
    else 0
  end.

(** The goal and some career path contain one another, case aside. *)
Definition career_related (goal : pystr) (m : Major) : bool :=
  existsb (fun cp => str_in (lower goal) (lower cp) || str_in (lower cp) (lower goal))
          (career_paths m).

(** 0.3 flat, when a career goal is supplied and related to the major. *)
Definition career_term (m : Major) : Q :=
  match career_goals with
  | Some ((_ :: _) as goal) => if career_related goal m then 3 # 10 else 0
  | _ => 0
  end.

(** The interests that occur in the description of the major. *)
Definition description_matches (m : Major) : nat :=
  length (filter (fun i => str_in i (lower (description m))) given_interests).

(** 0.1 x min(descMatches / |interests|, 1), when interests is not empty. *)
Definition description_bonus (m : Major) : Q :=
  match given_interests with
  | [] => 0
  | _ :: _ =>
    (1 # 10) * Qmin (count (description_matches m)
                     / count (length given_interests)) 1
  end.

Definition total_score (m : Major) : Q :=
  interest_term m + subject_term m + career_term m + description_bonus m.
End ScoreTerms.

(** The integer [top_n] stands for: 5 when the argument is falsy
    ([None], 0, the empty string), the integer itself, or the integer a
    string spells. *)
Definition resolved_top_n (t : TopN) (n : Z) : Prop :=
  (top_n_truthy t = false /\ n = 5%Z) \/
  (exists k, t = TopInt k /\ k <> 0%Z /\ n = k) \/
  (exists s, t = TopStr s /\ s <> [] /\ int_of_str s = Some n).

(** [l] without its last [k] elements. *)
Definition drop_last (A : Type) (k : nat) (l : list A) : list A :=
  rev (skipn k (rev l)).

(** No keyword of [a] is, case aside, a keyword of [b]. *)
Definition no_keyword_overlap (a b : Major) : Prop :=
  forall kw, In kw (map lower (keywords a)) -> ~ In kw (map lower (keywords b)).

(** ** Router and orchestrator *)

Import Router.

(** The message holds, somewhere and in any letter case, a phrase of
    the crisis keyword list. *)
Definition contains_crisis_phrase (message : pystr) : Prop :=
  exists before phrase after,
    message = before ++ phrase ++ after /\ In (lower phrase) CRISIS_KEYWORDS.

(** No major was extracted: the entry is missing, [None] or empty. *)
Definition no_major (ir : IntentResult) : Prop :=
  ctx_major (context ir) = None \/ ctx_major (context ir) = Some [].

(** Files were uploaded in the turn that was classified. *)
Definition transcript_present (ir : IntentResult) : Prop :=
  ctx_has_transcript (context ir) = Some true.

(** Only the classification request was sent to the model. *)
Definition only_classification (events : list Eff.Event) : Prop :=
  Forall (fun ev => match ev with Eff.StructuredCall _ => True | _ => False end)
         events.

End Spec.

(* ================================================================== *)
(** * Sample data *)
(* ================================================================== *)

Module Samples.
Import Py Settings.

Definition grades_pt : dict Q := [(u "Matemática A", 16)].
Definition grades_mixed : dict Q := [(u "Física", 12); (u "MATH", 15)].
Definition grades_lower : dict Q := [(u "math", 15)].

(** A dataset of two majors. *)
Definition computer_science : Major :=
  {| id := u "computer_science";
     name := u "Computer Science";
     name_pt := Some (u "Engenharia Informática");
     description := u "Study of programming, algorithms and software systems";
     requirements := [(u "Math", 16); (u "Physics", 14); (u "Portuguese", 12)];
     keywords := [u "Programming"; u "math"; u "technology"];
     career_paths := [u "Software Engineer"; u "Data Scientist"] |}.

Definition medicine : Major :=
  {| id := u "medicine";
     name := u "Medicine";
     name_pt := None;
     description := u "Study of health and the human body";
     requirements := [(u "Biology", 17); (u "Chemistry", 16)];
     keywords := [u "health"; u "biology"];
     career_paths := [u "Doctor"] |}.

Definition majors : list Major := [computer_science; medicine].

(** A major whose only requirement is Math: 16. *)
Definition math_only : Major :=
  {| id := u "mathematics";
     name := u "Mathematics";
     name_pt := None;
     description := u "Study of numbers and structures";
     requirements := [(u "Math", 16)];
     keywords := [u "math"];
     career_paths := [] |}.

Definition transcript : dict Q :=
  [(u "Matemática A", 15); (u "Física e Química A", 14 # 1); (u "Português", 11)].

Definition report : dict (option Q) :=
  [(u "Math", Some 18); (u "Physics", Some 15); (u "Art", None);
   (u "History", Some 9); (u "English", Some 15)].

(** ** Collaborators for the examples *)

Import Eff Router.

(** A clock that advances by one second at each reading. *)
Definition ticking (n : nat) : Q * nat := (inject_Z (Z.of_nat n), S n).

Definition session_uuid : pystr := u "6f1c2a9e-0000-4000-8000-000000000001".

(** The model is unreachable: every request fails. *)
Definition offline : Collaborators nat pystr pystr :=
  {| generate_structured_output :=
       fun _ e => (Py.Raised {| exc_type := u "ConnectionError";
                                exc_str := u "model unreachable" |}, e);
     call_llm :=
       fun _ _ e => (Py.Raised {| exc_type := u "ConnectionError";
                                  exc_str := u "model unreachable" |}, e);
     call_llm_with_tools :=
       fun _ e => (Py.Raised {| exc_type := u "ConnectionError";
                                exc_str := u "model unreachable" |}, e);
     time_time := ticking;
     uuid4 := fun e => (session_uuid, e);
     str_payload := fun p => p |}.

(** The model recognises a readiness question about Computer Science. *)
Definition readiness_reply : StructuredOutput :=
  {| so_intent := Some (u "gap_analysis");
     so_confidence := Some (9 # 10);
     so_reasoning := Some (u "asks about readiness for a major");
     so_entities :=
       Some {| major_mentioned := Some (u "Computer Science");
               subjects_mentioned := None;
               interests_mentioned := None;
               has_transcript_reference := Some false |} |}.

Definition attentive : Collaborators nat pystr pystr :=
  {| generate_structured_output := fun _ e => (Py.Returned readiness_reply, e);
     call_llm := fun _ _ e => (Py.Returned (u "Happy to help."), e);
     call_llm_with_tools := fun _ e => (Py.Returned None, e);
     time_time := ticking;
     uuid4 := fun e => (session_uuid, e);
     str_payload := fun p => p |}.

(** A registry with one tool that answers and one that fails. *)
Definition registry : dict (Tool nat pystr pystr) :=
  [ (u "echo", fun args e => (Py.Returned args, e));
    (u "broken", fun _ e => (Py.Raised {| exc_type := u "ValueError";
                                          exc_str := u "bad input" |}, e)) ].

Definition orchestrator : Orchestrator.AgentOrchestrator nat pystr pystr :=
  {| Orchestrator.tool_registry := registry;
     Orchestrator.max_iterations := 5;
     Orchestrator.max_tool_calls := 10 |}.

Definition world0 : World nat := {| env := 0%nat; trace := [] |}.

End Samples.

(* ================================================================== *)
(** * Vocabulary of the further properties *)
(* ================================================================== *)

Module Invariants.
Import PyStr Py Eff Settings SubjectMapper TranscriptService MajorService.
Import Prompts Router Orchestrator.

(** [key] is a subject of [g], as given or normalized. *)
Definition named (g : dict Q) (key : pystr) : Prop :=
  exists k, In k (keys g) /\ (key = k \/ key = normalize_subject_name k).

(** The major answers to a lower-cased name in the fuzzy sense of
    [get_major_by_name]: its English or its Portuguese name holds it. *)
Definition answers_to (name_lower : pystr) (m : Major) : Prop :=
  str_in name_lower (lower (name m)) = true \/
  exists pt, name_pt m = Some pt /\ str_in name_lower (lower pt) = true.

(** Larger gap bands first: after an entry with a gap of at most 2 (at
    most 4) no entry has a larger one. *)
Definition band_sorted (entries : list GapEntry) : Prop :=
  StronglySorted
    (fun a b => (ge_gap a <= 2 -> ge_gap b <= 2) /\
                (ge_gap a <= 4 -> ge_gap b <= 4))
    entries.

Definition disjoint (a b : list pystr) : Prop :=
  forall k, In k a -> In k b -> False.

(** The three tests of the loop of [search_majors], as one. *)
Definition search_hit (query_lower : pystr) (m : Major) : bool :=
  str_in query_lower (lower (name m))
  || existsb (fun kw => str_in query_lower kw || str_in kw query_lower)
             (map lower (keywords m))
  || str_in query_lower (lower (description m)).

(** The questions [requires_clarification] asks. *)
Definition question_rephrase : pystr :=
  u "I'm not quite sure what you're looking for. Could you rephrase that?".
Definition question_which_major : pystr :=
  u "Which major would you like me to check your readiness for?".
Definition question_upload : pystr :=
  u "I'll need to see your transcript to help with that. Could you upload your grades PDF?".

Definition is_structured (e : Event) : bool :=
  match e with StructuredCall _ => true | _ => false end.
Definition is_text (e : Event) : bool :=
  match e with TextCall _ _ => true | _ => false end.
Definition is_decision (e : Event) : bool :=
  match e with ToolsCall _ => true | _ => false end.
Definition is_invoked (e : Event) : bool :=
  match e with ToolInvoked _ => true | _ => false end.

(** How many events of a kind a stretch of the request log holds. *)
Definition count_events (p : Event -> bool) (evs : list Event) : nat :=
  length (filter p evs).

Section RunInvariants.
Variables Env Args Payload : Type.
Variable C : Collaborators Env Args Payload.
Variable self : AgentOrchestrator Env Args Payload.

(** The log of tool calls and the list of tool results name the same
    tools with the same outcomes, in the same order. *)
Definition aligned (s : AgentState Args Payload) : Prop :=
  map (fun l => (log_tool l, log_success l)) (tool_calls s)
  = map (fun r => (tool_name r, Orchestrator.success r)) (tool_results s).

(** The fields that describe the request are those of [s]. *)
Definition same_request (s s' : AgentState Args Payload) : Prop :=
  user_message s' = user_message s /\
  conversation_history s' = conversation_history s /\
  uploaded_files s' = uploaded_files s /\
  session_id s' = session_id s /\
  user_id s' = user_id s /\
  start_time s' = start_time s.

(** What a stretch of a run may do to the agent state and the world:
    at most [decisions] tool decisions and [texts] text completions
    are asked of the model, no classification, and every tool that is
    invoked leaves a tool result. *)
Definition Step (decisions texts : nat)
           (sw sw' : AgentState Args Payload * World Env) : Prop :=
  same_request (fst sw) (fst sw') /\
  (aligned (fst sw) -> aligned (fst sw')) /\
  (error_message (fst sw) = None -> error_message (fst sw') = None) /\
  Orchestrator.intent (fst sw') = Orchestrator.intent (fst sw) /\
  exists new,
    trace (snd sw') = trace (snd sw) ++ new /\
    count_events is_structured new = 0%nat /\
    (count_events is_decision new <= decisions)%nat /\
    (count_events is_text new <= texts)%nat /\
    (count_events is_invoked new + length (tool_results (fst sw))
     <= length (tool_results (fst sw')))%nat.

Definition run_step (decisions texts : nat) (A : Type)
           (m : Run Env Args Payload A) : Prop :=
  forall sw, Step decisions texts sw (snd (m sw)).

(** [run_try] from the test of the clarification question on. *)
Definition after_classification (user_message_ : pystr) (intent_ : IntentResult)
  : Run Env Args Payload bool :=
  match if_truthy (requires_clarification intent_) with
  | Some clarification_question =>
    update (set_final_response clarification_question) ;;;
    update (set_status COMPLETED) ;;;
    stamp_total C ;;;
    ret true
  | None =>
    if intent_eqb (Router.intent intent_) GREETING_OR_CHITCHAT then
      r <- lift (_handle_greeting C user_message_) ;;
      update (set_final_response r) ;;;
      update (set_status COMPLETED) ;;;
      stamp_total C ;;;
      ret true
    else
      update (set_status THINKING) ;;;
      s <- @state Env Args Payload ;;
      plan_ <- _create_plan s ;;
      update (set_plan plan_) ;;;
      act_loop C self (max_iterations self) ;;;
      update (set_status SYNTHESIZING) ;;;
      final_response_ <- _synthesize_response C ;;
      update (set_final_response final_response_) ;;;
      update (set_status COMPLETED) ;;;
      ret false
  end.
End RunInvariants.

(** ** Further sample data *)

(** A call that times out twice and then answers; the state counts the
    attempts. *)
Definition flaky : M nat pystr :=
  fun attempts_made =>
    if (attempts_made <? 2)%nat
    then (Raised {| exc_type := u "TimeoutError"; exc_str := u "timeout" |},
          S attempts_made)
    else (Returned (u "ok"), attempts_made).

(** [time.sleep] leaves the attempt counter alone. *)
Definition no_sleep (seconds : Q) (attempts_made : nat) : nat := attempts_made.

End Invariants.

(* ================================================================== *)
(** * The vocabulary of the statements about the tools *)
(* ================================================================== *)

Module ToolInvariants.
Import Py Eff Router Settings SubjectMapper TranscriptService.
Import TranscriptToolFunctions ResourceService ResourceTools.

(** An entry of a reply that has the six keys a resource needs. *)
Definition complete (d : ResourceData) : bool :=
  match rd_name d, rd_provider d, rd_type d,
        rd_language d, rd_description d, rd_search_hint d with
  | Some _, Some _, Some _, Some _, Some _, Some _ => true
  | _, _, _, _, _, _ => false
  end.

(** The resource a complete entry stands for. *)
Definition resource_of (d : ResourceData) : StudyResource :=
  {| res_name := or_default (rd_name d) [];
     res_provider := or_default (rd_provider d) [];
     res_type := or_default (rd_type d) [];
     res_language := or_default (rd_language d) [];
     res_free := or_default (rd_free d) true;
     res_description := or_default (rd_description d) [];
     res_search_hint := or_default (rd_search_hint d) [] |}.

(** Free resources first, and by type within the free and within the
    paid ones. *)
Definition priority_sorted (l : list StudyResource) : Prop :=
  StronglySorted
    (fun a b => (res_free b = true -> res_free a = true) /\
                (res_free a = res_free b ->
                 str_ltb (res_type b) (res_type a) = false))
    l.

(** An entry of a transcript reply that the tool reads: an object
    with a subject and a grade. *)
Definition has_subject_and_grade (item : GradeItem) : bool :=
  match item with
  | GradeObject (Some _) (Some _) => true
  | _ => false
  end.

(** The subject of such an entry. *)
Definition item_subject (item : GradeItem) : option pystr :=
  match item with
  | GradeObject (Some subject_) (Some _) => Some subject_
  | _ => None
  end.

(** The grades [analyze_grades] works on: the input cleaned, then
    with the normalized subject names added. *)
Definition cleaned (float_of_str : pystr -> option Q)
           (student_grades : dict GradeValue) : dict Q :=
  normalize_grade_dict (clean_loop float_of_str student_grades []).

(** The grades as [analyze_transcript] takes them. *)
Definition as_optional (grades_ : dict Q) : dict (option Q) :=
  map (fun sg => (fst sg, Some (snd sg))) grades_.

(** An entry of a gap analysis after the post-processing: a subject
    of at most 30 characters and a recommendation of at most 153. *)
Definition short_item (item : AnalysisItem) : Prop :=
  (length (or_default (ai_subject item) []) <= 30)%nat /\
  (length (or_default (ai_recommendation item) []) <= 153)%nat.

End ToolInvariants.

(* ================================================================== *)
(** * The grade engine and the matcher on binary64 numbers *)
(* ================================================================== *)

(** [utils/subject_mapper.py] and [config/settings.py], for grades that
    are floats. *)
Module SubjectMapper64.
Import SubjectMapper Binary64.

(** The [for subject, grade in grades.items()] loop of
    [find_matching_grade]. *)
Fixpoint find_normalized (target_norm : pystr) (items : Py.dict float)
  : option float :=
  match items with
  | [] => None
  | (subject, grade) :: rest =>
    let subject_norm := normalize_subject_name (lower subject) in
    if str_eqb subject_norm target_norm then Some grade
    else find_normalized target_norm rest
  end.

Definition find_matching_grade (grades : Py.dict float) (target_subject : pystr)
  : option float :=
  let target_norm := normalize_subject_name (lower target_subject) in
  match find_normalized target_norm grades with
  | Some grade => Some grade
  | None =>
    if Py.contains grades target_subject
    then Py.get grades target_subject
    else None
  end.

End SubjectMapper64.

Module Settings64.
Import Binary64.

Definition PASSING_GRADE : float := of_Z 10.
Definition MAX_GRADE : float := of_Z 20.

Definition validate_grade (grade : float) : bool :=
  leb (of_Z 0) grade && leb grade MAX_GRADE.

(** The requirements of a major as [json.load] reads them. *)
Definition requirements (m : Settings.Major) : Py.dict float :=
  map (fun sr => (fst sr, of_Q (snd sr))) (Settings.requirements m).

End Settings64.

(** [services/transcript_service.py]. *)
Module TranscriptService64.
Import Binary64 SubjectMapper64 Settings64.

(** The [ValueError]s the service raises, one constructor per [raise]. *)
Inductive ValueError : Type :=
| NoGradesProvided                              (* "No grades provided for analysis" *)
| AllGradesNone                                 (* "All grades are None - no valid data" *)
| InvalidGrade (subject : pystr) (grade : float) (* "Invalid grade for {subject}: {grade} (must be 0-20)" *)
| MajorNotFound (major_name : pystr)            (* "Major '{major_name}' not found in database" *)
| NoRequirements (major_name : pystr).          (* "No requirements data for major '{major_name}'" *)

Definition is_InvalidInput (e : ValueError) : bool :=
  match e with
  | NoGradesProvided | AllGradesNone | InvalidGrade _ _ => true
  | _ => false
  end.

Record GradeGap : Type := {
  subject : pystr;
  student_grade : float;
  required_grade : float;
  gap : float;
  severity : pystr;
  priority : Z
}.

Definition is_gap (g : GradeGap) : bool := gtb (gap g) (of_Z 0).

Record TranscriptAnalysis : Type := {
  grades : Py.dict float;
  gpa : float;
  strengths : list pystr;
  weaknesses : list pystr;
  passing_all : bool;
  overall_quality : pystr
}.

(** [{k: v for k, v in grades.items() if v is not None}]. *)
Fixpoint drop_none (grades_ : Py.dict (option float)) : Py.dict float :=
  match grades_ with
  | [] => []
  | (k, Some v) :: rest => (k, v) :: drop_none rest
  | (_, None) :: rest => drop_none rest
  end.

Definition is_empty (A : Type) (l : list A) : bool :=
  match l with [] => true | _ => false end.

Definition analyze_transcript (grades_in : Py.dict (option float))
  : Py.Outcome ValueError TranscriptAnalysis :=
  if is_empty grades_in then Py.Raised NoGradesProvided
  else
    let grades_ := drop_none grades_in in
    if is_empty grades_ then Py.Raised AllGradesNone
    else
      match find (fun sg => negb (validate_grade (snd sg))) grades_ with
      | Some (subject_, grade) => Py.Raised (InvalidGrade subject_ grade)
      | None =>
        let gpa_ := div (sum (Py.values grades_)) (of_nat (length grades_)) in
        let sorted_subjects := sorted_reverse (@snd pystr float) grades_ in
        let strengths_ :=
          map fst (filter (fun sg => geb (snd sg) (of_Z 14)) (firstn 3 sorted_subjects)) in
        let weaknesses_ :=
          map fst (filter (fun sg => ltb (snd sg) (of_Z 14))
                          (Py.slice_last 3 sorted_subjects)) in
        let passing_all_ :=
          forallb (fun grade => geb grade PASSING_GRADE) (Py.values grades_) in
        let overall_quality_ :=
          if geb gpa_ (of_Z 17) then u "excellent"
          else if geb gpa_ (of_Z 15) then u "good"
          else if geb gpa_ (of_Z 12) then u "adequate"
          else u "needs_improvement" in
        Py.Returned {| grades := grades_;
                       gpa := gpa_;
                       strengths := strengths_;
                       weaknesses := weaknesses_;
                       passing_all := passing_all_;
                       overall_quality := overall_quality_ |}
      end.

(** The body of the [for subject, required_grade in requirements.items()]
    loop of [compare_grades_to_requirements]. *)
Definition grade_gap (student_grades : Py.dict float) (req : pystr * float)
  : GradeGap :=
  let (subject_, required_grade_) := req in
  let student_grade_ :=
    match find_matching_grade student_grades subject_ with
    | Some grade => grade
    | None => PASSING_GRADE
    end in
  let gap_value := sub required_grade_ student_grade_ in
  let severity_ :=
    if leb gap_value (of_Z 0) then u "meets"
    else if leb gap_value (of_Z 2) then u "close"
    else u "significant" in
  let priority_ :=
    if gtb gap_value (of_Z 4) then 1%Z
    else if gtb gap_value (of_Z 2) then 2%Z
    else if gtb gap_value (of_Z 0) then 3%Z
    else 4%Z in
  {| subject := subject_;
     student_grade := student_grade_;
     required_grade := required_grade_;
     gap := gap_value;
     severity := severity_;
     priority := priority_ |}.

(** The readiness label computed from the list of gaps. *)
Definition overall_readiness (gaps : list GradeGap) : pystr :=
  let actual_gaps := filter is_gap gaps in
  if is_empty actual_gaps then u "ready"
  else if forallb (fun g => str_eqb (severity g) (u "close")) actual_gaps
  then u "mostly_ready"
  else if existsb (fun g => str_eqb (severity g) (u "significant")) actual_gaps
  then
    if (2 <=? length (filter (fun g => str_eqb (severity g) (u "significant")) actual_gaps))%nat
    then u "significant_gaps"
    else u "needs_improvement"
  else u "needs_improvement".

Definition compare_grades_to_requirements
  (majors : list Settings.Major) (student_grades : Py.dict float)
  (major_name : pystr)
  : Py.Outcome ValueError (list GradeGap * pystr) :=
  match Settings.get_major_by_name majors major_name true with
  | None => Py.Raised (MajorNotFound major_name)
  | Some major =>
    let requirements_ := requirements major in
    if is_empty requirements_ then Py.Raised (NoRequirements major_name)
    else
      let gaps := map (grade_gap student_grades) requirements_ in
      Py.Returned (gaps, overall_readiness gaps)
  end.

(** The dictionaries [identify_grade_gaps] returns. *)
Record GapEntry : Type := {
  ge_subject : pystr;
  ge_current : float;
  ge_required : float;
  ge_gap : float;
  ge_severity : pystr
}.

Record StrengthEntry : Type := {
  se_subject : pystr;
  se_grade : float;
  se_required : float;
  se_excess : float
}.

Record GapSummary : Type := {
  gs_readiness : pystr;
  gs_total_gaps : nat;
  gs_gaps : list GapEntry;
  gs_strengths : list StrengthEntry;
  gs_priority_subjects : list pystr
}.

Definition identify_grade_gaps
  (majors : list Settings.Major) (student_grades : Py.dict float)
  (major_name : pystr)
  : Py.Outcome ValueError GapSummary :=
  match compare_grades_to_requirements majors student_grades major_name with
  | Py.Raised e => Py.Raised e
  | Py.Returned (gaps, readiness) =>
    (* Filter only actual gaps *)
    let actual_gaps := filter is_gap gaps in
    (* Sort by priority *)
    let actual_gaps := Py.sorted_by priority actual_gaps in
    (* Get subjects meeting requirements *)
    let meeting := filter (fun g => negb (is_gap g)) gaps in
    Py.Returned
      {| gs_readiness := readiness;
         gs_total_gaps := length actual_gaps;
         gs_gaps :=
           map (fun g => {| ge_subject := subject g;
                            ge_current := student_grade g;
                            ge_required := required_grade g;
                            ge_gap := gap g;
                            ge_severity := severity g |})
               actual_gaps;
         gs_strengths :=
           map (fun g => {| se_subject := subject g;
                            se_grade := student_grade g;
                            se_required := required_grade g;
                            se_excess := neg (gap g) |})
               meeting;
         gs_priority_subjects := map subject (firstn 3 actual_gaps) |}
  end.

End TranscriptService64.

(** [services/major_service.py]: the scoring loop of
    [match_interests_to_majors]. *)
Module MajorService64.
Import Settings Binary64.

Record MajorMatch : Type := {
  major : Major;
  score : float;
  reasons : list pystr;
  matching_keywords : list pystr
}.

(** The state of one round of the [for major in majors] loop. *)
Record Acc : Type := {
  acc_score : float;
  acc_reasons : list pystr;
  acc_matching_kw : list pystr
}.

Definition len (A : Type) (l : list A) : float := of_nat (length l).

Section Scoring.
Variable interests : option (list pystr).
Variable favorite_subjects : option (list pystr).
Variable career_goals : option pystr.

(** Interest matching (40% weight). *)
Definition step_interests (m : Major) (a : Acc) : Acc :=
  let im := MajorService.interest_matches interests m in
  if MajorService.nonempty im then
    {| acc_score :=
         add (acc_score a)
             (mul (of_Q (4 # 10))
                  (div (len im)
                       (of_nat (Nat.max (length (MajorService.interests_lower interests)) 1))));
       acc_reasons := acc_reasons a
                      ++ [u "Matches your interests: " ++ join (u ", ") im];
       acc_matching_kw := Py.set_union (acc_matching_kw a) im |}
  else a.

(** Subject matching (30% weight). *)
Definition step_subjects (m : Major) (a : Acc) : Acc :=
  if MajorService.nonempty (MajorService.or_empty favorite_subjects) then
    let sm := MajorService.subject_matches favorite_subjects m in
    if MajorService.nonempty sm then
      {| acc_score :=
           add (acc_score a)
               (mul (of_Q (3 # 10)) (div (len sm) (len (Settings.requirements m))));
         acc_reasons := acc_reasons a
                        ++ [u "Aligns with your strong subjects: " ++ join (u ", ") sm];
         acc_matching_kw := Py.set_union (acc_matching_kw a) sm |}
    else a
  else a.

(** Career goal matching (30% weight). *)
Definition step_career (m : Major) (a : Acc) : Acc :=
  match career_goals with
  | Some g =>
    if PyStr.truthy g && MajorService.career_hit career_goals m then
      {| acc_score := add (acc_score a) (of_Q (3 # 10));
         acc_reasons := acc_reasons a ++ [u "Matches your career goals"];
         acc_matching_kw := acc_matching_kw a |}
    else a
  | None => a
  end.

(** Bonus: description matching. *)
Definition step_description (m : Major) (a : Acc) : Acc :=
  let dm := MajorService.desc_matches interests m in
  let n := length (MajorService.interests_lower interests) in
  if (0 <? dm)%nat && (0 <? n)%nat then
    {| acc_score :=
         add (acc_score a)
             (mul (of_Q (1 # 10)) (min (div (of_nat dm) (of_nat n)) (of_Z 1)));
       acc_reasons := acc_reasons a;
       acc_matching_kw := acc_matching_kw a |}
  else a.

(** The body of the loop up to the test [score > 0]. *)
Definition score_major (m : Major) : Acc :=
  step_description m
    (step_career m
       (step_subjects m
          (step_interests m
             {| acc_score := zero; acc_reasons := []; acc_matching_kw := [] |}))).

(** The list [matches] when the loop ends. *)
Fixpoint collect_matches (majors : list Major) : list MajorMatch :=
  match majors with
  | [] => []
  | m :: rest =>
    let a := score_major m in
    if gtb (acc_score a) (of_Z 0) then
      {| major := m;
         score := acc_score a;
         reasons := if MajorService.nonempty (acc_reasons a) then acc_reasons a
                    else [u "General interest alignment"];
         matching_keywords := acc_matching_kw a |}
        :: collect_matches rest
    else collect_matches rest
  end.

Definition match_interests_to_majors (majors : list Major) (top_n : MajorService.TopN)
  : Py.Outcome MajorService.ValueError (list MajorMatch) :=
  match MajorService.coerce_top_n top_n with
  | Py.Raised e => Py.Raised e
  | Py.Returned top_n_ =>
    let matches := collect_matches majors in
    let matches := sorted_reverse score matches in
    Py.Returned (Py.slice_to matches top_n_)
  end.
End Scoring.

End MajorService64.

(* ================================================================== *)
(** * The vocabulary of the statements on binary64 numbers *)
(* ================================================================== *)

Module Spec64.
Import Py Binary64 Settings.

(** ** The order of the floats *)

Definition le (x y : float) : Prop := leb x y = true.
Definition lt (x y : float) : Prop := ltb x y = true.

(** Where a float that is not NaN stands on the line: the sign class,
    then exponent and mantissa.  Finite floats are taken as the
    operations produce them, one mantissa width for all. *)
Definition rank (x : float) : Z * Z * Z :=
  match x with
  | SpecFloat.S754_nan => (0, 0, 0)
  | SpecFloat.S754_zero _ => (0, 0, 0)
  | SpecFloat.S754_infinity true => (-2, 0, 0)
  | SpecFloat.S754_infinity false => (2, 0, 0)
  | SpecFloat.S754_finite false m e => (1, e, Zpos m)
  | SpecFloat.S754_finite true m e => (-1, - e, Zneg m)
  end%Z.

Definition lex_lt (a b : Z * Z * Z) : Prop :=
  let '(a1, a2, a3) := a in
  let '(b1, b2, b3) := b in
  (a1 < b1 \/ (a1 = b1 /\ (a2 < b2 \/ (a2 = b2 /\ a3 < b3))))%Z.

(** The sign bit is clear: a positive number, +0.0, +infinity, or NaN. *)
Definition unsigned (x : float) : Prop :=
  match x with
  | SpecFloat.S754_zero s | SpecFloat.S754_infinity s
  | SpecFloat.S754_finite s _ _ => s = false
  | SpecFloat.S754_nan => True
  end.

Section Ranking.
Variable A : Type.
Variable key : A -> float.

(** [l] is in descending order of [key]. *)
Definition Descending (l : list A) : Prop :=
  StronglySorted (fun a b => le (key b) (key a)) l.

(** Elements with equal keys stand in [l'] in the order they have in [l]. *)
Definition Stable (l l' : list A) : Prop :=
  forall q, filter (fun a => eqb (key a) q) l'
            = filter (fun a => eqb (key a) q) l.

(** [ranked] is [l] sorted by [key], highest first, ties in the order
    of [l]. *)
Definition Ranked (l ranked : list A) : Prop :=
  Permutation ranked l /\ Descending ranked /\ Stable l ranked.
End Ranking.

(** ** Grades and gaps *)

Import SubjectMapper64 Settings64 TranscriptService64.

(** What makes [analyze_transcript] refuse its input. *)
Definition invalid_grades (retained : dict float) : Prop :=
  retained = [] \/
  exists k v, In (k, v) retained /\ ~ (le (of_Z 0) v /\ le v (of_Z 20)).




(** The entries [identify_grade_gaps] makes of a record. *)
Definition gap_entry_of (g : GradeGap) : GapEntry :=
  {| ge_subject := subject g;
     ge_current := student_grade g;
     ge_required := required_grade g;
     ge_gap := gap g;
     ge_severity := severity g |}.

Definition strength_entry_of (g : GradeGap) : StrengthEntry :=
  {| se_subject := subject g;
     se_grade := student_grade g;
     se_required := required_grade g;
     se_excess := neg (gap g) |}.

(** The student is below the requirement. *)
Definition gapped (g : GradeGap) : Prop := lt (of_Z 0) (gap g).

(** [sorted] holds the records of [l] by ascending priority number,
    records of one priority in the order of [l]. *)
Definition by_priority (l sorted : list GradeGap) : Prop :=
  Permutation sorted l /\
  StronglySorted (fun a b => (priority a <= priority b)%Z) sorted /\
  forall p, filter (fun g => (priority g =? p)%Z) sorted
            = filter (fun g => (priority g =? p)%Z) l.

(** ** Major matching *)

Import MajorService64.

Section ScoreTerms.
Variable interests : option (list pystr).
Variable favorite_subjects : option (list pystr).
Variable career_goals : option pystr.

Definition n_interests : nat := length (Spec.given_interests interests).

(** |interests n keywords|. *)
Definition n_interest_hits (m : Major) : nat :=
  Spec.common (Spec.given_interests interests) (map lower (keywords m)).

(** |matched favourite subjects n requirement keys|. *)
Definition n_subject_hits (m : Major) : nat :=
  Spec.common (Spec.given_subjects favorite_subjects)
              (map lower (keys (Settings.requirements m))).

(** 0.4 x |interests n keywords| / max(|interests|, 1). *)
Definition interest_term (m : Major) : float :=
  mul (of_Q (4 # 10))
      (div (of_nat (n_interest_hits m)) (of_nat (Nat.max n_interests 1))).

(** 0.3 x |subjects n requirement keys| / |requirements|. *)
Definition subject_term (m : Major) : float :=
  mul (of_Q (3 # 10))
      (div (of_nat (n_subject_hits m))
           (of_nat (length (Settings.requirements m)))).

(** 0.3 flat. *)
Definition career_term : float := of_Q (3 # 10).

(** 0.1 x min(descMatches / |interests|, 1.0). *)
Definition description_bonus (m : Major) : float :=
  mul (of_Q (1 # 10))
      (min (div (of_nat (Spec.description_matches interests m)) (of_nat n_interests))
           (of_Z 1)).

(** A career goal is supplied and related to the major. *)
Definition career_applies (m : Major) : bool :=
  match career_goals with
  | Some ((_ :: _) as goal) => Spec.career_related goal m
  | _ => false
  end.

(** The terms that apply to a major, in the order they are added. *)
Definition terms (m : Major) : list float :=
  (if (0 <? n_interest_hits m)%nat then [interest_term m] else [])
  ++ (match MajorService.or_empty favorite_subjects with
      | [] => []
      | _ :: _ => if (0 <? n_subject_hits m)%nat then [subject_term m] else []
      end)
  ++ (if career_applies m then [career_term] else [])
  ++ (if (0 <? Spec.description_matches interests m)%nat && (0 <? n_interests)%nat
      then [description_bonus m] else []).

(** The score: the terms added to 0.0 one after the other, each sum
    rounded. *)
Definition total_score (m : Major) : float := sum (terms m).
End ScoreTerms.

End Spec64.

(* ================================================================== *)
(** * Sample data with decimal grades *)
(* ================================================================== *)

Module Samples64.
Import Py Binary64 Settings.

(** The transcript of [Samples], as floats. *)
Definition transcript : dict float :=
  [(u "Matemática A", of_Z 15); (u "Física e Química A", of_Q (145 # 10));
   (u "Português", of_Z 11)].

Definition report : dict (option float) :=
  [(u "Math", Some (of_Z 18)); (u "Physics", Some (of_Z 15)); (u "Art", None);
   (u "History", Some (of_Q (95 # 10))); (u "English", Some (of_Z 15))].



Definition law : Major :=
  {| id := u "law";
     name := u "Law";
     name_pt := None;
     description := u "Study of legal systems";
     requirements := [(u "Portuguese", 14); (u "History", 13)];
     keywords := [u "justice"];
     career_paths := [u "Lawyer"] |}.

Definition design : Major :=
  {| id := u "design";
     name := u "Design";
     name_pt := None;
     description := u "Art and design for products and media";
     requirements := [(u "Drawing", 14)];
     keywords := [u "art"; u "creativity"];
     career_paths := [u "Designer"] |}.

End Samples64.

(* ================================================================== *)
(** * The vocabulary of the statement about [retry_on_failure] *)
(* ================================================================== *)

Module RetrySpec.
Import Py Eff.

Section Failures.
Variables S A : Type.
Variable time_sleep : Q -> S -> S.
Variable func : M S A.
Variable max_retries : nat.

(** [k] calls of [func] in a row raise, the first of them as attempt
    number [attempt] from the state [s]: after a failed attempt [i]
    with [i < max_retries] the wrapper sleeps [1 * (i + 1)] seconds.  The
    result is the state after the last of these calls (and its sleep)
    with the exception it raised; [None] when one of the calls
    returns. *)
Fixpoint failures (k attempt : nat) (s : S) (last : option PyException)
  : option (S * option PyException) :=
  match k with
  | O => Some (s, last)
  | Datatypes.S k' =>
    match func s with
    | (Returned _, _) => None
    | (Raised e, s1) =>
      failures k' (attempt + 1)
               (if (attempt <? max_retries)%nat
                then time_sleep (1 * inject_Z (Z.of_nat (attempt + 1))) s1
                else s1)
               (Some e)
    end
  end.
End Failures.

End RetrySpec.

(* ================================================================== *)
(** * Facts about strings, numbers and lists *)
(* ================================================================== *)

Module Facts.
Import Py.

Lemma str_eqb_eq (a b : pystr) : str_eqb a b = true <-> a = b.
Proof.
  revert b; induction a as [|x a IH]; intros [|y b]; simpl; split;
    try congruence; try reflexivity.
  - intros H. apply andb_true_iff in H as [Hx Hab].
    apply N.eqb_eq in Hx. apply IH in Hab. congruence.
  - intros H. injection H as -> ->.
    apply andb_true_iff; split; [apply N.eqb_refl | now apply IH].
Qed.

Lemma str_eqb_refl (a : pystr) : str_eqb a a = true.
Proof. now apply str_eqb_eq. Qed.

Lemma str_eqb_neq (a b : pystr) : str_eqb a b = false <-> a <> b.
Proof.
  split.
  - intros H E. apply str_eqb_eq in E. congruence.
  - intros H. destruct (str_eqb a b) eqn:E; [|reflexivity].
    apply str_eqb_eq in E. contradiction.
Qed.

Lemma startswith_iff (s p : pystr) :
  startswith s p = true <-> exists t, s = p ++ t.
Proof.
  revert s; induction p as [|x p IH]; intros [|y s]; simpl.
  - split; [intros _; now exists [] | reflexivity].
  - split; [intros _; now exists (y :: s) | reflexivity].
  - split; [discriminate | intros [t H]; discriminate].
  - rewrite andb_true_iff, N.eqb_eq, IH. split.
    + intros [-> [t ->]]. now exists t.
    + intros [t H]. injection H as -> ->. split; [reflexivity | now exists t].
Qed.

(** [p in s] holds exactly when [p] occurs somewhere inside [s]. *)
Lemma str_in_iff (p s : pystr) :
  str_in p s = true <-> exists a b, s = a ++ p ++ b.
Proof.
  induction s as [|c s IH]; cbn [str_in].
  - rewrite orb_false_r, startswith_iff. split.
    + intros [t H]. now exists [], t.
    + intros [a [b H]]. destruct a; simpl in H.
      * now exists b.
      * discriminate.
  - rewrite orb_true_iff, startswith_iff, IH. split.
    + intros [[t H] | [a [b H]]].
      * now exists [], t.
      * exists (c :: a), b. simpl. now rewrite H.
    + intros [a [b H]]. destruct a as [|c' a]; simpl in H.
      * left. now exists b.
      * right. injection H as _ H. now exists a, b.
Qed.

Lemma str_in_refl (s : pystr) : str_in s s = true.
Proof. apply str_in_iff. exists [], []. simpl. now rewrite app_nil_r. Qed.

Lemma lower_app (a b : pystr) : lower (a ++ b) = lower a ++ lower b.
Proof. apply map_app. Qed.

Lemma mem_iff (x : pystr) (l : list pystr) : mem x l = true <-> In x l.
Proof.
  unfold mem. rewrite existsb_exists. split.
  - intros [y [Hy E]]. apply str_eqb_eq in E. now subst.
  - intros H. exists x. split; [assumption | apply str_eqb_refl].
Qed.

Lemma leb_iff (x y : Q) : leb x y = true <-> x <= y.
Proof. apply Qle_bool_iff. Qed.

Lemma geb_iff (x y : Q) : geb x y = true <-> y <= x.
Proof. apply Qle_bool_iff. Qed.

Lemma ltb_iff (x y : Q) : ltb x y = true <-> x < y.
Proof.
  unfold ltb. rewrite negb_true_iff. split.
  - intros H. apply Qnot_le_lt. intros L. apply Qle_bool_iff in L. congruence.
  - intros H. destruct (Qle_bool y x) eqn:E; [|reflexivity].
    apply Qle_bool_iff in E. exfalso. exact (Qlt_not_le _ _ H E).
Qed.

Lemma gtb_iff (x y : Q) : gtb x y = true <-> y < x.
Proof. apply (ltb_iff y x). Qed.

Lemma ltb_false_iff (x y : Q) : ltb x y = false <-> y <= x.
Proof.
  unfold ltb. rewrite negb_false_iff. apply Qle_bool_iff.
Qed.

Lemma gtb_false_iff (x y : Q) : gtb x y = false <-> x <= y.
Proof. apply (ltb_false_iff y x). Qed.

Lemma leb_false_iff (x y : Q) : leb x y = false <-> y < x.
Proof.
  rewrite <- (gtb_iff x y). unfold gtb, leb.
  destruct (Qle_bool x y); simpl; split; congruence.
Qed.

Lemma filter_nil_iff (A : Type) (p : A -> bool) (l : list A) :
  filter p l = [] <-> forall a, In a l -> p a = false.
Proof.
  induction l as [|x l IH]; simpl.
  - split; [intros _ a [] | reflexivity].
  - destruct (p x) eqn:E.
    + split; [discriminate|]. intros H. specialize (H x (or_introl eq_refl)).
      congruence.
    + rewrite IH. split.
      * intros H a [<- | Ha]; [assumption | now apply H].
      * intros H a Ha. apply H. now right.
Qed.

End Facts.

(* ================================================================== *)
(** * Subject normalizer *)
(* ================================================================== *)

Module SubjectMapperProofs.
Import Py SubjectMapper Spec Samples Facts.

Lemma normalize_mapped (subject canonical_ : pystr) :
  get SUBJECT_NAME_MAP (strip (lower subject)) = Some canonical_ ->
  normalize_subject_name subject = canonical_.
Proof. unfold normalize_subject_name. now intros ->. Qed.

Lemma normalize_unmapped (subject : pystr) :
  get SUBJECT_NAME_MAP (strip (lower subject)) = None ->
  normalize_subject_name subject = subject.
Proof. unfold normalize_subject_name. now intros ->. Qed.

Lemma find_normalized_none (target_norm : pystr) (grades : dict Q) :
  find_normalized target_norm grades = None <->
  forall k v, In (k, v) grades -> canonical k <> target_norm.
Proof.
  induction grades as [|[k v] rest IH]; simpl.
  - split; [intros _ k v [] | reflexivity].
  - fold (canonical k). destruct (str_eqb (canonical k) target_norm) eqn:E.
    + split; [discriminate|]. intros H. exfalso.
      apply (H k v); [now left | now apply str_eqb_eq].
    + rewrite IH. apply str_eqb_neq in E. split.
      * intros H k' v' [[= <- <-] | Hin]; [assumption | now apply (H k' v')].
      * intros H k' v' Hin. apply (H k' v'). now right.
Qed.

Lemma find_normalized_first (target_norm : pystr) (pre post : dict Q) k v :
  canonical k = target_norm ->
  (forall k' v', In (k', v') pre -> canonical k' <> target_norm) ->
  find_normalized target_norm (pre ++ (k, v) :: post) = Some v.
Proof.
  intros Hk. induction pre as [|[k' v'] pre IH]; intros Hpre; simpl.
  - fold (canonical k). rewrite Hk, str_eqb_refl. reflexivity.
  - fold (canonical k').
    assert (E : str_eqb (canonical k') target_norm = false).
    { apply str_eqb_neq. apply (Hpre k' v'). now left. }
    rewrite E. apply IH. intros k2 v2 Hin. apply (Hpre k2 v2). now right.
Qed.

Lemma get_some_in (V : Type) (d : dict V) (k : pystr) (v : V) :
  get d k = Some v -> In (k, v) d.
Proof.
  induction d as [|[k' v'] d IH]; simpl; [discriminate|].
  destruct (str_eqb k' k) eqn:E.
  - intros [= ->]. apply str_eqb_eq in E. subst. now left.
  - intros H. right. now apply IH.
Qed.

(** When no entry matches in canonical form, the exact lookup that
    follows the loop cannot succeed either. *)
Lemma exact_lookup_is_covered (grades : dict Q) (target : pystr) :
  (forall k v, In (k, v) grades -> canonical k <> canonical target) ->
  get grades target = None.
Proof.
  intros H. destruct (get grades target) as [v|] eqn:E; [|reflexivity].
  apply get_some_in in E. exfalso. now apply (H target v).
Qed.

(** C7 (as amended).  [normalize_subject_name] returns the canonical
    English key when the lower-cased, trimmed input is in the table and
    the input exactly as given otherwise.  [find_matching_grade]
    compares names in canonical form, that is lower-cased and then
    normalized: it returns the grade of the first entry whose canonical
    key equals the canonical target; when there is none it falls back
    to the exact key lookup, so it returns [None] when neither matches.
    It is a total function: no input makes it raise.  On the two
    examples of the specification it returns 16 and [None]. *)
Theorem C7_normalize_and_find_matching_grade :
  (forall subject canonical_,
      get SUBJECT_NAME_MAP (strip (lower subject)) = Some canonical_ ->
      normalize_subject_name subject = canonical_) /\
  (forall subject,
      get SUBJECT_NAME_MAP (strip (lower subject)) = None ->
      normalize_subject_name subject = subject) /\
  (forall (pre post : dict Q) k v target,
      canonical k = canonical target ->
      (forall k' v', In (k', v') pre -> canonical k' <> canonical target) ->
      find_matching_grade (pre ++ (k, v) :: post) target = Some v) /\
  (forall (grades : dict Q) target,
      (forall k v, In (k, v) grades -> canonical k <> canonical target) ->
      find_matching_grade grades target = get grades target) /\
  (forall (grades : dict Q) target,
      (forall k v, In (k, v) grades -> canonical k <> canonical target) ->
      get grades target = None ->
      find_matching_grade grades target = None) /\
  find_matching_grade grades_pt (u "Math") = Some 16 /\
  find_matching_grade [] (u "Math") = None.
Proof.
  repeat split.
  - apply normalize_mapped.
  - apply normalize_unmapped.
  - intros pre post k v target Hk Hpre. unfold find_matching_grade.
    fold (canonical target).
    rewrite find_normalized_first; auto.
  - intros grades target H. unfold find_matching_grade.
    fold (canonical target).
    apply find_normalized_none in H. rewrite H.
    unfold contains. destruct (get grades target); reflexivity.
  - intros grades target H Hget. unfold find_matching_grade.
    fold (canonical target).
    apply find_normalized_none in H. rewrite H.
    unfold contains. now rewrite Hget.
Qed.

Lemma C7_witness :
  find_matching_grade grades_mixed (u "math") = Some 15.
Proof.
  apply (proj1 (proj2 (proj2 C7_normalize_and_find_matching_grade))
               [(u "Física", 12)] [] (u "MATH") 15 (u "math")).
  - reflexivity.
  - intros k' v' [[= <- <-] | []]. vm_compute. discriminate.
Defined.

(** C7, the claim as worded, fails: with the names normalized as they
    are given, no key of [{"math": 15}] matches the target ["Math"] and
    the exact lookup finds nothing, so the claim promises [None]; the
    code answers 15.  The claim's own example has the same shape: read
    as worded it would give [None] for [{"Matemática A": 16}] and
    ["Math"]. *)
Lemma C7_as_given_counterexample :
  (forall k v, In (k, v) grades_lower ->
               normalize_subject_name k <> normalize_subject_name (u "Math")) /\
  get grades_lower (u "Math") = None /\
  find_matching_grade_as_given grades_lower (u "Math") = None /\
  find_matching_grade grades_lower (u "Math") = Some 15 /\
  find_matching_grade_as_given grades_pt (u "Math") = None.
Proof.
  repeat split.
  intros k v [[= <- <-] | []]. vm_compute. discriminate.
Qed.

End SubjectMapperProofs.

(* ================================================================== *)
(** * Sorting with [reverse=True] *)
(* ================================================================== *)

Module SortFacts.
Import Py Spec Facts.

Section Sorting.
Variable A : Type.
Variable key : A -> Q.

Lemma insert_desc_perm (x : A) (l : list A) :
  Permutation (insert_desc key x l) (x :: l).
Proof.
  induction l as [|y l IH]; simpl; [reflexivity|].
  destruct (ltb (key x) (key y)); [|reflexivity].
  rewrite IH. apply perm_swap.
Qed.

Lemma sorted_reverse_perm (l : list A) :
  Permutation (sorted_reverse key l) l.
Proof.
  induction l as [|x l IH]; simpl; [reflexivity|].
  rewrite insert_desc_perm. now apply perm_skip.
Qed.

Lemma insert_desc_descending (x : A) (l : list A) :
  Descending key l -> Descending key (insert_desc key x l).
Proof.
  unfold Descending. induction l as [|y l IH]; simpl; intros Hs.
  - constructor; constructor.
  - inversion Hs as [|? ? Hs' Hall]; subst.
    destruct (ltb (key x) (key y)) eqn:E.
    + apply ltb_iff in E. constructor; [now apply IH|].
      apply Forall_forall. intros z Hz.
      apply (Permutation_in _ (insert_desc_perm x l)) in Hz.
      destruct Hz as [<- | Hz]; [now apply Qlt_le_weak|].
      rewrite Forall_forall in Hall. now apply Hall.
    + apply ltb_false_iff in E. constructor; [assumption|].
      constructor; [assumption|].
      rewrite Forall_forall in Hall |- *. intros z Hz.
      apply Qle_trans with (key y); [now apply Hall | assumption].
Qed.

Lemma sorted_reverse_descending (l : list A) :
  Descending key (sorted_reverse key l).
Proof.
  induction l as [|x l IH]; simpl; [constructor|].
  now apply insert_desc_descending.
Qed.

Lemma insert_desc_stable (x : A) (l : list A) (q : Q) :
  filter (fun a => Qeq_bool (key a) q) (insert_desc key x l)
  = filter (fun a => Qeq_bool (key a) q) (x :: l).
Proof.
  induction l as [|y l IH]; [reflexivity|].
  cbn [insert_desc]. destruct (ltb (key x) (key y)) eqn:E; [|reflexivity].
  apply ltb_iff in E. cbn [filter] in *. rewrite IH.
  destruct (Qeq_bool (key x) q) eqn:Ex; [|reflexivity].
  destruct (Qeq_bool (key y) q) eqn:Ey; [|reflexivity].
  apply Qeq_bool_eq in Ex, Ey. exfalso. rewrite Ex, Ey in E.
  exact (Qlt_irrefl _ E).
Qed.

Lemma sorted_reverse_stable (l : list A) :
  Stable key l (sorted_reverse key l).
Proof.
  intros q. induction l as [|x l IH]; [reflexivity|].
  cbn [sorted_reverse fold_right]. rewrite insert_desc_stable.
  cbn [filter]. fold (sorted_reverse key l). now rewrite IH.
Qed.

(** [sorted(l, key=key, reverse=True)] ranks [l]. *)
Lemma sorted_reverse_ranked (l : list A) :
  Ranked key l (sorted_reverse key l).
Proof.
  split; [apply sorted_reverse_perm|].
  split; [apply sorted_reverse_descending | apply sorted_reverse_stable].
Qed.


End Sorting.

End SortFacts.

(* ================================================================== *)
(** * The order of the floats *)
(* ================================================================== *)

Module Binary64Facts.
Import SpecFloat Binary64 Spec64.

Lemma compare_rank (x y : float) :
  is_nan x = false -> is_nan y = false ->
  match SFcompare x y with
  | Some Lt => lex_lt (rank x) (rank y)
  | Some Eq => rank x = rank y
  | Some Gt => lex_lt (rank y) (rank x)
  | None => False
  end.
Proof.
  destruct x as [sx|sx| |sx mx ex], y as [sy|sy| |sy my ey]; try discriminate;
    intros _ _; cbn [SFcompare rank];
    try destruct sx; try destruct sy; cbn [rank lex_lt]; try reflexivity; try lia.
  - destruct (Z.compare_spec ex ey) as [E|E|E]; cbn [lex_lt]; try lia.
    change (Pos.compare_cont Eq mx my) with (Pos.compare mx my).
    destruct (Pos.compare_spec mx my) as [F|F|F]; cbn [CompOpp lex_lt];
      [subst; reflexivity | lia | lia].
  - destruct (Z.compare_spec ex ey) as [E|E|E]; cbn [lex_lt]; try lia.
    change (Pos.compare_cont Eq mx my) with (Pos.compare mx my).
    destruct (Pos.compare_spec mx my) as [F|F|F]; cbn [lex_lt];
      [subst; reflexivity | lia | lia].
Qed.

Lemma compare_nan (x y : float) :
  SFcompare x y = None <-> is_nan x = true \/ is_nan y = true.
Proof.
  destruct x as [sx|sx| |sx mx ex], y as [sy|sy| |sy my ey];
    try (split; [intros _; (now left) || (now right) | reflexivity]);
    (split; [|intros [H | H]; discriminate H]);
    cbn; try destruct sx; try destruct sy; try (intros H; discriminate H).
Qed.

Ltac split_rank x :=
  let a := fresh "a" in let b := fresh "b" in let c := fresh "c" in
  destruct (rank x) as [[a b] c].

Lemma ltb_spec (x y : float) :
  ltb x y = true <->
  is_nan x = false /\ is_nan y = false /\ lex_lt (rank x) (rank y).
Proof.
  unfold ltb, SFltb. destruct (is_nan x) eqn:Nx.
  { assert (E : SFcompare x y = None) by (apply compare_nan; now left).
    rewrite E. split; [discriminate | now intros [H _]]. }
  destruct (is_nan y) eqn:Ny.
  { assert (E : SFcompare x y = None) by (apply compare_nan; now right).
    rewrite E. split; [discriminate | now intros (_ & H & _)]. }
  pose proof (compare_rank x y Nx Ny) as H.
  destruct (SFcompare x y) as [[| |]|]; [| | |contradiction].
  - split; [discriminate|]. intros (_ & _ & L). rewrite H in L.
    split_rank y. cbn in L. lia.
  - split; [now intros _ | reflexivity].
  - split; [discriminate|]. intros (_ & _ & L).
    split_rank x. split_rank y. cbn in *. lia.
Qed.

Lemma leb_spec (x y : float) :
  leb x y = true <->
  is_nan x = false /\ is_nan y = false /\
  (lex_lt (rank x) (rank y) \/ rank x = rank y).
Proof.
  unfold leb, SFleb. destruct (is_nan x) eqn:Nx.
  { assert (E : SFcompare x y = None) by (apply compare_nan; now left).
    rewrite E. split; [discriminate | now intros [H _]]. }
  destruct (is_nan y) eqn:Ny.
  { assert (E : SFcompare x y = None) by (apply compare_nan; now right).
    rewrite E. split; [discriminate | now intros (_ & H & _)]. }
  pose proof (compare_rank x y Nx Ny) as H.
  destruct (SFcompare x y) as [[| |]|]; [| | |contradiction].
  - split; [intros _; repeat split; now right | reflexivity].
  - split; [intros _; repeat split; now left | reflexivity].
  - split; [discriminate|]. intros (_ & _ & [L | L]).
    + split_rank x. split_rank y. cbn in *. lia.
    + rewrite L in H. split_rank y. cbn in H. lia.
Qed.

Lemma eqb_spec (x y : float) :
  eqb x y = true <->
  is_nan x = false /\ is_nan y = false /\ rank x = rank y.
Proof.
  unfold eqb, SFeqb. destruct (is_nan x) eqn:Nx.
  { assert (E : SFcompare x y = None) by (apply compare_nan; now left).
    rewrite E. split; [discriminate | now intros [H _]]. }
  destruct (is_nan y) eqn:Ny.
  { assert (E : SFcompare x y = None) by (apply compare_nan; now right).
    rewrite E. split; [discriminate | now intros (_ & H & _)]. }
  pose proof (compare_rank x y Nx Ny) as H.
  destruct (SFcompare x y) as [[| |]|]; [| | |contradiction].
  - split; [intros _; now repeat split | reflexivity].
  - split; [discriminate|]. intros (_ & _ & L). rewrite L in H.
    split_rank y. cbn in H. lia.
  - split; [discriminate|]. intros (_ & _ & L). rewrite L in H.
    split_rank y. cbn in H. lia.
Qed.

Lemma ltb_false (x y : float) :
  is_nan x = false -> is_nan y = false ->
  (ltb x y = false <-> leb y x = true).
Proof.
  intros Nx Ny. rewrite leb_spec. destruct (ltb x y) eqn:E.
  - apply ltb_spec in E as (_ & _ & L). split; [discriminate|].
    intros (_ & _ & H). exfalso.
    split_rank x. split_rank y. cbn in *.
    destruct H as [H | H]; [lia | injection H as -> -> ->; lia].
  - split; [|reflexivity]. intros _. split; [exact Ny|]. split; [exact Nx|].
    assert (H : ~ lex_lt (rank x) (rank y)).
    { intros L. assert (ltb x y = true) by (apply ltb_spec; auto). congruence. }
    split_rank x. split_rank y. cbn in *.
    destruct (Z.eq_dec a a0) as [->|]; [|lia].
    destruct (Z.eq_dec b b0) as [->|]; [|lia].
    destruct (Z.eq_dec c c0) as [->|]; [now right | lia].
Qed.

Lemma leb_false (x y : float) :
  is_nan x = false -> is_nan y = false ->
  (leb x y = false <-> ltb y x = true).
Proof.
  intros Nx Ny. pose proof (ltb_false y x Ny Nx) as H.
  destruct (leb x y), (ltb y x); intuition congruence.
Qed.

(** Turn every comparison of the context and of the goal into a fact
    about ranks, and leave it to [lia]. *)
Ltac float_order :=
  repeat match goal with
         | H : ltb _ _ = true |- _ => apply ltb_spec in H; destruct H as (? & ? & H)
         | H : leb _ _ = true |- _ => apply leb_spec in H; destruct H as (? & ? & H)
         | H : eqb _ _ = true |- _ => apply eqb_spec in H; destruct H as (? & ? & H)
         end;
  try match goal with
      | |- ltb _ _ = true => apply ltb_spec; split; [assumption|]; split; [assumption|]
      | |- leb _ _ = true => apply leb_spec; split; [assumption|]; split; [assumption|]
      | |- eqb _ _ = true => apply eqb_spec; split; [assumption|]; split; [assumption|]
      end;
  repeat match goal with
         | H : context [rank ?x] |- _ =>
           let a := fresh "a" in let b := fresh "b" in let c := fresh "c" in
           destruct (rank x) as [[a b] c]
         | |- context [rank ?x] =>
           let a := fresh "a" in let b := fresh "b" in let c := fresh "c" in
           destruct (rank x) as [[a b] c]
         end;
  cbn [lex_lt] in *;
  repeat match goal with
         | H : (_, _, _) = (_, _, _) |- _ => injection H as ? ? ?
         | H : _ \/ (_, _, _) = (_, _, _) |- _ => destruct H as [H | H]
         end;
  try (left; lia); try (right; f_equal; [f_equal|]; lia);
  try (f_equal; [f_equal|]; lia); try lia.


Lemma leb_trans (x y z : float) :
  leb x y = true -> leb y z = true -> leb x z = true.
Proof. intros H1 H2. float_order. Qed.

Lemma ltb_leb_trans (x y z : float) :
  ltb x y = true -> leb y z = true -> ltb x z = true.
Proof. intros H1 H2. float_order. Qed.

Lemma leb_ltb_trans (x y z : float) :
  leb x y = true -> ltb y z = true -> ltb x z = true.
Proof. intros H1 H2. float_order. Qed.

Lemma ltb_leb (x y : float) : ltb x y = true -> leb x y = true.
Proof. intros H. float_order. Qed.

Lemma ltb_not_leb (x y : float) : ltb x y = true -> leb y x = false.
Proof.
  intros H. destruct (leb y x) eqn:E; [|reflexivity]. exfalso. float_order.
Qed.

Lemma leb_not_ltb (x y : float) : leb x y = true -> ltb y x = false.
Proof.
  intros H. destruct (ltb y x) eqn:E; [|reflexivity]. exfalso. float_order.
Qed.

Lemma eqb_leb (x y : float) :
  eqb x y = true <-> leb x y = true /\ leb y x = true.
Proof.
  split.
  - intros H. split; float_order.
  - intros [H1 H2]. float_order.
Qed.

Lemma leb_refl (x : float) : is_nan x = false -> leb x x = true.
Proof. intros H. apply leb_spec. auto. Qed.

Lemma eqb_ltb_compat (x y q : float) :
  eqb x q = true -> eqb y q = true -> ltb x y = false.
Proof.
  intros H1 H2. destruct (ltb x y) eqn:E; [|reflexivity]. exfalso. float_order.
Qed.

Lemma comparable (x y : float) :
  leb x y = true \/ leb y x = true -> is_nan x = false /\ is_nan y = false.
Proof. intros [H | H]; apply leb_spec in H; tauto. Qed.

(** What the closed comparisons of the development rest on. *)
Lemma lt_le (x y : float) : lt x y -> le x y.
Proof. apply ltb_leb. Qed.

Lemma le_not_nan (x y : float) : le x y -> is_nan x = false /\ is_nan y = false.
Proof. intros H. apply leb_spec in H. tauto. Qed.

Lemma lt_not_nan (x y : float) : lt x y -> is_nan x = false /\ is_nan y = false.
Proof. intros H. apply ltb_spec in H. tauto. Qed.

Lemma not_le_lt (x y : float) :
  is_nan x = false -> is_nan y = false -> leb x y = false -> lt y x.
Proof. intros Nx Ny H. now apply leb_false. Qed.

Lemma not_lt_le (x y : float) :
  is_nan x = false -> is_nan y = false -> ltb x y = false -> le y x.
Proof. intros Nx Ny H. now apply ltb_false. Qed.



End Binary64Facts.

(* ================================================================== *)
(** * Rounding never gives NaN *)
(* ================================================================== *)

Module Binary64Rounding.
Import SpecFloat Binary64 Spec64.

Lemma shr_1_nonneg (mrs : shr_record) :
  (0 <= shr_m mrs)%Z -> (0 <= shr_m (shr_1 mrs))%Z.
Proof.
  destruct mrs as [m r s]. cbn [shr_m]. intros H.
  destruct m as [|[p|p|]|p]; cbn; lia.
Qed.

Lemma iter_shr_1_nonneg (p : positive) (mrs : shr_record) :
  (0 <= shr_m mrs)%Z -> (0 <= shr_m (iter_pos shr_1 p mrs))%Z.
Proof.
  revert mrs. induction p as [p IH|p IH|]; intros mrs H; cbn [iter_pos].
  - apply IH, IH, shr_1_nonneg, H.
  - apply IH, IH, H.
  - apply shr_1_nonneg, H.
Qed.

Lemma shr_fexp_nonneg (m e : Z) (l : location) :
  (0 <= m)%Z -> (0 <= shr_m (fst (shr_fexp prec emax m e l)))%Z.
Proof.
  intros H. unfold shr_fexp, shr.
  assert (H0 : (0 <= shr_m (shr_record_of_loc m l))%Z)
    by (destruct l as [|[| |]]; exact H).
  destruct (fexp prec emax (Zdigits2 m + e) - e)%Z; cbn [fst];
    [exact H0 | now apply iter_shr_1_nonneg | exact H0].
Qed.

Lemma round_nearest_even_nonneg (m : Z) (l : location) :
  (0 <= m)%Z -> (0 <= round_nearest_even m l)%Z.
Proof.
  intros H. destruct l as [|[| |]]; cbn; [assumption| |assumption|lia].
  destruct (Z.even m); lia.
Qed.

(** The result of a rounding has the sign it is given, and is not NaN. *)
Lemma binary_round_aux_sign (sx : bool) (mx ex : Z) (lx : location) :
  (0 <= mx)%Z ->
  match binary_round_aux prec emax sx mx ex lx with
  | S754_zero s | S754_infinity s | S754_finite s _ _ => s = sx
  | S754_nan => False
  end.
Proof.
  intros H. unfold binary_round_aux.
  pose proof (shr_fexp_nonneg ex lx H) as H1.
  destruct (shr_fexp prec emax mx ex lx) as [mrs' e']. cbn [fst] in H1.
  pose proof (shr_fexp_nonneg e' loc_Exact
                (round_nearest_even_nonneg (loc_of_shr_record mrs') H1)) as H2.
  destruct (shr_fexp prec emax
              (round_nearest_even (shr_m mrs') (loc_of_shr_record mrs')) e' loc_Exact)
    as [mrs'' e'']. cbn [fst] in H2.
  destruct (shr_m mrs'') as [|m|m]; [reflexivity| |lia].
  destruct (e'' <=? emax - prec)%Z; reflexivity.
Qed.

Lemma binary_round_sign (sx : bool) (m : positive) (e : Z) :
  match binary_round prec emax sx m e with
  | S754_zero s | S754_infinity s | S754_finite s _ _ => s = sx
  | S754_nan => False
  end.
Proof.
  unfold binary_round. destruct (shl_align _ _ _) as [mz ez].
  apply binary_round_aux_sign. lia.
Qed.

Lemma binary_normalize_not_nan (m e : Z) (szero : bool) :
  is_nan (binary_normalize prec emax m e szero) = false.
Proof.
  destruct m as [|m|m]; cbn [binary_normalize]; [reflexivity| |].
  - pose proof (binary_round_sign false m e) as H.
    destruct (binary_round prec emax false m e); [reflexivity..|contradiction|reflexivity].
  - pose proof (binary_round_sign true m e) as H.
    destruct (binary_round prec emax true m e); [reflexivity..|contradiction|reflexivity].
Qed.


Lemma add_not_nan (x y : float) :
  is_finite x = true -> is_finite y = true -> is_nan (add x y) = false.
Proof.
  destruct x as [sx|sx| |sx mx ex], y as [sy|sy| |sy my ey];
    try discriminate; intros _ _; unfold add; cbn [SFadd].
  - destruct sx, sy; reflexivity.
  - reflexivity.
  - reflexivity.
  - apply binary_normalize_not_nan.
Qed.

Lemma of_Z_not_nan (z : Z) : is_nan (of_Z z) = false.
Proof. apply binary_normalize_not_nan. Qed.

(** A grade within the scale is finite. *)
Lemma bounded_finite (lo hi x : float) :
  is_finite lo = true -> is_finite hi = true ->
  leb lo x = true -> leb x hi = true -> is_finite x = true.
Proof.
  destruct x as [s|s| |s m e]; try reflexivity.
  - destruct s, lo as [sl|sl| |sl ml el], hi as [sh|sh| |sh mh eh];
      try discriminate; try destruct sl; try destruct sh;
        intros _ _ H1 H2; try discriminate H1; discriminate H2.
  - destruct lo as [sl|sl| |sl ml el]; try discriminate;
      intros _ _ H1; try destruct sl; discriminate H1.
Qed.
End Binary64Rounding.

(* ================================================================== *)
(** * Sorting by a float key *)
(* ================================================================== *)

Module SortFacts64.
Import Binary64 Spec64 Binary64Facts.

Section Sorting.
Variable A : Type.
Variable key : A -> float.

Lemma insert_desc_perm64 (x : A) (l : list A) :
  Permutation (insert_desc key x l) (x :: l).
Proof.
  induction l as [|y l IH]; simpl; [reflexivity|].
  destruct (ltb (key x) (key y)); [|reflexivity].
  rewrite IH. apply perm_swap.
Qed.

Lemma sorted_reverse_perm64 (l : list A) :
  Permutation (sorted_reverse key l) l.
Proof.
  induction l as [|x l IH]; simpl; [reflexivity|].
  rewrite insert_desc_perm64. now apply perm_skip.
Qed.

Lemma insert_desc_descending64 (x : A) (l : list A) :
  is_nan (key x) = false ->
  Forall (fun a => is_nan (key a) = false) l ->
  Descending key l -> Descending key (insert_desc key x l).
Proof.
  unfold Descending. intros Nx.
  induction l as [|y l IH]; simpl; intros Nl Hs.
  - constructor; constructor.
  - inversion Hs as [|? ? Hs' Hall]; subst.
    inversion Nl as [|? ? Ny Nl']; subst.
    destruct (ltb (key x) (key y)) eqn:E.
    + constructor; [now apply IH|].
      apply Forall_forall. intros z Hz.
      apply (Permutation_in _ (insert_desc_perm64 x l)) in Hz.
      destruct Hz as [<- | Hz]; [now apply ltb_leb|].
      rewrite Forall_forall in Hall. now apply Hall.
    + apply (proj1 (@ltb_false _ _ Nx Ny)) in E. constructor; [assumption|].
      constructor; [assumption|].
      rewrite Forall_forall in Hall |- *. intros z Hz.
      apply leb_trans with (key y); [now apply Hall | assumption].
Qed.

Lemma sorted_reverse_descending64 (l : list A) :
  Forall (fun a => is_nan (key a) = false) l ->
  Descending key (sorted_reverse key l).
Proof.
  induction l as [|x l IH]; simpl; intros Nl; [constructor|].
  inversion Nl as [|? ? Nx Nl']; subst.
  apply insert_desc_descending64; [assumption| |now apply IH].
  apply Forall_forall. intros a Ha.
  apply (Permutation_in _ (sorted_reverse_perm64 l)) in Ha.
  rewrite Forall_forall in Nl'. now apply Nl'.
Qed.

Lemma insert_desc_stable64 (x : A) (l : list A) (q : float) :
  filter (fun a => eqb (key a) q) (insert_desc key x l)
  = filter (fun a => eqb (key a) q) (x :: l).
Proof.
  induction l as [|y l IH]; [reflexivity|].
  cbn [insert_desc]. destruct (ltb (key x) (key y)) eqn:E; [|reflexivity].
  cbn [filter] in *. rewrite IH.
  destruct (eqb (key x) q) eqn:Ex; [|reflexivity].
  destruct (eqb (key y) q) eqn:Ey; [|reflexivity].
  rewrite (@eqb_ltb_compat _ _ _ Ex Ey) in E. discriminate E.
Qed.

Lemma sorted_reverse_stable64 (l : list A) :
  Stable key l (sorted_reverse key l).
Proof.
  intros q. induction l as [|x l IH]; [reflexivity|].
  cbn [sorted_reverse fold_right]. rewrite insert_desc_stable64.
  cbn [filter]. fold (sorted_reverse key l). now rewrite IH.
Qed.

(** [sorted(l, key=key, reverse=True)] ranks [l] when no key is NaN. *)
Lemma sorted_reverse_ranked64 (l : list A) :
  Forall (fun a => is_nan (key a) = false) l ->
  Ranked key l (sorted_reverse key l).
Proof.
  intros Nl. split; [apply sorted_reverse_perm64|].
  split; [now apply sorted_reverse_descending64 | apply sorted_reverse_stable64].
Qed.
End Sorting.

End SortFacts64.

(* ================================================================== *)
(** * Grade/gap engine *)
(* ================================================================== *)

Module TranscriptProofs.
Import Py Settings SubjectMapper TranscriptService Spec Samples Facts SortFacts.

(** Turn the boolean comparisons in the context into order facts. *)
Ltac order_facts :=
  repeat match goal with
         | H : leb _ _ = true |- _ => apply leb_iff in H
         | H : leb _ _ = false |- _ => apply leb_false_iff in H
         | H : gtb _ _ = true |- _ => apply gtb_iff in H
         | H : gtb _ _ = false |- _ => apply gtb_false_iff in H
         | H : ltb _ _ = true |- _ => apply ltb_iff in H
         | H : ltb _ _ = false |- _ => apply ltb_false_iff in H
         | H : geb _ _ = true |- _ => apply geb_iff in H
         end.

(** Two different labels are different strings. *)
Ltac labels :=
  match goal with
  | H : u _ = u _ |- _ => vm_compute in H; discriminate H
  | H : _ = _ :> Z |- _ => discriminate H
  end.

Lemma grade_gap_ok (student_grades : dict Q) (req : pystr * Q) :
  gap_record_ok (grade_gap student_grades req).
Proof.
  destruct req as [s r]. unfold grade_gap, gap_record_ok.
  cbn [gap severity priority required_grade student_grade].
  set (sg := match find_matching_grade student_grades s with
             | Some grade => grade
             | None => PASSING_GRADE
             end).
  set (gv := r - sg).
  destruct (leb gv 0) eqn:E1; destruct (leb gv 2) eqn:E2;
    destruct (gtb gv 4) eqn:E3; destruct (gtb gv 2) eqn:E4;
      destruct (gtb gv 0) eqn:E5; order_facts;
        try (exfalso; lra);
        repeat split; intros; try reflexivity; try lra; try labels.
Qed.

Lemma grade_gap_subject (student_grades : dict Q) (req : pystr * Q) :
  subject (grade_gap student_grades req) = fst req /\
  required_grade (grade_gap student_grades req) = snd req.
Proof. destruct req. split; reflexivity. Qed.

Lemma grade_gap_missing (student_grades : dict Q) (req : pystr * Q) :
  find_matching_grade student_grades (fst req) = None ->
  student_grade (grade_gap student_grades req) = PASSING_GRADE.
Proof.
  destruct req as [s r]. unfold grade_gap. cbn [fst student_grade].
  now intros ->.
Qed.

(** What [compare_grades_to_requirements] returns when it returns. *)
Lemma compare_returned (majors_ : list Major) (student_grades : dict Q)
      (major_name : pystr) gaps readiness :
  compare_grades_to_requirements majors_ student_grades major_name
  = Returned (gaps, readiness) ->
  exists major_, get_major_by_name majors_ major_name true = Some major_ /\
                 requirements major_ <> [] /\
                 gaps = map (grade_gap student_grades) (requirements major_) /\
                 readiness = overall_readiness gaps.
Proof.
  unfold compare_grades_to_requirements.
  destruct (get_major_by_name majors_ major_name true) as [m|]; [|discriminate].
  destruct (requirements m) as [|rq rqs] eqn:Er; [discriminate|].
  cbn [is_empty]. intros [= <- <-]. exists m. rewrite Er.
  repeat split; congruence.
Qed.

(** It returns for every major that resolves and has requirements,
    whatever the grades are. *)
Lemma compare_returns (majors_ : list Major) (student_grades : dict Q)
      (major_name : pystr) (major_ : Major) :
  get_major_by_name majors_ major_name true = Some major_ ->
  requirements major_ <> [] ->
  compare_grades_to_requirements majors_ student_grades major_name
  = Returned (map (grade_gap student_grades) (requirements major_),
              overall_readiness
                (map (grade_gap student_grades) (requirements major_))).
Proof.
  unfold compare_grades_to_requirements. intros -> Hne.
  destruct (requirements major_); [contradiction | reflexivity].
Qed.

Lemma priority_antitone (g1 g2 : GradeGap) :
  gap_record_ok g1 -> gap_record_ok g2 ->
  gap g1 <= gap g2 -> (priority g2 <= priority g1)%Z.
Proof.
  intros (_ & _ & _ & _ & A1 & A2 & A3 & A4) (_ & _ & _ & _ & B1 & B2 & B3 & B4) Hle.
  destruct (Qlt_le_dec 4 (gap g2)) as [H4|H4].
  { apply B1 in H4. rewrite H4.
    destruct (Qlt_le_dec 4 (gap g1)) as [K|K]; [apply A1 in K; lia|].
    destruct (Qlt_le_dec 2 (gap g1)) as [K2|K2];
      [assert (priority g1 = 2%Z) by (apply A2; split; assumption); lia|].
    destruct (Qlt_le_dec 0 (gap g1)) as [K0|K0];
      [assert (priority g1 = 3%Z) by (apply A3; split; assumption); lia|].
    apply A4 in K0. lia. }
  destruct (Qlt_le_dec 2 (gap g2)) as [H2|H2].
  { assert (P2 : priority g2 = 2%Z) by (apply B2; split; assumption).
    rewrite P2.
    destruct (Qlt_le_dec 2 (gap g1)) as [K2|K2];
      [assert (priority g1 = 2%Z) by (apply A2; split; [assumption|lra]); lia|].
    destruct (Qlt_le_dec 0 (gap g1)) as [K0|K0];
      [assert (priority g1 = 3%Z) by (apply A3; split; assumption); lia|].
    apply A4 in K0. lia. }
  destruct (Qlt_le_dec 0 (gap g2)) as [H0|H0].
  { assert (P3 : priority g2 = 3%Z) by (apply B3; split; assumption).
    rewrite P3.
    destruct (Qlt_le_dec 0 (gap g1)) as [K0|K0];
      [assert (priority g1 = 3%Z) by (apply A3; split; [assumption|lra]); lia|].
    apply A4 in K0. lia. }
  assert (P4 : priority g2 = 4%Z) by (now apply B4).
  assert (Q4 : priority g1 = 4%Z) by (apply A4; lra).
  lia.
Qed.

(** C3.  A required subject for which [find_matching_grade] finds
    nothing among the student's grades gets the passing grade 10 as the
    student grade, and the comparison still returns, one record for
    each requirement; for a major whose only requirement is Math: 16
    and an empty grade mapping the single record has student grade 10,
    gap 6, severity "significant" and priority 1. *)
Theorem C3_missing_subject_is_passing_grade :
  PASSING_GRADE = 10 /\
  (forall majors_ student_grades major_name major_,
      get_major_by_name majors_ major_name true = Some major_ ->
      requirements major_ <> [] ->
      exists gaps readiness,
        compare_grades_to_requirements majors_ student_grades major_name
        = Returned (gaps, readiness) /\
        map subject gaps = keys (requirements major_) /\
        forall g, In g gaps ->
                  find_matching_grade student_grades (subject g) = None ->
                  student_grade g = PASSING_GRADE) /\
  (forall majors_ major_name major_,
      get_major_by_name majors_ major_name true = Some major_ ->
      requirements major_ = [(u "Math", 16)] ->
      exists g readiness,
        compare_grades_to_requirements majors_ [] major_name
        = Returned ([g], readiness) /\
        subject g = u "Math" /\
        student_grade g = 10 /\
        gap g == 6 /\
        severity g = u "significant" /\
        priority g = 1%Z).
Proof.
  split; [reflexivity|]. split.
  - intros majors_ student_grades major_name m Hm Hne.
    exists (map (grade_gap student_grades) (requirements m)).
    exists (overall_readiness (map (grade_gap student_grades) (requirements m))).
    split; [apply compare_returns; assumption|]. split.
    + unfold keys. rewrite map_map.
      apply map_ext. intros [s r]. reflexivity.
    + intros g Hg Hnone. apply in_map_iff in Hg as (rq & <- & _).
      apply grade_gap_missing.
      now rewrite (proj1 (grade_gap_subject student_grades rq)) in Hnone.
  - intros majors_ major_name m Hm Hreq.
    exists (grade_gap [] (u "Math", 16)).
    exists (overall_readiness [grade_gap [] (u "Math", 16)]).
    split.
    + rewrite (@compare_returns majors_ [] major_name m Hm) by (rewrite Hreq; discriminate).
      rewrite Hreq. reflexivity.
    + repeat split.
Qed.

Lemma C3_witness :
  exists g readiness,
    compare_grades_to_requirements [math_only] [] (u "mathematics")
    = Returned ([g], readiness) /\
    student_grade g = 10 /\ gap g == 6.
Proof.
  destruct (proj2 (proj2 C3_missing_subject_is_passing_grade)
                  [math_only] (u "mathematics") math_only)
    as (g & r & H & _ & Hs & Hg & _).
  - reflexivity.
  - reflexivity.
  - exists g, r. repeat split; assumption.
Defined.

(** ** Readiness *)

Lemma is_gap_iff (g : GradeGap) : is_gap g = true <-> gapped g.
Proof. apply gtb_iff. Qed.

Lemma two_in_filter (A : Type) (p : A -> bool) (l : list A) :
  (2 <= length (filter p l))%nat <-> at_least_two (fun a => p a = true) l.
Proof.
  split.
  - induction l as [|x l IH]; simpl; [lia|].
    destruct (p x) eqn:E; simpl.
    + intros H. destruct (filter p l) as [|y fl] eqn:Ef; [simpl in H; lia|].
      assert (Hy : In y (filter p l)) by (rewrite Ef; now left).
      apply filter_In in Hy as [Hy Hpy].
      apply in_split in Hy as (l2 & l3 & ->).
      exists [], x, l2, y, l3. repeat split; assumption.
    + intros H. destruct (IH H) as (l1 & a1 & l2 & a2 & l3 & -> & H1 & H2).
      exists (x :: l1), a1, l2, a2, l3. repeat split; assumption.
  - intros (l1 & a1 & l2 & a2 & l3 & -> & H1 & H2).
    rewrite filter_app. cbn [filter]. rewrite H1.
    rewrite filter_app. cbn [filter]. rewrite H2.
    rewrite length_app. cbn [length]. rewrite length_app. cbn [length]. lia.
Qed.

Lemma is_significant_gap_iff (g : GradeGap) :
  is_significant_gap g = true <-> significant_gap g.
Proof.
  unfold is_significant_gap, significant_gap.
  now rewrite andb_true_iff, is_gap_iff, str_eqb_eq.
Qed.

Lemma filter_filter (A : Type) (p q : A -> bool) (l : list A) :
  filter q (filter p l) = filter (fun a => p a && q a) l.
Proof.
  induction l as [|x l IH]; [reflexivity|]. simpl.
  destruct (p x); simpl; [destruct (q x)|]; now rewrite IH.
Qed.

Lemma at_least_two_ext (A : Type) (P Q : A -> Prop) (l : list A) :
  (forall a, P a <-> Q a) -> at_least_two P l <-> at_least_two Q l.
Proof.
  intros H. split; intros (l1 & a1 & l2 & a2 & l3 & E & H1 & H2);
    exists l1, a1, l2, a2, l3; repeat split; try assumption; now apply H.
Qed.

Lemma at_least_two_in (A : Type) (P : A -> Prop) (l : list A) :
  at_least_two P l -> exists a, In a l /\ P a.
Proof.
  intros (l1 & a1 & l2 & a2 & l3 & -> & H1 & _). exists a1. split; [|assumption].
  apply in_or_app. right. now left.
Qed.

(** The four labels, each with the exact condition under which
    [overall_readiness] gives it. *)
Lemma readiness_cases (gaps : list GradeGap) :
  (~ some_gapped gaps /\ overall_readiness gaps = u "ready") \/
  (some_gapped gaps /\ all_gapped_close gaps
   /\ overall_readiness gaps = u "mostly_ready") \/
  (some_gapped gaps /\ ~ all_gapped_close gaps
   /\ at_least_two significant_gap gaps
   /\ overall_readiness gaps = u "significant_gaps") \/
  (some_gapped gaps /\ ~ all_gapped_close gaps
   /\ ~ at_least_two significant_gap gaps
   /\ overall_readiness gaps = u "needs_improvement").
Proof.
  unfold overall_readiness.
  destruct (filter is_gap gaps) as [|g0 ags] eqn:Eg.
  { left. split; [|reflexivity]. intros (g & Hin & Hg).
    rewrite filter_nil_iff in Eg. apply is_gap_iff in Hg.
    rewrite (Eg g Hin) in Hg. discriminate. }
  right. cbn [is_empty]. rewrite <- Eg.
  assert (Hsome : some_gapped gaps).
  { exists g0. rewrite <- is_gap_iff. apply filter_In. rewrite Eg. now left. }
  destruct (forallb (fun g => str_eqb (severity g) (u "close")) (filter is_gap gaps))
    eqn:Eall.
  { left. repeat split; [assumption|].
    intros g Hin Hg. rewrite forallb_forall in Eall.
    apply str_eqb_eq. apply Eall. apply filter_In. split; [assumption|].
    now apply is_gap_iff. }
  right.
  assert (Hnot : ~ all_gapped_close gaps).
  { intros Hc. assert (forallb (fun g => str_eqb (severity g) (u "close"))
                              (filter is_gap gaps) = true); [|congruence].
    apply forallb_forall. intros g Hg. apply filter_In in Hg as [Hin Hg].
    apply str_eqb_eq. apply Hc; [assumption | now apply is_gap_iff]. }
  assert (Htwo : (2 <= length (filter (fun g => str_eqb (severity g) (u "significant"))
                                      (filter is_gap gaps)))%nat
                 <-> at_least_two significant_gap gaps).
  { rewrite filter_filter. fold is_significant_gap.
    change (fun a => is_gap a && str_eqb (severity a) (u "significant"))
      with is_significant_gap.
    rewrite two_in_filter. apply at_least_two_ext. apply is_significant_gap_iff. }
  destruct (existsb (fun g => str_eqb (severity g) (u "significant"))
                    (filter is_gap gaps)) eqn:Eex.
  - destruct (2 <=? length (filter (fun g => str_eqb (severity g) (u "significant"))
                                   (filter is_gap gaps)))%nat eqn:E2.
    + left. apply Nat.leb_le in E2. repeat split; try assumption. now apply Htwo.
    + right. apply Nat.leb_gt in E2. repeat split; try assumption.
      intros H. apply Htwo in H. lia.
  - right. repeat split; try assumption. intros H.
    apply at_least_two_in in H as (g & Hin & Hg & Hs).
    assert (existsb (fun g => str_eqb (severity g) (u "significant"))
                    (filter is_gap gaps) = true); [|congruence].
    apply existsb_exists. exists g. split.
    + apply filter_In. split; [assumption | now apply is_gap_iff].
    + now apply str_eqb_eq.
Qed.

Lemma close_excludes_two_significant (gaps : list GradeGap) :
  all_gapped_close gaps -> ~ at_least_two significant_gap gaps.
Proof.
  intros Hc H. apply at_least_two_in in H as (g & Hin & Hg & Hs).
  specialize (Hc g Hin Hg). rewrite Hs in Hc. vm_compute in Hc. discriminate.
Qed.

Lemma two_significant_some_gapped (gaps : list GradeGap) :
  at_least_two significant_gap gaps -> some_gapped gaps.
Proof.
  intros H. apply at_least_two_in in H as (g & Hin & Hg & _). now exists g.
Qed.

(** C4.  The readiness label that [compare_grades_to_requirements]
    returns is "ready" iff no record has gap > 0; "mostly_ready" iff
    some record has gap > 0 and every such record has severity "close";
    "significant_gaps" iff at least two records with gap > 0 have
    severity "significant"; and "needs_improvement" in every other case
    with a gap. *)
Theorem C4_readiness_label
        (majors_ : list Major) (student_grades : dict Q) (major_name : pystr)
        (gaps : list GradeGap) (readiness : pystr) :
  compare_grades_to_requirements majors_ student_grades major_name
  = Returned (gaps, readiness) ->
  (readiness = u "ready" <-> forall g, In g gaps -> ~ gapped g) /\
  (readiness = u "mostly_ready" <-> some_gapped gaps /\ all_gapped_close gaps) /\
  (readiness = u "significant_gaps" <-> at_least_two significant_gap gaps) /\
  (readiness = u "needs_improvement" <->
   some_gapped gaps /\ ~ all_gapped_close gaps
   /\ ~ at_least_two significant_gap gaps).
Proof.
  intros H. apply compare_returned in H as (m & _ & _ & _ & ->).
  assert (Hno : (forall g, In g gaps -> ~ gapped g) <-> ~ some_gapped gaps).
  { split.
    - intros Hn (g & Hin & Hg). exact (Hn g Hin Hg).
    - intros Hn g Hin Hg. apply Hn. now exists g. }
  rewrite Hno.
  destruct (readiness_cases gaps)
    as [(HA & ->) | [(HS & HC & ->) | [(HS & HN & HT & ->) | (HS & HN & HT & ->)]]].
  - repeat split; intros; try assumption; try reflexivity; try labels.
    + destruct H; contradiction.
    + exfalso. now apply HA, two_significant_some_gapped.
    + destruct H; contradiction.
  - pose proof (close_excludes_two_significant HC) as HX.
    repeat split; intros; try assumption; try reflexivity; try labels;
      try contradiction.
    destruct H as (_ & Hn & _). contradiction.
  - repeat split; intros; try assumption; try reflexivity; try labels;
      try contradiction.
    + destruct H; contradiction.
    + destruct H as (_ & _ & Hn). contradiction.
  - repeat split; intros; try assumption; try reflexivity; try labels;
      try contradiction.
    destruct H; contradiction.
Qed.

Lemma C4_witness :
  exists gaps readiness,
    compare_grades_to_requirements majors transcript (u "computer")
    = Returned (gaps, readiness) /\
    (readiness = u "mostly_ready" <-> some_gapped gaps /\ all_gapped_close gaps).
Proof.
  eexists. eexists. split; [vm_compute; reflexivity|].
  refine (proj1 (proj2 (@C4_readiness_label
                          majors transcript (u "computer") _ _ _))).
  vm_compute. reflexivity.
Defined.

(** ** Transcript analysis *)

Lemma validate_grade_iff (v : Q) :
  validate_grade v = true <-> 0 <= v /\ v <= 20.
Proof.
  unfold validate_grade, MAX_GRADE. now rewrite andb_true_iff, !leb_iff.
Qed.

Lemma fold_left_plus (l : list Q) (a : Q) :
  fold_left Qplus l a == a + fold_right Qplus 0 l.
Proof.
  revert a. induction l as [|x l IH]; intros a; simpl.
  - ring.
  - rewrite IH. ring.
Qed.

Lemma sum_fold_right (l : list Q) : sum l == fold_right Qplus 0 l.
Proof. unfold sum. rewrite fold_left_plus. ring. Qed.

Lemma length_values (V : Type) (d : dict V) : length (values d) = length d.
Proof. apply length_map. Qed.

Lemma passing_all_iff (retained : dict Q) :
  forallb (fun grade => geb grade PASSING_GRADE) (values retained) = true <->
  forall k v, In (k, v) retained -> 10 <= v.
Proof.
  rewrite forallb_forall. unfold values. split.
  - intros H k v Hin. apply geb_iff. apply H.
    apply in_map_iff. now exists (k, v).
  - intros H v Hin. apply in_map_iff in Hin as ([k v'] & <- & Hin).
    apply geb_iff. now apply (H k).
Qed.

End TranscriptProofs.

(* ================================================================== *)
(** * Major matcher *)
(* ================================================================== *)

Module MajorProofs.
Import Py Settings SubjectMapper TranscriptService MajorService.
Import Spec Samples Facts SortFacts.

Lemma set_of_in (x : pystr) (l : list pystr) : In x (set_of l) <-> In x l.
Proof.
  induction l as [|y l IH]; simpl; [reflexivity|].
  destruct (mem y l) eqn:E.
  - rewrite IH. split; [now right|]. intros [<- | H]; [|assumption].
    now apply mem_iff.
  - simpl. now rewrite IH.
Qed.

Lemma mem_ext (x : pystr) (a b : list pystr) :
  (In x a <-> In x b) -> mem x a = mem x b.
Proof.
  intros H. destruct (mem x a) eqn:Ea, (mem x b) eqn:Eb; try reflexivity.
  - apply mem_iff, H, mem_iff in Ea. congruence.
  - apply mem_iff, H, mem_iff in Eb. congruence.
Qed.

Lemma mem_set_of (x : pystr) (l : list pystr) : mem x (set_of l) = mem x l.
Proof. apply mem_ext, set_of_in. Qed.

Lemma set_of_filter (p : pystr -> bool) (l : list pystr) :
  filter p (set_of l) = set_of (filter p l).
Proof.
  induction l as [|x l IH]; [reflexivity|]. cbn [set_of filter].
  destruct (p x) eqn:Ep.
  - cbn [set_of].
    assert (E : mem x (filter p l) = mem x l).
    { apply mem_ext. rewrite filter_In. split; [now intros [H _] | now split]. }
    rewrite E. destruct (mem x l); [exact IH|].
    cbn [filter]. now rewrite Ep, IH.
  - destruct (mem x l); [exact IH|]. cbn [filter]. now rewrite Ep, IH.
Qed.

(** [len(set(a) & set(b))] counts the distinct common strings. *)
Lemma set_inter_common (a b : list pystr) :
  length (set_inter (set_of a) (set_of b)) = common a b.
Proof.
  unfold set_inter, common.
  rewrite (filter_ext (fun x => mem x (set_of b)) (fun x => mem x b))
    by (intros x; apply mem_set_of).
  now rewrite set_of_filter.
Qed.

Lemma set_inter_in (x : pystr) (a b : list pystr) :
  In x (set_inter a b) <-> In x a /\ In x b.
Proof. unfold set_inter. now rewrite filter_In, mem_iff. Qed.

Lemma nonempty_length (A : Type) (l : list A) :
  nonempty l = (0 <? length l)%nat.
Proof. now destruct l. Qed.

Lemma len_count (A : Type) (l : list A) : len l = count (length l).
Proof. reflexivity. Qed.

Section Score.
Variable interests : option (list pystr).
Variable favorite_subjects : option (list pystr).
Variable career_goals : option pystr.

Lemma step_interests_score (m : Major) (a : Acc) :
  acc_score (step_interests interests m a) == acc_score a + interest_term interests m.
Proof.
  unfold MajorService.step_interests, interest_term.
  rewrite nonempty_length. unfold interest_matches.
  rewrite !len_count, set_inter_common.
  fold (given_interests interests).
  change (interests_lower interests) with (given_interests interests).
  destruct (0 <? common (given_interests interests) (map lower (keywords m)))%nat;
    cbn [acc_score]; [reflexivity | ring].
Qed.

Lemma step_subjects_score (m : Major) (a : Acc) :
  acc_score (step_subjects favorite_subjects m a)
  == acc_score a + subject_term favorite_subjects m.
Proof.
  unfold MajorService.step_subjects, subject_term.
  destruct (or_empty favorite_subjects) as [|f fs] eqn:Ef; cbn [nonempty];
    [ring|].
  rewrite nonempty_length. unfold subject_matches.
  rewrite !len_count, set_inter_common.
  unfold given_subjects, subjects_lower. rewrite Ef.
  destruct (0 <? common (mapped_subjects (map lower (f :: fs)))
                        (map lower (keys (requirements m))))%nat;
    cbn [acc_score]; [reflexivity | ring].
Qed.

Lemma career_hit_related (goal : pystr) (m : Major) :
  truthy goal = true ->
  career_goals = Some goal ->
  career_hit career_goals m = career_related goal m.
Proof.
  intros Ht ->. unfold career_hit, career_related, career_lower.
  rewrite Ht. induction (career_paths m) as [|cp l IH]; [reflexivity|].
  cbn [map existsb]. now rewrite IH.
Qed.

Lemma step_career_score (m : Major) (a : Acc) :
  acc_score (step_career career_goals m a)
  == acc_score a + career_term career_goals m.
Proof.
  unfold MajorService.step_career, career_term.
  destruct career_goals as [[|c goal]|] eqn:Eg; cbn [truthy andb]; try ring.
  rewrite <- Eg.
  rewrite (@career_hit_related (c :: goal) m eq_refl Eg).
  destruct (career_related (c :: goal) m); cbn [acc_score]; [reflexivity | ring].
Qed.

Lemma count_pos (n : nat) : gtb (count n) 0 = (0 <? n)%nat.
Proof.
  destruct n as [|n].
  - reflexivity.
  - apply gtb_iff. unfold count, Qlt. cbn. lia.
Qed.

Lemma step_description_score (m : Major) (a : Acc) :
  acc_score (step_description interests m a)
  == acc_score a + description_bonus interests m.
Proof.
  unfold MajorService.step_description, description_bonus.
  change (interests_lower interests) with (given_interests interests).
  change (desc_matches interests m) with (description_matches interests m).
  rewrite !len_count. fold (count (description_matches interests m)).
  rewrite !count_pos.
  destruct (given_interests interests) as [|i is_] eqn:Ei.
  - rewrite andb_false_r. ring.
  - cbn [length Nat.ltb Nat.leb andb]. rewrite andb_true_r.
    destruct (description_matches interests m) as [|d] eqn:Ed.
    + cbn [Nat.ltb Nat.leb]. 
      assert (Z0 : count 0 / count (S (length is_)) == 0) by reflexivity.
      rewrite Z0. rewrite (Q.min_l 0 1) by (unfold Qle; cbn; lia). ring.
    + cbn [Nat.ltb Nat.leb acc_score]. reflexivity.
Qed.

(** The score the loop gives a major is the sum of the four terms. *)
Lemma score_major_total (m : Major) :
  acc_score (score_major interests favorite_subjects career_goals m)
  == total_score interests favorite_subjects career_goals m.
Proof.
  unfold MajorService.score_major, total_score.
  rewrite step_description_score, step_career_score,
    step_subjects_score, step_interests_score.
  cbn [acc_score]. ring.
Qed.
End Score.

Lemma gtb_compat (x y : Q) : x == y -> gtb x 0 = gtb y 0.
Proof.
  intros E. destruct (gtb x 0) eqn:Ex, (gtb y 0) eqn:Ey; try reflexivity.
  - apply gtb_iff in Ex. apply gtb_false_iff in Ey. rewrite E in Ex.
    exfalso. exact (Qlt_not_le _ _ Ex Ey).
  - apply gtb_iff in Ey. apply gtb_false_iff in Ex. rewrite E in Ex.
    exfalso. exact (Qlt_not_le _ _ Ey Ex).
Qed.

Section Matching.
Variable interests : option (list pystr).
Variable favorite_subjects : option (list pystr).
Variable career_goals : option pystr.


Lemma collect_matches_majors (majors_ : list Major) :
  map major (collect_matches interests favorite_subjects career_goals majors_)
  = filter (fun m => gtb (total_score interests favorite_subjects career_goals m) 0)
           majors_.
Proof.
  induction majors_ as [|m rest IH]; [reflexivity|].
  cbn [collect_matches filter].
  rewrite <- (gtb_compat (score_major_total interests favorite_subjects career_goals m)).
  destruct (gtb (acc_score (score_major interests favorite_subjects career_goals m)) 0);
    [cbn [map major]; now rewrite IH | exact IH].
Qed.

Lemma nothing_to_match (majors_ : list Major) :
  or_empty interests = [] ->
  or_empty favorite_subjects = [] ->
  career_goals = None ->
  collect_matches interests favorite_subjects career_goals majors_ = [].
Proof.
  intros Hi Hf Hc. induction majors_ as [|m rest IH]; [reflexivity|].
  cbn [collect_matches].
  assert (E : acc_score (score_major interests favorite_subjects career_goals m) = 0).
  { unfold score_major, step_description, step_career, step_subjects,
      step_interests, interest_matches, desc_matches, interests_lower.
    rewrite Hi, Hf, Hc. reflexivity. }
  rewrite E. exact IH.
Qed.
End Matching.

Lemma slice_to_nonneg (A : Type) (l : list A) (n : Z) :
  (0 <= n)%Z -> slice_to l n = firstn (Z.to_nat n) l.
Proof.
  intros H. unfold slice_to. destruct (n <? 0)%Z eqn:E; [|reflexivity].
  apply Z.ltb_lt in E. lia.
Qed.

Lemma slice_to_negative (A : Type) (l : list A) (n : Z) :
  (n < 0)%Z -> slice_to l n = drop_last (Z.to_nat (- n)) l.
Proof.
  intros H. unfold slice_to, drop_last. apply Z.ltb_lt in H. rewrite H.
  rewrite skipn_rev, rev_involutive. reflexivity.
Qed.

Lemma coerce_resolved (t : TopN) (n : Z) :
  coerce_top_n t = Returned n <-> resolved_top_n t n.
Proof.
  unfold coerce_top_n, resolved_top_n. split.
  - destruct (top_n_truthy t) eqn:Et.
    + destruct t as [|k|s]; cbn in Et; try discriminate.
      * intros [= <-]. right; left. exists k. repeat split.
        intros ->. discriminate.
      * destruct (int_of_str s) as [k|] eqn:Ei; [|discriminate].
        intros [= <-]. right; right. exists s. repeat split; try assumption.
        intros ->. discriminate.
    + intros [= <-]. now left.
  - intros [[Hf ->] | [(k & -> & Hk & ->) | (s & -> & Hs & Hi)]].
    + now rewrite Hf.
    + cbn. destruct (k =? 0)%Z eqn:E; [apply Z.eqb_eq in E; contradiction|].
      reflexivity.
    + destruct s as [|c s]; [contradiction|]. cbn [top_n_truthy truthy].
      now rewrite Hi.
Qed.

(** ** Similar majors *)

Lemma get_major_fuzzy_none (name_lower : pystr) (majors_ : list Major) :
  get_major_fuzzy name_lower majors_ = None <->
  forall m, In m majors_ ->
    str_in name_lower (lower (name m)) = false /\
    forall pt, name_pt m = Some pt -> str_in name_lower (lower pt) = false.
Proof.
  induction majors_ as [|m rest IH]; cbn [get_major_fuzzy].
  - split; [intros _ m [] | reflexivity].
  - destruct (str_in name_lower (lower (name m))) eqn:En.
    { split; [discriminate|]. intros H.
      destruct (H m (or_introl eq_refl)) as [H1 _]. congruence. }
    destruct (name_pt m) as [pt|] eqn:Ept.
    + destruct (str_in name_lower (lower pt)) eqn:Ep.
      { split; [discriminate|]. intros H.
        destruct (H m (or_introl eq_refl)) as [_ H2].
        specialize (H2 pt Ept). congruence. }
      rewrite IH. split.
      * intros H m' [<- | Hin]; [|now apply H].
        split; [assumption|]. intros pt' E. rewrite Ept in E.
        injection E as <-. assumption.
      * intros H m' Hin. apply H. now right.
    + rewrite IH. split.
      * intros H m' [<- | Hin]; [|now apply H].
        split; [assumption|]. intros pt' E. rewrite Ept in E. discriminate.
      * intros H m' Hin. apply H. now right.
Qed.

Lemma unresolvable_iff (majors_ : list Major) (name_ : pystr) :
  unresolvable majors_ name_ <-> get_major_by_name majors_ name_ true = None.
Proof.
  unfold unresolvable, get_major_by_name. symmetry. apply get_major_fuzzy_none.
Qed.

Lemma collect_similar_no_overlap (reference : Major) (majors_ : list Major) :
  (forall m, In m majors_ -> id m <> id reference ->
             no_keyword_overlap reference m) ->
  collect_similar reference (set_of (map lower (keywords reference))) majors_ = [].
Proof.
  induction majors_ as [|m rest IH]; intros H; [reflexivity|].
  cbn [collect_similar].
  assert (IH' : collect_similar reference
                  (set_of (map lower (keywords reference))) rest = []).
  { apply IH. intros m' Hin. apply H. now right. }
  destruct (str_eqb (id m) (id reference)) eqn:E; [exact IH'|].
  apply str_eqb_neq in E.
  assert (Hnil : set_inter (set_of (map lower (keywords reference)))
                           (set_of (map lower (keywords m))) = []).
  { apply filter_nil_iff. intros kw Hkw.
    destruct (mem kw (set_of (map lower (keywords m)))) eqn:Em; [|reflexivity].
    exfalso. rewrite mem_iff, set_of_in in Em. rewrite set_of_in in Hkw.
    exact (H m (or_introl eq_refl) E kw Hkw Em). }
  rewrite Hnil. exact IH'.
Qed.

(** C10.  For a name that no major of the dataset answers to,
    [get_similar_majors] returns the empty list, where
    [compare_grades_to_requirements] raises its not-found error; and
    the empty list is also what a known major gets when no other major
    shares a keyword with it, so the two cases look the same to a
    caller. *)
Theorem C10_similar_majors_of_unknown_major :
  (forall majors_ major_name top_n student_grades,
      unresolvable majors_ major_name ->
      get_similar_majors majors_ major_name top_n = [] /\
      compare_grades_to_requirements majors_ student_grades major_name
      = Raised (MajorNotFound major_name) /\
      is_NotFound (MajorNotFound major_name) = true) /\
  (forall majors_ major_name top_n reference,
      get_major_by_name majors_ major_name true = Some reference ->
      (forall m, In m majors_ -> id m <> id reference ->
                 no_keyword_overlap reference m) ->
      get_similar_majors majors_ major_name top_n = []) /\
  (get_major_by_name majors (u "Astrology") true = None /\
   get_major_by_name majors (u "Medicine") true = Some medicine /\
   get_similar_majors majors (u "Astrology") 3
   = get_similar_majors majors (u "Medicine") 3).
Proof.
  split; [|split].
  - intros majors_ major_name top_n student_grades Hu.
    apply unresolvable_iff in Hu.
    unfold get_similar_majors, compare_grades_to_requirements.
    rewrite Hu. repeat split.
  - intros majors_ major_name top_n reference Href Hno.
    unfold get_similar_majors. rewrite Href.
    rewrite (collect_similar_no_overlap _ Hno).
    unfold slice_to. cbn [sorted_reverse fold_right].
    destruct (top_n <? 0)%Z; now rewrite firstn_nil.
  - repeat split.
Qed.

Lemma C10_witness :
  get_similar_majors majors (u "Astrology") 3 = [] /\
  compare_grades_to_requirements majors transcript (u "Astrology")
  = Raised (MajorNotFound (u "Astrology")).
Proof.
  destruct (proj1 C10_similar_majors_of_unknown_major
                  majors (u "Astrology") 3%Z transcript) as (H1 & H2 & _).
  - intros m Hin. vm_compute in Hin.
    destruct Hin as [<- | [<- | []]]; split;
      try (vm_compute; reflexivity);
      intros pt E; vm_compute in E; try discriminate E;
      injection E as <-; vm_compute; reflexivity.
  - split; assumption.
Defined.

End MajorProofs.

(* ================================================================== *)
(** * Router, orchestrator and chat coordinator *)
(* ================================================================== *)

Module AgentProofs.
Import Py Eff Settings Router Orchestrator Spec Samples Facts.

Lemma detect_crisis (message : pystr) :
  contains_crisis_phrase message -> _detect_crisis_keywords message = true.
Proof.
  intros (before & phrase & after & -> & Hin).
  unfold _detect_crisis_keywords, any_in. apply existsb_exists.
  exists (lower phrase). split; [assumption|].
  apply str_in_iff. exists (lower before), (lower after).
  now rewrite !lower_app.
Qed.

Section Crisis.
Variables Env Args Payload : Type.
Variable C : Collaborators Env Args Payload.

Lemma classify_crisis (message : pystr) history files (w : World Env) :
  _detect_crisis_keywords message = true ->
  exists ir, classify_intent C message history files w = (Returned ir, w)
             /\ Router.intent ir = CRISIS_SAFETY /\ confidence ir = 1.
Proof.
  intros H. unfold classify_intent. rewrite H.
  eexists. split; [reflexivity|]. split; reflexivity.
Qed.

Lemma process_crisis registry_ (message_ : pystr) history files session user (w : World Env) :
  _detect_crisis_keywords message_ = true ->
  exists resp w',
    ChatService.process_message C registry_ message_ history files session user w
    = (Returned resp, w') /\
    trace w' = trace w /\
    ChatService.message resp = CRISIS_RESPONSE /\
    ChatService.success resp = true /\
    ChatService.meta_intent (ChatService.metadata resp) = Some (u "crisis_safety") /\
    ChatService.suggestions resp = None.
Proof.
  intros H. unfold ChatService.process_message, ChatService.process_try, bind, try_except.
  assert (Hs : exists sid w0,
             (match session with
              | Some s => if truthy s then ret s else fresh_uuid C
              | None => fresh_uuid C
              end) w = (Returned sid, w0) /\ trace w0 = trace w).
  { destruct session as [s|]; [destruct (truthy s)|];
      try (unfold fresh_uuid; destruct (uuid4 C (env w)) as [i e'];
           eexists; eexists; split; reflexivity). }
  destruct Hs as (sid & w0 & -> & Ht).
  destruct (classify_crisis message_ None None w0 H) as (ir & -> & Hi & _).
  rewrite Hi. 
  change (intent_eqb CRISIS_SAFETY CRISIS_SAFETY) with true. cbv iota.
  eexists. eexists. split; [reflexivity|].
  repeat split; assumption.
Qed.
End Crisis.

(** C1.  For every message that holds, somewhere and in any letter
    case, a phrase of the crisis keyword list, [classify_intent] returns
    intent CRISIS_SAFETY with confidence 1.0 and leaves the world as it
    was (no request reaches the model), whatever the history and the
    uploaded files are; and [process_message] returns the fixed crisis
    message with success, metadata intent "crisis_safety" and no
    suggestions, again without any request to the model or any tool. *)
Theorem C1_crisis_short_circuit
        (Env Args Payload : Type) (C : Collaborators Env Args Payload)
        (registry_ : dict (Tool Env Args Payload)) (message_ : pystr) :
  contains_crisis_phrase message_ ->
  (forall history files (w : World Env),
      exists ir,
        classify_intent C message_ history files w = (Returned ir, w) /\
        Router.intent ir = CRISIS_SAFETY /\ confidence ir = 1) /\
  (forall history files session user (w : World Env),
      exists resp w',
        ChatService.process_message C registry_ message_ history files session user w
        = (Returned resp, w') /\
        trace w' = trace w /\
        ChatService.message resp = CRISIS_RESPONSE /\
        ChatService.success resp = true /\
        ChatService.meta_intent (ChatService.metadata resp) = Some (u "crisis_safety") /\
        ChatService.suggestions resp = None).
Proof.
  intros H. apply detect_crisis in H. split.
  - intros history files w. now apply classify_crisis.
  - intros history files session user w. now apply process_crisis.
Qed.

Lemma C1_witness :
  exists resp w',
    ChatService.process_message
      offline registry (u "Some days I want to KILL MYSELF, honestly")
      (Some [{| role := u "user"; content := u "hello" |}])
      (Some [{| file_name := Some (u "grades.pdf"); file_path := None |}])
      None None world0
    = (Returned resp, w') /\
    trace w' = [] /\
    ChatService.message resp = CRISIS_RESPONSE /\
    ChatService.suggestions resp = None.
Proof.
  destruct (proj2 (@C1_crisis_short_circuit
                     nat pystr pystr offline registry
                     (u "Some days I want to KILL MYSELF, honestly")
                     (ex_intro _ (u "Some days I want to ")
                        (ex_intro _ (u "KILL MYSELF")
                           (ex_intro _ (u ", honestly")
                              (conj eq_refl
                                 (or_intror (or_introl eq_refl)))))))
                  (Some [{| role := u "user"; content := u "hello" |}])
                  (Some [{| file_name := Some (u "grades.pdf"); file_path := None |}])
                  None None world0)
    as (resp & w' & Hp & Ht & Hm & _ & _ & Hs).
  exists resp, w'. repeat split; assumption.
Defined.

(** C8.  [_execute_tool] never raises.  For a name that is not in the
    registry it returns a result with success false and the error
    "Tool '<name>' not found in registry", and calls nothing; for a
    registered name it calls the tool once and returns success true
    with the tool's result, or, if the tool raised, success false with
    the exception's message.  In every case the execution time is the
    clock reading at the end minus the reading at the start. *)
Theorem C8_execute_tool_never_raises
        (Env Args Payload : Type) (C : Collaborators Env Args Payload)
        (self : AgentOrchestrator Env Args Payload)
        (tool_name_ : pystr) (tool_args : Args) (w : World Env) :
  let started := fst (time_time C (env w)) in
  let e0 := snd (time_time C (env w)) in
  exists tr w',
    _execute_tool C self tool_name_ tool_args w = (Returned tr, w') /\
    tool_name tr = tool_name_ /\
    match get (tool_registry self) tool_name_ with
    | None =>
      Orchestrator.success tr = false /\ result tr = None /\
      error tr = Some (u "Tool '" ++ tool_name_ ++ u "' not found in registry") /\
      execution_time tr = fst (time_time C e0) - started /\
      trace w' = trace w
    | Some tool_func =>
      trace w' = trace w ++ [ToolInvoked tool_name_] /\
      Orchestrator.metadata tr = Some tool_args /\
      match tool_func tool_args e0 with
      | (Returned payload, e1) =>
        Orchestrator.success tr = true /\ result tr = Some payload /\
        error tr = None /\
        execution_time tr = fst (time_time C e1) - started
      | (Raised e, e1) =>
        Orchestrator.success tr = false /\ result tr = None /\
        error tr = Some (exc_str e) /\
        execution_time tr = fst (time_time C e1) - started
      end
    end.
Proof.
  intros started e0. subst started e0.
  unfold _execute_tool, bind, now, contains.
  destruct (time_time C (env w)) as [t0 e0] eqn:E0. cbn [fst snd env trace].
  destruct (get (tool_registry self) tool_name_) as [tool_func|] eqn:Eg;
    cbn [negb].
  - unfold try_except, invoke, ask, bind. cbn [env trace].
    destruct (tool_func tool_args e0) as [[payload|e] e1] eqn:Et.
    + cbn [env trace]. destruct (time_time C e1) as [t1 e2] eqn:E1.
      eexists. eexists. split; [reflexivity|]. cbn. repeat split.
    + cbn [env trace]. destruct (time_time C e1) as [t1 e2] eqn:E1.
      eexists. eexists. split; [reflexivity|]. cbn. repeat split.
  - cbn [env trace]. destruct (time_time C e0) as [t1 e1] eqn:E1.
    eexists. eexists. split; [reflexivity|]. cbn. repeat split.
Qed.

Example execute_tool_examples :
  (exists tr w', _execute_tool offline orchestrator (u "echo") (u "hi") world0
                 = (Returned tr, w')
                 /\ Orchestrator.success tr = true /\ result tr = Some (u "hi")
                 /\ execution_time tr == 1) /\
  (exists tr w', _execute_tool offline orchestrator (u "broken") (u "hi") world0
                 = (Returned tr, w')
                 /\ Orchestrator.success tr = false
                 /\ error tr = Some (u "bad input")) /\
  (exists tr w', _execute_tool offline orchestrator (u "missing") (u "hi") world0
                 = (Returned tr, w')
                 /\ Orchestrator.success tr = false
                 /\ error tr = Some (u "Tool 'missing' not found in registry")
                 /\ trace w' = []).
Proof.
  split; [|split]; eexists; eexists; (split; [vm_compute; reflexivity|]);
    repeat split.
Qed.

Lemma intent_eqb_eq (a b : IntentType) : intent_eqb a b = true <-> a = b.
Proof.
  split.
  - destruct a, b; try reflexivity; intros H; vm_compute in H; discriminate H.
  - intros ->. apply str_eqb_refl.
Qed.

Lemma no_major_iff (ir : IntentResult) :
  negb (match ctx_major (context ir) with
        | Some m => truthy m
        | None => false
        end) = true <-> no_major ir.
Proof.
  unfold no_major. destruct (ctx_major (context ir)) as [[|c m]|]; cbn; split;
    try reflexivity; try discriminate; auto.
  - intros [H | H]; discriminate H.
Qed.

Lemma transcript_present_iff (ir : IntentResult) :
  or_default (ctx_has_transcript (context ir)) false = true <-> transcript_present ir.
Proof.
  unfold transcript_present.
  destruct (ctx_has_transcript (context ir)) as [[|]|]; cbn; split;
    try reflexivity; try discriminate.
Qed.

Lemma requires_clarification_order (ir : IntentResult) :
  (confidence ir < 1 # 2 ->
   requires_clarification ir
   = Some (u "I'm not quite sure what you're looking for. Could you rephrase that?")) /\
  (1 # 2 <= confidence ir ->
   Router.intent ir = GAP_ANALYSIS -> no_major ir ->
   requires_clarification ir
   = Some (u "Which major would you like me to check your readiness for?")) /\
  (1 # 2 <= confidence ir ->
   ~ (Router.intent ir = GAP_ANALYSIS /\ no_major ir) ->
   requires_transcript ir = true -> ~ transcript_present ir ->
   requires_clarification ir
   = Some (u "I'll need to see your transcript to help with that. Could you upload your grades PDF?")) /\
  (1 # 2 <= confidence ir ->
   ~ (Router.intent ir = GAP_ANALYSIS /\ no_major ir) ->
   ~ (requires_transcript ir = true /\ ~ transcript_present ir) ->
   requires_clarification ir = None).
Proof.
  unfold requires_clarification.
  set (q1 := u "I'm not quite sure what you're looking for. Could you rephrase that?").
  set (q2 := u "Which major would you like me to check your readiness for?").
  set (q3 := u "I'll need to see your transcript to help with that. Could you upload your grades PDF?").
  clearbody q1 q2 q3.
  destruct (ltb (confidence ir) (1 # 2)) eqn:Ec.
  { apply ltb_iff in Ec. repeat split; intros; try reflexivity; exfalso; lra. }
  apply ltb_false_iff in Ec.
  destruct (intent_eqb (Router.intent ir) GAP_ANALYSIS
            && negb (match ctx_major (context ir) with
                     | Some m => truthy m
                     | None => false
                     end)) eqn:Eg.
  { apply andb_true_iff in Eg as [Eg1 Eg2].
    apply intent_eqb_eq in Eg1. apply no_major_iff in Eg2.
    split; [intros; exfalso; lra|].
    split; [reflexivity|].
    split; intros _ Hn; exfalso; apply Hn; now split. }
  assert (Hg : ~ (Router.intent ir = GAP_ANALYSIS /\ no_major ir)).
  { intros [H1 H2]. apply intent_eqb_eq in H1. apply no_major_iff in H2.
    rewrite H1, H2 in Eg. discriminate. }
  destruct (requires_transcript ir
            && negb (or_default (ctx_has_transcript (context ir)) false)) eqn:Et.
  { apply andb_true_iff in Et as [Et1 Et2]. apply negb_true_iff in Et2.
    assert (Hp : ~ transcript_present ir).
    { intros H. apply transcript_present_iff in H. congruence. }
    split; [intros; exfalso; lra|].
    split; [intros _ H1 H2; exfalso; apply Hg; now split|].
    split; [reflexivity|].
    intros _ _ Hn. exfalso. apply Hn. now split. }
  split; [intros; exfalso; lra|].
  split; [intros _ H1 H2; exfalso; apply Hg; now split|].
  split; [|reflexivity].
  intros _ _ Hr Hp. exfalso. rewrite Hr in Et. cbn [andb] in Et.
  apply negb_false_iff in Et. apply Hp. now apply transcript_present_iff.
Qed.

(** Every question [requires_clarification] asks is a non-empty string. *)
Lemma question_truthy (ir : IntentResult) (q : pystr) :
  requires_clarification ir = Some q -> truthy q = true.
Proof.
  unfold requires_clarification.
  destruct (ltb (confidence ir) (1 # 2)).
  { intros [= <-]. vm_compute. reflexivity. }
  destruct (intent_eqb (Router.intent ir) GAP_ANALYSIS && _).
  { intros [= <-]. vm_compute. reflexivity. }
  destruct (requires_transcript ir && _).
  { intros [= <-]. vm_compute. reflexivity. }
  discriminate.
Qed.

Section Run.
Variables Env Args Payload : Type.
Variable C : Collaborators Env Args Payload.

Lemma classify_returns (message : pystr) history files (w : World Env) :
  exists ir w1,
    classify_intent C message history files w = (Returned ir, w1) /\
    (exists new, trace w1 = trace w ++ new /\ only_classification new) /\
    (_detect_crisis_keywords message = false ->
     ctx_has_transcript (context ir) = Some (has_files files)).
Proof.
  unfold classify_intent.
  destruct (_detect_crisis_keywords message) eqn:Ed.
  { eexists. eexists. split; [reflexivity|]. split; [|discriminate].
    exists []. split; [now rewrite app_nil_r | constructor]. }
  unfold try_except, bind, ask_structured, ask.
  destruct (generate_structured_output C
              (classification_prompt message history files) (env w))
    as [[reply|e] e'].
  - eexists. eexists. split; [reflexivity|]. split; [|reflexivity].
    eexists. split; [reflexivity|]. repeat constructor.
  - eexists. eexists. split; [reflexivity|]. split; [|reflexivity].
    eexists. split; [reflexivity|]. repeat constructor.
Qed.

Variable self : AgentOrchestrator Env Args Payload.

Lemma run_clarification (message : pystr) history files sid uid
      (w w1 : World Env) (ir : IntentResult) (q : pystr) :
  classify_intent C message history files (snd (now C w)) = (Returned ir, w1) ->
  requires_clarification ir = Some q ->
  exists s w2,
    run C self message history files sid uid w = (Returned s, w2) /\
    status s = COMPLETED /\
    final_response s = Some q /\
    Orchestrator.intent s = Some ir /\
    tool_calls s = [] /\ tool_results s = [] /\ plan s = None /\
    error_message s = None /\
    trace w2 = trace w1.
Proof.
  intros Hc Hq. unfold run.
  destruct (now C w) as [r0 w0] eqn:En. cbn [snd] in Hc.
  assert (exists start, r0 = Returned start) as [start ->].
  { unfold now in En. destruct (time_time C (env w)). injection En as <- _.
    now eexists. }
  unfold bind at 1. unfold try_except, run_try.
  unfold bind at 1. unfold update at 1, modify. cbn [fst snd].
  unfold bind at 1. unfold lift at 1. cbn [fst snd]. rewrite Hc.
  unfold bind at 1. unfold update at 1, modify. cbn [fst snd].
  unfold if_truthy. rewrite Hq, (question_truthy _ Hq).
  unfold bind at 1. unfold update at 1, modify. cbn [fst snd].
  unfold bind at 1. unfold update at 1, modify. cbn [fst snd].
  unfold bind at 1. unfold stamp_total, bind, lift, state, update, modify, now.
  cbn [fst snd]. destruct (time_time C (env w1)) as [t e'].
  cbn [fst snd ret]. 
  eexists. eexists. split; [reflexivity|]. repeat split.
Qed.
End Run.

(** C9.  [requires_clarification] checks its conditions in order: the
    rephrase question when confidence < 0.5; else the which-major
    question when the intent is GAP_ANALYSIS and no major was
    extracted; else the transcript prompt when a transcript is required
    and no file was uploaded in this turn; else nothing.  The
    classification always returns, and outside the crisis path it
    records whether files were uploaded; whenever
    [requires_clarification] gives a question for it, [run] returns in
    status COMPLETED with that question as final response, no plan, an
    empty tool-call log, and nothing asked of the model or of any tool
    after the classification. *)
Theorem C9_clarification_before_planning
        (Env Args Payload : Type) (C : Collaborators Env Args Payload)
        (self : AgentOrchestrator Env Args Payload)
        (message_ : pystr) (history : option (list Message))
        (files : option (list UploadedFile)) (sid uid : option pystr)
        (w : World Env) :
  (forall ir : IntentResult,
      (confidence ir < 1 # 2 ->
       requires_clarification ir
       = Some (u "I'm not quite sure what you're looking for. Could you rephrase that?")) /\
      (1 # 2 <= confidence ir ->
       Router.intent ir = GAP_ANALYSIS -> no_major ir ->
       requires_clarification ir
       = Some (u "Which major would you like me to check your readiness for?")) /\
      (1 # 2 <= confidence ir ->
       ~ (Router.intent ir = GAP_ANALYSIS /\ no_major ir) ->
       requires_transcript ir = true -> ~ transcript_present ir ->
       requires_clarification ir
       = Some (u "I'll need to see your transcript to help with that. Could you upload your grades PDF?")) /\
      (1 # 2 <= confidence ir ->
       ~ (Router.intent ir = GAP_ANALYSIS /\ no_major ir) ->
       ~ (requires_transcript ir = true /\ ~ transcript_present ir) ->
       requires_clarification ir = None)) /\
  (exists ir w1,
      classify_intent C message_ history files (snd (now C w)) = (Returned ir, w1) /\
      (_detect_crisis_keywords message_ = false ->
       ctx_has_transcript (context ir) = Some (has_files files)) /\
      (exists new, trace w1 = trace w ++ new /\ only_classification new) /\
      forall q,
        requires_clarification ir = Some q ->
        exists s w2,
          run C self message_ history files sid uid w = (Returned s, w2) /\
          status s = COMPLETED /\
          final_response s = Some q /\
          Orchestrator.intent s = Some ir /\
          tool_calls s = [] /\ tool_results s = [] /\ plan s = None /\
          error_message s = None /\
          trace w2 = trace w1).
Proof.
  split; [apply requires_clarification_order|].
  destruct (classify_returns C message_ history files (snd (now C w)))
    as (ir & w1 & Hc & Hnew & Hctx).
  exists ir, w1. split; [assumption|]. split; [assumption|]. split.
  - destruct Hnew as (new & Ht & Hn). exists new. split; [|assumption].
    rewrite Ht. unfold now. destruct (time_time C (env w)). reflexivity.
  - intros q Hq. now apply run_clarification.
Qed.

Lemma C9_witness :
  exists s w2,
    run attentive orchestrator (u "Am I ready for Computer Science?")
        None None None None world0
    = (Returned s, w2) /\
    status s = COMPLETED /\
    final_response s
    = Some (u "I'll need to see your transcript to help with that. Could you upload your grades PDF?") /\
    tool_calls s = [].
Proof.
  destruct (proj2 (@C9_clarification_before_planning
                     nat pystr pystr attentive orchestrator
                     (u "Am I ready for Computer Science?")
                     None None None None world0))
    as (ir & w1 & Hc & _ & _ & Hrun).
  vm_compute in Hc. injection Hc as <- <-.
  destruct (Hrun (u "I'll need to see your transcript to help with that. Could you upload your grades PDF?"))
    as (s & w2 & Hr & Hs & Hf & _ & Ht & _).
  - vm_compute. reflexivity.
  - exists s, w2. repeat split; assumption.
Defined.

End AgentProofs.

(* ================================================================== *)
(** * Further properties of the code *)
(* ================================================================== *)

Module ListFacts.
Import Py.

Lemma in_firstn (A : Type) (n : nat) (l : list A) (x : A) :
  In x (firstn n l) -> In x l.
Proof.
  intros H. rewrite <- (firstn_skipn n l). apply in_or_app. now left.
Qed.

Lemma in_skipn (A : Type) (n : nat) (l : list A) (x : A) :
  In x (skipn n l) -> In x l.
Proof.
  intros H. rewrite <- (firstn_skipn n l). apply in_or_app. now right.
Qed.

Lemma returned_inj (E A : Type) (a b : A) :
  @Returned E A a = Returned b -> a = b.
Proof. now intros [= ->]. Qed.

Lemma slice_to_in (A : Type) (l : list A) (n : Z) (x : A) :
  In x (slice_to l n) -> In x l.
Proof. unfold slice_to. destruct (n <? 0)%Z; apply in_firstn. Qed.

Lemma slice_to_length (A : Type) (l : list A) (n : Z) :
  (length (slice_to l n) <= length l)%nat /\
  ((0 <= n)%Z -> (length (slice_to l n) <= Z.to_nat n)%nat).
Proof.
  unfold slice_to. destruct (n <? 0)%Z eqn:E; rewrite length_firstn.
  - apply Z.ltb_lt in E. split; lia.
  - split; lia.
Qed.
End ListFacts.


Module SubjectMapperExtra.
Import PyStr Py SubjectMapper Spec Samples Invariants Facts SubjectMapperProofs.

Lemma lower_char_idem (c : N) : lower_char (lower_char c) = lower_char c.
Proof.
  unfold lower_char.
  destruct ((65 <=? c) && (c <=? 90))%N eqn:E1.
  - apply andb_true_iff in E1 as [A B]. apply N.leb_le in A, B.
    replace ((65 <=? c + 32) && (c + 32 <=? 90))%N with false.
    2:{ symmetry. apply andb_false_iff. right. apply N.leb_gt. lia. }
    replace ((192 <=? c + 32) && (c + 32 <=? 222) && negb (c + 32 =? 215))%N with false.
    2:{ symmetry. apply andb_false_iff. left. apply andb_false_iff. left.
        apply N.leb_gt. lia. }
    reflexivity.
  - destruct ((192 <=? c) && (c <=? 222) && negb (c =? 215))%N eqn:E2.
    + apply andb_true_iff in E2 as [E2 _]. apply andb_true_iff in E2 as [A B].
      apply N.leb_le in A, B.
      replace ((65 <=? c + 32) && (c + 32 <=? 90))%N with false.
      2:{ symmetry. apply andb_false_iff. right. apply N.leb_gt. lia. }
      replace ((192 <=? c + 32) && (c + 32 <=? 222) && negb (c + 32 =? 215))%N with false.
      2:{ symmetry. apply andb_false_iff. left. apply andb_false_iff. right.
          apply N.leb_gt. lia. }
      reflexivity.
    + rewrite E1, E2. reflexivity.
Qed.

Lemma lower_idem (s : pystr) : lower (lower s) = lower s.
Proof.
  unfold lower. rewrite map_map. apply map_ext. intros c. apply lower_char_idem.
Qed.

Lemma canonical_lower (s : pystr) : canonical (lower s) = canonical s.
Proof. unfold canonical. now rewrite lower_idem. Qed.

(** The loop decides; the exact lookup after it never finds anything. *)
Lemma find_matching_grade_loop (grades : dict Q) (target : pystr) :
  find_matching_grade grades target = find_normalized (canonical target) grades.
Proof.
  unfold find_matching_grade. fold (canonical target).
  destruct (find_normalized (canonical target) grades) eqn:E; [reflexivity|].
  pose proof (proj1 (find_normalized_none (canonical target) grades) E) as Hn.
  unfold contains. now rewrite (exact_lookup_is_covered _ _ Hn).
Qed.

Lemma find_normalized_keys (t : pystr) (g1 g2 : dict Q) :
  map (fun kv => (lower (fst kv), snd kv)) g1
  = map (fun kv => (lower (fst kv), snd kv)) g2 ->
  find_normalized t g1 = find_normalized t g2.
Proof.
  revert g2. induction g1 as [|[k1 v1] g1 IH]; intros [|[k2 v2] g2] H;
    try discriminate H; [reflexivity|].
  cbn [map fst snd] in H. injection H as Hk Hv Hr. subst v2.
  cbn [find_normalized]. rewrite Hk. destruct (str_eqb _ t); [reflexivity|].
  now apply IH.
Qed.

(** X1.  [find_matching_grade] ignores letter case: two targets that
    agree once lower-cased, looked up in two grade mappings whose keys
    agree once lower-cased (same order, same grades), give the same
    answer. *)
Theorem find_matching_grade_ignores_case
        (g1 g2 : dict Q) (t1 t2 : pystr) :
  lower t1 = lower t2 ->
  map (fun kv => (lower (fst kv), snd kv)) g1
  = map (fun kv => (lower (fst kv), snd kv)) g2 ->
  find_matching_grade g1 t1 = find_matching_grade g2 t2.
Proof.
  intros Ht Hg. rewrite !find_matching_grade_loop.
  unfold canonical. rewrite Ht. now apply find_normalized_keys.
Qed.

Lemma find_matching_grade_ignores_case_witness :
  find_matching_grade grades_lower (u "Math")
  = find_matching_grade [(u "MATH", 15)] (u "mATH").
Proof.
  apply find_matching_grade_ignores_case; vm_compute; reflexivity.
Defined.

Lemma table_values_fixed :
  Forall (fun v => normalize_subject_name v = v /\ canonical v = v)
         (values SUBJECT_NAME_MAP).
Proof.
  assert (H : forallb (fun v => str_eqb (normalize_subject_name v) v
                                && str_eqb (canonical v) v)
                      (values SUBJECT_NAME_MAP) = true)
    by (vm_compute; reflexivity).
  rewrite forallb_forall in H. apply Forall_forall. intros v Hv.
  specialize (H v Hv). apply andb_true_iff in H as [H1 H2].
  split; now apply str_eqb_eq.
Qed.

Lemma mapped_value_fixed (k v : pystr) :
  get SUBJECT_NAME_MAP k = Some v ->
  normalize_subject_name v = v /\ canonical v = v.
Proof.
  intros H. apply get_some_in in H.
  pose proof table_values_fixed as F. rewrite Forall_forall in F.
  apply F. unfold values. apply in_map_iff. now exists (k, v).
Qed.

Lemma canonical_normalize (s : pystr) :
  canonical (normalize_subject_name s) = canonical s.
Proof.
  unfold normalize_subject_name at 1.
  destruct (get SUBJECT_NAME_MAP (strip (lower s))) as [v|] eqn:E; [|reflexivity].
  rewrite (proj2 (mapped_value_fixed _ E)).
  unfold canonical, normalize_subject_name. now rewrite lower_idem, E.
Qed.

(** X2.  Normalizing a subject name twice changes nothing more; a name
    and its normalized form have the same canonical form (the form
    [find_matching_grade] compares), and taking the canonical form is
    idempotent. *)
Theorem normalize_subject_name_idempotent (s : pystr) :
  normalize_subject_name (normalize_subject_name s) = normalize_subject_name s /\
  canonical (normalize_subject_name s) = canonical s /\
  canonical (canonical s) = canonical s.
Proof.
  split; [|split].
  - unfold normalize_subject_name at 2 3.
    destruct (get SUBJECT_NAME_MAP (strip (lower s))) as [v|] eqn:E.
    + apply (mapped_value_fixed _ E).
    + unfold normalize_subject_name. now rewrite E.
  - apply canonical_normalize.
  - unfold canonical at 2 3. unfold normalize_subject_name.
    rewrite lower_idem.
    destruct (get SUBJECT_NAME_MAP (strip (lower s))) as [v|] eqn:E.
    + apply (mapped_value_fixed _ E).
    + unfold canonical, normalize_subject_name. now rewrite !lower_idem, E.
Qed.
End SubjectMapperExtra.

Module NormalizeDictExtra.
Import PyStr Py SubjectMapper Spec Samples Invariants Facts SubjectMapperProofs.
Import SubjectMapperExtra.

Section SetItem.
Variable V : Type.

Lemma keys_setitem (d : dict V) (k : pystr) (v : V) (k' : pystr) :
  In k' (keys (setitem d k v)) <-> k' = k \/ In k' (keys d).
Proof.
  unfold keys. induction d as [|[k0 v0] d IH]; cbn [setitem map fst In].
  - split; [intros [<- | []]; now left | intros [-> | []]; now left].
  - destruct (str_eqb k0 k) eqn:E; cbn [map fst In].
    + apply str_eqb_eq in E. subst k0. intuition congruence.
    + rewrite IH. intuition congruence.
Qed.

Lemma keys_setitem_nodup (d : dict V) (k : pystr) (v : V) :
  NoDup (keys d) -> NoDup (keys (setitem d k v)).
Proof.
  unfold keys. induction d as [|[k0 v0] d IH]; cbn [setitem map fst]; intros H.
  - constructor; [intros [] | constructor].
  - destruct (str_eqb k0 k) eqn:E; cbn [map fst]; [exact H|].
    inversion H as [|? ? Hn Hd]; subst. constructor; [|now apply IH].
    intros Hin. apply (keys_setitem d k v k0) in Hin. destruct Hin as [-> | Hin].
    + rewrite str_eqb_refl in E. discriminate.
    + contradiction.
Qed.

Lemma values_setitem (d : dict V) (k : pystr) (v : V) (v' : V) :
  In v' (values (setitem d k v)) -> v' = v \/ In v' (values d).
Proof.
  unfold values. induction d as [|[k0 v0] d IH]; cbn [setitem map snd In].
  - intros [<- | []]. now left.
  - destruct (str_eqb k0 k); cbn [map snd In].
    + intros [<- | H]; [now left | right; now right].
    + intros [<- | H]; [right; now left|]. destruct (IH H); [now left | right; now right].
Qed.

Lemma length_setitem (d : dict V) (k : pystr) (v : V) :
  (length d <= length (setitem d k v) <= Datatypes.S (length d))%nat.
Proof.
  induction d as [|[k0 v0] d IH]; cbn [setitem length]; [lia|].
  destruct (str_eqb k0 k); cbn [length]; lia.
Qed.
End SetItem.

Lemma loop_keys (items acc : dict Q) (key : pystr) :
  In key (keys (normalize_grade_loop items acc)) <->
  In key (keys acc) \/ named items key.
Proof.
  revert acc. induction items as [|[s g] items IH]; intros acc;
    cbn [normalize_grade_loop].
  - split; [now left | intros [H | (k & [] & _)]; exact H].
  - rewrite IH. unfold named. cbn [keys map fst In].
    destruct (str_eqb (normalize_subject_name s) s) eqn:E; cbn [negb].
    + apply str_eqb_eq in E. rewrite keys_setitem. split.
      * intros [[-> | H] | (k & Hk & Hor)].
        -- right. exists s. split; [now left | now left].
        -- now left.
        -- right. exists k. split; [now right | assumption].
      * intros [H | (k & [<- | Hk] & Hor)].
        -- left. now right.
        -- left. left. destruct Hor as [-> | ->]; [reflexivity | exact E].
        -- right. now exists k.
    + rewrite !keys_setitem. split.
      * intros [[-> | [-> | H]] | (k & Hk & Hor)].
        -- right. exists s. split; [now left | now right].
        -- right. exists s. split; [now left | now left].
        -- now left.
        -- right. exists k. split; [now right | assumption].
      * intros [H | (k & [<- | Hk] & Hor)].
        -- left. right. now right.
        -- left. destruct Hor as [-> | ->]; [right; now left | now left].
        -- right. now exists k.
Qed.

Lemma loop_nodup (items acc : dict Q) :
  NoDup (keys acc) -> NoDup (keys (normalize_grade_loop items acc)).
Proof.
  revert acc. induction items as [|[s g] items IH]; intros acc H;
    cbn [normalize_grade_loop]; [exact H|].
  apply IH. destruct (negb _); repeat apply keys_setitem_nodup; exact H.
Qed.

Lemma loop_values (items acc : dict Q) (v : Q) :
  In v (values (normalize_grade_loop items acc)) ->
  In v (values acc) \/ In v (values items).
Proof.
  revert acc. induction items as [|[s g] items IH]; intros acc;
    cbn [normalize_grade_loop]; [now left|].
  intros H. apply IH in H. cbn [values map snd In].
  destruct H as [H | H]; [|right; now right].
  destruct (negb _).
  - apply values_setitem in H as [-> | H]; [right; now left|].
    apply values_setitem in H as [-> | H]; [right; now left | now left].
  - apply values_setitem in H as [-> | H]; [right; now left | now left].
Qed.

Lemma loop_length (items acc : dict Q) :
  (length acc <= length (normalize_grade_loop items acc)
   <= length acc + 2 * length items)%nat.
Proof.
  revert acc. induction items as [|[s g] items IH]; intros acc;
    cbn [normalize_grade_loop length]; [lia|].
  pose proof (length_setitem acc s g) as L1.
  destruct (negb _).
  - pose proof (length_setitem (setitem acc s g) (normalize_subject_name s) g) as L2.
    specialize (IH (setitem (setitem acc s g) (normalize_subject_name s) g)). lia.
  - specialize (IH (setitem acc s g)). lia.
Qed.

Lemma normalized_keys_named (grades : dict Q) (key : pystr) :
  In key (keys (normalize_grade_dict grades)) <-> named grades key.
Proof.
  unfold normalize_grade_dict. rewrite loop_keys. cbn [keys map In]. tauto.
Qed.

(** X3.  The keys of [normalize_grade_dict grades] are exactly the
    subjects of [grades], as given and as normalized, each once; every
    grade of the result is a grade of [grades], and the result has at
    most twice as many entries. *)
Theorem normalize_grade_dict_keeps_subjects (grades : dict Q) :
  (forall key, In key (keys (normalize_grade_dict grades)) <-> named grades key) /\
  NoDup (keys (normalize_grade_dict grades)) /\
  (forall v, In v (values (normalize_grade_dict grades)) -> In v (values grades)) /\
  (length (normalize_grade_dict grades) <= 2 * length grades)%nat.
Proof.
  split; [|split; [|split]].
  - apply normalized_keys_named.
  - apply loop_nodup. constructor.
  - intros v H. apply loop_values in H as [[] | H]. exact H.
  - pose proof (loop_length grades []) as L. cbn [length] in L.
    unfold normalize_grade_dict. lia.
Qed.

Lemma some_canonical_key (d : dict Q) (t : pystr) :
  (forall k v, In (k, v) d -> canonical k <> t) <->
  (forall k, In k (keys d) -> canonical k <> t).
Proof.
  unfold keys. split.
  - intros H k Hk. apply in_map_iff in Hk as ([k' v] & <- & Hin). now apply (H k' v).
  - intros H k v Hin. apply H. apply in_map_iff. now exists (k, v).
Qed.

(** X4.  Normalizing the grade mapping never changes whether
    [find_matching_grade] finds a subject; it can change the grade that
    is found, since a later entry overwrites an earlier one with the
    same normalized name. *)
Theorem normalize_grade_dict_finds_the_same :
  (forall grades target,
      find_matching_grade (normalize_grade_dict grades) target = None <->
      find_matching_grade grades target = None) /\
  (exists grades target,
      find_matching_grade grades target = Some 12 /\
      find_matching_grade (normalize_grade_dict grades) target = Some 15).
Proof.
  split.
  - intros grades target.
    rewrite !find_matching_grade_loop, !find_normalized_none, !some_canonical_key.
    split.
    + intros H k Hin. apply H. apply normalized_keys_named.
      exists k. split; [assumption | now left].
    + intros H key Hin. apply normalized_keys_named in Hin as (k & Hin & [-> | ->]).
      * now apply H.
      * rewrite canonical_normalize. now apply H.
  - exists [(u "math", 12); (u "Matemática", 15)], (u "math").
    split; vm_compute; reflexivity.
Qed.
End NormalizeDictExtra.

Module SettingsExtra.
Import PyStr Py Settings Spec Samples Invariants Facts.

Lemma find_id_in (majors_ : list Major) (m : Major) :
  NoDup (map id majors_) -> In m majors_ ->
  get_major_by_id majors_ (id m) = Some m.
Proof.
  unfold get_major_by_id. induction majors_ as [|m0 rest IH]; intros Hn Hin;
    [destruct Hin|]. destruct Hin as [<- | Hin]; cbn [find].
  - now rewrite str_eqb_refl.
  - cbn [map] in Hn. inversion Hn as [|? ? Hnot Hrest]; subst.
    destruct (str_eqb (id m0) (id m)) eqn:E.
    + apply str_eqb_eq in E. exfalso. apply Hnot. rewrite E. now apply in_map.
    + now apply IH.
Qed.

Lemma find_id_none (majors_ : list Major) (i : pystr) :
  ~ In i (map id majors_) -> get_major_by_id majors_ i = None.
Proof.
  unfold get_major_by_id. induction majors_ as [|m0 rest IH]; intros Hn;
    cbn [find]; [reflexivity|].
  destruct (str_eqb (id m0) i) eqn:E.
  - apply str_eqb_eq in E. exfalso. apply Hn. now left.
  - apply IH. intros H. apply Hn. now right.
Qed.

(** X5.  In a dataset whose ids are all different, [get_major_by_id]
    finds every major by its id and [get_subjects_for_major] lists the
    subjects of its requirements; an id of no major gives [None] and
    the empty list; whatever is found is a major of the dataset with
    the id asked for. *)
Theorem get_major_by_id_with_unique_ids (majors_ : list Major) :
  NoDup (map id majors_) ->
  (forall m, In m majors_ ->
             get_major_by_id majors_ (id m) = Some m /\
             get_subjects_for_major majors_ (id m) = keys (requirements m)) /\
  (forall i, ~ In i (map id majors_) ->
             get_major_by_id majors_ i = None /\
             get_subjects_for_major majors_ i = []) /\
  (forall i m, get_major_by_id majors_ i = Some m -> In m majors_ /\ id m = i).
Proof.
  intros Hn. split; [|split].
  - intros m Hin. unfold get_subjects_for_major.
    now rewrite (@find_id_in _ _ Hn Hin).
  - intros i Hi. unfold get_subjects_for_major.
    now rewrite (@find_id_none _ _ Hi).
  - intros i m H. unfold get_major_by_id in H. apply find_some in H as [Hin E].
    split; [assumption | now apply str_eqb_eq].
Qed.

Lemma fuzzy_answers (name_lower : pystr) (m : Major) :
  (str_in name_lower (lower (name m)) = false /\
   forall pt, name_pt m = Some pt -> str_in name_lower (lower pt) = false)
  <-> ~ answers_to name_lower m.
Proof.
  unfold answers_to. split.
  - intros [H1 H2] [H | (pt & Hpt & H)]; [congruence|].
    rewrite (H2 pt Hpt) in H. discriminate.
  - intros H. split.
    + destruct (str_in name_lower (lower (name m))) eqn:E; [|reflexivity].
      exfalso. apply H. now left.
    + intros pt Hpt. destruct (str_in name_lower (lower pt)) eqn:E; [|reflexivity].
      exfalso. apply H. right. now exists pt.
Qed.

Lemma get_major_fuzzy_first (name_lower : pystr) (majors_ : list Major) (m : Major) :
  get_major_fuzzy name_lower majors_ = Some m <->
  exists pre post,
    majors_ = pre ++ m :: post /\ answers_to name_lower m /\
    forall m', In m' pre -> ~ answers_to name_lower m'.
Proof.
  induction majors_ as [|m0 rest IH]; cbn [get_major_fuzzy].
  - split; [discriminate|]. intros (pre & post & H & _). now destruct pre.
  - assert (Hhit : answers_to name_lower m0 ->
                   (Some m0 = Some m <->
                    exists pre post, m0 :: rest = pre ++ m :: post /\
                                     answers_to name_lower m /\
                                     forall m', In m' pre -> ~ answers_to name_lower m')).
    { intros Ha. split.
      - intros [= <-]. exists [], rest. split; [reflexivity|].
        split; [assumption | intros m' []].
      - intros (pre & post & H & _ & Hpre). destruct pre as [|p pre].
        + now injection H as ->.
        + injection H as Hp _. exfalso. apply (Hpre p); [now left | now rewrite <- Hp]. }
    assert (Hmiss : ~ answers_to name_lower m0 ->
                    (get_major_fuzzy name_lower rest = Some m <->
                     exists pre post, m0 :: rest = pre ++ m :: post /\
                                      answers_to name_lower m /\
                                      forall m', In m' pre -> ~ answers_to name_lower m')).
    { intros Hn. rewrite IH. split.
      - intros (pre & post & -> & Ha & Hpre). exists (m0 :: pre), post.
        split; [reflexivity|]. split; [assumption|].
        intros m' [<- | Hin]; [assumption | now apply Hpre].
      - intros (pre & post & H & Ha & Hpre). destruct pre as [|p pre].
        + injection H as Hm _. rewrite Hm in Hn. contradiction.
        + injection H as Hp Hr. exists pre, post. split; [assumption|].
          split; [assumption|]. intros m' Hin. apply Hpre. now right. }
    destruct (str_in name_lower (lower (name m0))) eqn:En.
    { apply Hhit. now left. }
    destruct (name_pt m0) as [pt|] eqn:Ept.
    + destruct (str_in name_lower (lower pt)) eqn:Ep.
      { apply Hhit. right. now exists pt. }
      apply Hmiss. apply fuzzy_answers. split; [assumption|].
      intros pt' E. rewrite Ept in E. now injection E as <-.
    + apply Hmiss. apply fuzzy_answers. split; [assumption|].
      intros pt' E. rewrite Ept in E. discriminate.
Qed.

Lemma majors_ids_differ : NoDup (map id majors).
Proof.
  vm_compute. constructor; [|constructor; [|constructor]].
  - intros [H | []]. discriminate H.
  - intros [].
Qed.

Lemma get_major_by_id_with_unique_ids_witness :
  get_major_by_id majors (id medicine) = Some medicine /\
  get_subjects_for_major majors (id medicine) = keys (requirements medicine).
Proof.
  refine (proj1 (@get_major_by_id_with_unique_ids majors majors_ids_differ) medicine _).
  right. now left.
Defined.

(** X6.  The fuzzy [get_major_by_name] returns the first major of the
    dataset whose English or Portuguese name holds the lower-cased
    query; whenever the exact lookup finds a major the fuzzy one finds
    one too; and the empty name resolves to the first major. *)
Theorem get_major_by_name_fuzzy_is_first_hit (majors_ : list Major) (name_ : pystr) :
  (forall m,
      get_major_by_name majors_ name_ true = Some m <->
      exists pre post,
        majors_ = pre ++ m :: post /\ answers_to (lower name_) m /\
        forall m', In m' pre -> ~ answers_to (lower name_) m') /\
  (forall m, get_major_by_name majors_ name_ false = Some m ->
             exists m', get_major_by_name majors_ name_ true = Some m') /\
  (forall m rest, majors_ = m :: rest ->
                  get_major_by_name majors_ [] true = Some m).
Proof.
  split; [|split].
  - intros m. apply get_major_fuzzy_first.
  - intros m H. unfold get_major_by_name in *. apply find_some in H as [Hin E].
    apply str_eqb_eq in E.
    destruct (get_major_fuzzy (lower name_) majors_) as [m'|] eqn:Ef; [now exists m'|].
    exfalso.
    assert (Hnone : forall m0, In m0 majors_ -> ~ answers_to (lower name_) m0).
    { clear Hin E. revert Ef. induction majors_ as [|m0 rest IH];
        cbn [get_major_fuzzy]; intros Ef m1 [].
      - subst m1. destruct (str_in (lower name_) (lower (name m0))) eqn:En;
          [discriminate|].
        apply fuzzy_answers. split; [assumption|]. intros pt Hpt. rewrite Hpt in Ef.
        destruct (str_in (lower name_) (lower pt)); [discriminate | reflexivity].
      - destruct (str_in (lower name_) (lower (name m0))); [discriminate|].
        destruct (name_pt m0) as [pt|];
          [destruct (str_in (lower name_) (lower pt)); [discriminate|]|];
          now apply IH. }
    apply (Hnone m Hin). left. rewrite E. apply str_in_refl.
  - intros m rest ->. unfold get_major_by_name. cbn [get_major_fuzzy].
    change (lower []) with (@nil N).
    now destruct (lower (name m)).
Qed.
End SettingsExtra.

Module SortByFacts.
Import PyStr Py.
Section Ascending.
Variable A : Type.
Variable key : A -> Z.

Lemma insert_asc_perm (x : A) (l : list A) :
  Permutation (insert_asc key x l) (x :: l).
Proof.
  induction l as [|y l IH]; simpl; [reflexivity|].
  destruct (key y <? key x)%Z; [|reflexivity].
  rewrite IH. apply perm_swap.
Qed.

Lemma sorted_by_perm (l : list A) : Permutation (sorted_by key l) l.
Proof.
  induction l as [|x l IH]; simpl; [reflexivity|].
  rewrite insert_asc_perm. now apply perm_skip.
Qed.

Lemma sorted_by_length (l : list A) : length (sorted_by key l) = length l.
Proof. apply Permutation_length, sorted_by_perm. Qed.

Lemma insert_asc_sorted (x : A) (l : list A) :
  StronglySorted (fun a b => (key a <= key b)%Z) l ->
  StronglySorted (fun a b => (key a <= key b)%Z) (insert_asc key x l).
Proof.
  induction l as [|y l IH]; simpl; intros Hs.
  - constructor; constructor.
  - inversion Hs as [|? ? Hs' Hall]; subst.
    destruct (key y <? key x)%Z eqn:E.
    + apply Z.ltb_lt in E. constructor; [now apply IH|].
      apply Forall_forall. intros z Hz.
      apply (Permutation_in _ (insert_asc_perm x l)) in Hz.
      destruct Hz as [<- | Hz]; [lia|].
      rewrite Forall_forall in Hall. now apply Hall.
    + apply Z.ltb_ge in E. constructor; [assumption|].
      constructor; [assumption|].
      eapply Forall_impl; [|exact Hall]. cbn. intros; lia.
Qed.

Lemma sorted_by_sorted (l : list A) :
  StronglySorted (fun a b => (key a <= key b)%Z) (sorted_by key l).
Proof.
  induction l as [|x l IH]; simpl; [constructor|].
  now apply insert_asc_sorted.
Qed.

Lemma insert_asc_stable (x : A) (l : list A) (p : Z) :
  filter (fun a => (key a =? p)%Z) (insert_asc key x l)
  = filter (fun a => (key a =? p)%Z) (x :: l).
Proof.
  induction l as [|y l IH]; [reflexivity|].
  cbn [insert_asc]. destruct (key y <? key x)%Z eqn:E; [|reflexivity].
  apply Z.ltb_lt in E. cbn [filter] in *. rewrite IH.
  destruct (key x =? p)%Z eqn:Ex; [|reflexivity].
  apply Z.eqb_eq in Ex.
  assert (Ey : (key y =? p)%Z = false) by (apply Z.eqb_neq; lia).
  now rewrite Ey.
Qed.

Lemma sorted_by_stable (l : list A) (p : Z) :
  filter (fun a => (key a =? p)%Z) (sorted_by key l)
  = filter (fun a => (key a =? p)%Z) l.
Proof.
  induction l as [|x l IH]; [reflexivity|].
  cbn [sorted_by fold_right]. rewrite insert_asc_stable.
  cbn [filter]. fold (sorted_by key l). now rewrite IH.
Qed.
End Ascending.
End SortByFacts.

Module GradeGapsExtra.
Import PyStr Py Settings SubjectMapper TranscriptService.
Import Spec Samples Invariants Facts SortFacts TranscriptProofs SortByFacts.

Lemma filter_split_length (A : Type) (p : A -> bool) (l : list A) :
  (length (filter p l) + length (filter (fun a => negb (p a)) l) = length l)%nat.
Proof.
  induction l as [|x l IH]; [reflexivity|]. simpl.
  destruct (p x); simpl; lia.
Qed.

Lemma strongly_sorted_map (A B : Type) (f : A -> B) (R : B -> B -> Prop)
      (l : list A) :
  StronglySorted (fun a b => R (f a) (f b)) l -> StronglySorted R (map f l).
Proof.
  induction 1 as [|a l Hs IH Hall]; cbn [map]; constructor; [assumption|].
  apply Forall_map. exact Hall.
Qed.

Lemma strongly_sorted_weaken (A : Type) (R R' : A -> A -> Prop) (P : A -> Prop)
      (l : list A) :
  (forall a b, P a -> P b -> R a b -> R' a b) ->
  Forall P l -> StronglySorted R l -> StronglySorted R' l.
Proof.
  intros Himp Hp Hs. induction Hs as [|a l Hs IH Hall]; constructor.
  - apply IH. now inversion Hp.
  - inversion Hp as [|? ? Pa Pl]; subst.
    rewrite Forall_forall in *. intros b Hb. apply Himp; auto.
Qed.

Lemma ready_iff_no_gap (gaps : list GradeGap) :
  filter is_gap gaps = [] <-> overall_readiness gaps = u "ready".
Proof.
  unfold overall_readiness. destruct (filter is_gap gaps) as [|g ags].
  - now split.
  - cbn [is_empty]. split; [discriminate|].
    destruct (forallb _ _); [intros H; vm_compute in H; discriminate|].
    destruct (existsb _ _); [|intros H; vm_compute in H; discriminate].
    destruct (2 <=? _)%nat; intros H; vm_compute in H; discriminate.
Qed.

End GradeGapsExtra.

Module TranscriptInvariants.
Import PyStr Py Settings SubjectMapper TranscriptService.
Import Spec Samples Invariants Facts SortFacts TranscriptProofs ListFacts.

Lemma sum_bounds (lo hi : Q) (l : list Q) :
  Forall (fun v => lo <= v /\ v <= hi) l ->
  inject_Z (Z.of_nat (length l)) * lo <= fold_right Qplus 0 l /\
  fold_right Qplus 0 l <= inject_Z (Z.of_nat (length l)) * hi.
Proof.
  induction 1 as [|v l [Hlo Hhi] Hall [IH1 IH2]].
  - cbn [length fold_right]. change (inject_Z (Z.of_nat 0)) with 0. split; lra.
  - cbn [length fold_right]. rewrite Nat2Z.inj_succ. unfold Z.succ.
    rewrite inject_Z_plus. change (inject_Z 1) with 1. split; lra.
Qed.

Lemma mean_bounds (lo hi : Q) (l : list Q) :
  l <> [] -> Forall (fun v => lo <= v /\ v <= hi) l ->
  lo <= sum l / inject_Z (Z.of_nat (length l)) /\
  sum l / inject_Z (Z.of_nat (length l)) <= hi.
Proof.
  intros Hne Hall. destruct (sum_bounds Hall) as [H1 H2].
  assert (Hpos : 0 < inject_Z (Z.of_nat (length l))).
  { destruct l; [contradiction|]. change 0 with (inject_Z 0).
    rewrite <- Zlt_Qlt. cbn [length]. lia. }
  rewrite sum_fold_right. split.
  - apply Qle_shift_div_l; [assumption|]. lra.
  - apply Qle_shift_div_r; [assumption|]. lra.
Qed.

(** A mean of at least [c] needs a value of at least [c]; a mean below
    [c] needs a value below [c]. *)
Lemma mean_reached (c : Q) (l : list Q) :
  l <> [] ->
  (c <= sum l / inject_Z (Z.of_nat (length l)) -> exists v, In v l /\ c <= v) /\
  (sum l / inject_Z (Z.of_nat (length l)) < c -> exists v, In v l /\ v < c).
Proof.
  intros Hne.
  assert (Hpos : 0 < inject_Z (Z.of_nat (length l))).
  { destruct l; [contradiction|]. change 0 with (inject_Z 0).
    rewrite <- Zlt_Qlt. cbn [length]. lia. }
  split; intros Hm.
  - destruct (existsb (fun v => geb v c) l) eqn:E.
    + apply existsb_exists in E as (v & Hin & Hv). exists v.
      split; [assumption | now apply geb_iff].
    + exfalso.
      assert (Hall : Forall (fun v => v < c) l).
      { apply Forall_forall. intros v Hin.
        destruct (Qlt_le_dec v c) as [|Hle]; [assumption|].
        assert (existsb (fun v => geb v c) l = true)
          by (apply existsb_exists; exists v; split; [assumption | now apply geb_iff]).
        congruence. }
      assert (Hlt : fold_right Qplus 0 l < inject_Z (Z.of_nat (length l)) * c).
      { clear - Hall Hne. induction Hall as [|v l Hv Hall IH]; [contradiction|].
        cbn [length fold_right]. rewrite Nat2Z.inj_succ. unfold Z.succ.
        rewrite inject_Z_plus. change (inject_Z 1) with 1.
        destruct l as [|w l];
          [change (inject_Z (Z.of_nat (length (@nil Q)))) with 0;
           cbn [fold_right]; lra|].
        assert (fold_right Qplus 0 (w :: l)
                < inject_Z (Z.of_nat (length (w :: l))) * c)
          by (apply IH; discriminate).
        lra. }
      rewrite sum_fold_right in Hm.
      assert (fold_right Qplus 0 l / inject_Z (Z.of_nat (length l)) < c)
        by (apply Qlt_shift_div_r; [assumption | lra]).
      lra.
  - destruct (existsb (fun v => ltb v c) l) eqn:E.
    + apply existsb_exists in E as (v & Hin & Hv). exists v.
      split; [assumption | now apply ltb_iff].
    + exfalso.
      assert (Hall : Forall (fun v => c <= v /\ v <= v) l).
      { apply Forall_forall. intros v Hin. split; [|apply Qle_refl].
        destruct (Qlt_le_dec v c) as [Hlt|]; [|assumption].
        assert (existsb (fun v => ltb v c) l = true)
          by (apply existsb_exists; exists v; split; [assumption | now apply ltb_iff]).
        congruence. }
      assert (Hge : inject_Z (Z.of_nat (length l)) * c <= fold_right Qplus 0 l).
      { clear - Hall. induction Hall as [|v l [Hv _] Hall IH];
          [change (inject_Z (Z.of_nat (length (@nil Q)))) with 0;
           cbn [fold_right]; lra|].
        cbn [length fold_right]. rewrite Nat2Z.inj_succ. unfold Z.succ.
        rewrite inject_Z_plus. change (inject_Z 1) with 1. lra. }
      rewrite sum_fold_right in Hm.
      assert (c <= fold_right Qplus 0 l / inject_Z (Z.of_nat (length l)))
        by (apply Qle_shift_div_l; [assumption | lra]).
      lra.
Qed.

Lemma drop_none_keys (grades_in : dict (option Q)) (k : pystr) (v : Q) :
  In (k, v) (drop_none grades_in) <-> In (k, Some v) grades_in.
Proof.
  induction grades_in as [|[k' [v'|]] rest IH]; cbn [drop_none In].
  - tauto.
  - rewrite IH. split; (intros [[= -> ->] | H]; [now left | now right]).
  - rewrite IH. split; [now right | intros [[=] | H]; assumption].
Qed.

Lemma drop_none_nodup (grades_in : dict (option Q)) :
  NoDup (keys grades_in) -> NoDup (keys (drop_none grades_in)).
Proof.
  unfold keys. induction grades_in as [|[k [v|]] rest IH]; cbn [drop_none map fst];
    intros Hn; inversion Hn as [|? ? Hnot Hrest]; subst.
  - constructor.
  - constructor; [|now apply IH]. intros Hin. apply Hnot.
    apply in_map_iff in Hin as ([k' v'] & E & Hin). cbn in E. subst k'.
    apply drop_none_keys in Hin. apply in_map_iff. now exists (k, Some v').
  - now apply IH.
Qed.

Lemma nodup_keys_functional (V : Type) (d : dict V) (k : pystr) (v1 v2 : V) :
  NoDup (keys d) -> In (k, v1) d -> In (k, v2) d -> v1 = v2.
Proof.
  unfold keys. induction d as [|[k' v'] rest IH]; cbn [map fst]; intros Hn H1 H2;
    [destruct H1|].
  inversion Hn as [|? ? Hnot Hrest]; subst.
  destruct H1 as [[= -> ->] | H1], H2 as [[= E2] | H2].
  - now symmetry.
  - exfalso. apply Hnot. apply in_map_iff. now exists (k, v2).
  - subst. exfalso. apply Hnot. apply in_map_iff. now exists (k, v1).
  - now apply IH.
Qed.

Lemma strongly_sorted_before (A : Type) (R : A -> A -> Prop) (l1 l2 : list A) (x : A) :
  StronglySorted R (l1 ++ x :: l2) -> Forall (fun a => R a x) l1.
Proof.
  induction l1 as [|a l1 IH]; cbn [app]; intros Hs; [constructor|].
  inversion Hs as [|? ? Hs' Hall]; subst. constructor.
  - rewrite Forall_forall in Hall. apply Hall. apply in_or_app. right. now left.
  - now apply IH.
Qed.

Lemma last_in_slice_last (A : Type) (l : list A) (d : A) :
  l <> [] -> In (last l d) (slice_last 3 l).
Proof.
  intros Hne. unfold slice_last.
  destruct (exists_last Hne) as (l' & a & ->).
  rewrite last_last, skipn_app, length_app. apply in_or_app. right.
  cbn [length].
  replace (length l' + 1 - 3 - length l')%nat with 0%nat by lia.
  now left.
Qed.

(** X8.  Whatever [analyze_transcript] returns: the GPA lies in
    [0, 20]; there are at most three strengths and three weaknesses,
    all of them subjects of the retained grades; a GPA of at least 14
    leaves some strength and a GPA below 14, or a failed subject, some
    weakness; with at most three subjects each one is a strength or a
    weakness; and with distinct subject names no subject is both. *)
Theorem analyze_transcript_invariants
        (grades_in : dict (option Q)) (r : TranscriptAnalysis) :
  analyze_transcript grades_in = Returned r ->
  (0 <= gpa r /\ gpa r <= 20) /\
  (length (strengths r) <= 3 /\ length (weaknesses r) <= 3)%nat /\
  (forall k, In k (strengths r) \/ In k (weaknesses r) -> In k (keys (grades r))) /\
  (14 <= gpa r -> strengths r <> []) /\
  (gpa r < 14 -> weaknesses r <> []) /\
  (passing_all r = false -> weaknesses r <> []) /\
  ((length (grades r) <= 3)%nat ->
   forall k, In k (keys (grades r)) -> In k (strengths r) \/ In k (weaknesses r)) /\
  (NoDup (keys grades_in) -> disjoint (strengths r) (weaknesses r)).
Proof.
  unfold analyze_transcript.
  destruct (is_empty grades_in); [discriminate|].
  set (g := drop_none grades_in).
  destruct (is_empty g) eqn:Eg; [discriminate|].
  destruct (find _ g) as [[s v]|] eqn:Ef; [discriminate|].
  intros H. apply returned_inj in H. subst r.
  cbn [gpa strengths weaknesses grades passing_all].
  assert (Hne : g <> []) by (intros E; rewrite E in Eg; discriminate).
  assert (Hvne : values g <> []).
  { unfold values. destruct g; [contradiction | discriminate]. }
  assert (Hvalid : forall k v, In (k, v) g -> 0 <= v /\ v <= 20).
  { intros k v Hin. apply validate_grade_iff.
    pose proof (find_none _ _ Ef (k, v) Hin) as H. cbn in H.
    now apply negb_false_iff in H. }
  set (ranked := sorted_reverse (@snd pystr Q) g).
  assert (Hperm : Permutation ranked g) by apply sorted_reverse_perm.
  assert (Hdesc : Descending (@snd pystr Q) ranked) by apply sorted_reverse_descending.
  assert (Hrne : ranked <> []).
  { intros E. rewrite E in Hperm. apply Permutation_nil in Hperm. contradiction. }
  rewrite <- (length_values g).
  assert (Hweak : forall v, In v (values g) -> v < 14 ->
            map fst (filter (fun sg => ltb (snd sg) 14) (slice_last 3 ranked)) <> []).
  { intros v Hv Hlt. unfold values in Hv. apply in_map_iff in Hv as ([k v'] & E & Hin).
    cbn in E. subst v'.
    apply (Permutation_in _ (Permutation_sym Hperm)) in Hin.
    pose proof (@last_in_slice_last _ ranked (k, v) Hrne) as Hlast.
    assert (Hle : snd (last ranked (k, v)) <= v).
    { destruct (exists_last Hrne) as (l' & a & E). rewrite E in *.
      rewrite last_last. apply in_app_or in Hin as [Hin | [Ha | []]];
        [|rewrite Ha; apply Qle_refl].
      unfold Descending in Hdesc. apply strongly_sorted_before in Hdesc.
      rewrite Forall_forall in Hdesc. apply (Hdesc _ Hin). }
    intros Hnil. apply map_eq_nil in Hnil. rewrite filter_nil_iff in Hnil.
    specialize (Hnil _ Hlast). apply ltb_false_iff in Hnil. lra. }
  split; [|split; [|split; [|split; [|split; [|split; [|split]]]]]].
  - apply mean_bounds; [assumption|].
    apply Forall_forall. intros v Hv. unfold values in Hv.
    apply in_map_iff in Hv as ([k v'] & E & Hin). cbn in E. subst v'.
    now apply (Hvalid k).
  - rewrite !length_map. split.
    + pose proof (filter_length_le (fun sg : pystr * Q => geb (snd sg) 14)
                                   (firstn 3 ranked)) as H.
      rewrite length_firstn in H. fold ranked. lia.
    + pose proof (filter_length_le (fun sg : pystr * Q => ltb (snd sg) 14)
                                   (slice_last 3 ranked)) as H.
      unfold slice_last in H at 2. rewrite length_skipn in H. fold ranked. lia.
  - intros k Hk. unfold keys. apply in_map_iff.
    destruct Hk as [Hk | Hk]; apply in_map_iff in Hk as ([k' v] & E & Hin);
      cbn in E; subst k'; apply filter_In in Hin as [Hin _]; exists (k, v);
        (split; [reflexivity|]); apply (Permutation_in _ Hperm).
    + eapply in_firstn; eassumption.
    + unfold slice_last in Hin. eapply in_skipn; eassumption.
  - intros Hm. destruct (proj1 (mean_reached 14 Hvne) Hm) as (v & Hv & Hge).
    unfold values in Hv. apply in_map_iff in Hv as ([k v'] & E & Hin).
    cbn in E. subst v'.
    apply (Permutation_in _ (Permutation_sym Hperm)) in Hin.
    fold ranked. destruct ranked as [|[k0 v0] rest] eqn:Er; [contradiction|].
    assert (H0 : v <= v0).
    { destruct Hin as [[= -> ->] | Hin]; [apply Qle_refl|].
      unfold Descending in Hdesc. inversion Hdesc as [|? ? _ Hall]; subst.
      rewrite Forall_forall in Hall. apply (Hall _ Hin). }
    cbn [firstn filter snd].
    assert (E14 : geb v0 14 = true) by (apply geb_iff; lra).
    rewrite E14. discriminate.
  - intros Hm. destruct (proj2 (mean_reached 14 Hvne) Hm) as (v & Hv & Hlt).
    now apply (Hweak v).
  - intros Hp. destruct (forallb _ (values g)) eqn:Ea; [discriminate|].
    assert (Hex : exists v, In v (values g) /\ v < 10).
    { destruct (existsb (fun v => ltb v 10) (values g)) eqn:Ee.
      - apply existsb_exists in Ee as (v & Hin & Hv). exists v.
        split; [assumption | now apply ltb_iff].
      - exfalso. assert (forallb (fun grade => geb grade PASSING_GRADE) (values g) = true);
          [|congruence].
        apply forallb_forall. intros v Hin. apply geb_iff. unfold PASSING_GRADE.
        destruct (Qlt_le_dec v 10) as [Hlt|]; [|assumption].
        assert (existsb (fun v => ltb v 10) (values g) = true)
          by (apply existsb_exists; exists v; split; [assumption | now apply ltb_iff]).
        congruence. }
    destruct Hex as (v & Hv & Hlt). apply (Hweak v Hv). lra.
  - rewrite length_values. intros Hlen k Hk.
    assert (Hl : (length ranked <= 3)%nat)
      by (rewrite (Permutation_length Hperm); exact Hlen).
    fold ranked. rewrite firstn_all2 by exact Hl.
    unfold slice_last. replace (length ranked - 3)%nat with 0%nat by lia.
    cbn [skipn]. unfold keys in Hk. apply in_map_iff in Hk as ([k' v] & E & Hin).
    cbn in E. subst k'. apply (Permutation_in _ (Permutation_sym Hperm)) in Hin.
    destruct (geb v 14) eqn:E14.
    + left. apply in_map_iff. exists (k, v). split; [reflexivity|].
      apply filter_In. split; assumption.
    + right. apply in_map_iff. exists (k, v). split; [reflexivity|].
      apply filter_In. split; [assumption|]. cbn. unfold ltb, geb in *.
      unfold geb in E14. rewrite E14. reflexivity.
  - intros Hnd k Hs Hw. fold ranked in Hs.
    apply in_map_iff in Hs as ([k1 v1] & E1 & H1). cbn in E1. subst k1.
    apply in_map_iff in Hw as ([k2 v2] & E2 & H2). cbn in E2. subst k2.
    apply filter_In in H1 as [H1 G1]. apply filter_In in H2 as [H2 G2].
    apply in_firstn in H1. unfold slice_last in H2. apply in_skipn in H2.
    apply (Permutation_in _ Hperm) in H1. apply (Permutation_in _ Hperm) in H2.
    pose proof (@nodup_keys_functional _ _ _ _ _ (@drop_none_nodup _ Hnd) H1 H2) as E.
    subst v2. cbn in G1, G2. apply geb_iff in G1. apply ltb_iff in G2. lra.
Qed.
Lemma analyze_transcript_invariants_witness :
  exists r, analyze_transcript report = Returned r /\
            0 <= gpa r /\ gpa r <= 20.
Proof.
  eexists. split; [vm_compute; reflexivity|].
  refine (proj1 (@analyze_transcript_invariants report _ _)).
  vm_compute. reflexivity.
Defined.
End TranscriptInvariants.

Module MatchBounds.
Import PyStr Py Settings SubjectMapper TranscriptService MajorService.
Import Spec Samples Invariants Facts SortFacts MajorProofs ListFacts.

Lemma set_of_nodup (l : list pystr) : NoDup (set_of l).
Proof.
  induction l as [|x l IH]; cbn [set_of]; [constructor|].
  destruct (mem x l) eqn:E; [assumption|].
  constructor; [|assumption]. rewrite set_of_in. intros H.
  apply mem_iff in H. congruence.
Qed.




Lemma count_le (n k : nat) : (n <= k)%nat -> count n <= count k.
Proof. intros H. unfold count. rewrite <- Zle_Qle. lia. Qed.

Lemma count_pos_lt (n : nat) : (0 < n)%nat -> 0 < count n.
Proof.
  intros H. unfold count. change 0 with (inject_Z 0). rewrite <- Zlt_Qlt. lia.
Qed.

Lemma count_nonneg (n : nat) : 0 <= count n.
Proof. unfold count. change 0 with (inject_Z 0). rewrite <- Zle_Qle. lia. Qed.

Section Bounds.
Variable interests : option (list pystr).
Variable favorite_subjects : option (list pystr).
Variable career_goals : option pystr.







End Bounds.



End MatchBounds.

Module SimilarAndSearch.
Import PyStr Py Settings SubjectMapper TranscriptService MajorService.
Import Spec Samples Invariants Facts SortFacts MajorProofs ListFacts MatchBounds.

Lemma collect_similar_in (reference : Major) (majors_ : list Major) :
  forall m q,
    In (m, q) (collect_similar reference (set_of (map lower (keywords reference)))
                               majors_) ->
    In m majors_ /\ id m <> id reference /\ ~ no_keyword_overlap reference m /\
    0 < q /\ q <= 1.
Proof.
  induction majors_ as [|m0 rest IH]; cbn [collect_similar]; [intros m q []|].
  intros m q.
  destruct (str_eqb (id m0) (id reference)) eqn:Eid.
  { intros H. destruct (IH m q H) as (H1 & H2). split; [now right | exact H2]. }
  set (rk := set_of (map lower (keywords reference))).
  set (mk := set_of (map lower (keywords m0))).
  destruct (0 <? length (set_inter rk mk))%nat eqn:Eo.
  2:{ intros H. destruct (IH m q H) as (H1 & H2). split; [now right | exact H2]. }
  intros [[= <- <-] | H].
  2:{ destruct (IH m q H) as (H1 & H2). split; [now right | exact H2]. }
  apply Nat.ltb_lt in Eo.
  split; [now left|]. split; [now apply str_eqb_neq|]. split.
  - intros Hno. destruct (set_inter rk mk) as [|kw l] eqn:Ei; [cbn in Eo; lia|].
    assert (Hkw : In kw (set_inter rk mk)) by (rewrite Ei; now left).
    apply set_inter_in in Hkw as [H1 H2]. unfold rk, mk in *.
    rewrite set_of_in in H1, H2. exact (Hno kw H1 H2).
  - assert (Hle : (length (set_inter rk mk) <= length (set_union rk mk))%nat).
    { unfold set_inter, set_union. rewrite length_app.
      pose proof (filter_length_le (fun x => mem x mk) rk). lia. }
    assert (Hpos : 0 < len (set_union rk mk)).
    { unfold len. change 0 with (inject_Z 0). rewrite <- Zlt_Qlt. lia. }
    fold (count (length (set_inter rk mk))).
    split.
    + apply Qlt_shift_div_l; [assumption|]. rewrite Qmult_0_l.
      now apply count_pos_lt.
    + apply Qle_shift_div_r; [assumption|]. rewrite Qmult_1_l.
      now apply count_le.
Qed.

Lemma similar_sound
        (majors_ : list Major) (major_name : pystr) (top_n : Z)
        (reference : Major) :
  get_major_by_name majors_ major_name true = Some reference ->
  Forall (fun m => In m majors_ /\ id m <> id reference /\
                   ~ no_keyword_overlap reference m)
         (get_similar_majors majors_ major_name top_n) /\
  (length (get_similar_majors majors_ major_name top_n) < length majors_)%nat /\
  ((0 <= top_n)%Z ->
   (length (get_similar_majors majors_ major_name top_n) <= Z.to_nat top_n)%nat).
Proof.
  intros Href. unfold get_similar_majors. rewrite Href.
  set (sims := collect_similar reference (set_of (map lower (keywords reference)))
                               majors_).
  split; [|split].
  - apply Forall_forall. intros m Hin.
    apply in_map_iff in Hin as ([m' q] & E & Hin). cbn in E. subst m'.
    apply slice_to_in in Hin.
    apply (Permutation_in _ (sorted_reverse_perm (@snd Major Q) sims)) in Hin.
    destruct (collect_similar_in _ _ _ _ Hin) as (H1 & H2 & H3 & _).
    repeat split; assumption.
  - rewrite length_map.
    pose proof (proj1 (slice_to_length (sorted_reverse (@snd Major Q) sims) top_n)) as H1.
    pose proof (Permutation_length (sorted_reverse_perm (@snd Major Q) sims)) as H2.
    assert (H3 : (length sims < length majors_)%nat).
    { unfold sims.
      assert (Hin : In reference majors_).
      { unfold get_major_by_name in Href.
        clear - Href. induction majors_ as [|m rest IH]; [discriminate|].
        cbn [get_major_fuzzy] in Href.
        destruct (str_in _ (lower (name m))); [left; congruence|].
        destruct (name_pt m) as [pt|];
          [destruct (str_in _ (lower pt)); [left; congruence|]|];
          right; now apply IH. }
      clear - Hin. generalize (set_of (map lower (keywords reference))) as rk.
      intros rk. induction majors_ as [|m rest IH]; [destruct Hin|].
      assert (Hall : forall l, (length (collect_similar reference rk l) <= length l)%nat).
      { clear. induction l as [|m l IH]; cbn [collect_similar length]; [lia|].
        destruct (str_eqb _ _); [lia|].
        destruct (0 <? _)%nat; cbn [length]; lia. }
      cbn [collect_similar length].
      destruct Hin as [-> | Hin].
      - rewrite str_eqb_refl. specialize (Hall rest). lia.
      - specialize (IH Hin). destruct (str_eqb _ _); [lia|].
        destruct (0 <? _)%nat; cbn [length]; lia. }
    lia.
  - intros Hn. rewrite length_map. now apply slice_to_length.
Qed.

(** X10.  For a name that resolves to a reference major,
    [get_similar_majors] returns only majors of the dataset whose id
    differs from the reference's and that share a keyword with it;
    fewer than there are majors, and no more than a non-negative
    [top_n]. *)
Theorem get_similar_majors_sound
        (majors_ : list Major) (major_name : pystr) (top_n : Z)
        (reference : Major) :
  get_major_by_name majors_ major_name true = Some reference ->
  Forall (fun m => In m majors_ /\ id m <> id reference /\
                   ~ no_keyword_overlap reference m)
         (get_similar_majors majors_ major_name top_n) /\
  (length (get_similar_majors majors_ major_name top_n) < length majors_)%nat /\
  ((0 <= top_n)%Z ->
   (length (get_similar_majors majors_ major_name top_n) <= Z.to_nat top_n)%nat).
Proof. apply similar_sound. Qed.

Lemma get_similar_majors_sound_witness :
  Forall (fun m => In m majors /\ id m <> id computer_science /\
                   ~ no_keyword_overlap computer_science m)
         (get_similar_majors majors (u "computer") 3).
Proof.
  refine (proj1 (@get_similar_majors_sound majors (u "computer") 3
                                           computer_science _)).
  vm_compute. reflexivity.
Defined.

(** ** [search_majors] *)

Lemma search_loop_filter (query_lower : pystr) (majors_ : list Major) :
  search_loop query_lower majors_ = filter (search_hit query_lower) majors_.
Proof.
  induction majors_ as [|m rest IH]; [reflexivity|].
  cbn [search_loop filter]. unfold search_hit at 1.
  destruct (str_in query_lower (lower (name m))); cbn [orb];
    [now rewrite IH|].
  destruct (existsb _ (map lower (keywords m))); cbn [orb]; [now rewrite IH|].
  destruct (str_in query_lower (lower (description m))); now rewrite IH.
Qed.

Lemma str_in_nil (s : pystr) : str_in [] s = true.
Proof. now destruct s. Qed.

(** X11.  [search_majors] keeps, in dataset order, exactly the majors
    whose name or description holds the lower-cased query or one of
    whose keywords holds it or is held by it; the empty query returns
    every major; a major the exact [get_major_by_name] finds is among
    the results; the letter case of the query and the [filters]
    argument make no difference. *)
Theorem search_majors_is_a_filter
        (majors_ : list Major) (query : pystr) (filters : option (dict pystr)) :
  (forall m, In m (search_majors majors_ query filters) <->
             In m majors_ /\ search_hit (lower query) m = true) /\
  (exists keep, length keep = length majors_ /\
                search_majors majors_ query filters
                = map fst (filter snd (combine majors_ keep))) /\
  search_majors majors_ [] filters = majors_ /\
  (forall m, get_major_by_name majors_ query false = Some m ->
             In m (search_majors majors_ query filters)) /\
  (forall query' filters', lower query' = lower query ->
                            search_majors majors_ query' filters'
                            = search_majors majors_ query filters).
Proof.
  unfold search_majors. rewrite !search_loop_filter.
  split; [|split; [|split; [|split]]].
  - intros m. apply filter_In.
  - exists (map (search_hit (lower query)) majors_). split; [apply length_map|].
    induction majors_ as [|m rest IH]; [reflexivity|].
    cbn [filter map combine snd]. destruct (search_hit (lower query) m); cbn [map fst];
      now rewrite IH.
  - change (lower []) with (@nil N).
    induction majors_ as [|m rest IH]; [reflexivity|]. cbn [filter].
    unfold search_hit at 1. rewrite str_in_nil. cbn [orb]. now rewrite IH.
  - intros m H. unfold get_major_by_name in H. apply find_some in H as [Hin E].
    apply str_eqb_eq in E. apply filter_In. split; [assumption|].
    unfold search_hit. rewrite E, str_in_refl. reflexivity.
  - intros query' filters' ->. apply search_loop_filter.
Qed.

(** ** The module-level [match_interests_to_majors] *)

Lemma fn_converts_twice
        (interests favorite_subjects : option (list pystr))
        (career_goals : option pystr) (majors_ : list Major) (top_n : TopN) :
  let method := match_interests_to_majors interests favorite_subjects career_goals
                                          majors_ in
  let fn := match_interests_to_majors_fn interests favorite_subjects career_goals
                                         majors_ in
  (forall e, coerce_top_n top_n = Raised e -> fn top_n = Raised e) /\
  (forall n, coerce_top_n top_n = Returned n -> n <> 0%Z -> fn top_n = method top_n) /\
  (coerce_top_n top_n = Returned 0%Z -> fn top_n = method (TopInt 5)) /\
  (int_of_str (u "0") = Some 0%Z /\
   method (TopStr (u "0")) = Returned [] /\
   fn (TopStr (u "0")) = method (TopInt 5)).
Proof.
  cbn zeta. unfold match_interests_to_majors_fn.
  split; [|split; [|split]].
  - now intros e ->.
  - intros n Hn Hne. rewrite Hn. unfold match_interests_to_majors. rewrite Hn.
    unfold coerce_top_n. cbn [top_n_truthy].
    destruct (n =? 0)%Z eqn:E; [apply Z.eqb_eq in E; contradiction | reflexivity].
  - now intros ->.
  - split; [reflexivity|]. split; reflexivity.
Qed.

(** X12.  The module-level [match_interests_to_majors] converts
    [top_n] and hands the integer to the method, which converts it
    again: an unreadable [top_n] raises, a [top_n] that resolves to a
    non-zero integer behaves as in the method, and one that resolves
    to 0 (such as the string "0") is treated as 5, whereas the method
    itself returns no suggestion for it. *)
Theorem match_interests_to_majors_fn_converts_twice
        (interests favorite_subjects : option (list pystr))
        (career_goals : option pystr) (majors_ : list Major) (top_n : TopN) :
  let method := match_interests_to_majors interests favorite_subjects career_goals
                                          majors_ in
  let fn := match_interests_to_majors_fn interests favorite_subjects career_goals
                                         majors_ in
  (forall e, coerce_top_n top_n = Raised e -> fn top_n = Raised e) /\
  (forall n, coerce_top_n top_n = Returned n -> n <> 0%Z -> fn top_n = method top_n) /\
  (coerce_top_n top_n = Returned 0%Z -> fn top_n = method (TopInt 5)) /\
  (int_of_str (u "0") = Some 0%Z /\
   method (TopStr (u "0")) = Returned [] /\
   fn (TopStr (u "0")) = method (TopInt 5)).
Proof. apply fn_converts_twice. Qed.
End SimilarAndSearch.

Module RetryProofs.
Import PyStr Py Eff LlmService TranscriptTools Invariants.

Section OnFailure.
Variables S A : Type.
Variable time_sleep : Q -> S -> S.
Variable func_name : pystr.
Variable func : M S A.
Variable max_retries : nat.

Lemma attempts_spec (P : PyException -> Prop) (R : A -> Prop) :
  (forall s, match fst (func s) with Returned a => R a | Raised e => P e end) ->
  forall k attempt last s n,
  exists w s' n',
    attempts time_sleep func_name func max_retries k attempt last (s, n)
    = (Returned w, (s', n')) /\
    (n + Nat.min 1 k <= n' <= n + k)%nat /\
    match w with
    | ToolReturned a => R a
    | ErrorStructure err tool =>
      n' = (n + k)%nat /\ tool = func_name /\
      ((exists e, P e /\ err = exc_str e) \/ (k = 0%nat /\ err = str_last_error last))
    end.
Proof.
  intros Hf. induction k as [|k IH]; intros attempt last s n.
  - exists (ErrorStructure (str_last_error last) func_name), s, n.
    cbn [attempts ret]. split; [reflexivity|]. split; [lia|].
    split; [lia|]. split; [reflexivity|]. right. now split.
  - cbn [attempts]. unfold call. cbn [fst snd].
    specialize (Hf s). destruct (func s) as [[a|e] s1]; cbn [fst] in Hf.
    + exists (ToolReturned a), s1, (Datatypes.S n).
      split; [reflexivity|]. split; [lia | exact Hf].
    + destruct (attempt <? max_retries)%nat;
        match goal with
        | |- context [attempts _ _ _ _ k (attempt + 1) (Some e) (?s2, ?n2)] =>
          destruct (IH (attempt + 1)%nat (Some e) s2 n2)
            as (w & s' & n' & E & Hle & Hw)
        end;
        cbn [fst snd] in *;
        (exists w, s', n'; split; [exact E|]; split; [lia|];
         destruct w as [a|err tool]; [exact Hw|];
         destruct Hw as (-> & -> & Herr); split; [lia|]; split; [reflexivity|];
         left; destruct Herr as [He | [-> ->]]; [exact He|];
         exists e; split; [exact Hf | reflexivity]).
Qed.

End OnFailure.

Lemma flaky_outcomes (s0 : nat) :
  match fst (flaky s0) with
  | Returned a => (fun _ : pystr => True) a
  | Raised e => (fun _ : PyException => True) e
  end.
Proof. destruct (fst (flaky s0)); exact I. Qed.

Section OnError.
Variables S A : Type.
Variable time_sleep : Q -> S -> S.
Variable func : M S A.
Variable max_retries : nat.

Lemma retry_loop_spec (P : PyException -> Prop) (R : A -> Prop) :
  (forall s, match fst (func s) with Returned a => R a | Raised e => P e end) ->
  forall k retries delay s n,
    (0 < k)%nat -> (retries + k = max_retries)%nat ->
    exists r s' n',
      retry_loop time_sleep func max_retries k retries delay (s, n) = (r, (s', n')) /\
      (n < n' <= n + k)%nat /\
      match r with Returned a => R a | Raised e => P e end.
Proof.
  intros Hf. induction k as [|k IH]; intros retries delay s n Hk Hsum; [lia|].
  cbn [retry_loop]. unfold try_except, call. cbn [fst snd].
  pose proof (Hf s) as Hs. destruct (func s) as [[a|e] s1]; cbn [fst] in Hs.
  - exists (Returned a), s1, (Datatypes.S n). repeat split; try lia. exact Hs.
  - destruct (negb (retryable (exc_str e)) || (max_retries - 1 <=? retries)%nat)
             eqn:Ecut.
    + exists (Raised e), s1, (Datatypes.S n). unfold raise.
      repeat split; try lia. exact Hs.
    + apply orb_false_iff in Ecut as [_ Ecut]. apply Nat.leb_gt in Ecut.
      unfold bind, sleep. cbn [fst snd].
      destruct (IH (retries + 1)%nat (delay * 2) (time_sleep delay s1) (Datatypes.S n))
        as (r & s' & n' & E & Hn & Hr); [lia | lia |].
      exists r, s', n'. split; [exact E|]. split; [lia | exact Hr].
Qed.

(** X14.  With [max_retries] = 0 a function under [retry_on_error]
    is never called and "Max retries (0) exceeded" is raised; otherwise
    the wrapper ends with what a call of the function returned or
    raised, after at least one and at most [max_retries] calls: at
    once when the first call returns, and with the first exception
    when that is not retryable or [max_retries] is 1. *)
Theorem retry_on_error_outcome
        (P : PyException -> Prop) (R : A -> Prop) (delay : Q) (s : S) (n : nat) :
  (forall s0, match fst (func s0) with Returned a => R a | Raised e => P e end) ->
  (max_retries = 0%nat ->
   retry_on_error time_sleep func max_retries delay (s, n)
   = (Raised {| exc_type := u "Exception";
                exc_str := u "Max retries (0) exceeded" |}, (s, n))) /\
  ((0 < max_retries)%nat ->
   (exists r s' n',
       retry_on_error time_sleep func max_retries delay (s, n) = (r, (s', n')) /\
       (n < n' <= n + max_retries)%nat /\
       match r with Returned a => R a | Raised e => P e end) /\
   (forall a s1, func s = (Returned a, s1) ->
                 retry_on_error time_sleep func max_retries delay (s, n)
                 = (Returned a, (s1, Datatypes.S n))) /\
   (forall e s1, func s = (Raised e, s1) ->
                 retryable (exc_str e) = false \/ max_retries = 1%nat ->
                 retry_on_error time_sleep func max_retries delay (s, n)
                 = (Raised e, (s1, Datatypes.S n)))).
Proof.
  intros Hf. unfold retry_on_error. split.
  - intros ->. reflexivity.
  - intros Hpos. split; [|split].
    + apply (retry_loop_spec P R Hf); [exact Hpos | reflexivity].
    + intros a s1 Hs. destruct max_retries as [|k]; [lia|].
      cbn [retry_loop]. unfold try_except, call. cbn [fst snd]. now rewrite Hs.
    + intros e s1 Hs Hcut. destruct max_retries as [|k] eqn:Em; [lia|].
      cbn [retry_loop]. unfold try_except, call. cbn [fst snd]. rewrite Hs.
      assert (Ec : negb (retryable (exc_str e)) || (Datatypes.S k - 1 <=? 0)%nat = true).
      { destruct Hcut as [-> | Hk]; [reflexivity|].
        injection Hk as ->. apply orb_true_r. }
      now rewrite Ec.
Qed.
End OnError.

Lemma retry_on_error_outcome_witness :
  exists r s' n',
    retry_on_error no_sleep flaky 3 1 (0%nat, 0%nat) = (r, (s', n')) /\
    (0 < n' <= 0 + 3)%nat.
Proof.
  destruct (proj1 (proj2 (@retry_on_error_outcome
                            nat pystr no_sleep flaky 3
                            (fun _ => True) (fun _ => True) 1 0%nat 0%nat
                            flaky_outcomes)
                         ltac:(lia)))
    as (r & s' & n' & E & Hn & _).
  exists r, s', n'. split; assumption.
Defined.
End RetryProofs.

Module RetryOutcome.
Import PyStr Py Eff LlmService TranscriptTools RetrySpec Invariants.

Section OnFailure.
Variables S A : Type.
Variable time_sleep : Q -> S -> S.
Variable func_name : pystr.
Variable func : M S A.
Variable max_retries : nat.

Lemma attempts_outcome (j : nat) :
  forall attempt last s n,
    (exists k s1 last1 a s2,
        (k < j)%nat /\
        failures time_sleep func max_retries k attempt s last = Some (s1, last1) /\
        func s1 = (Returned a, s2) /\
        attempts time_sleep func_name func max_retries j attempt last (s, n)
        = (Returned (ToolReturned a), (s2, (n + k + 1)%nat)))
    \/
    (exists s1 last1,
        failures time_sleep func max_retries j attempt s last = Some (s1, last1) /\
        attempts time_sleep func_name func max_retries j attempt last (s, n)
        = (Returned (ErrorStructure (str_last_error last1) func_name),
           (s1, (n + j)%nat))).
Proof.
  induction j as [|j IH]; intros attempt last s n.
  - right. exists s, last. cbn [failures attempts ret]. split; [reflexivity|].
    now rewrite Nat.add_0_r.
  - cbn [attempts failures]. unfold call. cbn [fst snd].
    destruct (func s) as [[a|e] s1] eqn:Ef.
    + left. exists 0%nat, s, last, a, s1. split; [lia|].
      split; [reflexivity|]. split; [exact Ef|].
      now rewrite Nat.add_0_r, Nat.add_1_r.
    + set (s2 := if (attempt <? max_retries)%nat
                 then time_sleep (1 * inject_Z (Z.of_nat (attempt + 1))) s1
                 else s1).
      assert (Es : (if (attempt <? max_retries)%nat
                    then (time_sleep (1 * inject_Z (Z.of_nat (attempt + 1))) s1,
                          Datatypes.S n)
                    else (s1, Datatypes.S n)) = (s2, Datatypes.S n)).
      { unfold s2. destruct (attempt <? max_retries)%nat; reflexivity. }
      cbn [fst snd]. rewrite Es.
      destruct (IH (attempt + 1)%nat (Some e) s2 (Datatypes.S n))
        as [(k & s3 & last1 & a & s4 & Hk & Hf & Hr & E)
           |(s3 & last1 & Hf & E)].
      * left. exists (Datatypes.S k), s3, last1, a, s4. split; [lia|].
        cbn [failures]. rewrite Ef. fold s2. split; [exact Hf|].
        split; [exact Hr|]. rewrite E.
        now replace (Datatypes.S n + k + 1)%nat with (n + Datatypes.S k + 1)%nat by lia.
      * right. exists s3, last1. split; [exact Hf|].
        rewrite E.
        now replace (Datatypes.S n + j)%nat with (n + Datatypes.S j)%nat by lia.
Qed.

Lemma failures_last (k attempt : nat) (s s1 : S) (last last1 : option PyException) :
  failures time_sleep func max_retries k attempt s last = Some (s1, last1) ->
  (k = 0%nat /\ last1 = last) \/ exists e, last1 = Some e.
Proof.
  revert attempt s last. induction k as [|k IH]; intros attempt s last H.
  - cbn [failures] in H. injection H as _ <-. now left.
  - cbn [failures] in H. destruct (func s) as [[a|e] s2]; [discriminate|].
    right. destruct (IH _ _ _ H) as [[_ ->] | He]; [now exists e | exact He].
Qed.

(** X13.  A function under [retry_on_failure] never raises.  Either
    some call of the function returns: the calls before it, at most
    [max_retries] of them, all raised, each followed by its sleep, and
    the wrapper returns what that first successful call returned, in
    the state it left; or [max_retries + 1] calls in a row raised, and
    only then the wrapper gives the error structure, with the
    function's name and the text of the last exception.  The function
    is called once more than it failed in the first case and
    [max_retries + 1] times in the second. *)
Theorem retry_on_failure_outcome (s : S) (n : nat) :
  (exists k s1 last a s2,
      (k <= max_retries)%nat /\
      failures time_sleep func max_retries k 0 s None = Some (s1, last) /\
      func s1 = (Returned a, s2) /\
      retry_on_failure time_sleep func_name func max_retries (s, n)
      = (Returned (ToolReturned a), (s2, (n + k + 1)%nat)))
  \/
  (exists s1 e,
      failures time_sleep func max_retries (max_retries + 1) 0 s None
      = Some (s1, Some e) /\
      retry_on_failure time_sleep func_name func max_retries (s, n)
      = (Returned (ErrorStructure (exc_str e) func_name),
         (s1, (n + (max_retries + 1))%nat))).
Proof.
  unfold retry_on_failure.
  destruct (attempts_outcome (max_retries + 1) 0 None s n)
    as [(k & s1 & last & a & s2 & Hk & Hf & Hr & E)
       |(s1 & last1 & Hf & E)].
  - left. exists k, s1, last, a, s2. split; [lia|]. repeat split; assumption.
  - right. destruct (failures_last _ _ _ _ Hf) as [[Hk _] | [e ->]]; [lia|].
    exists s1, e. split; [exact Hf | exact E].
Qed.
End OnFailure.

End RetryOutcome.

Module MajorToolsProofs.
Import PyStr Py Eff Settings SubjectMapper TranscriptService MajorService.
Import TranscriptTools MajorTools.
Import Spec Samples Invariants Facts SortFacts MajorProofs ListFacts.
Import SettingsExtra MatchBounds SimilarAndSearch.


(** ** [get_major_suggestions] *)


(** ** [get_major_info] *)

(** X16.  [get_major_info] reports success exactly when the fuzzy
    lookup resolves the name, and exactly then sets no error; the
    major it gives is the one the lookup found, a major of the dataset
    that answers to the name; similar majors are listed exactly when
    asked for and the name resolves: at most three, fewer than there
    are majors, each the name and id of a major of the dataset other
    than the one found. *)
Theorem get_major_info_outcomes
        (majors_ : list Major) (major_name : pystr) (include_similar : bool) :
  let r := get_major_info majors_ major_name include_similar in
  (mi_success r = true <->
   exists m, get_major_by_name majors_ major_name true = Some m) /\
  (mi_success r = true <-> mi_error r = None) /\
  mi_major r = get_major_by_name majors_ major_name true /\
  (forall m, mi_major r = Some m -> In m majors_ /\ answers_to (lower major_name) m) /\
  (mi_similar_majors r <> None <-> mi_success r = true /\ include_similar = true) /\
  (forall m similar,
      mi_major r = Some m -> mi_similar_majors r = Some similar ->
      (length similar <= 3)%nat /\ (length similar < length majors_)%nat /\
      Forall (fun ni => snd ni <> id m /\
                        exists m', In m' majors_ /\ ni = (name m', id m'))
             similar).
Proof.
  cbn zeta. unfold get_major_info, get_major_details.
  destruct (get_major_by_name majors_ major_name true) as [m|] eqn:Em;
    cbn [mi_success mi_error mi_major mi_similar_majors].
  - split; [split; [now exists m | reflexivity]|].
    split; [split; reflexivity|]. split; [reflexivity|].
    split.
    { intros m' [= <-].
      unfold get_major_by_name in Em. apply get_major_fuzzy_first in Em.
      destruct Em as (pre & post & -> & Ha & _). split; [|assumption].
      apply in_or_app. right. now left. }
    split.
    { destruct include_similar; split; try discriminate; try (now intros [_ H]);
        now split. }
    intros m' similar [= <-] Hsim. destruct include_similar; [|discriminate].
    injection Hsim as <-.
    destruct (@similar_sound majors_ major_name 3 m Em) as (H1 & H2 & H3).
    rewrite length_map. split; [apply H3; lia|]. split; [exact H2|].
    apply Forall_map. eapply Forall_impl; [|exact H1]. cbn.
    intros m' (Hin & Hid & _). split; [assumption|]. now exists m'.
  - split; [split; [discriminate | intros [m H]; discriminate]|].
    split; [split; discriminate|]. split; [reflexivity|].
    split; [discriminate|]. split; [|discriminate].
    split; [congruence | intros [H _]; discriminate].
Qed.

(** ** [search_major_database] *)

(** X17.  [search_major_database] always reports success with the
    query it was given; count is the number of results, at most the
    number of majors and at most a non-negative [max_results]; every
    result is a major the search matched, with at most five keywords
    and a description of at most 153 characters that always ends in
    "...", also when nothing was cut. *)
Theorem search_major_database_outcomes
        (majors_ : list Major) (query : pystr) (max_results : Z) :
  let r := search_major_database majors_ query max_results in
  sd_success r = true /\ sd_query r = query /\
  sd_count r = length (sd_results r) /\
  (sd_count r <= length majors_)%nat /\
  ((0 <= max_results)%Z -> (sd_count r <= Z.to_nat max_results)%nat) /\
  Forall (fun h =>
            (length (sh_keywords h) <= 5)%nat /\
            (length (sh_description h) <= 153)%nat /\
            (exists before, sh_description h = before ++ u "...") /\
            exists m, In m majors_ /\ search_hit (lower query) m = true /\
                      sh_id h = id m /\ sh_name h = name m /\
                      (forall d, description m = d -> (length d <= 150)%nat ->
                                 sh_description h = d ++ u "..."))
         (sd_results r).
Proof.
  cbn zeta. unfold search_major_database.
  cbn [sd_success sd_query sd_count sd_results].
  set (found := search_majors majors_ query None).
  assert (Hfound : forall m, In m found ->
                             In m majors_ /\ search_hit (lower query) m = true)
    by (intros m; unfold found, search_majors; rewrite search_loop_filter;
        apply filter_In).
  assert (Hlen : (length found <= length majors_)%nat).
  { unfold found, search_majors. rewrite search_loop_filter. apply filter_length_le. }
  destruct (slice_to_length found max_results) as [Hs1 Hs2].
  split; [reflexivity|]. split; [reflexivity|]. split; [reflexivity|].
  rewrite length_map. split; [lia|]. split; [exact Hs2|].
  apply Forall_map, Forall_forall. intros m Hin. apply slice_to_in in Hin.
  cbn [sh_keywords sh_description sh_id sh_name].
  split; [rewrite length_firstn; lia|].
  split; [rewrite length_app, length_firstn;
          change (length (u "...")) with 3%nat; lia|].
  split; [now exists (firstn 150 (description m))|].
  exists m. destruct (Hfound m Hin) as [H1 H2].
  repeat split; try assumption.
  intros d <- Hd. now rewrite firstn_all2.
Qed.

End MajorToolsProofs.

Module RunProofs.
Import PyStr Py Eff Settings Prompts Router Orchestrator.
Import Spec Samples Invariants Facts AgentProofs.

Lemma count_events_app (p : Event -> bool) (a b : list Event) :
  count_events p (a ++ b) = (count_events p a + count_events p b)%nat.
Proof. unfold count_events. now rewrite filter_app, length_app. Qed.

Section Run.
Variables Env Args Payload : Type.
Variable C : Collaborators Env Args Payload.
Variable self : AgentOrchestrator Env Args Payload.

Lemma run_try_unfold (user_message_ : pystr) history files :
  run_try C self user_message_ history files
  = (update (set_status THINKING) ;;;
     intent_ <- lift (classify_intent C user_message_ history files) ;;
     update (set_intent intent_) ;;;
     after_classification C self user_message_ intent_).
Proof. reflexivity. Qed.

Lemma step_refl (sw : AgentState Args Payload * World Env) : Step 0 0 sw sw.
Proof.
  unfold Step, same_request. repeat split; auto.
  exists []. rewrite app_nil_r. repeat split; cbn; lia.
Qed.

Lemma step_trans (d1 t1 d2 t2 : nat) (sw0 sw1 sw2 : AgentState Args Payload * World Env) :
  Step d1 t1 sw0 sw1 -> Step d2 t2 sw1 sw2 -> Step (d1 + d2) (t1 + t2) sw0 sw2.
Proof.
  intros ((A1 & A2 & A3 & A4 & A5 & A6) & Ha & He & Hi & new1 & Ht & Hs & Hd & Hx & Hv)
         ((B1 & B2 & B3 & B4 & B5 & B6) & Ha' & He' & Hi' & new2 & Ht' & Hs' & Hd' & Hx' & Hv').
  unfold Step, same_request.
  split; [repeat split; congruence|].
  split; [auto|]. split; [auto|]. split; [congruence|].
  exists (new1 ++ new2). rewrite Ht', Ht, app_assoc, !count_events_app.
  repeat split; lia.
Qed.

Lemma step_weaken (d t d' t' : nat) (sw sw' : AgentState Args Payload * World Env) :
  (d <= d')%nat -> (t <= t')%nat -> Step d t sw sw' -> Step d' t' sw sw'.
Proof.
  intros Hd Ht (Hr & Ha & He & Hi & new & H1 & H2 & H3 & H4 & H5).
  unfold Step. repeat (split; [assumption|]).
  exists new. repeat split; try assumption; lia.
Qed.

Lemma run_step_weaken (d t d' t' : nat) (A : Type) (m : Run Env Args Payload A) :
  (d <= d')%nat -> (t <= t')%nat -> run_step d t m -> run_step d' t' m.
Proof. intros Hd Ht H sw. eapply step_weaken; eauto. Qed.

Lemma run_step_ret (A : Type) (a : A) :
  run_step 0 0 (ret a : Run Env Args Payload A).
Proof. intros sw. apply step_refl. Qed.

Lemma run_step_raise (A : Type) (e : PyException) :
  run_step 0 0 (raise e : Run Env Args Payload A).
Proof. intros sw. apply step_refl. Qed.

Lemma run_step_bind (d1 t1 d2 t2 : nat) (A B : Type)
      (m : Run Env Args Payload A) (k : A -> Run Env Args Payload B) :
  run_step d1 t1 m -> (forall a, run_step d2 t2 (k a)) ->
  run_step (d1 + d2) (t1 + t2) (bind m k).
Proof.
  intros Hm Hk sw. unfold bind. specialize (Hm sw).
  destruct (m sw) as [[a|e] sw1]; cbn [snd] in *.
  - eapply step_trans; [exact Hm | apply Hk].
  - eapply step_weaken; [| |exact Hm]; lia.
Qed.

Lemma run_step_state : run_step 0 0 (@state Env Args Payload).
Proof. intros sw. apply step_refl. Qed.

Lemma run_step_update (f : AgentState Args Payload -> AgentState Args Payload) :
  (forall s, same_request s (f s) /\
             (aligned s -> aligned (f s)) /\
             (error_message s = None -> error_message (f s) = None) /\
             Orchestrator.intent (f s) = Orchestrator.intent s /\
             (length (tool_results s) <= length (tool_results (f s)))%nat) ->
  run_step 0 0 (update f : Run Env Args Payload unit).
Proof.
  intros Hf [s w]. unfold update, modify. cbn [fst snd].
  destruct (Hf s) as (H1 & H2 & H3 & H4 & H5).
  unfold Step. cbn [fst snd]. repeat (split; [assumption|]).
  exists []. rewrite app_nil_r. repeat split; cbn; lia.
Qed.

Lemma setter_facts (s : AgentState Args Payload) :
  forall s',
    user_message s' = user_message s ->
    conversation_history s' = conversation_history s ->
    uploaded_files s' = uploaded_files s ->
    session_id s' = session_id s ->
    user_id s' = user_id s ->
    start_time s' = start_time s ->
    tool_calls s' = tool_calls s ->
    tool_results s' = tool_results s ->
    (error_message s = None -> error_message s' = None) ->
    Orchestrator.intent s' = Orchestrator.intent s ->
    same_request s s' /\
    (aligned s -> aligned s') /\
    (error_message s = None -> error_message s' = None) /\
    Orchestrator.intent s' = Orchestrator.intent s /\
    (length (tool_results s) <= length (tool_results s'))%nat.
Proof.
  intros s' H1 H2 H3 H4 H5 H6 H7 H8 H9 H10. unfold same_request, aligned.
  rewrite H7, H8. repeat split; auto.
Qed.

Lemma run_step_set_status (a : AgentStatus) :
  run_step 0 0 (update (set_status a) : Run Env Args Payload unit).
Proof. apply run_step_update. intros s. apply setter_facts; auto. Qed.

Lemma run_step_set_plan (p : pystr) :
  run_step 0 0 (update (set_plan p) : Run Env Args Payload unit).
Proof. apply run_step_update. intros s. apply setter_facts; auto. Qed.

Lemma run_step_set_final_response (r : pystr) :
  run_step 0 0 (update (set_final_response r) : Run Env Args Payload unit).
Proof. apply run_step_update. intros s. apply setter_facts; auto. Qed.

Lemma run_step_set_total (t : Q) :
  run_step 0 0 (update (set_total_execution_time t) : Run Env Args Payload unit).
Proof. apply run_step_update. intros s. apply setter_facts; auto. Qed.

Lemma run_step_lift (d t : nat) (A : Type) (m : M (World Env) A) :
  (forall w, exists new,
        trace (snd (m w)) = trace w ++ new /\
        count_events is_structured new = 0%nat /\
        (count_events is_decision new <= d)%nat /\
        (count_events is_text new <= t)%nat /\
        count_events is_invoked new = 0%nat) ->
  run_step d t (lift m : Run Env Args Payload A).
Proof.
  intros Hm [s w]. unfold lift. cbn [fst snd]. specialize (Hm w).
  destruct (m w) as [r w']. cbn [fst snd] in *.
  destruct Hm as (new & H1 & H2 & H3 & H4 & H5).
  unfold Step, same_request. cbn [fst snd]. repeat split; auto.
  exists new. repeat split; try assumption; lia.
Qed.

Lemma now_trace (w : World Env) :
  exists t w', now C w = (Returned t, w') /\ trace w' = trace w.
Proof.
  unfold now. destruct (time_time C (env w)) as [t e']. now eexists; eexists.
Qed.

Lemma run_step_now : run_step 0 0 (lift (now C) : Run Env Args Payload Q).
Proof.
  apply run_step_lift. intros w. destruct (now_trace w) as (t & w' & E & Ht).
  rewrite E. cbn [snd]. exists []. rewrite app_nil_r. repeat split; auto.
Qed.

Lemma run_step_ask_text (prompt : pystr) (temperature : Q) :
  run_step 0 1 (lift (ask_text C prompt temperature) : Run Env Args Payload pystr).
Proof.
  apply run_step_lift. intros w. unfold ask_text, ask.
  destruct (call_llm C prompt temperature (env w)) as [r e'].
  cbn [snd trace]. eexists. split; [reflexivity|]. repeat split; cbn; lia.
Qed.

Lemma run_step_ask_tools (prompt : pystr) :
  run_step 1 0 (lift (ask_tools C prompt) : Run Env Args Payload _).
Proof.
  apply run_step_lift. intros w. unfold ask_tools, ask.
  destruct (call_llm_with_tools C prompt (env w)) as [r e'].
  cbn [snd trace]. eexists. split; [reflexivity|]. repeat split; cbn; lia.
Qed.

Lemma run_step_stamp_total : run_step 0 0 (stamp_total C : Run Env Args Payload unit).
Proof.
  unfold stamp_total.
  apply (@run_step_bind 0 0 0 0); [apply run_step_now|]. intros t.
  apply (@run_step_bind 0 0 0 0); [apply run_step_state|]. intros s.
  apply run_step_set_total.
Qed.

Lemma run_step_intent_value (s : AgentState Args Payload) :
  run_step 0 0 (intent_value s : Run Env Args Payload pystr).
Proof.
  unfold intent_value. destruct (Orchestrator.intent s);
    [apply run_step_ret | apply run_step_raise].
Qed.

Lemma run_step_create_plan (s : AgentState Args Payload) :
  run_step 0 0 (_create_plan s : Run Env Args Payload pystr).
Proof.
  unfold _create_plan. destruct (Orchestrator.intent s);
    [apply run_step_ret | apply run_step_raise].
Qed.

Lemma run_step_file_info (fs : list UploadedFile) :
  run_step 0 0 (file_info fs : Run Env Args Payload (list pystr)).
Proof.
  induction fs as [|f rest IH]; cbn [file_info]; [apply run_step_ret|].
  destruct (file_name f), (file_path f); try apply run_step_raise.
  apply (@run_step_bind 0 0 0 0); [exact IH|]. intros tl. apply run_step_ret.
Qed.

Lemma run_step_decide : run_step 1 0 (_decide_next_tool C : Run Env Args Payload _).
Proof.
  unfold _decide_next_tool.
  apply (@run_step_bind 0 0 1 0); [apply run_step_state|]. intros s.
  apply (@run_step_bind 0 0 1 0); [apply run_step_intent_value|]. intros iv.
  apply (@run_step_bind 0 0 1 0).
  - destruct (uploaded_files s); [apply run_step_ret|].
    apply (@run_step_bind 0 0 0 0); [apply run_step_file_info|].
    intros info. apply run_step_ret.
  - intros parts. apply run_step_ask_tools.
Qed.

Lemma run_step_synthesize :
  run_step 0 1 (_synthesize_response C : Run Env Args Payload pystr).
Proof.
  unfold _synthesize_response.
  apply (@run_step_bind 0 0 0 1); [apply run_step_state|]. intros s.
  apply (@run_step_bind 0 0 0 1); [apply run_step_intent_value|]. intros iv.
  apply run_step_ask_text.
Qed.

Lemma execute_tool_trace (tool_name_ : pystr) (tool_args : Args) (w : World Env) :
  exists tr w' new,
    _execute_tool C self tool_name_ tool_args w = (Returned tr, w') /\
    trace w' = trace w ++ new /\
    count_events is_structured new = 0%nat /\
    count_events is_decision new = 0%nat /\
    count_events is_text new = 0%nat /\
    (count_events is_invoked new <= 1)%nat /\
    tool_name tr = tool_name_.
Proof.
  unfold _execute_tool, bind, now, contains.
  destruct (time_time C (env w)) as [t0 e0]. cbn [fst snd env trace].
  destruct (get (tool_registry self) tool_name_) as [tool_func|]; cbn [negb].
  - unfold try_except, invoke, ask, bind. cbn [env trace].
    destruct (tool_func tool_args e0) as [[payload|e] e1]; cbn [env trace];
      destruct (time_time C e1) as [t1 e2];
      (eexists; eexists; exists [ToolInvoked tool_name_];
       split; [reflexivity|]; cbn; repeat split; lia).
  - cbn [env trace]. destruct (time_time C e0) as [t1 e1].
    eexists. eexists. exists []. split; [reflexivity|]. cbn.
    rewrite app_nil_r. repeat split; lia.
Qed.

Lemma run_step_execute_tool_calls (calls : list (ToolCall Args)) :
  run_step 0 0 (execute_tool_calls C self calls).
Proof.
  induction calls as [|tc rest IH]; cbn [execute_tool_calls]; [apply run_step_ret|].
  intros [s w]. unfold bind at 1. unfold lift at 1. cbn [fst snd].
  destruct (execute_tool_trace (tc_name tc) (tc_args tc) w)
    as (tr & w1 & new & E & Ht & Hs & Hd & Hx & Hv & _).
  rewrite E. unfold bind at 1. unfold lift at 1. cbn [fst snd].
  destruct (now_trace w1) as (t & w2 & En & Hn). rewrite En.
  unfold bind at 1. unfold update at 1, modify. cbn [fst snd].
  apply (@step_trans 0 0 0 0 _ (add_tool_result tr t s, w2)); [|apply IH].
  unfold Step, same_request, aligned. cbn [fst snd add_tool_result
    user_message conversation_history uploaded_files session_id user_id
    start_time tool_calls tool_results error_message Orchestrator.intent].
  split; [repeat split|]. split.
  { intros Ha. rewrite !map_app, Ha. reflexivity. }
  split; [auto|]. split; [auto|].
  exists new. rewrite Hn, Ht, length_app. cbn [length].
  repeat split; lia.
Qed.

Lemma run_step_act_loop (k : nat) : run_step k 0 (act_loop C self k).
Proof.
  induction k as [|k IH]; cbn [act_loop]; [apply run_step_ret|].
  apply (@run_step_bind 0 0 (S k) 0); [apply run_step_state|]. intros s.
  destruct (max_tool_calls self <=? length (tool_calls s))%nat;
    [apply (@run_step_weaken 0 0); [lia | lia | apply run_step_ret]|].
  apply (@run_step_bind 0 0 (S k) 0); [apply run_step_set_status|]. intros _.
  apply (@run_step_bind 1 0 k 0); [apply run_step_decide|]. intros [d|].
  - destruct (td_tool_calls d) as [|tc calls];
      [apply (@run_step_weaken 0 0); [lia | lia | apply run_step_ret]|].
    apply (@run_step_bind 0 0 k 0); [apply run_step_execute_tool_calls|].
    intros _. exact IH.
  - apply (@run_step_weaken 0 0); [lia | lia | apply run_step_ret].
Qed.

Lemma run_step_handle_greeting (message : pystr) :
  run_step 0 1 (lift (_handle_greeting C message) : Run Env Args Payload pystr).
Proof. unfold _handle_greeting. apply run_step_ask_text. Qed.

Lemma run_step_after_classification (message : pystr) (ir : IntentResult) :
  run_step (max_iterations self) 1 (after_classification C self message ir).
Proof.
  unfold after_classification.
  destruct (if_truthy (requires_clarification ir)) as [q|].
  { apply (@run_step_weaken 0 0); [lia | lia |].
    apply (@run_step_bind 0 0 0 0); [apply run_step_set_final_response|]. intros _.
    apply (@run_step_bind 0 0 0 0); [apply run_step_set_status|]. intros _.
    apply (@run_step_bind 0 0 0 0); [apply run_step_stamp_total|]. intros _.
    apply run_step_ret. }
  destruct (intent_eqb (Router.intent ir) GREETING_OR_CHITCHAT).
  { apply (@run_step_weaken 0 1); [lia | lia |].
    apply (@run_step_bind 0 1 0 0); [apply run_step_handle_greeting|]. intros r.
    apply (@run_step_bind 0 0 0 0); [apply run_step_set_final_response|]. intros _.
    apply (@run_step_bind 0 0 0 0); [apply run_step_set_status|]. intros _.
    apply (@run_step_bind 0 0 0 0); [apply run_step_stamp_total|]. intros _.
    apply run_step_ret. }
  apply (@run_step_bind 0 0 (max_iterations self) 1); [apply run_step_set_status|].
  intros _.
  apply (@run_step_bind 0 0 (max_iterations self) 1); [apply run_step_state|].
  intros s.
  apply (@run_step_bind 0 0 (max_iterations self) 1); [apply run_step_create_plan|].
  intros plan_.
  apply (@run_step_bind 0 0 (max_iterations self) 1); [apply run_step_set_plan|].
  intros _.
  apply (@run_step_weaken (max_iterations self + 0) (0 + 1)); [lia | lia |].
  apply run_step_bind; [apply run_step_act_loop|]. intros _.
  apply (@run_step_bind 0 0 0 1); [apply run_step_set_status|]. intros _.
  apply (@run_step_bind 0 1 0 0); [apply run_step_synthesize|]. intros r.
  apply (@run_step_bind 0 0 0 0); [apply run_step_set_final_response|]. intros _.
  apply (@run_step_bind 0 0 0 0); [apply run_step_set_status|]. intros _.
  apply run_step_ret.
Qed.

Lemma bind_returned (S0 A B : Type) (m : M S0 A) (k : A -> M S0 B)
      (s : S0) (b : B) (s' : S0) :
  bind m k s = (Returned b, s') ->
  exists a s1, m s = (Returned a, s1) /\ k a s1 = (Returned b, s').
Proof.
  unfold bind. destruct (m s) as [[a|e] s1]; [|discriminate].
  intros H. now exists a, s1.
Qed.

Lemma stamp_total_returns (s : AgentState Args Payload) (w : World Env) :
  exists t w',
    stamp_total C (s, w) = (Returned tt, (set_total_execution_time t s, w')) /\
    trace w' = trace w.
Proof.
  unfold stamp_total, bind, lift, state, update, modify. cbn [fst snd].
  destruct (now_trace w) as (t & w' & E & Ht). rewrite E. cbn [fst snd].
  now exists (t - start_time s), w'.
Qed.

Lemma after_classification_returned (message : pystr) (ir : IntentResult)
      (sw sw' : AgentState Args Payload * World Env) (b : bool) :
  after_classification C self message ir sw = (Returned b, sw') ->
  status (fst sw') = COMPLETED /\ final_response (fst sw') <> None.
Proof.
  unfold after_classification.
  destruct (if_truthy (requires_clarification ir)) as [q|].
  { destruct sw as [s w]. unfold bind at 1. unfold update at 1, modify. cbn [fst snd].
    unfold bind at 1. unfold update at 1, modify. cbn [fst snd].
    unfold bind at 1.
    match goal with
    | |- context [stamp_total C (?s1, w)] =>
      destruct (stamp_total_returns s1 w) as (t & w' & -> & _)
    end.
    intros [= <- <-]. split; [reflexivity | discriminate]. }
  destruct (intent_eqb (Router.intent ir) GREETING_OR_CHITCHAT).
  { intros H. apply bind_returned in H as (r & [s1 w1] & _ & H).
    revert H. unfold bind at 1. unfold update at 1, modify. cbn [fst snd].
    unfold bind at 1. unfold update at 1, modify. cbn [fst snd].
    unfold bind at 1.
    match goal with
    | |- context [stamp_total C (?s2, w1)] =>
      destruct (stamp_total_returns s2 w1) as (t & w' & -> & _)
    end.
    intros [= <- <-]. split; [reflexivity | discriminate]. }
  intros H.
  apply bind_returned in H as (? & ? & _ & H).
  apply bind_returned in H as (? & ? & _ & H).
  apply bind_returned in H as (? & ? & _ & H).
  apply bind_returned in H as (? & ? & _ & H).
  apply bind_returned in H as (? & ? & _ & H).
  apply bind_returned in H as (? & ? & _ & H).
  apply bind_returned in H as (r & [s7 w7] & _ & H).
  revert H. unfold bind, update, modify, ret. cbn [fst snd].
  intros [= <- <-]. split; [reflexivity | discriminate].
Qed.

Lemma classify_trace (message : pystr) history files (w : World Env) :
  exists ir w1 new,
    classify_intent C message history files w = (Returned ir, w1) /\
    trace w1 = trace w ++ new /\
    count_events is_structured new
    = (if _detect_crisis_keywords message then 0 else 1)%nat /\
    count_events is_decision new = 0%nat /\
    count_events is_text new = 0%nat /\
    count_events is_invoked new = 0%nat /\
    (_detect_crisis_keywords message = true -> Router.intent ir = CRISIS_SAFETY).
Proof.
  unfold classify_intent.
  destruct (_detect_crisis_keywords message).
  { eexists. eexists. exists []. split; [reflexivity|].
    rewrite app_nil_r. repeat split. }
  unfold try_except, bind, ask_structured, ask.
  destruct (generate_structured_output C
              (classification_prompt message history files) (env w))
    as [[reply|e] e'];
    (eexists; eexists; eexists; split; [reflexivity|]; repeat split;
     discriminate).
Qed.

Lemma run_try_eq (message : pystr) history files
      (s : AgentState Args Payload) (w w1 : World Env) (ir : IntentResult) :
  classify_intent C message history files w = (Returned ir, w1) ->
  run_try C self message history files (s, w)
  = after_classification C self message ir
                         (set_intent ir (set_status THINKING s), w1).
Proof.
  intros Hc. rewrite run_try_unfold.
  unfold bind at 1. unfold update at 1, modify. cbn [fst snd].
  unfold bind at 1. unfold lift at 1. cbn [fst snd]. rewrite Hc.
  unfold bind at 1. unfold update at 1, modify. cbn [fst snd].
  reflexivity.
Qed.

Lemma run_try_facts (message : pystr) history files
      (s : AgentState Args Payload) (w : World Env) :
  exists ir w1 new,
    classify_intent C message history files w = (Returned ir, w1) /\
    trace w1 = trace w ++ new /\
    count_events is_structured new
    = (if _detect_crisis_keywords message then 0 else 1)%nat /\
    count_events is_decision new = 0%nat /\
    count_events is_text new = 0%nat /\
    count_events is_invoked new = 0%nat /\
    Step (max_iterations self) 1
         (set_intent ir (set_status THINKING s), w1)
         (snd (run_try C self message history files (s, w))) /\
    (forall b, fst (run_try C self message history files (s, w)) = Returned b ->
               status (fst (snd (run_try C self message history files (s, w))))
               = COMPLETED /\
               final_response (fst (snd (run_try C self message history files (s, w))))
               <> None).
Proof.
  destruct (classify_trace message history files w)
    as (ir & w1 & new & Hc & Ht & Hs & Hd & Hx & Hv & _).
  exists ir, w1, new. repeat (split; [assumption|]).
  rewrite (@run_try_eq _ _ _ s _ _ _ Hc).
  split; [apply run_step_after_classification|].
  intros b Hb.
  destruct (after_classification C self message ir
              (set_intent ir (set_status THINKING s), w1)) as [r sw'] eqn:E.
  cbn [fst snd] in *. subst r. exact (after_classification_returned _ _ _ E).
Qed.

Lemma run_returns (message : pystr) history files sid uid (w : World Env) :
  exists s w' new ir w1,
    run C self message history files sid uid w = (Returned s, w') /\
    classify_intent C message history files (snd (now C w)) = (Returned ir, w1) /\
    Orchestrator.intent s = Some ir /\
    (status s = COMPLETED \/ status s = ERROR) /\
    final_response s <> None /\
    (status s = ERROR <-> error_message s <> None) /\
    (user_message s = message /\ session_id s = sid /\ user_id s = uid /\
     conversation_history s = or_default history [] /\
     uploaded_files s = or_default files []) /\
    aligned s /\
    trace w' = trace w ++ new /\
    count_events is_structured new
    = (if _detect_crisis_keywords message then 0 else 1)%nat /\
    (count_events is_decision new <= max_iterations self)%nat /\
    (count_events is_text new <= 1)%nat /\
    (count_events is_invoked new <= length (tool_results s))%nat.
Proof.
  unfold run. destruct (now_trace w) as (start & w0 & En & Hw0). rewrite En.
  cbv beta iota zeta. cbn [snd].
  match goal with
  | |- context [(?s0, w0)] => set (state0 := s0)
  end.
  destruct (run_try_facts message history files state0 w0)
    as (ir & w1 & new1 & Hc & Ht1 & Hs1 & Hd1 & Hx1 & Hv1 & Hstep & Hpost).
  unfold bind at 1. unfold try_except at 1.
  destruct (run_try C self message history files (state0, w0))
    as [[b|e] [s1 w2]] eqn:Er; cbn [fst snd] in Hstep, Hpost.
  - destruct (Hpost b eq_refl) as [Hst Hfr].
    destruct Hstep as ((R1 & R2 & R3 & R4 & R5 & R6) & Ha & He & Hi & new2 & Ht2
                       & Hs2 & Hd2 & Hx2 & Hv2).
    cbn [fst snd] in *.
    assert (Hal : aligned s1) by (apply Ha; reflexivity).
    assert (Her : error_message s1 = None) by (apply He; reflexivity).
    destruct b.
    + exists s1, w2, (new1 ++ new2), ir, w1. split; [reflexivity|].
      split; [assumption|]. split; [exact Hi|].
      split; [now left|]. split; [assumption|].
      split; [split; [congruence | intros H; congruence]|].
      split; [repeat split; assumption|]. split; [assumption|].
      rewrite Ht2, Ht1, Hw0, app_assoc, !count_events_app.
      split; [reflexivity|]. cbn [tool_results set_intent set_status state0 length] in Hv2.
      repeat split; lia.
    + destruct (stamp_total_returns s1 w2) as (t & w3 & Es & Hw3). rewrite Es.
      exists (set_total_execution_time t s1), w3, (new1 ++ new2), ir, w1.
      split; [reflexivity|]. cbn [status final_response error_message
        Orchestrator.intent user_message session_id user_id conversation_history
        uploaded_files tool_results set_total_execution_time].
      split; [assumption|]. split; [exact Hi|].
      split; [now left|]. split; [assumption|].
      split; [split; [congruence | intros H; congruence]|].
      split; [repeat split; assumption|]. split; [exact Hal|].
      rewrite Hw3, Ht2, Ht1, Hw0, app_assoc, !count_events_app.
      split; [reflexivity|]. cbn [tool_results set_intent set_status state0 length] in Hv2.
      repeat split; lia.
  - destruct Hstep as ((R1 & R2 & R3 & R4 & R5 & R6) & Ha & He & Hi & new2 & Ht2
                       & Hs2 & Hd2 & Hx2 & Hv2).
    cbn [fst snd] in *.
    assert (Hal : aligned s1) by (apply Ha; reflexivity).
    unfold bind at 1 2 3. unfold update at 1 2 3, modify. cbn [fst snd ret].
    match goal with
    | |- context [stamp_total C (?s2, w2)] =>
      destruct (stamp_total_returns s2 w2) as (t & w3 & Es & Hw3)
    end.
    rewrite Es. eexists. exists w3, (new1 ++ new2), ir, w1.
    split; [reflexivity|]. cbn [status final_response error_message
      Orchestrator.intent user_message session_id user_id conversation_history
      uploaded_files tool_results set_total_execution_time set_final_response
      set_error_message set_status].
    split; [assumption|]. split; [exact Hi|].
    split; [now right|]. split; [discriminate|].
    split; [split; [discriminate | reflexivity]|].
    split; [repeat split; assumption|]. split; [exact Hal|].
    rewrite Hw3, Ht2, Ht1, Hw0, app_assoc, !count_events_app.
    split; [reflexivity|]. cbn [tool_results set_intent set_status state0 length] in Hv2.
    repeat split; lia.
Qed.
(** X19.  [run] always returns a state, whatever the model, the clock
    and the tools do: its intent is the classification of the message,
    its status is COMPLETED or ERROR (ERROR exactly when an error
    message is recorded), it has a final response, it repeats the
    request it was given, and its tool-call log and tool results name
    the same tools with the same outcomes; during the run the model is
    asked for one classification (none for a crisis message), at most
    [max_iterations] tool decisions and at most one text, and every
    tool that is invoked leaves a tool result. *)
Theorem run_always_returns (message : pystr) history files sid uid (w : World Env) :
  exists s w' new ir w1,
    run C self message history files sid uid w = (Returned s, w') /\
    classify_intent C message history files (snd (now C w)) = (Returned ir, w1) /\
    Orchestrator.intent s = Some ir /\
    (status s = COMPLETED \/ status s = ERROR) /\
    final_response s <> None /\
    (status s = ERROR <-> error_message s <> None) /\
    (user_message s = message /\ session_id s = sid /\ user_id s = uid /\
     conversation_history s = or_default history [] /\
     uploaded_files s = or_default files []) /\
    aligned s /\
    trace w' = trace w ++ new /\
    count_events is_structured new
    = (if _detect_crisis_keywords message then 0 else 1)%nat /\
    (count_events is_decision new <= max_iterations self)%nat /\
    (count_events is_text new <= 1)%nat /\
    (count_events is_invoked new <= length (tool_results s))%nat.
Proof. apply run_returns. Qed.
End Run.

(** ** The chat service *)

Section Chat.
Variables Env Args Payload : Type.
Variable C : Collaborators Env Args Payload.
Variable registry_ : dict (Tool Env Args Payload).

Lemma generate_suggestions_length (s : AgentState Args Payload) :
  ChatService._generate_suggestions C s = [] \/
  length (ChatService._generate_suggestions C s) = 3%nat.
Proof.
  unfold ChatService._generate_suggestions.
  destruct (Orchestrator.intent s) as [ir|]; [|now left].
  destruct (Router.intent ir); cbn -[u];
    try (now left); try (now right).
  match goal with |- context [existsb ?f ?l] => destruct (existsb f l) end;
    now right.
Qed.

Lemma session_returns (sid : option pystr) (w : World Env) :
  exists sid' w0,
    (match sid with
     | Some s => if truthy s then ret s else fresh_uuid C
     | None => fresh_uuid C
     end) w = (Returned sid', w0) /\
    trace w0 = trace w /\
    (forall s, sid = Some s -> truthy s = true -> sid' = s).
Proof.
  assert (Hu : exists i w0, fresh_uuid C w = (Returned i, w0) /\ trace w0 = trace w).
  { unfold fresh_uuid. destruct (uuid4 C (env w)) as [i e']. now eexists; eexists. }
  destruct Hu as (i & w0 & Eu & Ht).
  destruct sid as [s|].
  - destruct (truthy s) eqn:Es.
    + exists s, w. repeat split. now intros s' [= <-].
    + exists i, w0. repeat split; try assumption. intros s' [= <-]. congruence.
  - exists i, w0. repeat split; try assumption. discriminate.
Qed.

Lemma process_try_returns (message_ : pystr) history files (sid : pystr) uid
      (w : World Env) :
  exists resp w' new,
    ChatService.process_try C registry_ message_ history files sid uid w
    = (Returned resp, w') /\
    truthy (ChatService.message resp) = true /\
    ChatService.meta_session_id (ChatService.metadata resp) = sid /\
    (ChatService.success resp = false -> ChatService.suggestions resp = None) /\
    (forall l, ChatService.suggestions resp = Some l ->
               ChatService.success resp = true /\ (l = [] \/ length l = 3%nat)) /\
    (ChatService.agent_state resp = None ->
     ChatService.message resp = CRISIS_RESPONSE /\
     ChatService.success resp = true /\
     ChatService.suggestions resp = None /\
     (count_events is_structured new <= 1)%nat /\
     count_events is_decision new = 0%nat /\
     count_events is_text new = 0%nat /\
     count_events is_invoked new = 0%nat) /\
    (forall s, ChatService.agent_state resp = Some s ->
       _detect_crisis_keywords message_ = false /\
       (status s = COMPLETED \/ status s = ERROR) /\
       (ChatService.success resp = true <->
        status s = COMPLETED /\ final_response s = Some (ChatService.message resp)) /\
       (status s = ERROR ->
        ChatService.meta_error (ChatService.metadata resp) = error_message s /\
        error_message s <> None) /\
       (ChatService.success resp = true ->
        ChatService.meta_tools_used (ChatService.metadata resp)
        = Some (map (@tool_name Args Payload) (tool_results s))) /\
       count_events is_structured new = 2%nat) /\
    trace w' = trace w ++ new /\
    (_detect_crisis_keywords message_ = true -> new = []) /\
    (count_events is_structured new <= 2)%nat /\
    (count_events is_decision new <= 5)%nat /\
    (count_events is_text new <= 1)%nat.
Proof.
  unfold ChatService.process_try.
  destruct (classify_trace C message_ None None w)
    as (ir & w1 & new1 & Hc & Ht1 & Hs1 & Hd1 & Hx1 & Hv1 & Hcr).
  unfold bind at 1. rewrite Hc.
  destruct (intent_eqb (Router.intent ir) CRISIS_SAFETY) eqn:Ei.
  { eexists. exists w1, new1. split; [reflexivity|].
    cbn [ChatService.message ChatService.success ChatService.metadata
         ChatService.suggestions ChatService.agent_state
         ChatService.meta_session_id].
    split; [vm_compute; reflexivity|]. split; [reflexivity|].
    split; [discriminate|]. split; [discriminate|].
    split.
    { intros _. repeat split; try assumption.
      rewrite Hs1. destruct (_detect_crisis_keywords message_); lia. }
    split; [discriminate|]. split; [assumption|].
    split.
    { intros Hk. rewrite Hk in Hs1.
      destruct new1 as [|ev rest]; [reflexivity|].
      exfalso. revert Hs1 Hd1 Hx1 Hv1. unfold count_events.
      destruct ev; cbn; discriminate. }
    rewrite Hs1, Hd1, Hx1. destruct (_detect_crisis_keywords message_); lia. }
  assert (Hk : _detect_crisis_keywords message_ = false).
  { destruct (_detect_crisis_keywords message_); [|reflexivity].
    rewrite (Hcr eq_refl) in Ei. discriminate. }
  rewrite Hk in Hs1.
  unfold run_agent_loop.
  set (self_ := {| tool_registry := registry_; max_iterations := 5;
                   max_tool_calls := 10 |}).
  destruct (@run_returns _ _ _ C self_ message_ (Some (or_default history []))
                         (Some (or_default files [])) (Some sid) uid w1)
    as (s & w2 & new2 & ir2 & w12 & Hr & _ & Hin & Hst & Hfr & Herr & _ & _ & Ht2
        & Hs2 & Hd2 & Hx2 & _).
  rewrite Hk in Hs2. cbn [max_iterations self_] in Hd2.
  unfold bind at 1. rewrite Hr.
  assert (Htrace : trace w2 = trace w ++ (new1 ++ new2))
    by (rewrite Ht2, Ht1; apply eq_sym, app_assoc).
  assert (Hcount : count_events is_structured (new1 ++ new2) = 2%nat /\
                   (count_events is_decision (new1 ++ new2) <= 5)%nat /\
                   (count_events is_text (new1 ++ new2) <= 1)%nat)
    by (rewrite !count_events_app; repeat split; lia).
  destruct Hcount as (Hc2 & Hc5 & Hc1).
  destruct (final_response s) as [r|] eqn:Ef; [|contradiction].
  destruct Hst as [Hst | Hst]; rewrite Hst.
  - change (str_eqb (status_value COMPLETED) (u "completed")) with true.
    cbn [andb]. destruct (truthy r) eqn:Er.
    + eexists. exists w2, (new1 ++ new2). split; [reflexivity|].
      cbn [ChatService.message ChatService.success ChatService.metadata
           ChatService.suggestions ChatService.agent_state
           ChatService.meta_session_id ChatService.meta_error
           ChatService.meta_tools_used or_default].
      split; [exact Er|]. split; [reflexivity|].
      split; [discriminate|].
      split; [intros l [= <-]; split;
              [reflexivity | apply generate_suggestions_length]|].
      split; [discriminate|].
      split.
      { intros s' [= <-]. split; [assumption|]. split; [now left|].
        split; [split; [now intros _ | reflexivity]|].
        split; [intros H; congruence|]. split; [reflexivity | assumption]. }
      split; [assumption|]. split; [intros H; congruence|].
      repeat split; lia.
    + change (str_eqb (status_value COMPLETED) (u "error")) with false.
      cbv beta iota.
      eexists. exists w2, (new1 ++ new2). split; [reflexivity|].
      cbn [ChatService.message ChatService.success ChatService.metadata
           ChatService.suggestions ChatService.agent_state
           ChatService.meta_session_id ChatService.meta_error
           ChatService.meta_tools_used].
      split; [vm_compute; reflexivity|]. split; [reflexivity|].
      split; [reflexivity|]. split; [discriminate|]. split; [discriminate|].
      split.
      { intros s' [= <-]. split; [assumption|]. split; [now left|].
        split.
        { split; [discriminate|]. intros [_ H]. exfalso.
          rewrite Ef in H. injection H as ->. vm_compute in Er. discriminate. }
        split; [intros H; congruence|]. split; [discriminate | assumption]. }
      split; [assumption|]. split; [intros H; congruence|].
      repeat split; lia.
  - change (str_eqb (status_value ERROR) (u "completed")) with false.
    cbn [andb].
    change (str_eqb (status_value ERROR) (u "error")) with true.
    cbv beta iota.
    eexists. exists w2, (new1 ++ new2). split; [reflexivity|].
    cbn [ChatService.message ChatService.success ChatService.metadata
         ChatService.suggestions ChatService.agent_state
         ChatService.meta_session_id ChatService.meta_error
         ChatService.meta_tools_used].
    split.
    { destruct (truthy r) eqn:Er; [exact Er | vm_compute; reflexivity]. }
    split; [reflexivity|]. split; [reflexivity|]. split; [discriminate|].
    split; [discriminate|].
    split.
    { intros s' [= <-]. split; [assumption|]. split; [now right|].
      split; [split; [discriminate | intros [H _]; congruence]|].
      split; [intros _; split; [reflexivity | now apply Herr]|].
      split; [discriminate | assumption]. }
    split; [assumption|]. split; [intros H; congruence|].
    repeat split; lia.
Qed.

(** X20.  [process_message] always returns a response with a
    non-empty message and the session id it was given (when that is
    not empty).  Without suggestions when success is false; suggestions
    are none or three.  A response without agent state is the crisis
    response.  With an agent state the message tripped no crisis
    keyword, the run ended COMPLETED or ERROR, success holds exactly
    when it ended COMPLETED with the message as final response, and the
    model classified the message twice.  The model is asked for at
    most two classifications, five tool decisions and one text, and
    for nothing when a crisis keyword is present. *)
Theorem process_message_always_answers (message_ : pystr) history files sid uid
      (w : World Env) :
  exists resp w' new,
    ChatService.process_message C registry_ message_ history files sid uid w
    = (Returned resp, w') /\
    truthy (ChatService.message resp) = true /\
    (forall s0, sid = Some s0 -> truthy s0 = true ->
                ChatService.meta_session_id (ChatService.metadata resp) = s0) /\
    (ChatService.success resp = false -> ChatService.suggestions resp = None) /\
    (forall l, ChatService.suggestions resp = Some l ->
               ChatService.success resp = true /\ (l = [] \/ length l = 3%nat)) /\
    (ChatService.agent_state resp = None ->
     ChatService.message resp = CRISIS_RESPONSE /\
     ChatService.success resp = true /\
     ChatService.suggestions resp = None /\
     (count_events is_structured new <= 1)%nat /\
     count_events is_decision new = 0%nat /\
     count_events is_text new = 0%nat /\
     count_events is_invoked new = 0%nat) /\
    (forall s, ChatService.agent_state resp = Some s ->
       _detect_crisis_keywords message_ = false /\
       (status s = COMPLETED \/ status s = ERROR) /\
       (ChatService.success resp = true <->
        status s = COMPLETED /\ final_response s = Some (ChatService.message resp)) /\
       (status s = ERROR ->
        ChatService.meta_error (ChatService.metadata resp) = error_message s /\
        error_message s <> None) /\
       (ChatService.success resp = true ->
        ChatService.meta_tools_used (ChatService.metadata resp)
        = Some (map (@tool_name Args Payload) (tool_results s))) /\
       count_events is_structured new = 2%nat) /\
    trace w' = trace w ++ new /\
    (_detect_crisis_keywords message_ = true -> new = []) /\
    (count_events is_structured new <= 2)%nat /\
    (count_events is_decision new <= 5)%nat /\
    (count_events is_text new <= 1)%nat.
Proof.
  unfold ChatService.process_message.
  destruct (session_returns sid w) as (sid' & w0 & Es & Ht0 & Hsid).
  unfold bind at 1. rewrite Es. unfold try_except.
  destruct (process_try_returns message_ history files sid' uid w0)
    as (resp & w' & new & Hp & H1 & H2 & H3 & H4 & H5 & H6 & H7 & H8).
  rewrite Hp. exists resp, w', new. split; [reflexivity|].
  split; [assumption|].
  split; [intros s0 E0 T0; rewrite H2; now apply Hsid|].
  repeat (split; [assumption|]).
  split; [now rewrite H7, Ht0 | assumption].
Qed.
End Chat.
End RunProofs.

Module RouterProofs.
Import PyStr Py Eff Settings Prompts Router Orchestrator.
Import Spec Samples Invariants Facts AgentProofs RunProofs.

Lemma str_in_trans (a b c : pystr) :
  str_in a b = true -> str_in b c = true -> str_in a c = true.
Proof.
  rewrite !str_in_iff. intros (a1 & a2 & ->) (b1 & b2 & ->).
  exists (b1 ++ a1), (a2 ++ b2). now rewrite <- !app_assoc.
Qed.

Lemma value_round_trip (i : IntentType) : IntentType_of_value (value i) = Some i.
Proof.
  destruct i; vm_compute; reflexivity.
Qed.

Lemma IntentType_of_value_some (s : pystr) (i : IntentType) :
  IntentType_of_value s = Some i -> value i = s.
Proof.
  unfold IntentType_of_value. intros H. apply find_some in H as [_ H].
  now apply str_eqb_eq.
Qed.

Lemma value_injective (i j : IntentType) : value i = value j -> i = j.
Proof.
  destruct i, j; try reflexivity; intros H; vm_compute in H; discriminate H.
Qed.

Lemma intent_of_reply_requires_transcript (reply : StructuredOutput) files :
  Router.intent (intent_of_reply reply files) = TRANSCRIPT_ANALYSIS \/
  Router.intent (intent_of_reply reply files) = GAP_ANALYSIS ->
  requires_transcript (intent_of_reply reply files) = true.
Proof.
  unfold intent_of_reply. cbn [Router.intent requires_transcript].
  intros [-> | ->].
  - now rewrite (proj2 (intent_eqb_eq TRANSCRIPT_ANALYSIS TRANSCRIPT_ANALYSIS) eq_refl).
  - rewrite (proj2 (intent_eqb_eq GAP_ANALYSIS GAP_ANALYSIS) eq_refl).
    now rewrite orb_true_r.
Qed.

Lemma intent_of_reply_needs_file (reply : StructuredOutput) files :
  has_files files = false ->
  Router.intent (intent_of_reply reply files) = TRANSCRIPT_ANALYSIS \/
  Router.intent (intent_of_reply reply files) = GAP_ANALYSIS ->
  exists q, requires_clarification (intent_of_reply reply files) = Some q /\
            (q = question_rephrase \/ q = question_which_major \/ q = question_upload).
Proof.
  intros Hf Hi.
  unfold requires_clarification, question_rephrase, question_which_major,
    question_upload.
  set (q1 := u "I'm not quite sure what you're looking for. Could you rephrase that?").
  set (q2 := u "Which major would you like me to check your readiness for?").
  set (q3 := u "I'll need to see your transcript to help with that. Could you upload your grades PDF?").
  clearbody q1 q2 q3.
  destruct (ltb _ (1 # 2)); [exists q1; split; [reflexivity | now left]|].
  destruct (intent_eqb _ GAP_ANALYSIS && _);
    [exists q2; split; [reflexivity | right; now left]|].
  rewrite (intent_of_reply_requires_transcript reply files Hi).
  assert (Hc : ctx_has_transcript (context (intent_of_reply reply files))
               = Some false) by (rewrite <- Hf; reflexivity).
  rewrite Hc. cbn [or_default negb andb].
  exists q3. split; [reflexivity | right; now right].
Qed.

(** X21.  Reading the model's classification reply: the value of an
    intent reads back as that intent, a missing or unknown intent
    string gives UNKNOWN and a missing confidence 0.9; a transcript or
    gap analysis always requires a transcript; a major is required
    only for a gap analysis that names one; the context records
    whether files were uploaded; and without an uploaded file a
    transcript or gap analysis always draws one of the three
    clarification questions. *)
Theorem intent_of_reply_facts (reply : StructuredOutput)
        (files : option (list UploadedFile)) :
  let r := intent_of_reply reply files in
  (forall i, IntentType_of_value (value i) = Some i) /\
  (forall i, so_intent reply = Some (value i) -> Router.intent r = i) /\
  (so_intent reply = None -> Router.intent r = UNKNOWN) /\
  (forall s, so_intent reply = Some s -> (forall i, value i <> s) ->
             Router.intent r = UNKNOWN) /\
  (so_confidence reply = None -> confidence r = 9 # 10) /\
  (Router.intent r = TRANSCRIPT_ANALYSIS \/ Router.intent r = GAP_ANALYSIS ->
   requires_transcript r = true) /\
  (requires_major r = true ->
   Router.intent r = GAP_ANALYSIS /\ ctx_major (context r) <> None) /\
  ctx_has_transcript (context r) = Some (has_files files) /\
  (has_files files = false ->
   Router.intent r = TRANSCRIPT_ANALYSIS \/ Router.intent r = GAP_ANALYSIS ->
   exists q, requires_clarification r = Some q /\
             (q = question_rephrase \/ q = question_which_major \/
              q = question_upload)).
Proof.
  cbn zeta. split; [exact value_round_trip|].
  split.
  { intros i Hi. unfold intent_of_reply. cbn [Router.intent]. rewrite Hi.
    cbn [or_default]. now rewrite value_round_trip. }
  split.
  { intros Hn. unfold intent_of_reply. cbn [Router.intent]. now rewrite Hn. }
  split.
  { intros s Hs Hno. unfold intent_of_reply. cbn [Router.intent]. rewrite Hs.
    cbn [or_default]. destruct (IntentType_of_value s) as [i|] eqn:Ei; [|reflexivity].
    apply IntentType_of_value_some in Ei. now destruct (Hno i). }
  split.
  { intros Hn. unfold intent_of_reply. cbn [confidence]. now rewrite Hn. }
  split; [apply intent_of_reply_requires_transcript|].
  split.
  { unfold intent_of_reply. cbn [Router.intent requires_major context ctx_major].
    intros H. apply andb_true_iff in H as [H1 H2]. apply intent_eqb_eq in H1.
    split; [assumption|]. destruct (major_mentioned _); [discriminate | discriminate]. }
  split; [reflexivity|].
  apply intent_of_reply_needs_file.
Qed.

(** ** The keyword fallback *)

Lemma any_in_hit (kws : list pystr) (kw message_lower : pystr) :
  In kw kws -> str_in kw message_lower = true -> any_in kws message_lower = true.
Proof.
  intros Hin Hs. unfold any_in. apply existsb_exists. now exists kw.
Qed.

Lemma fallback_greeting (message : pystr) files :
  str_in (u "hi") (lower message) = true ->
  Router.intent (_fallback_classification message files) = GREETING_OR_CHITCHAT.
Proof.
  intros H. unfold _fallback_classification. cbn [Router.intent].
  rewrite (@any_in_hit [u "hello"; u "hi"; u "hey"; u "thanks"; u "thank you"]
                       (u "hi") (lower message)); [reflexivity | | assumption].
  right; now left.
Qed.

Lemma fallback_transcript_required (message : pystr) files :
  Router.intent (_fallback_classification message files) = TRANSCRIPT_ANALYSIS ->
  requires_transcript (_fallback_classification message files) = true.
Proof.
  unfold _fallback_classification. cbn [Router.intent requires_transcript].
  set (ht := has_files files || any_in _ (lower message)).
  match goal with
  | |- context [if ?c then GREETING_OR_CHITCHAT else _] => destruct c
  end; [intros H; discriminate H|].
  match goal with
  | |- context [if ?c then MAJOR_DISCOVERY else _] => destruct c
  end; [intros H; discriminate H|].
  match goal with
  | |- context [if ?c then GAP_ANALYSIS else _] => destruct c
  end; [intros H; discriminate H|].
  destruct ht; [reflexivity|].
  match goal with
  | |- context [if ?c then RESOURCE_REQUEST else _] => destruct c
  end; intros H; discriminate H.
Qed.

Lemma fallback_needs_file (message : pystr) files :
  let r := _fallback_classification message files in
  (Router.intent r = GAP_ANALYSIS ->
   requires_clarification r = Some question_which_major) /\
  (Router.intent r = TRANSCRIPT_ANALYSIS -> has_files files = false ->
   requires_clarification r = Some question_upload) /\
  (requires_clarification r = None <->
   Router.intent r <> GAP_ANALYSIS /\
   (requires_transcript r = false \/ has_files files = true)).
Proof.
  cbn zeta.
  pose proof (fallback_transcript_required message files) as Hta.
  assert (Hconf : confidence (_fallback_classification message files) = 6 # 10)
    by reflexivity.
  assert (Hmaj : ctx_major (context (_fallback_classification message files)) = None)
    by reflexivity.
  assert (Hht : ctx_has_transcript (context (_fallback_classification message files))
                = Some (has_files files)) by reflexivity.
  revert Hta Hconf Hmaj Hht.
  generalize (_fallback_classification message files) as r.
  intros r Hta Hconf Hmaj Hht.
  unfold requires_clarification, question_which_major, question_upload.
  set (q1 := u "I'm not quite sure what you're looking for. Could you rephrase that?").
  set (q2 := u "Which major would you like me to check your readiness for?").
  set (q3 := u "I'll need to see your transcript to help with that. Could you upload your grades PDF?").
  clearbody q1 q2 q3.
  rewrite Hconf, Hmaj, Hht. change (ltb (6 # 10) (1 # 2)) with false.
  cbn [negb andb or_default]. rewrite andb_true_r.
  destruct (intent_eqb (Router.intent r) GAP_ANALYSIS) eqn:Eg.
  - apply intent_eqb_eq in Eg. split; [reflexivity|].
    split; [intros H; rewrite Eg in H; discriminate H|].
    split; [intros H; discriminate H | intros [H _]; contradiction].
  - assert (Hg : Router.intent r <> GAP_ANALYSIS).
    { intros H. apply intent_eqb_eq in H. rewrite H in Eg. discriminate Eg. }
    split; [intros H; contradiction|].
    split.
    + intros Hi Hf. rewrite (Hta Hi), Hf. reflexivity.
    + destruct (requires_transcript r), (has_files files); cbn [negb andb].
      * split; [intros _; split; [assumption | now right] | reflexivity].
      * split; [intros H; discriminate H | intros [_ [H | H]]; discriminate H].
      * split; [intros _; split; [assumption | now left] | reflexivity].
      * split; [intros _; split; [assumption | now left] | reflexivity].
Qed.

Section Fallback.
Variables Env Args Payload : Type.
Variable C : Collaborators Env Args Payload.

(** X22.  When the classification request fails for a message
    without crisis keyword, [classify_intent] returns the keyword
    fallback after that one request: confidence 0.6, one of six
    intents (never crisis or unknown), no major, and whether files
    were uploaded.  Any message that holds "hi", hence any that holds
    "which major", is a greeting.  A gap analysis always draws the
    which-major question, a transcript analysis without files the
    upload request, and no question is asked exactly when the intent
    is not a gap analysis and no transcript is required or a file was
    uploaded. *)
Theorem classify_intent_falls_back
        (message : pystr) (history : option (list Message))
        (files : option (list UploadedFile)) (w : World Env)
        (e : PyException) (e' : Env) :
  _detect_crisis_keywords message = false ->
  generate_structured_output C (classification_prompt message history files) (env w)
  = (Raised e, e') ->
  let r := _fallback_classification message files in
  classify_intent C message history files w
  = (Returned r,
     {| env := e';
        trace := trace w
                 ++ [StructuredCall (classification_prompt message history files)] |}) /\
  confidence r = 6 # 10 /\
  In (Router.intent r)
     [GREETING_OR_CHITCHAT; MAJOR_DISCOVERY; GAP_ANALYSIS; TRANSCRIPT_ANALYSIS;
      RESOURCE_REQUEST; GENERAL_QUESTION] /\
  ctx_has_transcript (context r) = Some (has_files files) /\
  ctx_major (context r) = None /\
  (str_in (u "hi") (lower message) = true ->
   Router.intent r = GREETING_OR_CHITCHAT) /\
  (str_in (u "which major") (lower message) = true ->
   Router.intent r = GREETING_OR_CHITCHAT) /\
  (Router.intent r = GAP_ANALYSIS ->
   requires_clarification r = Some question_which_major) /\
  (Router.intent r = TRANSCRIPT_ANALYSIS -> has_files files = false ->
   requires_clarification r = Some question_upload) /\
  (requires_clarification r = None <->
   Router.intent r <> GAP_ANALYSIS /\
   (requires_transcript r = false \/ has_files files = true)).
Proof.
  intros Hk Hg. cbn zeta.
  split.
  { unfold classify_intent. rewrite Hk.
    unfold try_except, bind, ask_structured, ask. now rewrite Hg. }
  split; [reflexivity|].
  split.
  { unfold _fallback_classification. cbn [Router.intent].
    match goal with
    | |- context [if ?c then GREETING_OR_CHITCHAT else _] => destruct c
    end; [now left|].
    match goal with
    | |- context [if ?c then MAJOR_DISCOVERY else _] => destruct c
    end; [right; now left|].
    match goal with
    | |- context [if ?c then GAP_ANALYSIS else _] => destruct c
    end; [right; right; now left|].
    match goal with
    | |- context [if ?c then TRANSCRIPT_ANALYSIS else _] => destruct c
    end; [right; right; right; now left|].
    match goal with
    | |- context [if ?c then RESOURCE_REQUEST else _] => destruct c
    end; [right; right; right; right; now left|].
    right; right; right; right; right; now left. }
  split; [reflexivity|]. split; [reflexivity|].
  split; [apply fallback_greeting|].
  split.
  { intros H. apply fallback_greeting.
    apply (@str_in_trans _ (u "which major")); [vm_compute; reflexivity | exact H]. }
  apply fallback_needs_file.
Qed.
End Fallback.

Lemma classify_intent_falls_back_witness :
  classify_intent offline (u "which major suits me?") None None world0
  = (Returned (_fallback_classification (u "which major suits me?") None),
     {| env := 0%nat;
        trace := [StructuredCall
                    (classification_prompt (u "which major suits me?") None None)] |}) /\
  Router.intent (_fallback_classification (u "which major suits me?") None)
  = GREETING_OR_CHITCHAT.
Proof.
  destruct (@classify_intent_falls_back
              nat pystr pystr offline (u "which major suits me?") None None world0
              {| exc_type := u "ConnectionError"; exc_str := u "model unreachable" |}
              0%nat)
    as (H1 & _ & _ & _ & _ & _ & H7 & _).
  - vm_compute. reflexivity.
  - reflexivity.
  - split; [exact H1|]. apply H7. vm_compute. reflexivity.
Defined.
End RouterProofs.

Module EndToEnd.
Import PyStr Py Eff Settings Prompts Router Orchestrator.
Import Spec Samples Invariants Facts MajorProofs AgentProofs.
Import RunProofs RouterProofs MatchBounds.

Section Run.
Variables Env Args Payload : Type.
Variable C : Collaborators Env Args Payload.
Variable self : AgentOrchestrator Env Args Payload.

Lemma classify_cases (message : pystr) history files (w w1 : World Env)
      (ir : IntentResult) :
  classify_intent C message history files w = (Returned ir, w1) ->
  Router.intent ir = CRISIS_SAFETY \/
  (exists reply, ir = intent_of_reply reply files) \/
  ir = _fallback_classification message files.
Proof.
  unfold classify_intent. destruct (_detect_crisis_keywords message).
  { intros [= <- _]. now left. }
  unfold try_except, bind, ask_structured, ask.
  destruct (generate_structured_output C _ (env w)) as [[reply|e] e'].
  - intros [= <- _]. right; left. now exists reply.
  - intros [= <- _]. right; now right.
Qed.

(** X23.  Without an uploaded file a run whose message is classified
    as a transcript or a gap analysis never reaches a tool: it ends
    COMPLETED with one of the three clarification questions, no plan,
    no tool call, no error, and nothing asked of the model but the
    classification. *)
Theorem transcript_intents_need_a_file (message : pystr) history files sid uid
      (w w' : World Env) (s : AgentState Args Payload) (ir : IntentResult) :
  has_files files = false ->
  run C self message history files sid uid w = (Returned s, w') ->
  Orchestrator.intent s = Some ir ->
  Router.intent ir = TRANSCRIPT_ANALYSIS \/ Router.intent ir = GAP_ANALYSIS ->
  status s = COMPLETED /\
  (final_response s = Some question_rephrase \/
   final_response s = Some question_which_major \/
   final_response s = Some question_upload) /\
  tool_calls s = [] /\ tool_results s = [] /\ plan s = None /\
  error_message s = None /\
  exists new, trace w' = trace w ++ new /\ only_classification new.
Proof.
  intros Hf Hrun Hint Hta.
  destruct (run_returns C self message history files sid uid w)
    as (s0 & w0' & new & ir0 & w1 & Hr0 & Hc & Hi0 & _).
  rewrite Hrun in Hr0. injection Hr0 as <- <-.
  rewrite Hint in Hi0. injection Hi0 as <-.
  assert (Hq : exists q, requires_clarification ir = Some q /\
                         (q = question_rephrase \/ q = question_which_major \/
                          q = question_upload)).
  { destruct (classify_cases _ _ _ _ Hc) as [Hcr | [[reply ->] | ->]].
    - destruct Hta as [H | H]; rewrite H in Hcr; discriminate Hcr.
    - now apply intent_of_reply_needs_file.
    - destruct (fallback_needs_file message files) as (Hga & Htr & _).
      destruct Hta as [H | H].
      + exists question_upload. split; [now apply Htr | right; now right].
      + exists question_which_major. split; [now apply Hga | right; now left]. }
  destruct Hq as (q & Hq & Hwhich).
  destruct (@run_clarification _ _ _ C self message history files sid uid w w1 ir q Hc Hq)
    as (s' & w2 & Hr & Hst & Hfr & _ & Htc & Htr & Hpl & Her & Htrace).
  rewrite Hrun in Hr. injection Hr as <- <-.
  split; [assumption|]. split.
  { rewrite Hfr. destruct Hwhich as [-> | [-> | ->]];
      [now left | right; now left | right; now right]. }
  repeat (split; [assumption|]).
  destruct (classify_returns C message history files (snd (now C w)))
    as (ir' & w1' & Hc' & (new' & Hn1 & Hn2) & _).
  rewrite Hc in Hc'. injection Hc' as <- <-.
  exists new'. split; [|assumption]. rewrite Htrace, Hn1.
  unfold now. destruct (time_time C (env w)). reflexivity.
Qed.

(** X24.  The execution summary of the state a run returns:
    num_tool_calls is the number of tool results, success holds
    exactly when the status is COMPLETED and fails exactly when an
    error message is recorded, the status reads "completed" or "error",
    had_errors holds exactly when the log holds a failed call,
    tools_used lists the names of the tool results without repeats,
    and the intent is the value of the classified intent. *)
Theorem execution_summary_of_a_run (message : pystr) history files sid uid
      (w w' : World Env) (s : AgentState Args Payload) :
  run C self message history files sid uid w = (Returned s, w') ->
  let sm := get_execution_summary s in
  es_num_tool_calls sm = length (tool_results s) /\
  (es_success sm = true <-> status s = COMPLETED) /\
  (es_success sm = false <-> error_message s <> None) /\
  (es_status sm = u "completed" \/ es_status sm = u "error") /\
  (es_had_errors sm = true <->
   exists l, In l (tool_calls s) /\ log_success l = false) /\
  NoDup (es_tools_used sm) /\
  (forall n, In n (es_tools_used sm) <->
             exists tr, In tr (tool_results s) /\ tool_name tr = n) /\
  (exists ir, Orchestrator.intent s = Some ir /\
              es_intent sm = value (Router.intent ir)).
Proof.
  intros Hrun. cbn zeta.
  destruct (run_returns C self message history files sid uid w)
    as (s0 & w0' & new & ir & w1 & Hr0 & _ & Hi & Hst & Hfr & Herr & _ & Hal & _).
  rewrite Hrun in Hr0. injection Hr0 as <- <-.
  unfold get_execution_summary.
  cbn [es_num_tool_calls es_success es_status es_had_errors es_tools_used es_intent].
  assert (Hlen : length (tool_calls s) = length (tool_results s)).
  { unfold aligned in Hal. apply (f_equal (@length _)) in Hal.
    now rewrite !length_map in Hal. }
  assert (Hnames : map log_tool (tool_calls s)
                   = map (@tool_name Args Payload) (tool_results s)).
  { unfold aligned in Hal. apply (f_equal (map fst)) in Hal.
    rewrite !map_map in Hal. exact Hal. }
  assert (Hsucc : map log_success (tool_calls s)
                  = map (@Orchestrator.success Args Payload) (tool_results s)).
  { unfold aligned in Hal. apply (f_equal (map snd)) in Hal.
    rewrite !map_map in Hal. exact Hal. }
  split; [assumption|].
  destruct (final_response s) as [r|] eqn:Ef; [|contradiction].
  rewrite andb_true_r.
  assert (Ecc : str_eqb (status_value COMPLETED) (status_value COMPLETED) = true)
    by (vm_compute; reflexivity).
  assert (Eec : str_eqb (status_value ERROR) (status_value COMPLETED) = false)
    by (vm_compute; reflexivity).
  split.
  { destruct Hst as [H | H]; rewrite H.
    - rewrite Ecc. split; reflexivity.
    - rewrite Eec. split; intros H'; discriminate H'. }
  split.
  { destruct Hst as [H | H]; rewrite H.
    - rewrite Ecc. split; [intros H'; discriminate H'|].
      intros Hne. exfalso. apply Herr in Hne. rewrite H in Hne. discriminate Hne.
    - rewrite Eec. split; [intros _; now apply Herr | reflexivity]. }
  split; [destruct Hst as [-> | ->]; [left | right]; reflexivity|].
  split.
  { rewrite existsb_exists. split.
    - intros (tr & Hin & Hneg). apply negb_true_iff in Hneg.
      assert (Hf : In false (map log_success (tool_calls s))).
      { rewrite Hsucc. apply in_map_iff. now exists tr. }
      apply in_map_iff in Hf as (l & Hl & Hin'). now exists l.
    - intros (l & Hin & Hl).
      assert (Hf : In false (map (@Orchestrator.success Args Payload) (tool_results s))).
      { rewrite <- Hsucc. apply in_map_iff. now exists l. }
      apply in_map_iff in Hf as (tr & Htr & Hin'). exists tr.
      split; [assumption | now rewrite Htr]. }
  split; [apply set_of_nodup|].
  split.
  { intros n. rewrite set_of_in, Hnames, in_map_iff.
    split; intros (tr & H1 & H2); exists tr; now split. }
  exists ir. split; [assumption|]. now rewrite Hi.
Qed.
End Run.

Lemma transcript_intents_need_a_file_witness :
  exists s w',
    run attentive orchestrator (u "Am I ready for Computer Science?")
        None None None None world0
    = (Returned s, w') /\
    status s = COMPLETED /\ tool_calls s = [].
Proof.
  destruct (run_returns attentive orchestrator (u "Am I ready for Computer Science?")
                        None None None None world0)
    as (s & w' & new & ir & w1 & Hr & Hc & Hi & _).
  destruct (@transcript_intents_need_a_file
              nat pystr pystr attentive orchestrator
              (u "Am I ready for Computer Science?") None None None None
              world0 w' s ir eq_refl Hr Hi)
    as (Hst & _ & Htc & _).
  - vm_compute in Hc. injection Hc as <- _. right. reflexivity.
  - exists s, w'. repeat split; assumption.
Defined.

Lemma execution_summary_of_a_run_witness :
  exists s w',
    run attentive orchestrator (u "Am I ready for Computer Science?")
        None None None None world0
    = (Returned s, w') /\
    es_num_tool_calls (get_execution_summary s) = length (tool_results s).
Proof.
  destruct (run_returns attentive orchestrator (u "Am I ready for Computer Science?")
                        None None None None world0)
    as (s & w' & new & ir & w1 & Hr & _).
  exists s, w'. split; [exact Hr|].
  exact (proj1 (@execution_summary_of_a_run
                  nat pystr pystr attentive orchestrator
                  (u "Am I ready for Computer Science?") None None None None
                  world0 w' s Hr)).
Defined.
End EndToEnd.

Module KeySortFacts.
Import Py ResourceService Facts.

Lemma str_ltb_asym (a b : pystr) : str_ltb a b = true -> str_ltb b a = false.
Proof.
  revert b. induction a as [|x a IH]; intros [|y b]; cbn [str_ltb];
    try reflexivity; try discriminate.
  destruct (N.ltb_spec x y), (N.ltb_spec y x); try reflexivity; try lia;
    try discriminate. apply IH.
Qed.

Lemma str_ltb_negtrans (a b c : pystr) :
  str_ltb a c = true -> str_ltb a b = true \/ str_ltb b c = true.
Proof.
  revert b c. induction a as [|x a IH]; intros [|y b] [|z c]; cbn [str_ltb];
    try discriminate; auto.
  destruct (N.ltb_spec x z), (N.ltb_spec z x), (N.ltb_spec x y),
           (N.ltb_spec y x), (N.ltb_spec y z), (N.ltb_spec z y);
    try lia; auto; try discriminate.
Qed.

Lemma key_ltb_asym (a b : bool * pystr) : key_ltb a b = true -> key_ltb b a = false.
Proof.
  destruct a as [[|] a], b as [[|] b]; unfold key_ltb; cbn [fst snd];
    try reflexivity; try discriminate; apply str_ltb_asym.
Qed.

Lemma key_ltb_negtrans (a b c : bool * pystr) :
  key_ltb a c = true -> key_ltb a b = true \/ key_ltb b c = true.
Proof.
  destruct a as [[|] a], b as [[|] b], c as [[|] c]; unfold key_ltb;
    cbn [fst snd]; auto; try discriminate; apply str_ltb_negtrans.
Qed.

Section Ascending.
Variable A : Type.
Variable key : A -> bool * pystr.

Lemma insert_key_perm (x : A) (l : list A) :
  Permutation (insert_key key x l) (x :: l).
Proof.
  induction l as [|y l IH]; cbn [insert_key]; [reflexivity|].
  destruct (key_ltb (key y) (key x)); [|reflexivity].
  rewrite IH. apply perm_swap.
Qed.

Lemma sorted_key_perm (l : list A) : Permutation (sorted_key key l) l.
Proof.
  induction l as [|x l IH]; [reflexivity|].
  unfold sorted_key in *. cbn [fold_right]. rewrite insert_key_perm.
  now constructor.
Qed.

Lemma insert_key_sorted (x : A) (l : list A) :
  StronglySorted (fun a b => key_ltb (key b) (key a) = false) l ->
  StronglySorted (fun a b => key_ltb (key b) (key a) = false) (insert_key key x l).
Proof.
  induction 1 as [|y l Hs IH Hall]; cbn [insert_key].
  - constructor; constructor.
  - destruct (key_ltb (key y) (key x)) eqn:E.
    + constructor; [exact IH|].
      apply (Permutation_Forall (Permutation_sym (insert_key_perm x l))).
      constructor; [now apply key_ltb_asym | exact Hall].
    + constructor; [now constructor|].
      constructor; [exact E|].
      rewrite Forall_forall in *. intros z Hz. specialize (Hall z Hz).
      destruct (key_ltb (key z) (key x)) eqn:Ez; [|reflexivity].
      destruct (key_ltb_negtrans _ (key y) _ Ez); congruence.
Qed.

Lemma sorted_key_sorted (l : list A) :
  StronglySorted (fun a b => key_ltb (key b) (key a) = false) (sorted_key key l).
Proof.
  induction l as [|x l IH]; [constructor|].
  unfold sorted_key in *. cbn [fold_right]. now apply insert_key_sorted.
Qed.
End Ascending.

End KeySortFacts.

Module ResourceProofs.
Import Py Eff Router ToolPrompts ResourceService ResourceTools TranscriptTools.
Import ToolInvariants Facts KeySortFacts.

Lemma parse_resources_filter (l : list ResourceData) :
  parse_resources l = map resource_of (filter complete l).
Proof.
  induction l as [|d l IH]; [reflexivity|].
  cbn [parse_resources filter]. rewrite IH.
  set (kept := filter complete l). unfold complete.
  destruct (rd_name d) eqn:E1, (rd_provider d) eqn:E2, (rd_type d) eqn:E3,
           (rd_language d) eqn:E4, (rd_description d) eqn:E5,
           (rd_search_hint d) eqn:E6; try reflexivity.
  cbn [map]. unfold resource_of.
  rewrite E1, E2, E3, E4, E5, E6. reflexivity.
Qed.

Lemma priority_order_sorted (l : list StudyResource) :
  priority_sorted (sorted_key (fun r => (negb (res_free r), res_type r)) l).
Proof.
  unfold priority_sorted.
  apply (@GradeGapsExtra.strongly_sorted_weaken
           _ (fun a b => key_ltb (negb (res_free b), res_type b)
                                 (negb (res_free a), res_type a) = false)
           _ (fun _ => True)).
  - intros a b _ _. unfold key_ltb. cbn [fst snd].
    destruct (res_free a), (res_free b); cbn [negb]; intros H; split;
      try discriminate; auto.
  - apply Forall_forall. intros. exact I.
  - apply (sorted_key_sorted (fun r => (negb (res_free r), res_type r))).
Qed.

Section Service.
Variable Env : Type.
Variable generate_resources : pystr -> Env -> Outcome PyException ResourceReply * Env.
Variable call_llm : pystr -> Q -> Env -> Outcome PyException pystr * Env.
Variable str_of_float : Q -> pystr.

Lemma recommend_returns (subject : pystr) (topic : option pystr) (level : pystr)
      (goal : option pystr) (w : World Env) :
  let prompt :=
    resource_generation_prompt
      subject (or_text topic (u "general")) level
      (or_text goal (u "improve understanding and grades")) in
  recommend_study_resources generate_resources subject topic level goal w
  = (Returned
       match fst (generate_resources prompt (env w)) with
       | Returned reply =>
         map resource_of (filter complete (or_default (rr_resources reply) []))
       | Raised _ => _get_fallback_resources subject
       end,
     {| env := snd (generate_resources prompt (env w));
        trace := trace w ++ [StructuredCall prompt] |}).
Proof.
  intros prompt. unfold recommend_study_resources, try_except, bind, ask.
  fold prompt. destruct (generate_resources prompt (env w)) as [[reply|e] env'];
    cbn [fst snd ret]; [|reflexivity].
  now rewrite parse_resources_filter.
Qed.

Lemma recommend_outcome
        (subject : pystr) (topic : option pystr) (level : pystr)
        (goal : option pystr) (w : World Env) :
  exists resources w' prompt,
    recommend_study_resources generate_resources subject topic level goal w
    = (Returned resources, w') /\
    prompt = resource_generation_prompt
               subject (or_text topic (u "general")) level
               (or_text goal (u "improve understanding and grades")) /\
    trace w' = trace w ++ [StructuredCall prompt] /\
    env w' = snd (generate_resources prompt (env w)) /\
    (forall e, fst (generate_resources prompt (env w)) = Raised e ->
               length resources = 2%nat /\
               Forall (fun r => res_free r = true /\
                                str_in subject (res_name r) = true) resources) /\
    (forall reply, fst (generate_resources prompt (env w)) = Returned reply ->
                   let entries := or_default (rr_resources reply) [] in
                   resources = map resource_of (filter complete entries) /\
                   (length resources <= length entries)%nat /\
                   (resources = [] <->
                    forall d, In d entries -> complete d = false)).
Proof.
  eexists _, _, _. split; [apply recommend_returns|].
  split; [reflexivity|]. split; [reflexivity|]. split; [reflexivity|].
  cbn [env]. split.
  - intros e ->. split; [reflexivity|].
    repeat constructor; cbn [res_name]; apply str_in_iff.
    + exists (u "Khan Academy: "), []. now rewrite app_nil_r.
    + exists [], (u " - YouTube Educational Channels").
      symmetry. apply app_nil_l.
  - intros reply ->. split; [reflexivity|]. split.
    + rewrite length_map. apply filter_length_le.
    + rewrite <- filter_nil_iff. split.
      * intros H. now apply map_eq_nil in H.
      * now intros ->.
Qed.

(** X25.  [recommend_study_resources] never raises and asks the model
    once.  When the model call raises, the answer is the two generic
    resources, both free and named after the subject; when it returns,
    the answer holds one resource for each entry of the reply that has
    the six mandatory keys, in the reply's order, [free] being true
    where the entry does not say, and it is empty exactly when no entry
    is complete. *)
Theorem recommend_study_resources_outcome
        (subject : pystr) (topic : option pystr) (level : pystr)
        (goal : option pystr) (w : World Env) :
  exists resources w' prompt,
    recommend_study_resources generate_resources subject topic level goal w
    = (Returned resources, w') /\
    prompt = resource_generation_prompt
               subject (or_text topic (u "general")) level
               (or_text goal (u "improve understanding and grades")) /\
    trace w' = trace w ++ [StructuredCall prompt] /\
    env w' = snd (generate_resources prompt (env w)) /\
    (forall e, fst (generate_resources prompt (env w)) = Raised e ->
               length resources = 2%nat /\
               Forall (fun r => res_free r = true /\
                                str_in subject (res_name r) = true) resources) /\
    (forall reply, fst (generate_resources prompt (env w)) = Returned reply ->
                   let entries := or_default (rr_resources reply) [] in
                   resources = map resource_of (filter complete entries) /\
                   (length resources <= length entries)%nat /\
                   (resources = [] <->
                    forall d, In d entries -> complete d = false)).
Proof. apply recommend_outcome. Qed.

End Service.
End ResourceProofs.

Module StudyPlanProofs.
Import Py Eff Router ToolPrompts ResourceService ResourceTools TranscriptTools.
Import ToolInvariants Facts KeySortFacts ResourceProofs.

Section Service.
Variable Env : Type.
Variable generate_resources : pystr -> Env -> Outcome PyException ResourceReply * Env.
Variable call_llm : pystr -> Q -> Env -> Outcome PyException pystr * Env.
Variable str_of_float : Binary64.float -> pystr.

Lemma given_grade_some (g : option Binary64.float) (q : Binary64.float) :
  given_grade g = Some q <-> g = Some q /\ Binary64.truthy q = true.
Proof.
  unfold given_grade. destruct g as [x|]; [|split; [discriminate | now intros [? _]]].
  destruct (Binary64.truthy x) eqn:E.
  - split; [intros [= <-]; now split | now intros [[= ->] _]].
  - split; [discriminate|]. intros [[= ->] H]. congruence.
Qed.

Lemma create_study_plan_returns
      (subject : pystr) (topic : option pystr)
      (current_grade target_grade : option Binary64.float)
      (available_time_per_week : option Z) (w : World Env) :
  exists plan w' level goal resources_prompt plan_prompt_ w1,
    create_study_plan generate_resources call_llm str_of_float
                      subject topic current_grade target_grade
                      available_time_per_week w
    = (Returned plan, w') /\
    recommend_study_resources generate_resources subject topic level (Some goal) w
    = (Returned (sp_resources plan), w1) /\
    trace w1 = trace w ++ [StructuredCall resources_prompt] /\
    trace w' = trace w1 ++ [TextCall plan_prompt_ (7 # 10)] /\
    env w' = snd (call_llm plan_prompt_ (7 # 10) (env w1)) /\
    sp_subject plan = subject /\
    sp_topic plan = topic /\
    sp_priority_order plan
    = map res_name (sorted_key (fun r => (negb (res_free r), res_type r))
                               (sp_resources plan)) /\
    match fst (call_llm plan_prompt_ (7 # 10) (env w1)) with
    | Returned text => sp_plan plan = text
    | Raised _ =>
      sp_plan plan
      = u "Start with foundational " ++ or_text topic subject
          ++ u " concepts, practice regularly with exercises, and gradually work through more advanced material. Consistency is key!"
    end /\
    match given_grade current_grade, given_grade target_grade with
    | Some current, Some target =>
      if Binary64.leb (Binary64.sub target current) (Binary64.of_Z 1)
      then level = u "university_prep" /\
           goal = u "maintain and refine knowledge (currently "
                    ++ str_of_float current ++ u "/20)" /\
           sp_estimated_time plan = u "2-4 weeks with regular practice"
      else if Binary64.leb (Binary64.sub target current) (Binary64.of_Z 3)
      then level = u "high_school" /\
           goal = u "improve from " ++ str_of_float current ++ u "/20 to "
                    ++ str_of_float target ++ u "/20" /\
           sp_estimated_time plan = u "2-3 months with 1 hour/day"
      else level = u "beginner" /\
           goal = u "build foundations to improve from " ++ str_of_float current
                    ++ u "/20 to " ++ str_of_float target ++ u "/20" /\
           sp_estimated_time plan = u "4-6 months with consistent effort"
    | _, _ =>
      level = u "high_school" /\
      goal = u "improve understanding and grades" /\
      sp_estimated_time plan = u "2-3 months with regular practice"
    end.
Proof.
  unfold create_study_plan.
  set (level_goal := match given_grade current_grade, given_grade target_grade with
                     | Some current, Some target => _
                     | _, _ => _
                     end).
  cbv zeta. unfold bind at 1.
  pose proof (recommend_returns generate_resources subject topic (fst level_goal)
                                (Some (snd level_goal)) w) as Hrec.
  cbv zeta in Hrec. rewrite Hrec.
  match type of Hrec with
  | _ = (Returned ?rs, ?ww) => set (resources := rs) in *; set (w1 := ww) in *
  end.
  unfold bind, try_except, ask.
  match goal with
  | |- context [call_llm ?p (7 # 10) (env w1)] => set (plan_prompt_ := p)
  end.
  destruct (call_llm plan_prompt_ (7 # 10) (env w1)) as [[text|e] env2] eqn:Ecall;
    cbn [ret].
  all: eexists _, _, (fst level_goal), (snd level_goal), _, plan_prompt_, w1.
  all: split; [reflexivity|]; split; [exact Hrec|].
  all: split; [reflexivity|]; split; [reflexivity|].
  all: rewrite Ecall; cbn [env snd fst sp_subject sp_topic sp_priority_order
                               sp_resources sp_plan sp_estimated_time].
  all: split; [reflexivity|]; split; [reflexivity|]; split; [reflexivity|].
  all: split; [reflexivity|]; split; [reflexivity|].
  all: unfold level_goal;
    destruct (given_grade current_grade) as [current|];
    [destruct (given_grade target_grade) as [target|]|];
    [destruct (Binary64.leb (Binary64.sub target current) (Binary64.of_Z 1));
     [|destruct (Binary64.leb (Binary64.sub target current) (Binary64.of_Z 3))]| |];
    cbn [fst snd]; (split; [reflexivity|]); split; reflexivity.
Qed.

(** The three bands of the gap, as the two tests of the code sort a
    float into them. *)
Lemma study_bands (gap : Binary64.float) (P1 P2 P3 : Prop) :
  (if Binary64.leb gap (Binary64.of_Z 1) then P1
   else if Binary64.leb gap (Binary64.of_Z 3) then P2 else P3) ->
  (Spec64.le gap (Binary64.of_Z 1) -> P1) /\
  (Spec64.lt (Binary64.of_Z 1) gap -> Spec64.le gap (Binary64.of_Z 3) -> P2) /\
  (Spec64.lt (Binary64.of_Z 3) gap \/ Binary64.is_nan gap = true -> P3).
Proof.
  unfold Spec64.le, Spec64.lt. intros H.
  assert (H13 : Binary64.ltb (Binary64.of_Z 1) (Binary64.of_Z 3) = true)
    by (vm_compute; reflexivity).
  destruct (Binary64.leb gap (Binary64.of_Z 1)) eqn:L1;
    [|destruct (Binary64.leb gap (Binary64.of_Z 3)) eqn:L3].
  - split; [intros _; exact H|]. split.
    + intros K. rewrite (@Binary64Facts.leb_not_ltb _ _ L1) in K. discriminate K.
    + intros [K | K]; exfalso.
      * assert (J : Binary64.ltb gap (Binary64.of_Z 3) = true)
          by (apply (@Binary64Facts.leb_ltb_trans _ (Binary64.of_Z 1) _); assumption).
        apply Binary64Facts.ltb_leb in J.
        rewrite (@Binary64Facts.leb_not_ltb _ _ J) in K. discriminate K.
      * destruct (@Binary64Facts.le_not_nan _ _ L1). congruence.
  - split; [intros K; congruence|]. split; [intros _ _; exact H|].
    intros [K | K]; exfalso.
    + rewrite (@Binary64Facts.leb_not_ltb _ _ L3) in K. discriminate K.
    + destruct (@Binary64Facts.le_not_nan _ _ L3). congruence.
  - split; [intros K; congruence|]. split; [intros _ K; congruence|].
    intros _. exact H.
Qed.

(** X27.  [create_study_plan] never raises and asks the model twice:
    once for the resources and once, at temperature 0.7, for the plan
    text.  The plan keeps the subject and the topic, holds the
    resources that [recommend_study_resources] gave for the level and
    the goal chosen, and lists their names free resources first and by
    type within the free and within the paid ones.  A plan text that
    cannot be generated is replaced by a fixed text that names the
    topic (or the subject).  The level and the time estimate follow
    the gap, target - current as binary64 subtraction rounds it: at
    most 1, above 1 and at most 3, above 3 (or NaN); a grade that is
    missing or is 0 gives the defaults.  So the grades 13.1 and 16.1
    give "beginner", their difference being rounded above 3, and 1.7
    and 4.7 give "high_school", theirs being rounded to 3. *)
Theorem create_study_plan_outcome
        (subject : pystr) (topic : option pystr)
        (current_grade target_grade : option Binary64.float)
        (available_time_per_week : option Z) (w : World Env) :
  exists plan w' level goal resources_prompt plan_prompt_ w1,
    create_study_plan generate_resources call_llm str_of_float
                      subject topic current_grade target_grade
                      available_time_per_week w
    = (Returned plan, w') /\
    recommend_study_resources generate_resources subject topic level (Some goal) w
    = (Returned (sp_resources plan), w1) /\
    trace w' = trace w ++ [StructuredCall resources_prompt;
                           TextCall plan_prompt_ (7 # 10)] /\
    sp_subject plan = subject /\
    sp_topic plan = topic /\
    (exists ordered,
        sp_priority_order plan = map res_name ordered /\
        Permutation ordered (sp_resources plan) /\
        priority_sorted ordered) /\
    (forall text, fst (call_llm plan_prompt_ (7 # 10) (env w1)) = Returned text ->
                  sp_plan plan = text) /\
    (forall e, fst (call_llm plan_prompt_ (7 # 10) (env w1)) = Raised e ->
               str_in (or_text topic subject) (sp_plan plan) = true) /\
    (forall current target,
        current_grade = Some current -> target_grade = Some target ->
        Binary64.truthy current = true -> Binary64.truthy target = true ->
        (Spec64.le (Binary64.sub target current) (Binary64.of_Z 1) ->
         level = u "university_prep" /\
         goal = u "maintain and refine knowledge (currently "
                  ++ str_of_float current ++ u "/20)" /\
         sp_estimated_time plan = u "2-4 weeks with regular practice") /\
        (Spec64.lt (Binary64.of_Z 1) (Binary64.sub target current) ->
         Spec64.le (Binary64.sub target current) (Binary64.of_Z 3) ->
         level = u "high_school" /\
         goal = u "improve from " ++ str_of_float current ++ u "/20 to "
                  ++ str_of_float target ++ u "/20" /\
         sp_estimated_time plan = u "2-3 months with 1 hour/day") /\
        (Spec64.lt (Binary64.of_Z 3) (Binary64.sub target current)
         \/ Binary64.is_nan (Binary64.sub target current) = true ->
         level = u "beginner" /\
         goal = u "build foundations to improve from " ++ str_of_float current
                  ++ u "/20 to " ++ str_of_float target ++ u "/20" /\
         sp_estimated_time plan = u "4-6 months with consistent effort")) /\
    (current_grade = None \/ target_grade = None \/
     (exists q, current_grade = Some q /\ Binary64.truthy q = false) \/
     (exists q, target_grade = Some q /\ Binary64.truthy q = false) ->
     level = u "high_school" /\
     goal = u "improve understanding and grades" /\
     sp_estimated_time plan = u "2-3 months with regular practice") /\
    (current_grade = Some (Binary64.of_Q (131 # 10)) ->
     target_grade = Some (Binary64.of_Q (161 # 10)) ->
     level = u "beginner") /\
    (current_grade = Some (Binary64.of_Q (17 # 10)) ->
     target_grade = Some (Binary64.of_Q (47 # 10)) ->
     level = u "high_school").
Proof.
  destruct (create_study_plan_returns subject topic current_grade target_grade
                                      available_time_per_week w)
    as (plan & w' & level & goal & p1 & p2 & w1 & Hrun & Hrec & Ht1 & Ht2 & _
        & Hs & Ht & Hp & Htext & Hgap).
  assert (Hbands :
            forall current target,
              current_grade = Some current -> target_grade = Some target ->
              Binary64.truthy current = true -> Binary64.truthy target = true ->
              (Spec64.le (Binary64.sub target current) (Binary64.of_Z 1) ->
               level = u "university_prep" /\
               goal = u "maintain and refine knowledge (currently "
                        ++ str_of_float current ++ u "/20)" /\
               sp_estimated_time plan = u "2-4 weeks with regular practice") /\
              (Spec64.lt (Binary64.of_Z 1) (Binary64.sub target current) ->
               Spec64.le (Binary64.sub target current) (Binary64.of_Z 3) ->
               level = u "high_school" /\
               goal = u "improve from " ++ str_of_float current ++ u "/20 to "
                        ++ str_of_float target ++ u "/20" /\
               sp_estimated_time plan = u "2-3 months with 1 hour/day") /\
              (Spec64.lt (Binary64.of_Z 3) (Binary64.sub target current)
               \/ Binary64.is_nan (Binary64.sub target current) = true ->
               level = u "beginner" /\
               goal = u "build foundations to improve from " ++ str_of_float current
                        ++ u "/20 to " ++ str_of_float target ++ u "/20" /\
               sp_estimated_time plan = u "4-6 months with consistent effort")).
  { intros current target -> -> Hc Ht0.
    assert (E1 : given_grade (Some current) = Some current)
      by (apply given_grade_some; now split).
    assert (E2 : given_grade (Some target) = Some target)
      by (apply given_grade_some; now split).
    rewrite E1, E2 in Hgap. apply study_bands. exact Hgap. }
  exists plan, w', level, goal, p1, p2, w1.
  split; [exact Hrun|]. split; [exact Hrec|].
  split; [rewrite Ht2, Ht1, <- app_assoc; reflexivity|].
  split; [exact Hs|]. split; [exact Ht|]. split.
  { eexists. split; [exact Hp|]. split.
    - apply sorted_key_perm.
    - apply priority_order_sorted. }
  split.
  { intros text E. now rewrite E in Htext. }
  split.
  { intros e E. rewrite E in Htext. rewrite Htext. apply str_in_iff.
    eexists _, _. reflexivity. }
  split; [exact Hbands|].
  split.
  { intros Hmissing.
    assert (E : given_grade current_grade = None \/ given_grade target_grade = None).
    { destruct Hmissing as [-> | [-> | [(q & -> & Hq) | (q & -> & Hq)]]];
        [now left | now right | left | right];
        unfold given_grade; now rewrite Hq. }
    destruct E as [E | E]; rewrite E in Hgap; [exact Hgap|].
    now destruct (given_grade current_grade). }
  split.
  - intros Hc Ht0.
    destruct (Hbands _ _ Hc Ht0 eq_refl eq_refl) as (_ & _ & H3).
    apply H3. left. vm_compute. reflexivity.
  - intros Hc Ht0.
    destruct (Hbands _ _ Hc Ht0 eq_refl eq_refl) as (_ & H2 & _).
    apply H2; vm_compute; reflexivity.
Qed.
End Service.

Section Tools.
Variable Env : Type.
Variable generate_resources : pystr -> Env -> Outcome PyException ResourceReply * Env.
Variable call_llm : pystr -> Q -> Env -> Outcome PyException pystr * Env.
Variable str_of_float : Binary64.float -> pystr.
Variable time_sleep : Q -> World Env -> World Env.

Lemma retry_returns_at_once (S A : Type) (sleep_ : Q -> S -> S) (func_name : pystr)
      (func : M S A) (max_retries : nat) (s s1 : S) (n : nat) (a : A) :
  func s = (Returned a, s1) ->
  retry_on_failure sleep_ func_name func max_retries (s, n)
  = (Returned (ToolReturned a), (s1, Datatypes.S n)).
Proof.
  intros H. unfold retry_on_failure. rewrite Nat.add_1_r. cbn [attempts].
  unfold LlmService.call. cbn [fst snd]. now rewrite H.
Qed.

(** X26.  [find_study_resources] as registered calls its body once,
    never sleeps and never gives the error structure, and the body
    never reaches its [except] branch.  The result reports success
    exactly when there is a resource, then with the count, the subject
    and the topic; a failure always carries the text "Could not
    generate resource recommendations" and means that the model
    answered without one complete entry.  A model call that raises is
    reported as a success with the two generic resources. *)
Theorem find_study_resources_outcome
        (subject : pystr) (topic : option pystr) (level : pystr)
        (goal : option pystr) (w : World Env) (n : nat) :
  exists r w' prompt,
    find_study_resources_tool generate_resources time_sleep
                              subject topic level goal (w, n)
    = (Returned (ToolReturned r), (w', Datatypes.S n)) /\
    find_study_resources generate_resources subject topic level goal w
    = (Returned r, w') /\
    recommend_study_resources generate_resources subject topic level goal w
    = (Returned (fr_resources r), w') /\
    trace w' = trace w ++ [StructuredCall prompt] /\
    (fr_success r = true <-> fr_resources r <> []) /\
    (fr_success r = true ->
     fr_error r = None /\
     fr_count r = Some (length (fr_resources r)) /\
     fr_subject r = Some subject /\
     fr_topic r = Some topic) /\
    (fr_success r = false ->
     fr_error r = Some (u "Could not generate resource recommendations") /\
     fr_count r = None /\
     exists reply,
       fst (generate_resources prompt (env w)) = Returned reply /\
       forall d, In d (or_default (rr_resources reply) []) -> complete d = false) /\
    (forall e, fst (generate_resources prompt (env w)) = Raised e ->
               fr_success r = true /\ fr_count r = Some 2%nat).
Proof.
  destruct (recommend_outcome generate_resources
                                              subject topic level goal w)
    as (resources & w' & prompt & Hrec & -> & Ht & _ & Hraised & Hreturned).
  assert (Hbody :
            exists r,
              find_study_resources generate_resources subject topic level goal w
              = (Returned r, w') /\
              fr_resources r = resources /\
              (fr_success r = true <-> resources <> []) /\
              (fr_success r = true ->
               fr_error r = None /\ fr_count r = Some (length resources) /\
               fr_subject r = Some subject /\ fr_topic r = Some topic) /\
              (fr_success r = false ->
               fr_error r = Some (u "Could not generate resource recommendations") /\
               fr_count r = None)).
  { unfold find_study_resources, try_except, bind. rewrite Hrec.
    destruct resources as [|r0 rs]; cbn [ret]; eexists; (split; [reflexivity|]);
      cbn [fr_resources fr_success fr_error fr_count fr_subject fr_topic];
      repeat split; try discriminate; try congruence. }
  destruct Hbody as (r & Hbody & Hres & Hiff & Hok & Hfail).
  exists r, w'. eexists. split.
  { unfold find_study_resources_tool. now apply retry_returns_at_once. }
  split; [exact Hbody|]. rewrite Hres.
  split; [exact Hrec|]. split; [exact Ht|]. split; [exact Hiff|].
  split; [exact Hok|]. split.
  - intros Hf. destruct (Hfail Hf) as [H1 H2]. split; [exact H1|].
    split; [exact H2|].
    assert (Hnil : resources = []).
    { destruct resources; [reflexivity|].
      assert (fr_success r = true) by (apply Hiff; discriminate). congruence. }
    match goal with
    | |- context [generate_resources ?p (env w)] => set (prompt := p) in *
    end.
    destruct (fst (generate_resources prompt (env w))) as [reply|e] eqn:E.
    + exists reply. split; [reflexivity|]. apply (Hreturned reply eq_refl).
      exact Hnil.
    + destruct (Hraised e eq_refl) as [Hlen _]. rewrite Hnil in Hlen.
      discriminate Hlen.
  - intros e E. destruct (Hraised e E) as [Hlen _].
    assert (Hs : fr_success r = true).
    { apply Hiff. intros ->. discriminate Hlen. }
    split; [exact Hs|]. destruct (Hok Hs) as (_ & Hc & _). now rewrite Hc, Hlen.
Qed.

(** X28.  [create_personalized_study_plan] as registered calls its
    body once, never sleeps and never gives the error structure, and
    the body never reaches its [except] branch: whatever the two model
    calls do, the result reports success and carries the plan text,
    the resources, the time estimate and the priority order of the
    plan [create_study_plan] built, with the subject and the topic of
    the request; the priority order names each resource once. *)
Theorem create_personalized_study_plan_outcome
        (subject : pystr) (topic : option pystr)
        (current_grade target_grade : option Binary64.float)
        (available_time_per_week : option Z) (w : World Env) (n : nat) :
  exists r w' plan resources_prompt plan_prompt_,
    create_personalized_study_plan_tool
      generate_resources call_llm str_of_float time_sleep
      subject topic current_grade target_grade available_time_per_week (w, n)
    = (Returned (ToolReturned r), (w', Datatypes.S n)) /\
    create_personalized_study_plan
      generate_resources call_llm str_of_float
      subject topic current_grade target_grade available_time_per_week w
    = (Returned r, w') /\
    create_study_plan generate_resources call_llm str_of_float
                      subject topic current_grade target_grade
                      available_time_per_week w
    = (Returned plan, w') /\
    trace w' = trace w ++ [StructuredCall resources_prompt;
                           TextCall plan_prompt_ (7 # 10)] /\
    pl_success r = true /\
    pl_error r = None /\
    pl_plan r = Some (sp_plan plan) /\
    pl_resources r = Some (sp_resources plan) /\
    pl_estimated_time r = Some (sp_estimated_time plan) /\
    pl_priority_order r = Some (sp_priority_order plan) /\
    pl_subject r = Some subject /\
    pl_topic r = Some topic /\
    Permutation (sp_priority_order plan) (map res_name (sp_resources plan)).
Proof.
  destruct (create_study_plan_returns generate_resources call_llm str_of_float
                                      subject topic current_grade target_grade
                                      available_time_per_week w)
    as (plan & w' & level & goal & p1 & p2 & w1 & Hrun & _ & Ht1 & Ht2 & _
        & _ & _ & Hp & _).
  set (r := {| pl_success := true;
               pl_error := None;
               pl_plan := Some (sp_plan plan);
               pl_resources := Some (sp_resources plan);
               pl_estimated_time := Some (sp_estimated_time plan);
               pl_priority_order := Some (sp_priority_order plan);
               pl_subject := Some subject;
               pl_topic := Some topic |}).
  exists r, w', plan, p1, p2.
  assert (Hbody :
            create_personalized_study_plan
              generate_resources call_llm str_of_float
              subject topic current_grade target_grade available_time_per_week w
            = (Returned r, w')).
  { unfold create_personalized_study_plan, try_except, bind. rewrite Hrun.
    reflexivity. }
  split.
  { unfold create_personalized_study_plan_tool.
    apply retry_returns_at_once. exact Hbody. }
  split; [exact Hbody|]. split; [exact Hrun|].
  split; [rewrite Ht2, Ht1, <- app_assoc; reflexivity|].
  cbn [pl_success pl_error pl_plan pl_resources pl_estimated_time
       pl_priority_order pl_subject pl_topic].
  do 8 (split; [reflexivity|]).
  rewrite Hp. apply Permutation_map, sorted_key_perm.
Qed.
End Tools.
End StudyPlanProofs.

Module ParseTranscriptProofs.
Import Py Eff Router Settings SubjectMapper TranscriptService.
Import ToolPrompts TranscriptTools TranscriptToolFunctions ToolInvariants.
Import Facts NormalizeDictExtra StudyPlanProofs.

Lemma in_setitem (V : Type) (d : dict V) (k : pystr) (v : V) (k' : pystr) (v' : V) :
  In (k', v') (setitem d k v) -> (k', v') = (k, v) \/ In (k', v') d.
Proof.
  induction d as [|[k0 v0] d IH]; cbn [setitem In].
  - intros [E | []]. left. now symmetry.
  - destruct (str_eqb k0 k) eqn:E; cbn [In].
    + apply str_eqb_eq in E. subst k0.
      intros [E' | H]; [left; now symmetry | right; now right].
    + intros [E' | H]; [right; now left|].
      destruct (IH H); [now left | right; now right].
Qed.

Lemma setitem_not_nil (V : Type) (d : dict V) (k : pystr) (v : V) :
  setitem d k v <> [].
Proof.
  destruct d as [|[k0 v0] d]; cbn [setitem]; [discriminate|].
  destruct (str_eqb k0 k); discriminate.
Qed.

Lemma collect_grades_nodup (raw : list GradeItem) (acc : dict GradeValue) :
  NoDup (keys acc) -> NoDup (keys (collect_grades raw acc)).
Proof.
  revert acc. induction raw as [|item raw IH]; intros acc Hn; [exact Hn|].
  destruct item as [|[s|] [g|]]; cbn [collect_grades]; try now apply IH.
  apply IH. now apply keys_setitem_nodup.
Qed.

Lemma collect_grades_in (raw : list GradeItem) (acc : dict GradeValue)
      (k : pystr) (v : GradeValue) :
  In (k, v) (collect_grades raw acc) ->
  In (k, v) acc \/ In (GradeObject (Some k) (Some v)) raw.
Proof.
  revert acc. induction raw as [|item raw IH]; intros acc H; [now left|].
  destruct item as [|[s|] [g|]]; cbn [collect_grades] in H;
    try (destruct (IH _ H); [now left | right; now right]).
  destruct (IH _ H) as [Hin | Hin]; [|right; now right].
  apply in_setitem in Hin. destruct Hin as [[= -> ->] | Hin];
    [right; now left | now left].
Qed.

Lemma collect_grades_grows (raw : list GradeItem) (acc : dict GradeValue) :
  acc <> [] -> collect_grades raw acc <> [].
Proof.
  revert acc. induction raw as [|item raw IH]; intros acc H; [exact H|].
  destruct item as [|[s|] [g|]]; cbn [collect_grades]; try now apply IH.
  apply IH, setitem_not_nil.
Qed.

Lemma collect_grades_empty (raw : list GradeItem) :
  collect_grades raw [] = [] <-> existsb has_subject_and_grade raw = false.
Proof.
  induction raw as [|item raw IH]; [now split|].
  destruct item as [|[s|] [g|]]; cbn [collect_grades existsb has_subject_and_grade orb];
    try exact IH.
  split; [|discriminate]. intros H. exfalso.
  revert H. apply collect_grades_grows. discriminate.
Qed.

Lemma delete_all_skips (V : Type) (ks : list pystr) (k : pystr) (v : V) (d : dict V) :
  ~ In k ks ->
  delete_all ks ((k, v) :: d)
  = match delete_all ks d with
    | Returned d' => Returned ((k, v) :: d')
    | Raised subj => Raised subj
    end.
Proof.
  revert d. induction ks as [|k1 ks IH]; intros d Hn; [reflexivity|].
  cbn [delete_all delitem].
  assert (E : str_eqb k k1 = false).
  { apply str_eqb_neq. intros ->. apply Hn. now left. }
  rewrite E. destruct (delitem d k1) as [d1|]; [|reflexivity].
  apply IH. intros H. apply Hn. now right.
Qed.

(** Deleting the keys of the entries that fail a test leaves the
    entries that pass it, and raises no [KeyError]. *)
Lemma delete_all_filter (V : Type) (p : V -> bool) (d : dict V) :
  NoDup (keys d) ->
  delete_all (keys (filter (fun sg => negb (p (snd sg))) d)) d
  = Returned (filter (fun sg => p (snd sg)) d).
Proof.
  unfold keys. induction d as [|[k v] d IH]; intros Hn; [reflexivity|].
  inversion Hn as [|? ? Hnot Hd]; subst.
  cbn [filter snd]. destruct (p v); cbn [negb map fst].
  - rewrite delete_all_skips, (IH Hd); [reflexivity|].
    intros Hin. apply Hnot. apply in_map_iff in Hin as (sg & E & Hin).
    apply filter_In in Hin as [Hin _]. apply in_map_iff. now exists sg.
  - cbn [delete_all delitem]. rewrite str_eqb_refl. now apply IH.
Qed.

Lemma filter_keys_nodup (V : Type) (p : pystr * V -> bool) (d : dict V) :
  NoDup (keys d) -> NoDup (keys (filter p d)).
Proof.
  unfold keys. induction d as [|[k v] d IH]; intros Hn; [constructor|].
  inversion Hn as [|? ? Hnot Hd]; subst. cbn [filter].
  destruct (p (k, v)); cbn [map fst]; [|now apply IH].
  constructor; [|now apply IH]. intros Hin. apply Hnot.
  apply in_map_iff in Hin as (sg & E & Hin). apply filter_In in Hin as [Hin _].
  apply in_map_iff. now exists sg.
Qed.

Lemma short_text (raw_text : pystr) :
  negb (truthy raw_text) || (length (strip raw_text) <? 50)%nat = false <->
  (50 <= length (strip raw_text))%nat.
Proof.
  rewrite orb_false_iff, Nat.ltb_ge. split; [now intros [_ H]|].
  intros H. split; [|exact H]. destruct raw_text; [|reflexivity].
  cbn in H. lia.
Qed.

Section Tools.
Variable Env : Type.
Variable extract_text_from_pdf : pystr -> Env -> Outcome PyException pystr * Env.
Variable generate_transcript : pystr -> Env -> Outcome PyException TranscriptReply * Env.
Variable time_sleep : Q -> World Env -> World Env.

(** X29.  [parse_transcript] as registered calls its body once, never
    sleeps and never gives the error structure.  The model is asked at
    most once, and not at all when the text cannot be extracted or has
    fewer than 50 characters once stripped.  The result reports
    success exactly when the text is long enough, the model call
    returns, and some entry of the reply is an object with a subject
    and a grade.  The grades of a success are the entries gathered
    from the reply whose grade is a number (or a boolean) from 0 to
    20, one for each subject; so a success can come with no grade at
    all.  A failure carries one of three texts. *)
Theorem parse_transcript_outcome (file_path : pystr) (w : World Env) (n : nat) :
  exists r w',
    parse_transcript_tool extract_text_from_pdf generate_transcript time_sleep
                          file_path (w, n)
    = (Returned (ToolReturned r), (w', Datatypes.S n)) /\
    parse_transcript extract_text_from_pdf generate_transcript file_path w
    = (Returned r, w') /\
    (trace w' = trace w \/
     exists raw_text,
       fst (extract_text_from_pdf file_path (env w)) = Returned raw_text /\
       (50 <= length (strip raw_text))%nat /\
       trace w' = trace w ++ [StructuredCall (parse_prompt raw_text)]) /\
    (pt_success r = true <->
     exists raw_text reply,
       fst (extract_text_from_pdf file_path (env w)) = Returned raw_text /\
       (50 <= length (strip raw_text))%nat /\
       fst (generate_transcript
              (parse_prompt raw_text)
              (snd (extract_text_from_pdf file_path (env w))))
       = Returned reply /\
       existsb has_subject_and_grade (or_default (tr_grades reply) []) = true) /\
    (pt_success r = true ->
     exists raw_text reply grades_,
       fst (extract_text_from_pdf file_path (env w)) = Returned raw_text /\
       fst (generate_transcript
              (parse_prompt raw_text)
              (snd (extract_text_from_pdf file_path (env w))))
       = Returned reply /\
       trace w' = trace w ++ [StructuredCall (parse_prompt raw_text)] /\
       pt_error r = None /\
       pt_raw_text r = Some (firstn 500 raw_text) /\
       pt_grades r = Some grades_ /\
       grades_ = filter (fun sg => grade_in_range (snd sg))
                        (collect_grades (or_default (tr_grades reply) []) []) /\
       NoDup (keys grades_) /\
       (forall subject_ grade_,
           In (subject_, grade_) grades_ ->
           grade_in_range grade_ = true /\
           In (GradeObject (Some subject_) (Some grade_))
              (or_default (tr_grades reply) []))) /\
    (pt_success r = false ->
     exists error,
       pt_error r = Some error /\
       (error = u "PDF appears to be empty or unreadable" \/
        error = u "No grades found in the transcript" \/
        exists e, error = u "Failed to parse transcript: " ++ exc_str e)).
Proof.
  match goal with
  | |- exists r w', _ /\ @?body r w' =>
    enough (Hbody : exists r w', body r w');
      [destruct Hbody as (r & w' & Hrun & Hrest); exists r, w';
       split; [|split; [exact Hrun | exact Hrest]];
       unfold parse_transcript_tool; now apply retry_returns_at_once|]
  end.
  cbv beta.
  unfold parse_transcript, try_except, bind at 1, outside.
    destruct (extract_text_from_pdf file_path (env w)) as [[raw_text|e] env1];
      cbn [fst snd].
    2:{ (* the extraction raises *)
      eexists _, _. split; [reflexivity|]. cbn [trace pt_success pt_error].
      split; [now left|]. split.
      { split; [discriminate|]. intros (? & ? & [=] & _). }
      split; [discriminate|]. intros _. eexists. split; [reflexivity|].
      right. right. now exists e. }
    destruct (negb (truthy raw_text) || (length (strip raw_text) <? 50)%nat) eqn:Eshort.
    { (* the text is too short *)
      assert (Hshort : ~ (50 <= length (strip raw_text))%nat).
      { intros H. apply short_text in H. congruence. }
      eexists _, _. split; [reflexivity|]. cbn [trace pt_success pt_error ret].
      split; [now left|]. split.
      { split; [discriminate|]. intros (t & ? & [= <-] & H & _). contradiction. }
      split; [discriminate|]. intros _. eexists. split; [reflexivity|]. now left. }
    apply short_text in Eshort.
    set (prompt := parse_prompt raw_text). unfold bind at 1, ask. cbn [env trace].
    destruct (generate_transcript prompt env1) as [[reply|e] env2] eqn:Egen.
    2:{ (* the model call raises *)
      eexists _, _. split; [reflexivity|]. cbn [trace pt_success pt_error].
      split; [right; now exists raw_text|]. split.
      { split; [discriminate|]. intros (t & rp & [= <-] & _ & Hg & _).
        fold prompt in Hg. rewrite Egen in Hg. discriminate Hg. }
      split; [discriminate|]. intros _. eexists. split; [reflexivity|].
      right. right. now exists e. }
    set (raw := or_default (tr_grades reply) []).
    destruct (is_empty (collect_grades raw [])) eqn:Eempty.
    { (* no entry is an object with a subject and a grade *)
      assert (Hnone : existsb has_subject_and_grade raw = false).
      { apply collect_grades_empty. now destruct (collect_grades raw []). }
      eexists _, _. split; [reflexivity|]. cbn [trace pt_success pt_error ret].
      split; [right; now exists raw_text|]. split.
      { split; [discriminate|]. intros (t & rp & [= <-] & _ & Hg & H).
        fold prompt in Hg. rewrite Egen in Hg. injection Hg as <-.
        fold raw in H. congruence. }
      split; [discriminate|]. intros _. eexists. split; [reflexivity|].
      right. now left. }
    assert (Hsome : existsb has_subject_and_grade raw = true).
    { destruct (existsb has_subject_and_grade raw) eqn:E; [reflexivity|].
      apply collect_grades_empty in E. now rewrite E in Eempty. }
    assert (Hnodup : NoDup (keys (collect_grades raw []))).
    { apply collect_grades_nodup. constructor. }
    assert (Hdel :
              (if is_empty (filter (fun sg => negb (grade_in_range (snd sg)))
                                   (collect_grades raw []))
               then ret (collect_grades raw [])
               else
                 match delete_all
                         (keys (filter (fun sg => negb (grade_in_range (snd sg)))
                                       (collect_grades raw [])))
                         (collect_grades raw []) with
                 | Returned grades' => ret grades'
                 | Raised subj =>
                   raise {| exc_type := u "KeyError";
                            exc_str := u "'" ++ subj ++ u "'" |}
                 end)
              = (ret (filter (fun sg => grade_in_range (snd sg))
                             (collect_grades raw []))
                 : M (World Env) (dict GradeValue))).
    { rewrite (@delete_all_filter _ grade_in_range _ Hnodup).
      destruct (filter (fun sg => negb (grade_in_range (snd sg)))
                       (collect_grades raw [])) eqn:Einv; cbn [is_empty];
        [|reflexivity].
      f_equal. symmetry. apply forallb_filter_id. apply forallb_forall.
      intros sg Hin. destruct (grade_in_range (snd sg)) eqn:Eg; [reflexivity|].
      exfalso. assert (Hin' : In sg []); [|destruct Hin'].
      rewrite <- Einv. apply filter_In. split; [exact Hin|]. now rewrite Eg. }
    rewrite Hdel. unfold bind, ret.
    eexists _, _. split; [reflexivity|].
    cbn [trace pt_success pt_error pt_grades pt_raw_text].
    split; [right; now exists raw_text|]. split.
    { split; [|reflexivity]. intros _. exists raw_text, reply.
      fold prompt. rewrite Egen. now repeat split. }
    split; [|discriminate]. intros _.
    exists raw_text, reply. eexists. fold prompt. rewrite Egen.
    repeat (split; [reflexivity|]).
    split.
    { apply filter_keys_nodup. exact Hnodup. }
    intros subject_ grade_ Hin. apply filter_In in Hin as [Hin Hg].
    split; [exact Hg|].
    destruct (collect_grades_in _ _ _ _ Hin) as [[] | H]. exact H.
Qed.
End Tools.
End ParseTranscriptProofs.

Module AnalyzeGradesProofs.
Import Py Eff Router Settings SubjectMapper TranscriptService.
Import ToolPrompts TranscriptTools TranscriptToolFunctions ToolInvariants.
Import Facts TranscriptProofs NormalizeDictExtra SortByFacts StudyPlanProofs.
Import ParseTranscriptProofs.

Section Cleaning.
Variable float_of_str : pystr -> option Q.

Lemma clean_loop_nodup (items : dict GradeValue) (acc : dict Q) :
  NoDup (keys acc) -> NoDup (keys (clean_loop float_of_str items acc)).
Proof.
  revert acc. induction items as [|[s g] items IH]; intros acc Hn; [exact Hn|].
  cbn [clean_loop]. destruct (float_of_grade float_of_str g); apply IH;
    [now apply keys_setitem_nodup | exact Hn].
Qed.

Lemma clean_loop_in (items : dict GradeValue) (acc : dict Q) (k : pystr) (x : Q) :
  In (k, x) (clean_loop float_of_str items acc) ->
  In (k, x) acc \/
  exists g, In (k, g) items /\ float_of_grade float_of_str g = Some x.
Proof.
  revert acc. induction items as [|[s g] items IH]; intros acc H; [now left|].
  cbn [clean_loop] in H. destruct (float_of_grade float_of_str g) as [y|] eqn:E.
  - destruct (IH _ H) as [Hin | (g' & Hin & Hg)].
    + apply in_setitem in Hin. destruct Hin as [[= -> ->] | Hin]; [|now left].
      right. exists g. split; [now left | exact E].
    + right. exists g'. split; [now right | exact Hg].
  - destruct (IH _ H) as [Hin | (g' & Hin & Hg)]; [now left|].
    right. exists g'. split; [now right | exact Hg].
Qed.

Lemma clean_loop_grows (items : dict GradeValue) (acc : dict Q) :
  acc <> [] -> clean_loop float_of_str items acc <> [].
Proof.
  revert acc. induction items as [|[s g] items IH]; intros acc H; [exact H|].
  cbn [clean_loop]. destruct (float_of_grade float_of_str g); apply IH;
    [apply setitem_not_nil | exact H].
Qed.

Lemma clean_loop_not_nil (items : dict GradeValue) :
  clean_loop float_of_str items [] <> [] <->
  exists s g, In (s, g) items /\ float_of_grade float_of_str g <> None.
Proof.
  induction items as [|[s g] items IH]; cbn [clean_loop].
  - split; [congruence | intros (? & ? & [] & _)].
  - destruct (float_of_grade float_of_str g) as [y|] eqn:E.
    + split.
      * intros _. exists s, g. split; [now left | congruence].
      * intros _. apply clean_loop_grows, setitem_not_nil.
    + rewrite IH. split.
      * intros (s' & g' & Hin & Hg). exists s', g'. split; [now right | exact Hg].
      * intros (s' & g' & [[= <- <-] | Hin] & Hg); [congruence|].
        now exists s', g'.
Qed.
End Cleaning.

Lemma normalize_not_nil (g : dict Q) : g <> [] -> normalize_grade_dict g <> [].
Proof.
  destruct g as [|[s x] g]; [congruence|]. intros _ E.
  assert (H : In s (keys (normalize_grade_dict ((s, x) :: g)))).
  { apply normalized_keys_named. exists s. split; [now left | now left]. }
  now rewrite E in H.
Qed.

Lemma cleaned_values (float_of_str : pystr -> option Q)
      (student_grades : dict GradeValue) (s : pystr) (x : Q) :
  In (s, x) (cleaned float_of_str student_grades) ->
  exists k g, In (k, g) student_grades /\ float_of_grade float_of_str g = Some x.
Proof.
  intros Hin. assert (Hv : In x (values (cleaned float_of_str student_grades))).
  { unfold values. apply in_map_iff. now exists (s, x). }
  unfold cleaned, normalize_grade_dict in Hv.
  apply loop_values in Hv as [[] | Hv].
  unfold values in Hv. apply in_map_iff in Hv as ([k x'] & E & Hc).
  cbn [snd] in E. subst x'.
  apply clean_loop_in in Hc as [[] | (g & Hg & Hf)]. now exists k, g.
Qed.

Lemma drop_none_as_optional (g : dict Q) : drop_none (as_optional g) = g.
Proof.
  unfold as_optional. induction g as [|[s x] g IH]; [reflexivity|].
  cbn [map drop_none fst snd]. now rewrite IH.
Qed.

(** On grades that are all there, [analyze_transcript] raises only
    for a grade that is off the scale. *)
Lemma analyze_as_optional (g : dict Q) :
  g <> [] ->
  match analyze_transcript (as_optional g) with
  | Returned ta => forall s x, In (s, x) g -> validate_grade x = true
  | Raised e =>
    exists s x, e = InvalidGrade s x /\ In (s, x) g /\ validate_grade x = false
  end.
Proof.
  intros Hne. unfold analyze_transcript. rewrite drop_none_as_optional.
  destruct g as [|sg g]; [congruence|]. cbn [as_optional map is_empty].
  set (d := sg :: g).
  destruct (find (fun sg0 => negb (validate_grade (snd sg0))) d) as [[s x]|] eqn:Ef.
  - apply find_some in Ef as [Hin Hv]. exists s, x. split; [reflexivity|].
    split; [exact Hin|]. cbn [snd] in Hv. now apply negb_true_iff.
  - intros s x Hin. pose proof (find_none _ _ Ef _ Hin) as Hv. cbn [snd] in Hv.
    now apply negb_false_iff.
Qed.

Lemma sanitize_item_short (item : AnalysisItem) : short_item (sanitize_item item).
Proof.
  unfold sanitize_item, short_item.
  set (item1 := if (30 <? length (or_default (ai_subject item) []))%nat
                then _ else item).
  assert (H1 : (length (or_default (ai_subject item1) []) <= 30)%nat).
  { unfold item1. destruct (30 <? length (or_default (ai_subject item) []))%nat eqn:E.
    - cbn [ai_subject or_default].
      destruct (split (or_default (ai_subject item) []));
        rewrite length_firstn; lia.
    - apply Nat.ltb_ge in E. exact E. }
  destruct (150 <? length (or_default (ai_recommendation item1) []))%nat eqn:E.
  - cbn [ai_subject ai_recommendation or_default]. split; [exact H1|].
    rewrite length_app, length_firstn. change (length (u "...")) with 3%nat. lia.
  - apply Nat.ltb_ge in E. split; [exact H1 | lia].
Qed.

Lemma sanitize_short (reply : GapReply) :
  Forall short_item (or_default (gr_analysis (sanitize reply)) []).
Proof.
  unfold sanitize. cbn [gr_analysis]. destruct (gr_analysis reply) as [items|];
    cbn [option_map or_default]; [|constructor].
  apply Forall_map, Forall_forall. intros item _. apply sanitize_item_short.
Qed.

Lemma llm_recommendations_length (reply : GapReply) :
  (1 <= length (llm_recommendations reply) <= 3)%nat.
Proof.
  unfold llm_recommendations.
  set (recs := map recommendation_of (firstn 3 (or_default (gr_analysis reply) []))).
  assert (H : (length recs <= 3)%nat).
  { unfold recs. rewrite length_map, length_firstn. lia. }
  destruct recs as [|r0 rs].
  - destruct (gr_summary reply) as [s|]; [destruct (truthy s)|]; cbn [length]; lia.
  - cbn [length] in *. lia.
Qed.

Section Tools.
Variable Env : Type.
Variable generate_gap_analysis : pystr -> Env -> Outcome PyException GapReply * Env.
Variable majors : list Major.
Variable float_of_str : pystr -> option Q.
Variable str_of_float : Q -> pystr.
Variable format_1f : Q -> pystr.
Variable json_dumps : dict Q -> pystr.
Variable time_sleep : Q -> World Env -> World Env.

(** X30.  [analyze_grades] as registered calls its body once, never
    sleeps and never gives the error structure.  It succeeds exactly
    when some grade survives the cleaning and every grade of the
    dictionary it then works on (the cleaned grades with the
    normalized subject names added) is from 0 to 20; grades that are
    all readable and on the scale are enough for that.  A failure asks
    nothing of the model and carries one of two texts.  A success
    carries the figures of [analyze_transcript].  Without a major the
    model is not asked and at most two weaknesses are recommended;
    with a major that [compare_grades_to_requirements] rejects the
    model is not asked either and the readiness is "unknown";
    otherwise the model is asked once, the gaps listed are the actual
    gaps by priority, and there are from one to three recommendations:
    those of the model's reply, whose entries are cut to 30 and 153
    characters, or, when the model call raises, one for each of the
    first three gaps (two fixed ones when there is no gap). *)
Theorem analyze_grades_outcome
      (student_grades : dict GradeValue) (major_name : option pystr)
      (w : World Env) (n : nat) :
  let grades_ := cleaned float_of_str student_grades in
  exists r w',
    analyze_grades_tool generate_gap_analysis majors float_of_str str_of_float
                        format_1f json_dumps time_sleep
                        student_grades major_name (w, n)
    = (Returned (ToolReturned r), (w', Datatypes.S n)) /\
    ((exists s g, In (s, g) student_grades /\
                  float_of_grade float_of_str g <> None) ->
     (forall s g x, In (s, g) student_grades ->
                    float_of_grade float_of_str g = Some x ->
                    validate_grade x = true) ->
     ga_success r = true) /\
    analyze_grades generate_gap_analysis majors float_of_str str_of_float
                   format_1f json_dumps student_grades major_name w
    = (Returned r, w') /\
    (ga_success r = true <->
     clean_loop float_of_str student_grades [] <> [] /\
     forall s g, In (s, g) grades_ -> validate_grade g = true) /\
    (ga_success r = false ->
     trace w' = trace w /\
     ga_analysis r = None /\
     ga_recommendations r = None /\
     exists error,
       ga_error r = Some error /\
       (error = u "No valid grades found in transcript" \/
        exists s g,
          In (s, g) grades_ /\ validate_grade g = false /\
          error = u "Failed to analyze grades: "
                    ++ (u "Invalid grade for " ++ s ++ u ": " ++ str_of_float g
                          ++ u " (must be 0-20)"))) /\
    (ga_success r = true ->
     ga_error r = None /\
     (exists ta,
         analyze_transcript (as_optional grades_) = Returned ta /\
         ga_analysis r
         = Some {| an_gpa := gpa ta;
                   an_overall_quality := overall_quality ta;
                   an_strengths := strengths ta;
                   an_weaknesses := weaknesses ta;
                   an_passing_all := passing_all ta |} /\
         (major_name = None \/ major_name = Some [] ->
          trace w' = trace w /\
          ga_gaps r = None /\
          ga_readiness r = None /\
          ga_recommendations r
          = Some (map (fun subj => u "Consider strengthening " ++ subj)
                      (firstn 2 (weaknesses ta))))) /\
     (forall mn,
         major_name = Some mn -> mn <> [] ->
         (forall e,
             compare_grades_to_requirements majors grades_ mn = Raised e ->
             trace w' = trace w /\
             ga_gaps r = Some [] /\
             ga_readiness r = Some (u "unknown") /\
             ga_major r = None /\
             exists recs, ga_recommendations r = Some recs /\ length recs = 2%nat) /\
         (forall gaps readiness,
             compare_grades_to_requirements majors grades_ mn
             = Returned (gaps, readiness) ->
             exists prompt gap_list recs,
               trace w' = trace w ++ [StructuredCall prompt] /\
               ga_major r = Some mn /\
               ga_readiness r = Some readiness /\
               ga_gaps r = Some gap_list /\
               Permutation gap_list (filter is_gap gaps) /\
               StronglySorted (fun a b => (priority a <= priority b)%Z) gap_list /\
               ga_recommendations r = Some recs /\
               (1 <= length recs <= 3)%nat /\
               (forall reply,
                   fst (generate_gap_analysis prompt (env w)) = Returned reply ->
                   ga_llm_analysis r = Some (sanitize reply) /\
                   Forall short_item (or_default (gr_analysis (sanitize reply)) []) /\
                   recs = llm_recommendations (sanitize reply) /\
                   ga_summary r = Some (or_default (gr_summary reply) [])) /\
               (forall e,
                   fst (generate_gap_analysis prompt (env w)) = Raised e ->
                   ga_llm_analysis r = None /\
                   ga_summary r = None /\
                   length recs
                   = if is_empty gap_list then 2%nat
                     else Nat.min 3 (length gap_list))))).
Proof.
  intros grades_.
  match goal with
  | |- exists r w', _ /\ _ /\ @?body r w' =>
    enough (Hbody : exists r w', body r w');
      [destruct Hbody as (r & w' & Hrun & Hiff & Hrest); exists r, w';
       split; [|split; [|exact (conj Hrun (conj Hiff Hrest))]]|]
  end.
  { unfold analyze_grades_tool. now apply retry_returns_at_once. }
  { intros Hsome Hall. apply Hiff. split; [now apply clean_loop_not_nil|].
    intros s x Hin. apply cleaned_values in Hin as (k & g & Hin & Hf).
    exact (Hall k g x Hin Hf). }
  cbv beta. unfold analyze_grades, try_except. cbv zeta.
  change (normalize_grade_dict (clean_loop float_of_str student_grades []))
    with grades_.
  change (map (fun sg : pystr * Q => (fst sg, Some (snd sg))) grades_)
    with (as_optional grades_).
  destruct (clean_loop float_of_str student_grades []) as [|c0 cs] eqn:Eclean.
  { (* no grade survives the cleaning *)
    cbn [is_empty ret]. eexists _, _. split; [reflexivity|].
    cbn [failed_analysis ga_success ga_error ga_analysis ga_recommendations].
    split; [split; [discriminate | now intros [H _]]|].
    split; [|discriminate]. intros _. repeat (split; [reflexivity|]).
    eexists. split; [reflexivity | now left]. }
  cbn [is_empty]. unfold bind at 1, value_or_raise.
  assert (Hne : grades_ <> []).
  { unfold grades_, cleaned. rewrite Eclean. apply normalize_not_nil. discriminate. }
  pose proof (analyze_as_optional Hne) as Hta.
  destruct (analyze_transcript (as_optional grades_)) as [ta|e] eqn:Eta.
  2:{ (* a grade is off the scale *)
    destruct Hta as (s & x & -> & Hin & Hv).
    cbn [raise ret]. eexists _, _. split; [reflexivity|].
    cbn [failed_analysis ga_success ga_error ga_analysis ga_recommendations
         exc_str str_of_value_error].
    split.
    { split; [discriminate|]. intros [_ H]. rewrite (H s x Hin) in Hv.
      discriminate Hv. }
    split; [|discriminate]. intros _. repeat (split; [reflexivity|]).
    eexists. split; [reflexivity|]. right. now exists s, x. }
  assert (Hok : ((c0 :: cs : dict Q) <> [] /\
                 forall s g, In (s, g) grades_ -> validate_grade g = true))
    by (split; [discriminate | exact Hta]).
  cbn [ret].
  destruct major_name as [[|ch mn]|].
  2:{ (* a major is named *)
    destruct (compare_grades_to_requirements majors grades_ (ch :: mn))
      as [[gaps readiness]|e] eqn:Ecmp.
    2:{ (* the major is not found or has no requirements *)
      eexists _, _. split; [reflexivity|].
      cbn [ga_success ga_error ga_analysis ga_recommendations ga_gaps
           ga_readiness ga_major].
      split; [split; [intros _; exact Hok | reflexivity]|].
      split; [discriminate|]. intros _. split; [reflexivity|].
      split.
      { exists ta. split; [reflexivity|]. split; [reflexivity|].
        intros [H | H]; discriminate H. }
      intros mn' [= <-] _. split.
      - intros _ _. repeat (split; [reflexivity|]). eexists.
        split; reflexivity.
      - intros gaps readiness H. rewrite Ecmp in H. discriminate H. }
    (* the gap analysis *)
    set (gap_list := sorted_by priority (filter is_gap gaps)).
    unfold try_except, bind, ask.
    match goal with
    | |- context [generate_gap_analysis ?p (env w)] => set (prompt := p)
    end.
    destruct (generate_gap_analysis prompt (env w)) as [[reply|e] env'] eqn:Egen.
    - eexists _, _. split; [reflexivity|].
      cbn [ga_success ga_error ga_analysis ga_recommendations ga_gaps
           ga_readiness ga_major ga_llm_analysis ga_summary trace].
      split; [split; [intros _; exact Hok | reflexivity]|].
      split; [discriminate|]. intros _. split; [reflexivity|].
      split.
      { exists ta. split; [reflexivity|]. split; [reflexivity|].
        intros [H | H]; discriminate H. }
      intros mn' [= <-] _. split; [intros e H; rewrite Ecmp in H; discriminate H|].
      intros gaps' readiness' H. rewrite Ecmp in H. injection H as <- <-.
      exists prompt, gap_list. eexists.
      repeat (split; [reflexivity|]).
      split; [apply sorted_by_perm|]. split; [apply sorted_by_sorted|].
      split; [reflexivity|]. split; [apply llm_recommendations_length|].
      rewrite Egen. cbn [fst]. split.
      + intros rp [= <-]. split; [reflexivity|].
        split; [apply sanitize_short|]. split; reflexivity.
      + intros e H. discriminate H.
    - eexists _, _. split; [reflexivity|].
      cbn [ga_success ga_error ga_analysis ga_recommendations ga_gaps
           ga_readiness ga_major ga_llm_analysis ga_summary trace].
      split; [split; [intros _; exact Hok | reflexivity]|].
      split; [discriminate|]. intros _. split; [reflexivity|].
      split.
      { exists ta. split; [reflexivity|]. split; [reflexivity|].
        intros [H | H]; discriminate H. }
      intros mn' [= <-] _. split; [intros e0 H; rewrite Ecmp in H; discriminate H|].
      intros gaps' readiness' H. rewrite Ecmp in H. injection H as <- <-.
      exists prompt, gap_list. eexists.
      repeat (split; [reflexivity|]).
      split; [apply sorted_by_perm|]. split; [apply sorted_by_sorted|].
      split; [reflexivity|].
      rewrite Egen. cbn [fst]. clearbody gap_list.
      destruct gap_list as [|g0 gl]; cbn [is_empty].
      + split; [cbn [length]; lia|]. split; [intros rp H; discriminate H|].
        intros e0 _. repeat split.
      + rewrite length_map, length_firstn. split; [cbn [length]; lia|].
        split; [intros rp H; discriminate H|].
        intros e0 _. repeat split. }
  all: (* no major is named *)
    eexists _, _; (split; [reflexivity|]);
    cbn [ga_success ga_error ga_analysis ga_recommendations ga_gaps
         ga_readiness ga_major];
    (split; [split; [intros _; exact Hok | reflexivity]|]);
    (split; [discriminate|]); intros _; (split; [reflexivity|]);
    (split;
     [exists ta; split; [reflexivity|]; split; [reflexivity|];
      intros _; repeat split
     |intros mn' H Hmn; try discriminate H; injection H as <-; congruence]).
Qed.
End Tools.
End AnalyzeGradesProofs.

(* ================================================================== *)
(** * Grade/gap engine on floats *)
(* ================================================================== *)

Module TranscriptProofs64.
Import Py Settings SubjectMapper64 Settings64 TranscriptService64.
Import Binary64 Spec64 Samples64 Facts Binary64Facts Binary64Rounding SortFacts64.







(** What [compare_grades_to_requirements] returns when it returns. *)
Lemma compare_returned64 (majors_ : list Major) (student_grades : dict float)
      (major_name : pystr) gaps readiness :
  compare_grades_to_requirements majors_ student_grades major_name
  = Returned (gaps, readiness) ->
  exists major_, get_major_by_name majors_ major_name true = Some major_ /\
                 requirements major_ <> [] /\
                 gaps = map (grade_gap student_grades) (requirements major_) /\
                 readiness = overall_readiness gaps.
Proof.
  unfold compare_grades_to_requirements.
  destruct (get_major_by_name majors_ major_name true) as [m|]; [|discriminate].
  destruct (requirements m) as [|rq rqs] eqn:Er; [discriminate|].
  cbn [is_empty]. intros [= <- <-]. exists m. rewrite Er.
  repeat split; congruence.
Qed.






(** ** Transcript analysis *)






Lemma above_excluded (a b g : float) :
  ltb a b = true -> leb g a = true -> leb b g = false.
Proof.
  intros Hab Hg. destruct (leb b g) eqn:E; [|reflexivity]. exfalso.
  assert (K : ltb g b = true) by (apply (@leb_ltb_trans _ a _); assumption).
  rewrite (@leb_not_ltb _ _ E) in K. discriminate K.
Qed.





(** ** The summary of the gaps *)

Lemma is_gap_iff64 (g : GradeGap) : is_gap g = true <-> gapped g.
Proof. reflexivity. Qed.

Lemma ready_iff_no_gap64 (gaps : list GradeGap) :
  filter is_gap gaps = [] <-> overall_readiness gaps = u "ready".
Proof.
  unfold overall_readiness. destruct (filter is_gap gaps) as [|g ags].
  - now split.
  - cbn [is_empty]. split; [discriminate|].
    destruct (forallb _ _); [intros H; vm_compute in H; discriminate|].
    destruct (existsb _ _); [|intros H; vm_compute in H; discriminate].
    destruct (2 <=? _)%nat; intros H; vm_compute in H; discriminate.
Qed.

(** X7.  [identify_grade_gaps] raises exactly what
    [compare_grades_to_requirements] raises.  Otherwise its gap
    entries are made, field by field, of the records with a positive
    gap, sorted by priority number with the records of one priority in
    requirement order; its strengths are made of the other records, in
    requirement order, with excess = -gap; total_gaps counts the gap
    entries; gaps and strengths together are as many as the records;
    priority_subjects are the subjects of the first three gap entries;
    every gap entry has a positive gap, every strength an excess that
    is not negative (or NaN); and there is no gap entry exactly when
    the readiness is "ready". *)
Theorem identify_grade_gaps_summary
        (majors_ : list Major) (student_grades : dict float) (major_name : pystr) :
  (forall e,
      compare_grades_to_requirements majors_ student_grades major_name = Raised e ->
      identify_grade_gaps majors_ student_grades major_name = Raised e) /\
  (forall gaps readiness,
      compare_grades_to_requirements majors_ student_grades major_name
      = Returned (gaps, readiness) ->
      exists s sorted,
        identify_grade_gaps majors_ student_grades major_name = Returned s /\
        by_priority (filter is_gap gaps) sorted /\
        gs_gaps s = map gap_entry_of sorted /\
        gs_strengths s
        = map strength_entry_of (filter (fun g => negb (is_gap g)) gaps) /\
        gs_readiness s = readiness /\
        gs_total_gaps s = length (gs_gaps s) /\
        gs_priority_subjects s = map ge_subject (firstn 3 (gs_gaps s)) /\
        (gs_total_gaps s + length (gs_strengths s) = length gaps)%nat /\
        Forall (fun e => lt (of_Z 0) (ge_gap e)) (gs_gaps s) /\
        Forall (fun e => le (of_Z 0) (se_excess e) \/ is_nan (se_excess e) = true)
               (gs_strengths s) /\
        (gs_total_gaps s = 0%nat <-> readiness = u "ready")).
Proof.
  split.
  - intros e H. unfold identify_grade_gaps. now rewrite H.
  - intros gaps readiness H. unfold identify_grade_gaps. rewrite H.
    destruct (compare_returned64 _ _ _ H) as (m & _ & _ & Hg & Hr).
    set (sorted := sorted_by priority (filter is_gap gaps)).
    assert (Hperm : Permutation sorted (filter is_gap gaps))
      by apply SortByFacts.sorted_by_perm.
    eexists. exists sorted. split; [reflexivity|].
    cbn [gs_readiness gs_total_gaps gs_gaps gs_strengths gs_priority_subjects].
    fold sorted.
    split.
    { split; [exact Hperm|].
      split; [apply SortByFacts.sorted_by_sorted|].
      intros p. apply SortByFacts.sorted_by_stable. }
    split; [reflexivity|].
    split; [reflexivity|].
    split; [reflexivity|].
    split; [now rewrite length_map|].
    split; [now rewrite firstn_map, map_map|].
    split.
    { rewrite !length_map. unfold sorted.
      rewrite SortByFacts.sorted_by_length.
      apply GradeGapsExtra.filter_split_length. }
    split.
    { apply Forall_map, Forall_forall. intros g Hi. cbn [gap_entry_of ge_gap].
      apply (Permutation_in _ Hperm) in Hi.
      now apply filter_In in Hi as [_ Hi]. }
    split.
    { apply Forall_map, Forall_forall. intros g Hi.
      cbn [strength_entry_of se_excess].
      apply filter_In in Hi as [_ Hn]. apply negb_true_iff in Hn.
      unfold is_gap, gtb in Hn. unfold le.
      destruct (gap g) as [[|]|[|]| |[|] mg eg];
        try (left; reflexivity); try (right; reflexivity);
          vm_compute in Hn; discriminate Hn. }
    unfold sorted. rewrite SortByFacts.sorted_by_length, Hr.
    rewrite <- ready_iff_no_gap64. now rewrite length_zero_iff_nil.
Qed.

Lemma identify_grade_gaps_summary_witness :
  exists s, identify_grade_gaps Samples.majors transcript (u "computer") = Returned s /\
            map ge_subject (gs_gaps s) = [u "Math"; u "Portuguese"] /\
            map se_excess (gs_strengths s) = [of_Q (5 # 10)].
Proof.
  destruct (proj2 (identify_grade_gaps_summary Samples.majors transcript (u "computer"))
                  _ _ eq_refl)
    as (s & sorted & Hs & _).
  exists s. split; [assumption|].
  vm_compute in Hs. injection Hs as <-. split; vm_compute; reflexivity.
Defined.
End TranscriptProofs64.

(* ================================================================== *)
(** * Major matcher on floats *)
(* ================================================================== *)

Module MajorProofs64.
Import Py Settings MajorService64.
Import Binary64 Spec64 Samples64 Facts Binary64Facts SortFacts64.

Section Score.
Variable interests : option (list pystr).
Variable favorite_subjects : option (list pystr).
Variable career_goals : option pystr.

Lemma step_interests_score64 (m : Major) (a : Acc) :
  acc_score (step_interests interests m a)
  = fold_left add
              (if (0 <? n_interest_hits interests m)%nat
               then [interest_term interests m] else [])
              (acc_score a).
Proof.
  unfold step_interests, interest_term, n_interest_hits, n_interests, len.
  rewrite MajorProofs.nonempty_length. unfold MajorService.interest_matches.
  rewrite MajorProofs.set_inter_common.
  change (MajorService.interests_lower interests)
    with (Spec.given_interests interests).
  destruct (0 <? Spec.common (Spec.given_interests interests)
                             (map lower (keywords m)))%nat; reflexivity.
Qed.

Lemma step_subjects_score64 (m : Major) (a : Acc) :
  acc_score (step_subjects favorite_subjects m a)
  = fold_left add
              (match MajorService.or_empty favorite_subjects with
               | [] => []
               | _ :: _ =>
                 if (0 <? n_subject_hits favorite_subjects m)%nat
                 then [subject_term favorite_subjects m] else []
               end)
              (acc_score a).
Proof.
  unfold step_subjects, subject_term, n_subject_hits, len.
  destruct (MajorService.or_empty favorite_subjects) as [|f fs] eqn:Ef;
    cbn [MajorService.nonempty]; [reflexivity|].
  rewrite MajorProofs.nonempty_length. unfold MajorService.subject_matches.
  rewrite MajorProofs.set_inter_common.
  unfold Spec.given_subjects, MajorService.subjects_lower. rewrite Ef.
  destruct (0 <? Spec.common (MajorService.mapped_subjects (map lower (f :: fs)))
                             (map lower (keys (Settings.requirements m))))%nat;
    reflexivity.
Qed.

Lemma step_career_score64 (m : Major) (a : Acc) :
  acc_score (step_career career_goals m a)
  = fold_left add
              (if career_applies career_goals m then [career_term] else [])
              (acc_score a).
Proof.
  unfold step_career, career_applies, career_term.
  destruct career_goals as [[|c goal]|] eqn:Eg; cbn [PyStr.truthy andb];
    try reflexivity.
  rewrite <- Eg.
  rewrite (@MajorProofs.career_hit_related career_goals (c :: goal) m eq_refl Eg).
  destruct (Spec.career_related (c :: goal) m); reflexivity.
Qed.

Lemma step_description_score64 (m : Major) (a : Acc) :
  acc_score (step_description interests m a)
  = fold_left add
              (if (0 <? Spec.description_matches interests m)%nat
                  && (0 <? n_interests interests)%nat
               then [description_bonus interests m] else [])
              (acc_score a).
Proof.
  unfold step_description, description_bonus, n_interests.
  change (MajorService.interests_lower interests)
    with (Spec.given_interests interests).
  change (MajorService.desc_matches interests m)
    with (Spec.description_matches interests m).
  destruct ((0 <? Spec.description_matches interests m)%nat
            && (0 <? length (Spec.given_interests interests))%nat); reflexivity.
Qed.

(** The score the loop gives a major is the sum of the terms that
    apply, added in the order of the loop. *)
Lemma score_major_total64 (m : Major) :
  acc_score (score_major interests favorite_subjects career_goals m)
  = total_score interests favorite_subjects career_goals m.
Proof.
  unfold score_major, total_score, terms, sum.
  rewrite step_description_score64, step_career_score64,
    step_subjects_score64, step_interests_score64.
  cbn [acc_score]. now rewrite !fold_left_app.
Qed.

Lemma collect_matches_scores64 (majors_ : list Major) :
  forall mm,
    In mm (collect_matches interests favorite_subjects career_goals majors_) ->
    score mm = total_score interests favorite_subjects career_goals (major mm)
    /\ lt (of_Z 0) (score mm).
Proof.
  induction majors_ as [|m rest IH]; cbn [collect_matches]; [intros mm []|].
  destruct (gtb (acc_score (score_major interests favorite_subjects career_goals m))
                (of_Z 0)) eqn:E; [|exact IH].
  intros mm [<- | Hin]; [|now apply IH]. cbn [score major].
  split; [apply score_major_total64 | exact E].
Qed.

Lemma collect_matches_majors64 (majors_ : list Major) :
  map major (collect_matches interests favorite_subjects career_goals majors_)
  = filter (fun m => gtb (total_score interests favorite_subjects career_goals m)
                         (of_Z 0))
           majors_.
Proof.
  induction majors_ as [|m rest IH]; [reflexivity|].
  cbn [collect_matches filter].
  rewrite <- (score_major_total64 m).
  destruct (gtb (acc_score (score_major interests favorite_subjects career_goals m))
                (of_Z 0));
    [cbn [map major]; now rewrite IH | exact IH].
Qed.

Lemma nothing_to_match64 (majors_ : list Major) :
  MajorService.or_empty interests = [] ->
  MajorService.or_empty favorite_subjects = [] ->
  career_goals = None ->
  collect_matches interests favorite_subjects career_goals majors_ = [].
Proof.
  intros Hi Hf Hc. induction majors_ as [|m rest IH]; [reflexivity|].
  cbn [collect_matches].
  assert (E : acc_score (score_major interests favorite_subjects career_goals m) = zero).
  { unfold score_major, step_description, step_career, step_subjects,
      step_interests, MajorService.interest_matches, MajorService.desc_matches,
      MajorService.interests_lower.
    rewrite Hi, Hf, Hc. reflexivity. }
  rewrite E. exact IH.
Qed.
End Score.

(** C6 (as amended).  Each candidate's score is the sum, in binary64
    arithmetic, of the terms that apply to its major, added to 0.0 in
    this order: the interest term, the subject term, the career term,
    the description bonus.  The candidates are exactly the majors with
    a score above 0, in dataset order; they are ranked by score,
    highest first, ties in dataset order; the result is the Python
    slice [ranked[:top_n]], where [top_n] is 5 when the argument is
    falsy and [int(argument)] otherwise: the first [top_n] entries
    when [top_n >= 0], all but the last [|top_n|] entries when
    [top_n < 0], and a [ValueError] when the argument is a string that
    spells no integer.  With no interests, no favourite subjects and
    no career goal there is no candidate and the result is the empty
    list. *)
Theorem C6_match_interests_to_majors
        (interests favorite_subjects : option (list pystr))
        (career_goals : option pystr) (majors_ : list Major)
        (top_n : MajorService.TopN) :
  let candidates :=
      collect_matches interests favorite_subjects career_goals majors_ in
  let ranked := sorted_reverse score candidates in
  let result :=
      match_interests_to_majors interests favorite_subjects career_goals
                                majors_ top_n in
  (forall mm, In mm candidates ->
              score mm = total_score interests favorite_subjects career_goals (major mm)
              /\ lt (of_Z 0) (score mm)) /\
  map major candidates
  = filter (fun m => gtb (total_score interests favorite_subjects career_goals m)
                         (of_Z 0))
           majors_ /\
  Ranked score candidates ranked /\
  (forall n, Spec.resolved_top_n top_n n ->
             result = Returned (slice_to ranked n) /\
             ((0 <= n)%Z -> slice_to ranked n = firstn (Z.to_nat n) ranked) /\
             ((n < 0)%Z -> slice_to ranked n = Spec.drop_last (Z.to_nat (- n)) ranked)) /\
  (forall s, top_n = MajorService.TopStr s -> s <> [] ->
             MajorService.int_of_str s = None ->
             result = Raised (MajorService.InvalidLiteral s)) /\
  (MajorService.or_empty interests = [] ->
   MajorService.or_empty favorite_subjects = [] ->
   career_goals = None ->
   candidates = [] /\
   forall n, Spec.resolved_top_n top_n n -> result = Returned []).
Proof.
  intros candidates ranked result.
  assert (Hres : forall n, Spec.resolved_top_n top_n n ->
                           result = Returned (slice_to ranked n)).
  { intros n Hn. apply MajorProofs.coerce_resolved in Hn.
    unfold result, match_interests_to_majors. now rewrite Hn. }
  split; [apply collect_matches_scores64|].
  split; [apply collect_matches_majors64|].
  split.
  { apply sorted_reverse_ranked64. apply Forall_forall. intros mm Hin.
    apply collect_matches_scores64 in Hin as [_ Hpos].
    now destruct (@lt_not_nan _ _ Hpos). }
  split; [|split].
  - intros n Hn. split; [now apply Hres|].
    split; [apply MajorProofs.slice_to_nonneg | apply MajorProofs.slice_to_negative].
  - intros s -> Hs Hi. unfold result, match_interests_to_majors,
                         MajorService.coerce_top_n.
    destruct s as [|c s]; [contradiction|].
    cbn [MajorService.top_n_truthy PyStr.truthy].
    now rewrite Hi.
  - intros Hi Hf Hc.
    assert (E : candidates = []) by (now apply nothing_to_match64).
    split; [assumption|]. intros n Hn. rewrite (Hres n Hn).
    unfold ranked. rewrite E. unfold slice_to.
    destruct (n <? 0)%Z; cbn [sorted_reverse fold_right]; now rewrite firstn_nil.
Qed.

Lemma C6_witness :
  match_interests_to_majors (Some [u "Programming"; u "Biology"])
                            (Some [u "Matemática"]) (Some (u "doctor"))
                            Samples.majors (MajorService.TopStr (u "1"))
  = Returned (firstn 1 (sorted_reverse score
                          (collect_matches (Some [u "Programming"; u "Biology"])
                                           (Some [u "Matemática"])
                                           (Some (u "doctor")) Samples.majors))).
Proof.
  destruct (proj1 (proj2 (proj2 (proj2
             (C6_match_interests_to_majors
                (Some [u "Programming"; u "Biology"]) (Some [u "Matemática"])
                (Some (u "doctor")) Samples.majors
                (MajorService.TopStr (u "1")))))) 1%Z)
    as (Hr & Hpos & _).
  - right; right. exists (u "1"). repeat split. discriminate.
  - rewrite Hr, Hpos by discriminate. reflexivity.
Defined.

(** C6, the claim as worded, fails twice.  On the limit: for
    [top_n = -1] and one candidate the result is empty, which is the
    first [n] entries of the ranking for no positive [n], and for a
    [top_n] that spells no integer the call raises instead of falling
    back to 5.  On the ranking: with interests "art" and "design" and
    the goal "lawyer", Law scores 0.3 and Design 0.4 x 1/2 + 0.1 x 1,
    the same sum, so that the claim ranks Law, first in the dataset,
    first; as the floats are added Design scores
    0.30000000000000004 and is ranked first. *)
Theorem C6_counterexample :
  let ranked :=
      sorted_reverse score
        (collect_matches (Some [u "health"]) None None Samples.majors) in
  (map (fun mm => name (major mm)) ranked = [u "Medicine"] /\
   match_interests_to_majors (Some [u "health"]) None None Samples.majors
                             (MajorService.TopInt (-1))
   = Returned [] /\
   (forall n : nat, (0 < n)%nat ->
      match_interests_to_majors (Some [u "health"]) None None Samples.majors
                                (MajorService.TopInt (-1))
      <> Returned (firstn n ranked)) /\
   match_interests_to_majors (Some [u "health"]) None None Samples.majors
                             (MajorService.TopStr (u "five"))
   = Raised (MajorService.InvalidLiteral (u "five"))) /\
  (Spec.total_score (Some [u "art"; u "design"]) None (Some (u "lawyer")) law
   == Spec.total_score (Some [u "art"; u "design"]) None (Some (u "lawyer")) design /\
   exists first second,
     match_interests_to_majors (Some [u "art"; u "design"]) None
                               (Some (u "lawyer")) [law; design]
                               MajorService.TopNone
     = Returned [first; second] /\
     major first = design /\ major second = law /\
     lt (score second) (score first)).
Proof.
  cbv zeta. split.
  - split; [vm_compute; reflexivity|].
    split; [vm_compute; reflexivity|].
    split; [|vm_compute; reflexivity].
    intros [|n] Hn; [lia|]. vm_compute. discriminate.
  - split; [vm_compute; reflexivity|].
    eexists. eexists. split; [vm_compute; reflexivity|].
    cbn [major score]. split; [reflexivity|]. split; [reflexivity|].
    vm_compute. reflexivity.
Qed.

End MajorProofs64.
